(** * evalplus.codegen: the resumable sample-generation loop

    A shallow embedding of [src/evalplus/codegen.py] ([codegen] and
    [run_codegen]) together with the pieces of the Python runtime the two
    functions lean on: [str] methods, [int()], [json.dumps]/[json.loads],
    [os.path.join], [os.makedirs], [os.listdir] and [open].

    Text is modelled as [string], one [ascii] per code point below 256.
    Python integers are [Z].  Effects (the file system, what is printed, the
    requests sent to the model backend, exceptions) are threaded through a
    state-and-error monad [M]. *)

From Stdlib Require Import ZArith NArith Ascii String List Lia Bool.
From Stdlib Require Import DecimalString DecimalN DecimalZ DecimalPos DecimalFacts.
From Stdlib Require QArith.
From stdpp Require Import base gmap strings list fin_maps sets.

Local Open Scope Z_scope.

(** ** Python [str] methods *)

Module PyStr.

(** [str.isspace] on one code point below 256: TAB..CR, FS..US, SPACE,
    NEL (0x85) and NBSP (0xA0). *)
Definition isspace (c : ascii) : bool :=
  let n := N_of_ascii c in
  ((9 <=? n) && (n <=? 13) || (28 <=? n) && (n <=? 32)
   || (n =? 133) || (n =? 160))%N.

Fixpoint lstrip (s : string) : string :=
  match s with
  | EmptyString => EmptyString
  | String c s' => if isspace c then lstrip s' else s
  end.

(** [rstrip] keeps a character when it is not a space or when something
    remains after it. *)
Fixpoint rstrip (s : string) : string :=
  match s with
  | EmptyString => EmptyString
  | String c s' =>
      match rstrip s' with
      | EmptyString => if isspace c then EmptyString else String c EmptyString
      | r => String c r
      end
  end.

(** [s.strip()] *)
Definition strip (s : string) : string := rstrip (lstrip s).

Fixpoint startswith (p s : string) : bool :=
  match p, s with
  | EmptyString, _ => true
  | String a p', String b s' => if ascii_dec a b then startswith p' s' else false
  | String _ _, EmptyString => false
  end.

(** [s.endswith(suf)]: [s] itself or one of its tails is [suf]. *)
Fixpoint endswith (s suf : string) : bool :=
  if String.eqb s suf then true
  else match s with
       | EmptyString => false
       | String _ s' => endswith s' suf
       end.

(** [s.replace(old, new)] for a non-empty [old]: left to right, matches do
    not overlap.  [skip] counts the characters of a match still to drop. *)
Fixpoint replace_go (old new : string) (skip : nat) (s : string) : string :=
  match s with
  | EmptyString => EmptyString
  | String c s' =>
      match skip with
      | S k => replace_go old new k s'
      | O =>
          if startswith old s
          then new +:+ replace_go old new (Nat.pred (String.length old)) s'
          else String c (replace_go old new O s')
      end
  end.

Definition replace (s old new : string) : string := replace_go old new O s.

(** [s.split(sep)] for a one-character separator: the pieces between
    separators, empty pieces included. *)
Fixpoint split_go (sep : ascii) (cur : string) (s : string) : list string :=
  match s with
  | EmptyString => [String.rev cur]
  | String c s' =>
      if ascii_dec c sep then String.rev cur :: split_go sep EmptyString s'
      else split_go sep (String c cur) s'
  end.

Definition split (s : string) (sep : ascii) : list string :=
  split_go sep EmptyString s.

(** [s.strip(chars)] with an explicit character set *)
Fixpoint mem_char (c : ascii) (chars : string) : bool :=
  match chars with
  | EmptyString => false
  | String d chars' => if ascii_dec c d then true else mem_char c chars'
  end.

Fixpoint lstrip_chars (chars s : string) : string :=
  match s with
  | EmptyString => EmptyString
  | String c s' => if mem_char c chars then lstrip_chars chars s' else s
  end.

Fixpoint rstrip_chars (chars s : string) : string :=
  match s with
  | EmptyString => EmptyString
  | String c s' =>
      match rstrip_chars chars s' with
      | EmptyString => if mem_char c chars then EmptyString else String c EmptyString
      | r => String c r
      end
  end.

Definition strip_chars (s chars : string) : string :=
  rstrip_chars chars (lstrip_chars chars s).

(** *** [int(s)] and [str(n)] *)

Definition digit_of (c : ascii) : option (Decimal.uint -> Decimal.uint) :=
  match c with
  | "0" => Some Decimal.D0 | "1" => Some Decimal.D1 | "2" => Some Decimal.D2
  | "3" => Some Decimal.D3 | "4" => Some Decimal.D4 | "5" => Some Decimal.D5
  | "6" => Some Decimal.D6 | "7" => Some Decimal.D7 | "8" => Some Decimal.D8
  | "9" => Some Decimal.D9 | _ => None
  end%char.

(** The digits after the first one: a digit, or an underscore followed by
    a digit. *)
Fixpoint digits_rest (s : string) : option Decimal.uint :=
  match s with
  | EmptyString => Some Decimal.Nil
  | String c s' =>
      if ascii_dec c "_"
      then match s' with
           | EmptyString => None
           | String c2 s'' =>
               match digit_of c2 with
               | Some d => d <$> digits_rest s''
               | None => None
               end
           end
      else match digit_of c with
           | Some d => d <$> digits_rest s'
           | None => None
           end
  end.

Definition digits (s : string) : option Decimal.uint :=
  match s with
  | EmptyString => None
  | String c s' =>
      match digit_of c with
      | Some d => d <$> digits_rest s'
      | None => None
      end
  end.

(** The white space [int()] skips around a numeral.  It is not that of
    [str.strip]: below 127 only TAB..CR and SPACE count (FS..US do not,
    [int] raises on them), above it every Unicode space does, which
    leaves NEL (0x85) and NBSP (0xA0) here. *)
Definition int_space (c : ascii) : bool :=
  let n := N_of_ascii c in
  ((9 <=? n) && (n <=? 13) || (n =? 32) || (n =? 133) || (n =? 160))%N.

Fixpoint int_lstrip (s : string) : string :=
  match s with
  | EmptyString => EmptyString
  | String c s' => if int_space c then int_lstrip s' else s
  end.

Fixpoint int_rstrip (s : string) : string :=
  match s with
  | EmptyString => EmptyString
  | String c s' =>
      match int_rstrip s' with
      | EmptyString => if int_space c then EmptyString else String c EmptyString
      | r => String c r
      end
  end.

(** [int(s)] in base 10: surrounding whitespace, an optional sign, digits
    with single underscores between them.  [None] is [ValueError]. *)
Definition int (s : string) : option Z :=
  match int_rstrip (int_lstrip s) with
  | String "-" r => (fun d => - Z.of_N (N.of_uint d)) <$> digits r
  | String "+" r => (fun d => Z.of_N (N.of_uint d)) <$> digits r
  | t => (fun d => Z.of_N (N.of_uint d)) <$> digits t
  end.

(** [str(n)] for an integer *)
Definition str (n : Z) : string := NilZero.string_of_int (Z.to_int n).

End PyStr.

(** ** The [json] module: [json.dumps] on the records codegen writes, and
    [json.loads] *)

Module Json.

(** A decoded string is [Some s] when every code point is below 256 and
    [None] otherwise (an escape above 00FF): such a string is a valid
    Python [str] that equals no string of the model.  Numbers are decoded
    but codegen never looks at their value. *)
#[warnings="-register-all"]
Inductive json :=
| JNull
| JBool (b : bool)
| JNum
| JStr (s : option string)
| JArr (l : list json)
| JObj (l : list (option string * json)).

(** *** Encoding *)

Definition hex_digit (n : N) : ascii :=
  ascii_of_N (if (n <? 10)%N then 48 + n else 87 + n).

(** One character of a string under [ensure_ascii=True]: the printable
    ASCII range [' '..'~'] stands for itself, except the quote and the
    backslash. *)
Definition escape_char (c : ascii) : string :=
  let n := N_of_ascii c in
  if (n =? 34)%N then String "\" (String (ascii_of_N 34) EmptyString)
  else if (n =? 92)%N then "\\"
  else if (n =? 10)%N then "\n"
  else if (n =? 13)%N then "\r"
  else if (n =? 9)%N then "\t"
  else if (n =? 8)%N then "\b"
  else if (n =? 12)%N then "\f"
  else if ((32 <=? n) && (n <=? 126))%N then String c EmptyString
  else String "\" (String "u" (String "0" (String "0"
         (String (hex_digit (n / 16)) (String (hex_digit (n mod 16)) EmptyString))))).

Fixpoint escape (s : string) : string :=
  match s with
  | EmptyString => EmptyString
  | String c s' => escape_char c +:+ escape s'
  end.

Definition quote : string := String (ascii_of_N 34) EmptyString.

(** [json.dumps(s)] for a string *)
Definition dumps_str (s : string) : string := quote +:+ escape s +:+ quote.

(** [json.dumps({"task_id": task_id, "solution": solution})] *)
Definition dumps_record (task_id solution : string) : string :=
  "{" +:+ dumps_str "task_id" +:+ ": " +:+ dumps_str task_id +:+ ", "
      +:+ dumps_str "solution" +:+ ": " +:+ dumps_str solution +:+ "}".

(** *** Decoding: a scanner, then a parser over its tokens *)

Inductive token :=
| TLBrace | TRBrace | TLBrack | TRBrack | TColon | TComma
| TStr (s : option string) | TNum | TTrue | TFalse | TNull.

(** The scanner reads one character at a time; [mode] is where it stands.
    [InStr acc wide]: inside a string, [acc] the characters so far in
    reverse, [wide] set once an escape above 255 was seen.  [Hex k v]: [k]
    hex digits of a [\u] escape still to come, value [v] so far.  The [Num]
    modes follow the number grammar: an optional minus, an integer part
    without leading zero, an optional fraction, an optional exponent.
    [Skip k]: [k] characters of a literal already matched are still to be
    passed over. *)
Inductive mode :=
| Top
| Skip (k : nat)
| InStr (acc : string) (wide : bool)
| Esc (acc : string) (wide : bool)
| Hex (k : nat) (v : N) (acc : string) (wide : bool)
| NumMinus | NumZero | NumInt | NumDot | NumFrac | NumE | NumESign | NumExp.

Definition is_digit (c : ascii) : bool :=
  let n := N_of_ascii c in ((48 <=? n) && (n <=? 57))%N.

Definition hex_value (c : ascii) : option N :=
  let n := N_of_ascii c in
  if ((48 <=? n) && (n <=? 57))%N then Some (n - 48)%N
  else if ((97 <=? n) && (n <=? 102))%N then Some (n - 87)%N
  else if ((65 <=? n) && (n <=? 70))%N then Some (n - 55)%N
  else None.

(** Whitespace between tokens: space, TAB, LF, CR. *)
Definition is_ws (c : ascii) : bool :=
  let n := N_of_ascii c in ((n =? 32) || (n =? 9) || (n =? 10) || (n =? 13))%N.

(** What the scanner does with [c] (the head of [s]) between tokens:
    [None] is a decode error, otherwise the tokens to emit and the mode for
    the rest of the input. *)
Definition top_step (c : ascii) (s : string) : option (list token * mode) :=
  let n := N_of_ascii c in
  if is_ws c then Some ([], Top)
  else if (n =? 123)%N then Some ([TLBrace], Top)
  else if (n =? 125)%N then Some ([TRBrace], Top)
  else if (n =? 91)%N then Some ([TLBrack], Top)
  else if (n =? 93)%N then Some ([TRBrack], Top)
  else if (n =? 58)%N then Some ([TColon], Top)
  else if (n =? 44)%N then Some ([TComma], Top)
  else if (n =? 34)%N then Some ([], InStr EmptyString false)
  else if (n =? 45)%N then Some ([], NumMinus)
  else if (n =? 48)%N then Some ([], NumZero)
  else if is_digit c then Some ([], NumInt)
  else if PyStr.startswith "true" s then Some ([TTrue], Skip 3)
  else if PyStr.startswith "false" s then Some ([TFalse], Skip 4)
  else if PyStr.startswith "null" s then Some ([TNull], Skip 3)
  else if PyStr.startswith "NaN" s then Some ([TNum], Skip 2)
  else if PyStr.startswith "Infinity" s then Some ([TNum], Skip 7)
  else None.

(** A number ends in front of [c]: emit it and treat [c] as the scanner
    does between tokens. *)
Definition end_number (c : ascii) (s : string) : option (list token * mode) :=
  match top_step c s with
  | Some (ts, m) => Some (TNum :: ts, m)
  | None => None
  end.

Definition is_e (c : ascii) : bool :=
  let n := N_of_ascii c in ((n =? 101) || (n =? 69))%N.

Definition step (m : mode) (c : ascii) (s : string) : option (list token * mode) :=
  let n := N_of_ascii c in
  match m with
  | Top | Skip O => top_step c s
  | Skip (S k) => Some ([], Skip k)
  | InStr acc wide =>
      if (n =? 34)%N
      then Some ([TStr (if wide then None else Some (String.rev acc))], Top)
      else if (n =? 92)%N then Some ([], Esc acc wide)
      else if (n <? 32)%N then None
      else Some ([], InStr (String c acc) wide)
  | Esc acc wide =>
      let push (d : N) := Some ([], InStr (String (ascii_of_N d) acc) wide) in
      if (n =? 34)%N then push 34%N
      else if (n =? 92)%N then push 92%N
      else if (n =? 47)%N then push 47%N
      else if (n =? 98)%N then push 8%N
      else if (n =? 102)%N then push 12%N
      else if (n =? 110)%N then push 10%N
      else if (n =? 114)%N then push 13%N
      else if (n =? 116)%N then push 9%N
      else if (n =? 117)%N then Some ([], Hex 4 0%N acc wide)
      else None
  | Hex k v acc wide =>
      match hex_value c with
      | None => None
      | Some d =>
          let v' := (16 * v + d)%N in
          match k with
          | S (S k') => Some ([], Hex (S k') v' acc wide)
          | _ =>
              if (v' <? 256)%N
              then Some ([], InStr (String (ascii_of_N v') acc) wide)
              else Some ([], InStr acc true)
          end
      end
  | NumMinus =>
      if (n =? 48)%N then Some ([], NumZero)
      else if is_digit c then Some ([], NumInt)
      else if PyStr.startswith "Infinity" s then Some ([TNum], Skip 7)
      else None
  | NumZero =>
      if (n =? 46)%N then Some ([], NumDot)
      else if is_e c then Some ([], NumE)
      else end_number c s
  | NumInt =>
      if is_digit c then Some ([], NumInt)
      else if (n =? 46)%N then Some ([], NumDot)
      else if is_e c then Some ([], NumE)
      else end_number c s
  | NumDot => if is_digit c then Some ([], NumFrac) else None
  | NumFrac =>
      if is_digit c then Some ([], NumFrac)
      else if is_e c then Some ([], NumE)
      else end_number c s
  | NumE =>
      if is_digit c then Some ([], NumExp)
      else if ((n =? 43) || (n =? 45))%N then Some ([], NumESign)
      else None
  | NumESign => if is_digit c then Some ([], NumExp) else None
  | NumExp => if is_digit c then Some ([], NumExp) else end_number c s
  end.

(** At the end of the input an unfinished string, escape or number part is
    a decode error. *)
Definition finish (m : mode) : option (list token) :=
  match m with
  | Top | Skip O => Some []
  | NumZero | NumInt | NumFrac | NumExp => Some [TNum]
  | _ => None
  end.

Definition prepend (ts : list token) (o : option (list token)) : option (list token) :=
  match o with
  | None => None
  | Some rest => Some (ts ++ rest)
  end.

Fixpoint scan (m : mode) (s : string) : option (list token) :=
  match s with
  | EmptyString => finish m
  | String c s' =>
      match step m c s with
      | None => None
      | Some (ts, m') => prepend ts (scan m' s')
      end
  end.

Section Parser.
Variable value : list token -> option (json * list token).

(** The elements of an array after the opening bracket, [n] bounding
    their number. *)
Fixpoint elements (n : nat) (ts : list token) (acc : list json)
  : option (json * list token) :=
  match n with
  | O => None
  | S n' =>
      match value ts with
      | Some (v, TComma :: r) => elements n' r (v :: acc)
      | Some (v, TRBrack :: r) => Some (JArr (rev (v :: acc)), r)
      | _ => None
      end
  end.

(** The members of an object after the opening brace. *)
Fixpoint members (n : nat) (ts : list token) (acc : list (option string * json))
  : option (json * list token) :=
  match n with
  | O => None
  | S n' =>
      match ts with
      | TStr k :: TColon :: r =>
          match value r with
          | Some (v, TComma :: r') => members n' r' ((k, v) :: acc)
          | Some (v, TRBrace :: r') => Some (JObj (rev ((k, v) :: acc)), r')
          | _ => None
          end
      | _ => None
      end
  end.
End Parser.

(** One value off the front of the tokens; [fuel] bounds the nesting. *)
Fixpoint value (fuel : nat) (ts : list token) : option (json * list token) :=
  match fuel with
  | O => None
  | S f =>
      match ts with
      | TNull :: r => Some (JNull, r)
      | TTrue :: r => Some (JBool true, r)
      | TFalse :: r => Some (JBool false, r)
      | TNum :: r => Some (JNum, r)
      | TStr s :: r => Some (JStr s, r)
      | TLBrack :: TRBrack :: r => Some (JArr [], r)
      | TLBrack :: r => elements (value f) (length r) r []
      | TLBrace :: TRBrace :: r => Some (JObj [], r)
      | TLBrace :: r => members (value f) (length r) r []
      | _ => None
      end
  end.

(** [json.loads(s)]; [None] is [JSONDecodeError].  The nesting of a text
    is below its number of tokens, so the fuel never runs out. *)
Definition loads (s : string) : option json :=
  match scan Top s with
  | None => None
  | Some ts =>
      match value (S (length ts)) ts with
      | Some (v, []) => Some v
      | _ => None
      end
  end.

(** [d[key]] on a decoded object: with duplicate keys the last one wins. *)
Fixpoint getitem (l : list (option string * json)) (key : string) : option json :=
  match l with
  | [] => None
  | (k, v) :: l' =>
      match getitem l' key with
      | Some v' => Some v'
      | None => if decide (k = Some key) then Some v else None
      end
  end.

End Json.

(** ** Exceptions and the monad of effects *)

(** The exceptions the modelled code can end with.  [KeyboardInterrupt] is
    how a run is cut short from outside.  [LoopBound] is not a Python
    exception: it marks the bound of the model's [while] loop and is never
    raised (lemma [generate_loop_bound] below). *)
Inductive exn :=
| AssertionError (msg : string)
| AttributeError
| IndexError
| ValueError
| TypeError
| KeyError (key : string)
| JSONDecodeError
| FileNotFoundError (p : string)
| FileExistsError (p : string)
| NotADirectoryError (p : string)
| IsADirectoryError (p : string)
| KeyboardInterrupt
| LoopBound.

Inductive result (A : Type) :=
| Ok (a : A)
| Raise (e : exn).
Arguments Ok {A} a.
Arguments Raise {A} e.

(** A path is the list of its components; an absolute path starts with the
    component ["/"]. *)
Definition path := list string.

(** The file system: the directories that exist (besides the working
    directory [[]] and the root [["/"]], which always do) and the text of
    every regular file. *)
Record filesystem := {
  dirs : gset path;
  files : gmap path string;
}.

(** One call of the backend's [codegen] method. *)
Record request := {
  req_prompt : string;
  req_do_sample : bool;
  req_num_samples : Z;
}.

(** One successful file-system mutation: [os.mkdir] of a path, or a
    [write] through [open(p, "w")] or [open(p, "a")]. *)
Inductive fs_event :=
| EvMkdir (q : path)
| EvWrite (p : string) (text : string)
| EvAppend (p : string) (text : string).

(** Everything a run can change or observe.  [console] is what was printed,
    oldest first; [requests] the calls made to the model backend, oldest
    first; [trace] the file-system mutations carried out, oldest first;
    [budget] how many mutations may still happen before the run is
    interrupted ([None]: it is never interrupted). *)
Record world := {
  fs : filesystem;
  console : list string;
  requests : list request;
  trace : list fs_event;
  budget : option nat;
}.

Definition M (A : Type) : Type := world -> result A * world.

Definition ret {A} (a : A) : M A := fun w => (Ok a, w).

Definition bind {A B} (m : M A) (k : A -> M B) : M B :=
  fun w =>
    match m w with
    | (Ok a, w') => k a w'
    | (Raise e, w') => (Raise e, w')
    end.

Definition raise {A} (e : exn) : M A := fun w => (Raise e, w).

Declare Scope monad_scope.
Delimit Scope monad_scope with M.
Notation "x <- m ;; k" := (bind m (fun x => k))
  (at level 100, m at next level, right associativity) : monad_scope.
Notation "m ;;; k" := (bind m (fun _ => k))
  (at level 100, right associativity) : monad_scope.
Local Open Scope monad_scope.

(** [print(msg)] and [p.console.print(msg)] *)
Definition print (msg : string) : M unit :=
  fun w => (Ok tt, {| fs := fs w; console := console w ++ [msg];
                      requests := requests w; trace := trace w;
                      budget := budget w |}).

(** One file-system mutation is about to happen: an interrupted run stops
    in front of it. *)
Definition tick : M unit :=
  fun w =>
    match budget w with
    | None => (Ok tt, w)
    | Some O => (Raise KeyboardInterrupt, w)
    | Some (S n) => (Ok tt, {| fs := fs w; console := console w;
                               requests := requests w; trace := trace w;
                               budget := Some n |})
    end.

Definition get_fs : M filesystem := fun w => (Ok (fs w), w).

(** The file system becomes [f] through the mutation [ev]. *)
Definition put_fs (f : filesystem) (ev : fs_event) : M unit :=
  fun w => (Ok tt, {| fs := f; console := console w;
                      requests := requests w; trace := trace w ++ [ev];
                      budget := budget w |}).

(** ** The [os] module and [open] *)

Module Os.

(** [os.path.join(a, b)] *)
Definition join (a b : string) : string :=
  if PyStr.startswith "/" b then b
  else if decide (a = "") then b
  else if PyStr.endswith a "/" then a +:+ b
  else a +:+ "/" +:+ b.

Definition keep_component (c : string) : bool :=
  negb (bool_decide (c = "")) && negb (bool_decide (c = ".")).

(** The components a path string names: empty components and ["."] drop
    out.  A component [".."] is kept as a name (the paths codegen builds
    contain none unless the caller passes one). *)
Definition resolve (p : string) : path :=
  let comps := List.filter keep_component (PyStr.split p "/") in
  if PyStr.startswith "/" p then "/" :: comps else comps.

Definition isdir (f : filesystem) (q : path) : bool :=
  bool_decide (q = [] \/ q = ["/"] \/ q ∈ dirs f).

Definition isfile (f : filesystem) (q : path) : bool :=
  bool_decide (is_Some (files f !! q)).

(** [os.path.isfile(p)] *)
Definition path_isfile (p : string) : M bool :=
  f <- get_fs ;; ret (isfile f (resolve p)).

(** [os.mkdir] of a path known to be absent and whose parent exists *)
Definition mkdir (q : path) : M unit :=
  tick ;;;
  f <- get_fs ;;
  put_fs {| dirs := {[q]} ∪ dirs f; files := files f |} (EvMkdir q).

(** [os.makedirs(p, exist_ok=True)], walking down from the top: [here] is
    the part already known to be a directory, [todo] what remains. *)
Fixpoint makedirs_go (p : string) (here : path) (todo : list string) : M unit :=
  match todo with
  | [] => ret tt
  | c :: todo' =>
      let q := here ++ [c] in
      f <- get_fs ;;
      if isdir f q then makedirs_go p q todo'
      else if isfile f q then
        match todo' with
        | [] => raise (FileExistsError p)
        | _ => raise (NotADirectoryError p)
        end
      else (mkdir q ;;; makedirs_go p q todo')
  end.

Definition makedirs (p : string) : M unit :=
  if decide (p = "") then raise (FileNotFoundError p)
  else makedirs_go p [] (resolve p).

(** The names directly inside directory [q]. *)
Definition child_of (q : path) (c : path) : option string :=
  match reverse c with
  | name :: rparent => if decide (reverse rparent = q) then Some name else None
  | [] => None
  end.

Definition children (f : filesystem) (q : path) : gset string :=
  set_omap (child_of q) (dom (files f) ∪ dirs f).

(** [os.listdir(p)]; the order of the names is not specified and codegen
    only counts them. *)
Definition listdir (p : string) : M (gset string) :=
  f <- get_fs ;;
  let q := resolve p in
  if decide (p = "") then raise (FileNotFoundError p)
  else if isdir f q then ret (children f q)
  else if isfile f q then raise (NotADirectoryError p)
  else raise (FileNotFoundError p).

(** What [open(p, "w")] and [open(p, "a")] check before writing. *)
Definition check_writable (p : string) : M unit :=
  f <- get_fs ;;
  let q := resolve p in
  if decide (p = "") then raise (FileNotFoundError p)
  else if isdir f q then raise (IsADirectoryError p)
  else if isfile f (removelast q) then raise (NotADirectoryError p)
  else if isdir f (removelast q) then ret tt
  else raise (FileNotFoundError p).

(** [with open(p, "w") as f: f.write(text)] *)
Definition write_file (p : string) (text : string) : M unit :=
  tick ;;;
  check_writable p ;;;
  f <- get_fs ;;
  put_fs {| dirs := dirs f; files := <[resolve p := text]> (files f) |}
         (EvWrite p text).

(** [with open(p, "a") as f: f.write(text)] *)
Definition append_file (p : string) (text : string) : M unit :=
  tick ;;;
  check_writable p ;;;
  f <- get_fs ;;
  put_fs {| dirs := dirs f;
            files := <[resolve p := default "" (files f !! resolve p) +:+ text]> (files f) |}
         (EvAppend p text).

Definition LF : ascii := ascii_of_N 10.
Definition CR : ascii := ascii_of_N 13.

(** The lines [for line in f] yields in text mode: CR LF and a lone CR are
    read as LF, every line keeps its LF, a last line without one is
    yielded as it is. *)
Fixpoint readlines_go (cur : string) (s : string) : list string :=
  match s with
  | EmptyString =>
      match cur with
      | EmptyString => []
      | _ => [String.rev cur]
      end
  | String c s' =>
      if ascii_dec c LF then String.rev (String LF cur) :: readlines_go EmptyString s'
      else if ascii_dec c CR then
        match s' with
        | String c2 s'' =>
            if ascii_dec c2 LF
            then String.rev (String LF cur) :: readlines_go EmptyString s''
            else String.rev (String LF cur) :: readlines_go EmptyString s'
        | EmptyString => [String.rev (String LF cur)]
        end
      else readlines_go (String c cur) s'
  end.

Definition readlines (content : string) : list string :=
  readlines_go EmptyString content.

End Os.

(** ** The collaborators of codegen *)

(** A task record of the dataset: [task["prompt"]], [task["entry_point"]]. *)
Record task := {
  prompt : string;
  entry_point : string;
}.

(** The interface of [evalplus.provider.DecoderBase] that codegen uses.
    [model_codegen history r] is what the backend returns for request [r]
    after the requests [history] (a backend that samples draws from its
    own state; the history stands for it).  [model_repr] is [str(model)]. *)
Record DecoderBase := {
  model_codegen : list request -> request -> list string;
  is_direct_completion : bool;
  model_repr : string;
}.

(** [model.codegen(prompt, do_sample=.., num_samples=..)] *)
Definition call_codegen (model : DecoderBase) (prompt : string)
    (do_sample : bool) (num_samples : Z) : M (list string) :=
  fun w =>
    let r := {| req_prompt := prompt; req_do_sample := do_sample;
                req_num_samples := num_samples |} in
    (Ok (model_codegen model (requests w) r),
     {| fs := fs w; console := console w;
        requests := requests w ++ [r]; trace := trace w;
        budget := budget w |}).

Definition NL : string := String Os.LF EmptyString.

(** [f"{id_range}"] for the tuple [(low, high)] *)
Definition tuple_repr (r : Z * Z) : string :=
  "(" +:+ PyStr.str (fst r) +:+ ", " +:+ PyStr.str (snd r) +:+ ")".

Section Codegen.

(** [evalplus.sanitize.sanitize(code, entrypoint)] *)
Variable sanitize : string -> string -> string.

(** [evalplus.data.get_human_eval_plus(version)] and [get_mbpp_plus]: the
    items of the dataset in order, task identifier first. *)
Variable get_human_eval_plus : string -> list (string * task).
Variable get_mbpp_plus : string -> list (string * task).

(** *** [codegen], lines 28-35: counting the records of an existing log *)

(** One line of the log: a blank line leaves the counts alone; any other
    line is decoded, subscripted with ["task_id"], and the value found is
    used as a dictionary key.  A key that is no string of the model (a
    number, [true], [null], a string with a code point above 255) is
    counted under itself, where no task identifier looks. *)
Definition count_line (task2nexist : gmap string Z) (line : string)
  : result (gmap string Z) :=
  if decide (PyStr.strip line = "") then Ok task2nexist
  else
    match Json.loads line with
    | None => Raise JSONDecodeError
    | Some (Json.JObj l) =>
        match Json.getitem l "task_id" with
        | None => Raise (KeyError "task_id")
        | Some (Json.JStr (Some task_id)) =>
            Ok (<[task_id := default 0 (task2nexist !! task_id) + 1]> task2nexist)
        | Some (Json.JArr _) | Some (Json.JObj _) => Raise TypeError
        | Some _ => Ok task2nexist
        end
    | Some _ => Raise TypeError
    end.

Fixpoint count_lines (task2nexist : gmap string Z) (lines : list string)
  : result (gmap string Z) :=
  match lines with
  | [] => Ok task2nexist
  | line :: lines' =>
      match count_line task2nexist line with
      | Ok t => count_lines t lines'
      | Raise e => Raise e
      end
  end.

Definition scan_log (target_path : string) : M (gmap string Z) :=
  f <- get_fs ;;
  match files f !! Os.resolve target_path with
  | None => raise (FileNotFoundError target_path)
  | Some content =>
      match count_lines ∅ (Os.readlines content) with
      | Ok t => ret t
      | Raise e => raise e
      end
  end.

Definition resume_scan (target_path : string) (resume : bool) : M (gmap string Z) :=
  if resume && PyStr.endswith target_path ".jsonl" then
    b <- Os.path_isfile target_path ;;
    if b then scan_log target_path else ret ∅
  else ret ∅.

(** *** Lines 37-41: where the raw outputs go *)

Definition raw_path (target_path : string) : M string :=
  if PyStr.endswith target_path ".jsonl"
  then ret (PyStr.replace target_path ".jsonl" ".raw.jsonl")
  else (Os.makedirs target_path ;;; ret (target_path +:+ ".raw")).

(** *** Lines 53-60: loading the dataset; any other name is still a string
    when [dataset.items()] is called *)
Definition load_dataset (dataset version : string) : M (list (string * task)) :=
  if decide (dataset = "humaneval") then ret (get_human_eval_plus version)
  else if decide (dataset = "mbpp") then ret (get_mbpp_plus version)
  else raise AttributeError.

(** *** Lines 63-68: the task filter.  [true]: the task is skipped. *)
Definition skip_task (id_range : option (Z * Z)) (task_id : string) : M bool :=
  match id_range with
  | None => ret false
  | Some (low, high) =>
      match PyStr.split task_id "/" !! 1%nat with
      | None => raise IndexError
      | Some piece =>
          match PyStr.int piece with
          | None => raise ValueError
          | Some id_num =>
              if (id_num <? low) || (id_num >=? high) then
                print ("Skipping " +:+ task_id +:+ " as it is not in "
                       +:+ tuple_repr (low, high)) ;;;
                ret true
              else ret false
          end
      end
  end.

Section Task.

Variable target_path raw_target_path : string.
Variable model : DecoderBase.
Variable greedy : bool.
Variable n_samples : Z.
Variable resume : bool.
Variable task_id : string.
Variable t : task.

Definition p_name : string := PyStr.replace task_id "/" "_".

(** *** Lines 70-79: the directory layout counts the [.py] files of the
    task's directory *)
Definition count_existing (task2nexist : gmap string Z) : M (gmap string Z) :=
  if negb (PyStr.endswith target_path ".jsonl") then
    Os.makedirs (Os.join target_path p_name) ;;;
    names <- Os.listdir (Os.join target_path p_name) ;;
    ret (<[task_id :=
             Z.of_nat (size (filter (fun f => PyStr.endswith f ".py" = true) names))]>
           task2nexist)
  else ret task2nexist.

(** Line 91 *)
Definition the_prompt : string := PyStr.strip (prompt t) +:+ NL.

(** Line 99 *)
Definition solution_of (impl : string) : string :=
  if is_direct_completion model then the_prompt +:+ impl else impl.

(** Lines 122 and 130: the files of sample [sidx] in the directory layout *)
Definition sample_file (root : string) (sidx : Z) : string :=
  Os.join (Os.join root p_name) (PyStr.str sidx +:+ ".py").

(** *** Lines 99-134: one completion is sanitized and written twice *)
Definition write_sample (sidx : Z) (impl : string) : M unit :=
  let solution := solution_of impl in
  let sanitized_solution := sanitize solution (entry_point t) in
  if PyStr.endswith target_path ".jsonl" then
    Os.append_file target_path
      (Json.dumps_record task_id sanitized_solution +:+ NL) ;;;
    Os.append_file raw_target_path
      (Json.dumps_record task_id solution +:+ NL)
  else
    Os.write_file (sample_file target_path sidx) sanitized_solution ;;;
    Os.write_file (sample_file raw_target_path sidx) solution.

(** Lines 98-135: [for impl in outputs: ...; sidx += 1]; the result is
    [sidx] after the loop. *)
Fixpoint write_outputs (outputs : list string) (sidx : Z) : M Z :=
  match outputs with
  | [] => ret sidx
  | impl :: outputs' =>
      write_sample sidx impl ;;;
      write_outputs outputs' (sidx + 1)
  end.

(** Lines 90-135: [while sidx < n_samples: ...].  Every round that does
    not raise moves [sidx] up, so [fuel] rounds are enough when
    [n_samples - sidx <= fuel]. *)
Fixpoint generate_loop (fuel : nat) (sidx : Z) : M unit :=
  if sidx <? n_samples then
    match fuel with
    | O => raise LoopBound
    | S fuel' =>
        outputs <- call_codegen model the_prompt (negb greedy) (n_samples - sidx) ;;
        match outputs with
        | [] => raise (AssertionError "No outputs from model!")
        | _ =>
            sidx' <- write_outputs outputs sidx ;;
            generate_loop fuel' sidx'
        end
    end
  else ret tt.

(** Lines 70-135: the body of the loop over tasks, past the filter. *)
Definition process_task (task2nexist : gmap string Z) : M (gmap string Z) :=
  task2nexist <- count_existing task2nexist ;;
  let nexist := default 0 (task2nexist !! task_id) in
  let resuming := resume && (0 <? nexist) in
  let n_more_samples := if resuming then n_samples - nexist else n_samples in
  let log := "Codegen: " +:+ task_id +:+ " @ " +:+ model_repr model
             +:+ (if resuming
                  then " (resuming from " +:+ PyStr.str nexist +:+ ")"
                  else "") in
  print log ;;;
  let sidx := n_samples - n_more_samples in
  generate_loop (Z.to_nat (n_samples - sidx)) sidx ;;;
  ret task2nexist.

End Task.

(** Lines 62-135: [for task_id, task in p.track(dataset.items())] *)
Fixpoint for_tasks (target_path raw_target_path : string) (model : DecoderBase)
    (greedy : bool) (n_samples : Z) (id_range : option (Z * Z)) (resume : bool)
    (tasks : list (string * task)) (task2nexist : gmap string Z) : M unit :=
  match tasks with
  | [] => ret tt
  | (task_id, t) :: tasks' =>
      skip <- skip_task id_range task_id ;;
      task2nexist' <-
        (if skip : bool then ret task2nexist
         else process_task target_path raw_target_path model greedy n_samples
                resume task_id t task2nexist) ;;
      for_tasks target_path raw_target_path model greedy n_samples id_range
        resume tasks' task2nexist'
  end.

Definition codegen (target_path : string) (model : DecoderBase) (dataset : string)
    (greedy : bool) (n_samples : Z) (id_range : option (Z * Z))
    (version : string) (resume : bool) : M unit :=
  task2nexist <- resume_scan target_path resume ;;
  raw_target_path <- raw_path target_path ;;
  print ("Sanitized code outputs will be saved to " +:+ target_path) ;;;
  print ("Raw outputs will be saved to " +:+ raw_target_path) ;;;
  tasks <- load_dataset dataset version ;;
  for_tasks target_path raw_target_path model greedy n_samples id_range resume
    tasks task2nexist.

End Codegen.

(** ** [run_codegen] *)

(** Python floats are used for [temperature] only, and only compared with
    zero and printed: a rational stands for the value. *)
Definition float : Type := QArith_base.Q.
Definition float_zero : float := QArith_base.Qmake 0 1.
Definition float_is_zero (x : float) : bool := QArith_base.Qeq_bool x float_zero.

(** The keyword arguments of [evalplus.provider.make_model] *)
Record make_model_args := {
  mm_model : string;
  mm_backend : string;
  mm_batch_size : Z;
  mm_temperature : float;
  mm_force_base_prompt : bool;
  mm_dataset : string;
  mm_base_url : option string;
  mm_tp : Z;
  mm_instruction_prefix : string;
  mm_response_prefix : string;
}.

Definition assert_ (cond : bool) (msg : string) : M unit :=
  if cond then ret tt else raise (AssertionError msg).

Definition mem_str (s : string) (l : list string) : bool := bool_decide (s ∈ l).

Section RunCodegen.

Variable sanitize : string -> string -> string.
Variable get_human_eval_plus : string -> list (string * task).
Variable get_mbpp_plus : string -> list (string * task).
Variable make_model : make_model_args -> DecoderBase.

(** [f"{temperature}"] *)
Variable float_repr : float -> string.

(** Lines 164-168.  The result is [(temperature, bs, n_samples)]. *)
Definition greedy_override (greedy : bool) (temperature : float)
    (bs : option Z) (n_samples : Z) : M (float * option Z * Z) :=
  if greedy && (negb (float_is_zero temperature)
                || negb (bool_decide (bs = Some 1))
                || negb (n_samples =? 1))
  then
    print "Greedy decoding ON (--greedy): setting bs=1, n_samples=1, temperature=0" ;;;
    ret (float_zero, Some 1, 1)
  else ret (temperature, bs, n_samples).

(** Lines 170-173 *)
Definition check_id_range (id_range : option (list Z)) : M (option (Z * Z)) :=
  match id_range with
  | None => ret None
  | Some l =>
      assert_ (bool_decide (length l = 2%nat)) "id_range must be a list of length 2" ;;;
      match l with
      | [low; high] =>
          assert_ (low <? high) "id_range must be increasing" ;;;
          ret (Some (low, high))
      | _ => raise IndexError
      end
  end.

(** Lines 175-177 *)
Definition default_bs (bs : option Z) (n_samples : Z) : M Z :=
  match bs with
  | Some b => ret b
  | None =>
      let b := Z.min n_samples 32 in
      print ("Setting batch size to " +:+ PyStr.str b) ;;;
      ret b
  end.

(** Lines 184-195.  The result is [(instruction_prefix, response_prefix)]. *)
Definition prefixes (evalperf_type : option string) : M (string * string) :=
  if decide (evalperf_type = Some "perf-instruct") then
    ret ("Please provide an efficient and self-contained Python script that solves the following problem in a markdown code block:",
         "Below is a Python script with a self-contained function that efficiently solves the problem and passes corresponding tests:")
  else if decide (evalperf_type = Some "perf-CoT") then
    ret ("Think step by step: please provide an efficient and self-contained Python script that solves the following problem in a markdown code block:",
         "Below is a Python script with a self-contained function that efficiently solves the problem and passes corresponding tests:")
  else if bool_decide (evalperf_type <> None) && negb (bool_decide (evalperf_type = Some "instruct"))
  then raise ValueError
  else
    ret ("Please provide a self-contained Python script that solves the following problem in a markdown code block:",
         "Below is a Python script with a self-contained function that solves the problem and passes corresponding tests:").

(** Lines 212-214 *)
Definition identifier (model backend : string) (temperature : float)
    (evalperf_type : option string) : string :=
  PyStr.replace (PyStr.strip_chars model "./") "/" "--"
  +:+ "_" +:+ backend +:+ "_temp_" +:+ float_repr temperature
  +:+ match evalperf_type with
      | Some e => if decide (e = "") then "" else "-" +:+ e
      | None => ""
      end.

Definition run_codegen (model dataset root : string) (bs : option Z)
    (n_samples : Z) (temperature : float) (resume greedy : bool)
    (id_range : option (list Z)) (version backend : string)
    (force_base_prompt : bool) (base_url : option string) (tp : Z)
    (evalperf_type : option string) (jsonl_fmt : bool) : M string :=
  assert_ (mem_str dataset ["humaneval"; "mbpp"]) ("Invalid dataset " +:+ dataset) ;;;
  assert_ (mem_str backend ["vllm"; "hf"; "openai"]) "" ;;;
  assert_ (match evalperf_type with
           | None => true
           | Some e => mem_str e ["instruct"; "perf-instruct"; "perf-CoT"]
           end) "" ;;;
  overridden <- greedy_override greedy temperature bs n_samples ;;
  let '(temperature, bs, n_samples) := overridden in
  id_range <- check_id_range id_range ;;
  bs <- default_bs bs n_samples ;;
  Os.makedirs root ;;;
  Os.makedirs (Os.join root dataset) ;;;
  both <- prefixes evalperf_type ;;
  let '(instruction_prefix, response_prefix) := both in
  let model_runner :=
    make_model {| mm_model := model; mm_backend := backend; mm_batch_size := bs;
                  mm_temperature := temperature;
                  mm_force_base_prompt := force_base_prompt;
                  mm_dataset := dataset; mm_base_url := base_url; mm_tp := tp;
                  mm_instruction_prefix := instruction_prefix;
                  mm_response_prefix := response_prefix |} in
  let target_path :=
    Os.join (Os.join root dataset) (identifier model backend temperature evalperf_type) in
  target_path <-
    (if jsonl_fmt : bool then ret (target_path +:+ ".jsonl")
     else (Os.makedirs target_path ;;; ret target_path)) ;;
  codegen sanitize get_human_eval_plus get_mbpp_plus
    target_path model_runner dataset greedy n_samples id_range version resume ;;;
  ret target_path.

End RunCodegen.

(** * Notions used to state the properties *)

(** Every character of [s] satisfies [P]. *)
Fixpoint all_chars (P : ascii -> bool) (s : string) : bool :=
  match s with
  | EmptyString => true
  | String c s' => P c && all_chars P s'
  end.

(** The world after [print(msg)]. *)
Definition printed (msg : string) (w : world) : world := snd (print msg w).

(** *** A small concrete setting for examples *)

Definition example_sanitize (code entrypoint : string) : string :=
  "# " +:+ entrypoint +:+ NL +:+ code.

Definition example_tasks (version : string) : list (string * task) :=
  [("suite/0", {| prompt := "def f():" +:+ NL; entry_point := "f" |});
   ("suite/1", {| prompt := "  def g():" +:+ NL +:+ NL; entry_point := "g" |})].

(** A backend that returns one completion per call, numbered by the calls
    made so far; it returns only the continuation. *)
Definition example_model : DecoderBase :=
  {| model_codegen := fun h r =>
       ["    return " +:+ PyStr.str (Z.of_nat (length h)) +:+ NL];
     is_direct_completion := true;
     model_repr := "example" |}.

Definition empty_fs : filesystem := {| dirs := ∅; files := ∅ |}.

(** A run starts with nothing printed, requested or written. *)
Definition start (f : filesystem) (b : option nat) : world :=
  {| fs := f; console := []; requests := []; trace := []; budget := b |}.

Definition example_make_model (args : make_model_args) : DecoderBase := example_model.

Definition example_float_repr (x : float) : string := "0.0".

(** [run_codegen] with the example collaborators *)
Definition example_run_codegen :=
  run_codegen example_sanitize example_tasks example_tasks
    example_make_model example_float_repr.

(** The condition of line 164, without [greedy]. *)
Definition differs_from_greedy (temperature : float) (bs : option Z) (n_samples : Z) : bool :=
  negb (float_is_zero temperature) || negb (bool_decide (bs = Some 1))
  || negb (n_samples =? 1).

Definition greedy_notice : string :=
  "Greedy decoding ON (--greedy): setting bs=1, n_samples=1, temperature=0".

(** [codegen] with the example collaborators, on the two example tasks,
    one sample per task, resuming, from an empty working directory. *)
Definition example_codegen (target_path : string) : result unit * world :=
  codegen example_sanitize example_tasks example_tasks
    target_path example_model "humaneval" false 1 None "default" true
    (start empty_fs None).

(** A working directory that holds the log [out.jsonl] with the given
    text and nothing else. *)
Definition log_fs (content : string) : filesystem :=
  {| dirs := ∅; files := {[ ["out.jsonl"] := content ]} |}.

(** [codegen] resuming on the log [out.jsonl], example collaborators, two
    samples per task. *)
Definition example_resume (w : world) : result unit * world :=
  codegen example_sanitize example_tasks example_tasks
    "out.jsonl" example_model "humaneval" false 2 None "default" true w.

Definition broken_log : world := start (log_fs ("{broken" +:+ NL)) None.

(** The exceptions a file operation can end with. *)
Definition fs_exn (e : exn) : Prop :=
  match e with
  | KeyboardInterrupt | FileNotFoundError _ | FileExistsError _
  | NotADirectoryError _ | IsADirectoryError _ => True
  | _ => False
  end.

Definition is_mkdir (ev : fs_event) : Prop :=
  match ev with
  | EvMkdir _ => True
  | _ => False
  end.

(** From [w] to [w'] nothing happened but directory creation: nothing was
    printed or requested and no file changed. *)
Definition only_mkdirs (w w' : world) : Prop :=
  console w' = console w /\ requests w' = requests w
  /\ files (fs w') = files (fs w)
  /\ exists evs, trace w' = trace w ++ evs /\ Forall is_mkdir evs.

(** Line 82-84: the line printed for a task with [nexist] samples found. *)
Definition codegen_log (model : DecoderBase) (resume : bool) (task_id : string)
    (nexist : Z) : string :=
  "Codegen: " +:+ task_id +:+ " @ " +:+ model_repr model
  +:+ (if resume && (0 <? nexist)
       then " (resuming from " +:+ PyStr.str nexist +:+ ")"
       else "").

(** *** What a task's loop asks of the backend and writes *)

Section TaskEvents.

Variable sanitize : string -> string -> string.
Variable target_path raw_target_path : string.
Variable model : DecoderBase.
Variable greedy : bool.
Variable n_samples : Z.
Variable task_id : string.
Variable t : task.

(** The two mutations of [write_sample sidx impl], in order. *)
Definition sanitized_event (sidx : Z) (impl : string) : fs_event :=
  let text := sanitize (solution_of model t impl) (entry_point t) in
  if PyStr.endswith target_path ".jsonl"
  then EvAppend target_path (Json.dumps_record task_id text +:+ NL)
  else EvWrite (sample_file task_id target_path sidx) text.

Definition raw_event (sidx : Z) (impl : string) : fs_event :=
  let text := solution_of model t impl in
  if PyStr.endswith target_path ".jsonl"
  then EvAppend raw_target_path (Json.dumps_record task_id text +:+ NL)
  else EvWrite (sample_file task_id raw_target_path sidx) text.

Definition sample_events (sidx : Z) (impl : string) : list fs_event :=
  [sanitized_event sidx impl; raw_event sidx impl].

(** The mutations of writing [outputs] at the indices from [sidx] on. *)
Fixpoint outputs_events (outputs : list string) (sidx : Z) : list fs_event :=
  match outputs with
  | [] => []
  | impl :: outputs' => sample_events sidx impl ++ outputs_events outputs' (sidx + 1)
  end.

(** The request of a round that starts at write index [sidx]. *)
Definition round_request (sidx : Z) : request :=
  {| req_prompt := PyStr.strip (prompt t) +:+ NL;
     req_do_sample := negb greedy;
     req_num_samples := n_samples - sidx |}.

(** [rounds] are successive rounds of the loop started at write index
    [sidx] after the requests [history]: each round begins below
    [n_samples], asks for [n_samples - sidx] completions, gets what the
    backend returns, and the next round starts that many indices further;
    a round that got nothing is the last. *)
Fixpoint rounds_ok (history : list request) (sidx : Z)
    (rounds : list (request * list string)) : Prop :=
  match rounds with
  | [] => True
  | (rq, outputs) :: rounds' =>
      sidx < n_samples
      /\ rq = round_request sidx
      /\ outputs = model_codegen model history rq
      /\ (outputs = [] -> rounds' = [])
      /\ rounds_ok (history ++ [rq]) (sidx + Z.of_nat (length outputs)) rounds'
  end.

(** All completions of the rounds, in order. *)
Definition completions (rounds : list (request * list string)) : list string :=
  concat (map snd rounds).

End TaskEvents.

(** Lines 81-89: the write index a task starts at when [nexist] samples
    were found. *)
Definition start_index (resume : bool) (n_samples nexist : Z) : Z :=
  n_samples - (if resume && (0 <? nexist) then n_samples - nexist else n_samples).

(** *** What is asked of a backend *)

(** The backend never returns more completions than requested. *)
Definition returns_at_most_requested (model : DecoderBase) : Prop :=
  forall history rq,
    0 < req_num_samples rq ->
    Z.of_nat (length (model_codegen model history rq)) <= req_num_samples rq.

(** The backend returns at least one completion when asked for some. *)
Definition returns_something (model : DecoderBase) : Prop :=
  forall history rq,
    0 < req_num_samples rq -> model_codegen model history rq <> [].

(** The world [w] with one more request on record. *)
Definition requested (rq : request) (w : world) : world :=
  {| fs := fs w; console := console w; requests := requests w ++ [rq];
     trace := trace w; budget := budget w |}.

(** *** The log layout *)

(** A record of the log: task identifier and solution. *)
Definition record_line (r : string * string) : string :=
  Json.dumps_record (fst r) (snd r) +:+ NL.

(** The text of a log that holds the records [recs]. *)
Fixpoint log_text (recs : list (string * string)) : string :=
  match recs with
  | [] => ""
  | r :: recs' => record_line r +:+ log_text recs'
  end.

(** How many of [recs] belong to [task_id]. *)
Definition count_id (task_id : string) (recs : list (string * string)) : Z :=
  Z.of_nat (length (filter (fun r => fst r = task_id) recs)).

(** [open(p, "w")] and [open(p, "a")] go through in [f]. *)
Definition writable (f : filesystem) (p : string) : Prop :=
  p <> ""
  /\ Os.isdir f (Os.resolve p) = false
  /\ Os.isfile f (removelast (Os.resolve p)) = false
  /\ Os.isdir f (removelast (Os.resolve p)) = true.

(** The log at [target_path] holds exactly [recs] (a missing log holds
    none), and both logs can be appended to. *)
Definition log_state (target_path raw_target_path : string)
    (recs : list (string * string)) (w : world) : Prop :=
  default "" (files (fs w) !! Os.resolve target_path) = log_text recs
  /\ writable (fs w) target_path
  /\ writable (fs w) raw_target_path
  /\ Os.resolve raw_target_path <> Os.resolve target_path.

(** A character that ends no line. *)
Definition plain (c : ascii) : bool :=
  negb (bool_decide (c = Os.LF)) && negb (bool_decide (c = Os.CR)).

(** The log is well formed, holds [k] records of [task_id], and [c id]
    records of every other task [id]. *)
Definition log_inv (target_path raw_target_path task_id : string)
    (c : string -> Z) (k : Z) (w : world) : Prop :=
  exists recs,
    log_state target_path raw_target_path recs w
    /\ count_id task_id recs = k
    /\ forall id, id <> task_id -> count_id id recs = c id.

(** *** The task filter as a function *)

(** The integer after the first slash of a task identifier. *)
Definition task_number (task_id : string) : option Z :=
  match PyStr.split task_id "/" !! 1%nat with
  | Some piece => PyStr.int piece
  | None => None
  end.

Definition in_range (id_range : option (Z * Z)) (task_id : string) : bool :=
  match id_range with
  | None => true
  | Some (low, high) =>
      match task_number task_id with
      | Some n => (low <=? n) && (n <? high)
      | None => false
      end
  end.

(** With a range, every task identifier has its number. *)
Definition filter_defined (id_range : option (Z * Z)) (tasks : list (string * task))
  : Prop :=
  id_range = None \/ Forall (fun x => is_Some (task_number (fst x))) tasks.

(** *** Whole runs *)

(** Lines 53-60 as a function: the tasks a dataset name stands for. *)
Definition dataset_tasks (get_human_eval_plus get_mbpp_plus : string -> list (string * task))
    (dataset version : string) : option (list (string * task)) :=
  if decide (dataset = "humaneval") then Some (get_human_eval_plus version)
  else if decide (dataset = "mbpp") then Some (get_mbpp_plus version)
  else None.

(** Line 38: where the raw log goes. *)
Definition raw_log (target_path : string) : string :=
  PyStr.replace target_path ".jsonl" ".raw.jsonl".

(** The file system after the runs [runs], one after the other, each on
    what the one before left behind; a run is given by the number of
    file-system mutations it gets to do before it is interrupted and by
    the backend it uses. *)
Fixpoint after_runs (run : DecoderBase -> world -> result unit * world)
    (runs : list (nat * DecoderBase)) (f : filesystem) : filesystem :=
  match runs with
  | [] => f
  | (b, model) :: runs' =>
      after_runs run runs' (fs (snd (run model (start f (Some b)))))
  end.

(** *** What the loop of one task does *)

(** The file operation an event of the trace stands for. *)
Definition perform (ev : fs_event) : M unit :=
  match ev with
  | EvMkdir q => Os.mkdir q
  | EvWrite p text => Os.write_file p text
  | EvAppend p text => Os.append_file p text
  end.

(** The operations of [evs] one after the other; the first that raises
    ends them. *)
Fixpoint perform_all (evs : list fs_event) : M unit :=
  match evs with
  | [] => ret tt
  | ev :: evs' => bind (perform ev) (fun _ => perform_all evs')
  end.

(** The world [w] with the requests [rqs] on record after its own. *)
Definition asked (rqs : list request) (w : world) : world :=
  {| fs := fs w; console := console w; requests := requests w ++ rqs;
     trace := trace w; budget := budget w |}.

(** The last of [rounds] got no completion. *)
Definition got_nothing (rounds : list (request * list string)) : bool :=
  match last rounds with
  | Some (_, []) => true
  | _ => false
  end.

(** [res] is the outcome of the loop of one task started at write index
    [sidx] in world [w].  The requests made are those of successive
    rounds ([rounds_ok]), each for [n_samples] minus the write index the
    round starts at, and nothing is printed.  The world reached is [w]
    with these requests on record and the completions received written
    one after the other, sanitized then raw, index after index from
    [sidx], up to the first write the file system refuses or an
    interruption stops.  If a write fails the loop ends in that write's
    exception, and the write belongs to the last round: no round follows
    a failed write.  Otherwise, if the last round got nothing, the loop
    ends in the [AssertionError] of line 97.  Otherwise it ends normally,
    and then the write index has reached [n_samples]. *)
Definition loop_outcome (sanitize : string -> string -> string)
    (target_path raw_target_path : string) (model : DecoderBase) (greedy : bool)
    (n_samples : Z) (task_id : string) (t : task) (sidx : Z) (w : world)
    (res : result unit * world) : Prop :=
  exists rounds,
    let events :=
      outputs_events sanitize target_path raw_target_path model task_id t in
    let written :=
      perform_all (events (completions rounds) sidx) (asked (map fst rounds) w) in
    rounds_ok model greedy n_samples t (requests w) sidx rounds
    /\ snd res = snd written
    /\ fst res = match fst written with
                 | Raise e => Raise e
                 | Ok _ =>
                     if got_nothing rounds
                     then Raise (AssertionError "No outputs from model!")
                     else Ok tt
                 end
    /\ fst (perform_all (events (completions (removelast rounds)) sidx) w) = Ok tt
    /\ (fst res = Ok tt ->
        n_samples <= sidx + Z.of_nat (length (completions rounds)))
    /\ requests (snd res) = requests w ++ map fst rounds
    /\ console (snd res) = console w.

(** The first example task. *)
Definition example_task : task :=
  {| prompt := "def f():" +:+ NL; entry_point := "f" |}.

(** *** The directory layout *)

(** A path component proper: not empty, not ["."], without a slash. *)
Definition simple_name (s : string) : Prop :=
  s <> "" /\ s <> "." /\ PyStr.mem_char "/" s = false.

(** The name of sample [i]'s file, [f"{sidx}.py"]. *)
Definition py_name (i : Z) : string := PyStr.str i +:+ ".py".

(** The directory [T ++ [p]] of a task holds the sample files of the
    indices below [k] and no other file whose name ends in [.py]. *)
Definition dir_holds (T : path) (p : string) (k : Z) (f : filesystem) : Prop :=
  0 <= k
  /\ forall name,
       PyStr.endswith name ".py" = true ->
       (is_Some (files f !! (T ++ [p; name])) <-> exists i, 0 <= i < k /\ name = py_name i).

(** What the directory layout needs of the file system around the sample
    files, for the task directories [ps] under the root [T] and the raw
    root [R]: no file stands where the root or a task directory goes, the
    raw directory of every task exists, and no directory stands where a
    sample file goes. *)
Definition dir_frame (T R : path) (ps : list string) (f : filesystem) : Prop :=
  (forall i, Os.isfile f (take i T) = false)
  /\ forall p, p ∈ ps ->
       Os.isdir f (R ++ [p]) = true
       /\ Os.isfile f (R ++ [p]) = false
       /\ Os.isfile f (T ++ [p]) = false
       /\ forall x, Os.isdir f (T ++ [p; x]) = false /\ Os.isdir f (R ++ [p; x]) = false.

(** Every directory on the way to [T], and [T] itself, exists. *)
Definition made (T : path) (f : filesystem) : Prop :=
  forall i, Os.isdir f (take i T) = true.

(** The state of a directory-layout output location: [c p] samples in
    the directory of each task [p]. *)
Definition dir_state (T R : path) (ps : list string) (c : string -> Z)
    (f : filesystem) : Prop :=
  dir_frame T R ps f /\ forall p, p ∈ ps -> dir_holds T p (c p) f.

(** The counts [c] with [k] for [p]. *)
Definition with_count (c : string -> Z) (p : string) (k : Z) : string -> Z :=
  fun q => if decide (q = p) then k else c q.

(** The state the loop of the task with directory [p] keeps in the
    directory layout, [k] being the task's count: the location is in
    order, the root and the task's directory exist. *)
Definition dir_inv (T R : path) (ps : list string) (c : string -> Z) (p : string)
    (k : Z) (w : world) : Prop :=
  dir_state T R ps (with_count c p k) (fs w)
  /\ made T (fs w)
  /\ Os.isdir (fs w) (T ++ [p]) = true.

(** A sample file is a file of a task directory under the root [T] or
    under the raw root [R]. *)
Definition sample_place (T R : path) (q : path) : Prop :=
  exists p x, q = T ++ [p; x] \/ q = R ++ [p; x].

(** The tasks' directories are proper names, they belong to the directories
    [ps] under consideration, and they are pairwise different. *)
Definition known_tasks (ps : list string) (tasks : list (string * task)) : Prop :=
  Forall (fun x => simple_name (p_name (fst x)) /\ p_name (fst x) ∈ ps) tasks
  /\ NoDup (map (fun x => p_name (fst x)) tasks).

(** *** Resuming *)

(** The output location holds [k] samples of [task_id]: in the log layout
    the log is a sequence of records of which [k] are the task's; in the
    directory layout the task's directory holds the files [0.py] to
    [(k-1).py] and no other [.py] file. *)
Definition holds_samples (target_path task_id : string) (k : Z) (f : filesystem) : Prop :=
  if PyStr.endswith target_path ".jsonl"
  then exists recs,
         default "" (files f !! Os.resolve target_path) = log_text recs
         /\ count_id task_id recs = k
  else dir_holds (Os.resolve target_path) (p_name task_id) k f.

(** An output location nothing has been generated into yet.  Log layout:
    no log or an empty one, and both logs can be written.  Directory
    layout: the task directories are proper and pairwise different names,
    no sample file exists, nothing stands in the way of the directories
    and the sample files, and the raw directory of every task exists
    (codegen makes none of them). *)
Definition fresh_location (target_path : string) (tasks : list (string * task))
    (f : filesystem) : Prop :=
  if PyStr.endswith target_path ".jsonl"
  then log_state target_path (raw_log target_path) [] (start f None)
  else
    let T := Os.resolve target_path in
    let R := Os.resolve (target_path +:+ ".raw") in
    let ps := map (fun x => p_name (fst x)) tasks in
    target_path <> "" /\ length R = length T /\ R <> T
    /\ known_tasks ps tasks
    /\ dir_state T R ps (fun _ => 0) f.

(** A file system with the raw directories of the two example tasks under
    [out.raw]. *)
Definition raw_dirs_fs : filesystem :=
  {| dirs := {[ ["out.raw"]; ["out.raw"; "suite_0"]; ["out.raw"; "suite_1"] ]};
     files := ∅ |}.

(** The text of the file at [q], if there is one. *)
Definition file_at (w : world) (q : path) : option string := files (fs w) !! q.

(** [codegen] resuming at [target_path], example collaborators, two
    samples per task. *)
Definition example_run (target_path : string) (model : DecoderBase)
    : world -> result unit * world :=
  codegen example_sanitize example_tasks example_tasks
    target_path model "humaneval" false 2 None "default" true.

(** A backend that returns two completions whatever number it is asked
    for; it returns only the continuation. *)
Definition eager_model : DecoderBase :=
  {| model_codegen := fun h r => ["    return 1" +:+ NL; "    return 2" +:+ NL];
     is_direct_completion := true;
     model_repr := "eager" |}.

(** The files of [f], in the order of the map. *)
Definition file_names (f : filesystem) : list path := map fst (map_to_list (files f)).

(** *** The arguments of [run_codegen] *)

(** Line 158: the [evalperf_type] the assertion lets through. *)
Definition valid_evalperf_type (evalperf_type : option string) : bool :=
  match evalperf_type with
  | None => true
  | Some e => mem_str e ["instruct"; "perf-instruct"; "perf-CoT"]
  end.

(** Lines 156-162: the three assertions hold. *)
Definition valid_arguments (dataset backend : string)
    (evalperf_type : option string) : bool :=
  mem_str dataset ["humaneval"; "mbpp"]
  && mem_str backend ["vllm"; "hf"; "openai"]
  && valid_evalperf_type evalperf_type.

(** Lines 170-172: no range, or a list of two increasing integers. *)
Definition valid_id_range (id_range : option (list Z)) : bool :=
  match id_range with
  | None => true
  | Some [low; high] => low <? high
  | Some _ => false
  end.

(** The message of the assertion of lines 156-162 that fails first. *)
Definition argument_error (dataset backend : string) : string :=
  if mem_str dataset ["humaneval"; "mbpp"] then "" else "Invalid dataset " +:+ dataset.

(** The message of the assertion of lines 171-172 that fails. *)
Definition id_range_error (l : list Z) : string :=
  if bool_decide (length l = 2%nat) then "id_range must be increasing"
  else "id_range must be a list of length 2".

(** The line printed when no batch size is given. *)
Definition batch_size_notice (n_samples : Z) : string :=
  "Setting batch size to " +:+ PyStr.str (Z.min n_samples 32).

(** The characters [f"{temperature}"] is made of: digits, the point, the
    exponent with its sign, and the letters of [inf] and [nan]. *)
Definition float_chars : string := "0123456789.e+-infa".

Definition plain_float_repr (float_repr : float -> string) : Prop :=
  forall x, all_chars (fun c => PyStr.mem_char c float_chars) (float_repr x) = true.

(** The path the example call of [run_codegen] returns. *)
Definition example_target : string :=
  "evalplus_results/humaneval/org--m_vllm_temp_0.0.jsonl".

(** *** What a run leaves of what was there *)

(** From [f] to [f'] no directory was made, every file but those at [T]
    and [R] is as it was, and the text of every file that was there is the
    start of its text now. *)
Definition only_appended (T R : path) (f f' : filesystem) : Prop :=
  dirs f' = dirs f
  /\ (forall q, q <> T -> q <> R -> files f' !! q = files f !! q)
  /\ forall q old,
       files f !! q = Some old -> exists more, files f' !! q = Some (old +:+ more).

(** A log with one record of the first example task. *)
Definition example_records : list (string * string) := [("suite/0", "pass")].

Definition recorded_log : world := start (log_fs (log_text example_records)) None.

(** *** What the backend is asked *)

(** A request as a run with [greedy] and [n_samples] makes them: at least
    one completion and at most [n_samples], sampling unless greedy. *)
Definition good_request (greedy : bool) (n_samples : Z) (rq : request) : Prop :=
  req_do_sample rq = negb greedy /\ 1 <= req_num_samples rq <= n_samples.

(** From [w] to [w'] only requests of that kind were made. *)
Definition asked_well (greedy : bool) (n_samples : Z) (w w' : world) : Prop :=
  exists rqs, requests w' = requests w ++ rqs
              /\ Forall (good_request greedy n_samples) rqs.

(** A log with one record and, after it, a line that is JSON but no
    record. *)
Definition foreign_log : world :=
  start (log_fs (log_text example_records +:+ "{}" +:+ NL)) None.

(** *** The directories a run makes *)

(** Every directory of [w'] was there in [w], or lies on the way to the
    target directory, or on the way to the directory of a task under
    it. *)
Definition made_for (target_path : string) (w w' : world) : Prop :=
  forall q, q ∈ dirs (fs w') ->
    q ∈ dirs (fs w)
    \/ (exists i, q = take i (Os.resolve target_path))
    \/ exists task_id i,
         q = take i (Os.resolve (Os.join target_path (p_name task_id))).

(** The directories are the same in [w'] as in [w]. *)
Definition same_dirs (w w' : world) : Prop := dirs (fs w') = dirs (fs w).

(** Line 173: the range as [codegen] gets it. *)
Definition range_pair (id_range : option (list Z)) : option (Z * Z) :=
  match id_range with
  | Some [low; high] => Some (low, high)
  | _ => None
  end.

(** Lines 164-167: the number of samples a call of [run_codegen] aims at. *)
Definition run_samples (greedy : bool) (n_samples : Z) : Z :=
  if greedy then 1 else n_samples.

(** *** A run that has nothing left to do *)

(** From [w] to [w'] nothing happened but printing. *)
Definition only_printed (w w' : world) : Prop :=
  fs w' = fs w /\ requests w' = requests w /\ trace w' = trace w
  /\ budget w' = budget w.

(** A log with two records of each example task. *)
Definition full_records : list (string * string) :=
  [("suite/0", "a"); ("suite/1", "b"); ("suite/0", "c"); ("suite/1", "d")].

Definition full_log : world := start (log_fs (log_text full_records)) (Some 0%nat).

(** *** Sanitized and raw writes go together *)

(** Lines 37-40: where the raw outputs go. *)
Definition raw_target (target_path : string) : string :=
  if PyStr.endswith target_path ".jsonl" then raw_log target_path
  else target_path +:+ ".raw".

(** File-system mutations in which every write of a sanitized sample is
    followed at once by the write of the raw sample of the same task,
    index and completion; directories may be made in between. *)
Inductive paired (sanitize : string -> string -> string)
    (target_path raw_target_path : string) (model : DecoderBase)
  : list fs_event -> Prop :=
| paired_nil : paired sanitize target_path raw_target_path model []
| paired_mkdir (q : path) (evs : list fs_event) :
    paired sanitize target_path raw_target_path model evs ->
    paired sanitize target_path raw_target_path model (EvMkdir q :: evs)
| paired_sample (task_id : string) (t : task) (sidx : Z) (impl : string)
    (evs : list fs_event) :
    paired sanitize target_path raw_target_path model evs ->
    paired sanitize target_path raw_target_path model
      (sanitized_event sanitize target_path model task_id t sidx impl
       :: raw_event target_path raw_target_path model task_id t sidx impl
       :: evs).

(** What [res], reached from [w], did to the file system is paired, or
    [res] is an exception and the raw write of the last sanitized sample
    is all that is missing. *)
Definition pairs_up {A} (sanitize : string -> string -> string)
    (target_path raw_target_path : string) (model : DecoderBase) (w : world)
    (res : result A * world) : Prop :=
  exists evs,
    trace (snd res) = trace w ++ evs
    /\ (paired sanitize target_path raw_target_path model evs
        \/ ((exists e, fst res = Raise e)
            /\ exists task_id t sidx impl,
                 paired sanitize target_path raw_target_path model
                   (evs ++ [raw_event target_path raw_target_path model task_id t
                              sidx impl]))).

(** * Properties *)

(** ** The monad *)

Lemma bind_ret {A B} (a : A) (k : A -> M B) : bind (ret a) k = k a.
Proof. reflexivity. Qed.

Lemma bind_raise {A B} (e : exn) (k : A -> M B) : bind (raise e) k = raise e.
Proof. reflexivity. Qed.

Lemma bind_bind {A B C} (m : M A) (k : A -> M B) (k' : B -> M C) (w : world) :
  bind (bind m k) k' w = bind m (fun a => bind (k a) k') w.
Proof. unfold bind. destruct (m w) as [[a|e] w']; reflexivity. Qed.

(** ** Strings *)

Lemma app_cons (c : ascii) (s u : string) : String c s +:+ u = String c (s +:+ u).
Proof. reflexivity. Qed.

Lemma app_empty_l (s : string) : "" +:+ s = s.
Proof. reflexivity. Qed.

Lemma app_empty_r (s : string) : s +:+ "" = s.
Proof. induction s as [|c s IH]; [reflexivity|]. rewrite app_cons, IH. reflexivity. Qed.

Lemma app_assoc_str (a b c : string) : (a +:+ b) +:+ c = a +:+ (b +:+ c).
Proof.
  induction a as [|x a IH]; [reflexivity|].
  rewrite !app_cons, IH. reflexivity.
Qed.

Lemma rev_app_app (a b c : string) :
  String.rev_app (String.rev_app a b) c = String.rev_app b (a +:+ c).
Proof.
  revert b c. induction a as [|x a IH]; intros b c; [reflexivity|].
  cbn [String.rev_app]. rewrite IH. reflexivity.
Qed.

Lemma rev_rev_app (a : string) : String.rev (String.rev_app a "") = a.
Proof. unfold String.rev. rewrite rev_app_app. cbn. apply app_empty_r. Qed.

Lemma split_go_no_sep (sep : ascii) (a cur : string) :
  PyStr.mem_char sep a = false ->
  PyStr.split_go sep cur a = [String.rev (String.rev_app a cur)].
Proof.
  revert cur. induction a as [|c a IH]; intros cur H; [reflexivity|].
  cbn in H |- *. destruct (ascii_dec sep c) as [->|Hne]; [discriminate|].
  destruct (ascii_dec c sep) as [->|_]; [congruence|]. apply IH, H.
Qed.

Lemma split_go_sep (sep : ascii) (a b cur : string) :
  PyStr.mem_char sep a = false ->
  PyStr.split_go sep cur (a +:+ String sep b)
  = String.rev (String.rev_app a cur) :: PyStr.split_go sep "" b.
Proof.
  revert cur. induction a as [|c a IH]; intros cur H.
  - rewrite app_empty_l. cbn [PyStr.split_go String.rev_app].
    destruct (ascii_dec sep sep); [reflexivity|congruence].
  - cbn in H. rewrite app_cons. cbn [PyStr.split_go].
    destruct (ascii_dec sep c) as [->|Hne]; [discriminate|].
    destruct (ascii_dec c sep) as [->|_]; [congruence|]. apply IH, H.
Qed.

(** [suite/rest] splits into the suite and what follows. *)
Lemma split_task_id (suite rest : string) :
  PyStr.mem_char "/" suite = false ->
  PyStr.mem_char "/" rest = false ->
  PyStr.split (suite +:+ "/" +:+ rest) "/" = [suite; rest].
Proof.
  intros Hs Hr. unfold PyStr.split.
  change (suite +:+ "/" +:+ rest) with (suite +:+ String "/" rest).
  rewrite split_go_sep by exact Hs. rewrite split_go_no_sep by exact Hr.
  rewrite !rev_rev_app. reflexivity.
Qed.

(** *** Decimal numerals *)

Lemma numeral_digits (d : Decimal.uint) :
  all_chars Json.is_digit (NilEmpty.string_of_uint d) = true.
Proof. induction d; cbn; auto. Qed.

Lemma digits_rest_numeral (d : Decimal.uint) :
  PyStr.digits_rest (NilEmpty.string_of_uint d) = Some d.
Proof. induction d; cbn; rewrite ?IHd; reflexivity. Qed.

Lemma digits_numeral (d : Decimal.uint) :
  d <> Decimal.Nil -> PyStr.digits (NilEmpty.string_of_uint d) = Some d.
Proof.
  destruct d; [congruence|..]; intros _; cbn; rewrite digits_rest_numeral; reflexivity.
Qed.

Lemma int_lstrip_digits (s : string) :
  all_chars Json.is_digit s = true -> PyStr.int_lstrip s = s.
Proof.
  destruct s as [|c s]; [reflexivity|]. cbn. intros [Hc _]%andb_prop.
  replace (PyStr.int_space c) with false; [reflexivity|].
  revert Hc. destruct c as [[] [] [] [] [] [] [] []]; vm_compute; congruence.
Qed.

Lemma int_rstrip_digits (s : string) :
  all_chars Json.is_digit s = true -> PyStr.int_rstrip s = s.
Proof.
  induction s as [|c s IH]; [reflexivity|]. cbn. intros [Hc Hs]%andb_prop.
  rewrite (IH Hs). destruct s; [|reflexivity].
  replace (PyStr.int_space c) with false; [reflexivity|].
  revert Hc. destruct c as [[] [] [] [] [] [] [] []]; vm_compute; congruence.
Qed.

Lemma int_strip_digits (s : string) :
  all_chars Json.is_digit s = true -> PyStr.int_rstrip (PyStr.int_lstrip s) = s.
Proof.
  intros H. rewrite (int_lstrip_digits _ H). apply int_rstrip_digits, H.
Qed.

Lemma mem_char_digits (c : ascii) (s : string) :
  Json.is_digit c = false ->
  all_chars Json.is_digit s = true -> PyStr.mem_char c s = false.
Proof.
  intros Hc. induction s as [|d s IH]; [reflexivity|]. cbn.
  intros [Hd Hs]%andb_prop. destruct (ascii_dec c d) as [->|_]; [congruence|auto].
Qed.

Lemma numeral_pos (p : positive) :
  NilZero.string_of_uint (Pos.to_uint p) = NilEmpty.string_of_uint (Pos.to_uint p).
Proof.
  pose proof (DecimalPos.Unsigned.to_uint_nonnil p) as H.
  destruct (Pos.to_uint p); [congruence|reflexivity..].
Qed.

Lemma numeral_head (d : Decimal.uint) :
  d <> Decimal.Nil ->
  exists c s, NilEmpty.string_of_uint d = String c s /\ Json.is_digit c = true.
Proof. destruct d; [congruence|..]; intros _; cbn; eauto. Qed.

(** [int(str(n)) == n] *)
Lemma int_str (n : Z) : PyStr.int (PyStr.str n) = Some n.
Proof.
  unfold PyStr.str, PyStr.int. destruct n as [|p|p]; [reflexivity|..]; cbn [Z.to_int NilZero.string_of_int].
  - rewrite numeral_pos, int_strip_digits by apply numeral_digits.
    pose proof (DecimalPos.Unsigned.to_uint_nonnil p) as Hnil.
    pose proof (digits_numeral _ Hnil) as Hd.
    destruct (numeral_head _ Hnil) as (c & s & E & Hc).
    rewrite E in Hd |- *.
    assert (Hgoal : (fun d => Z.of_N (N.of_uint d)) <$> PyStr.digits (String c s)
                    = Some (Z.pos p)).
    { rewrite Hd. cbn. unfold N.of_uint. rewrite DecimalPos.Unsigned.of_to. reflexivity. }
    clear Hd E. revert Hc Hgoal.
    destruct c as [[] [] [] [] [] [] [] []]; intros Hc Hgoal;
      try (vm_compute in Hc; discriminate Hc); exact Hgoal.
  - rewrite numeral_pos.
    pose proof (DecimalPos.Unsigned.to_uint_nonnil p) as Hnil.
    assert (Hs : PyStr.int_rstrip
                   (PyStr.int_lstrip
                      (String "-" (NilEmpty.string_of_uint (Pos.to_uint p))))
                 = String "-" (NilEmpty.string_of_uint (Pos.to_uint p))).
    { cbn [PyStr.int_lstrip]. change (PyStr.int_space "-") with false. cbn iota.
      cbn [PyStr.int_rstrip]. rewrite int_rstrip_digits by apply numeral_digits.
      destruct (numeral_head _ Hnil) as (c & s & -> & _). reflexivity. }
    rewrite Hs, digits_numeral by exact Hnil. cbn.
    unfold N.of_uint. rewrite DecimalPos.Unsigned.of_to. reflexivity.
Qed.

(** [int] skips the white space of C around a numeral; the separators
    FS..US, which [str.strip] removes, make it raise. *)
Example int_white_space :
  PyStr.int (" 7" +:+ NL) = Some 7
  /\ PyStr.int (String (ascii_of_N 28) "7") = None
  /\ PyStr.strip (String (ascii_of_N 28) "7") = "7".
Proof. vm_compute. repeat split; reflexivity. Qed.

Lemma str_no_char (c : ascii) (n : Z) :
  Json.is_digit c = false -> c <> "-"%char -> PyStr.mem_char c (PyStr.str n) = false.
Proof.
  intros Hc Hm. unfold PyStr.str. destruct n as [|p|p]; cbn [Z.to_int NilZero.string_of_int].
  - cbn. destruct (ascii_dec c "0") as [->|_]; [discriminate|reflexivity].
  - rewrite numeral_pos. apply mem_char_digits; [exact Hc|apply numeral_digits].
  - rewrite numeral_pos. cbn. destruct (ascii_dec c "-"); [congruence|].
    apply mem_char_digits; [exact Hc|apply numeral_digits].
Qed.

(** ** The task filter *)

Section TaskFilter.

Variable sanitize : string -> string -> string.

Lemma skip_task_no_range (task_id : string) (w : world) :
  skip_task None task_id w = (Ok false, w).
Proof. reflexivity. Qed.

Lemma skip_task_in_range (suite : string) (n low high : Z) (w : world) :
  PyStr.mem_char "/" suite = false ->
  skip_task (Some (low, high)) (suite +:+ "/" +:+ PyStr.str n) w
  = if (low <=? n) && (n <? high) then (Ok false, w)
    else (Ok true,
          printed ("Skipping " +:+ (suite +:+ "/" +:+ PyStr.str n)
                   +:+ " as it is not in ("
                   +:+ PyStr.str low +:+ ", " +:+ PyStr.str high +:+ ")") w).
Proof.
  intros Hs. unfold skip_task.
  rewrite split_task_id; [|exact Hs|apply str_no_char; [reflexivity|discriminate]].
  cbn [lookup list_lookup]. rewrite int_str.
  destruct (Z.leb_spec low n), (Z.ltb_spec n high), (Z.ltb_spec n low),
    (Z.geb_spec n high); try lia; reflexivity.
Qed.

(** C6: with a range [(low, high)], the task [suite/n] is processed when
    [low <= n < high] and otherwise skipped with one printed line, nothing
    else happening for it; without a range every task is processed. *)
Theorem task_filter_range (target_path raw_target_path : string)
    (model : DecoderBase) (greedy : bool) (n_samples : Z) (resume : bool)
    (suite : string) (n low high : Z) (t : task)
    (tasks : list (string * task)) (task2nexist : gmap string Z) (w : world) :
  PyStr.mem_char "/" suite = false ->
  let task_id := suite +:+ "/" +:+ PyStr.str n in
  let rest id_range m :=
    for_tasks sanitize target_path raw_target_path model greedy n_samples
      id_range resume tasks m in
  let process :=
    process_task sanitize target_path raw_target_path model greedy n_samples
      resume task_id t task2nexist in
  for_tasks sanitize target_path raw_target_path model greedy n_samples
    (Some (low, high)) resume ((task_id, t) :: tasks) task2nexist w
  = (if (low <=? n) && (n <? high)
     then bind process (rest (Some (low, high))) w
     else rest (Some (low, high)) task2nexist
            (printed ("Skipping " +:+ task_id +:+ " as it is not in ("
                      +:+ PyStr.str low +:+ ", " +:+ PyStr.str high +:+ ")") w))
  /\ for_tasks sanitize target_path raw_target_path model greedy n_samples
       None resume ((task_id, t) :: tasks) task2nexist w
     = bind process (rest None) w.
Proof.
  intros Hs task_id rest process. split.
  - cbn [for_tasks]. unfold bind at 1. subst task_id.
    rewrite (skip_task_in_range _ _ _ _ _ Hs).
    destruct ((low <=? n) && (n <? high)); reflexivity.
  - reflexivity.
Qed.

End TaskFilter.

Lemma task_filter_range_witness :
  PyStr.mem_char "/" "suite" = false /\
  (let go id_range :=
     for_tasks example_sanitize "out.jsonl" "out.raw.jsonl" example_model false 1
       id_range true in
   go (Some (0, 1)) (example_tasks "") ∅ (start empty_fs None)
   = bind (process_task example_sanitize "out.jsonl" "out.raw.jsonl" example_model
             false 1 true "suite/0" {| prompt := "def f():" +:+ NL; entry_point := "f" |} ∅)
          (go (Some (0, 1)) (tl (example_tasks ""))) (start empty_fs None)).
Proof.
  split; [reflexivity|].
  pose proof (task_filter_range example_sanitize "out.jsonl" "out.raw.jsonl"
                example_model false 1 true "suite" 0 0 1
                {| prompt := "def f():" +:+ NL; entry_point := "f" |}
                (tl (example_tasks "")) ∅ (start empty_fs None) eq_refl) as [H _].
  exact H.
Defined.

(** The boundaries of the range [(3, 5)]: 3 and 4 are in, 5 is out. *)
Example range_boundaries :
  fst (skip_task (Some (3, 5)) "suite/3" (start empty_fs None)) = Ok false /\
  fst (skip_task (Some (3, 5)) "suite/4" (start empty_fs None)) = Ok false /\
  skip_task (Some (3, 5)) "suite/5" (start empty_fs None)
  = (Ok true, printed "Skipping suite/5 as it is not in (3, 5)" (start empty_fs None)) /\
  fst (skip_task (Some (3, 5)) "suite/2" (start empty_fs None)) = Ok true.
Proof. repeat split. Qed.

(** ** [run_codegen]: greedy decoding *)

Section Greedy.

Variable sanitize : string -> string -> string.
Variable get_human_eval_plus get_mbpp_plus : string -> list (string * task).
Variable make_model : make_model_args -> DecoderBase.
Variable float_repr : float -> string.

Lemma greedy_override_spec (temperature : float) (bs : option Z) (n_samples : Z)
    (w : world) :
  greedy_override true temperature bs n_samples w
  = if differs_from_greedy temperature bs n_samples
    then (Ok (float_zero, Some 1, 1), printed greedy_notice w)
    else (Ok (temperature, bs, n_samples), w).
Proof.
  unfold greedy_override, differs_from_greedy. cbn [andb].
  destruct (negb (float_is_zero temperature) || negb (bool_decide (bs = Some 1))
            || negb (n_samples =? 1)); reflexivity.
Qed.

Lemma differs_from_greedy_false (temperature : float) (bs : option Z) (n_samples : Z) :
  differs_from_greedy temperature bs n_samples = false ->
  float_is_zero temperature = true /\ bs = Some 1 /\ n_samples = 1.
Proof.
  unfold differs_from_greedy. intros H.
  apply orb_false_elim in H as [H Hn]. apply orb_false_elim in H as [Ht Hb].
  apply negb_false_iff in Ht, Hb, Hn.
  apply bool_decide_eq_true in Hb. apply Z.eqb_eq in Hn. auto.
Qed.

(** C9, as amended: a greedy call whose [temperature], [bs] or [n_samples]
    differ from [0], [1], [1] prints the notice of line 168 and then runs
    exactly as the call with [temperature=0.0], [bs=1], [n_samples=1];
    a greedy call that prints nothing was passed those values already.
    Either way a greedy run asks for one sample per task. *)
Theorem greedy_run_overrides (model dataset root : string) (bs : option Z)
    (n_samples : Z) (temperature : float) (resume : bool)
    (id_range : option (list Z)) (version backend : string)
    (force_base_prompt : bool) (base_url : option string) (tp : Z)
    (evalperf_type : option string) (jsonl_fmt : bool) (w : world) :
  mem_str dataset ["humaneval"; "mbpp"] = true ->
  mem_str backend ["vllm"; "hf"; "openai"] = true ->
  match evalperf_type with
  | None => true
  | Some e => mem_str e ["instruct"; "perf-instruct"; "perf-CoT"]
  end = true ->
  let run bs n_samples temperature :=
    run_codegen sanitize get_human_eval_plus get_mbpp_plus make_model float_repr
      model dataset root bs n_samples temperature resume true id_range version
      backend force_base_prompt base_url tp evalperf_type jsonl_fmt in
  (differs_from_greedy temperature bs n_samples = true ->
   run bs n_samples temperature w = run (Some 1) 1 float_zero (printed greedy_notice w))
  /\ (differs_from_greedy temperature bs n_samples = false ->
      float_is_zero temperature = true /\ bs = Some 1 /\ n_samples = 1).
Proof.
  intros Hd Hb He run. split; [|apply differs_from_greedy_false].
  intros Hdiff. unfold run, run_codegen. rewrite Hd, Hb, He.
  unfold assert_. rewrite !bind_ret.
  match goal with |- bind _ ?k _ = _ => set (K := k) end.
  unfold bind. rewrite !greedy_override_spec, Hdiff.
  reflexivity.
Qed.

End Greedy.

Lemma greedy_run_overrides_witness :
  mem_str "humaneval" ["humaneval"; "mbpp"] = true /\
  mem_str "vllm" ["vllm"; "hf"; "openai"] = true /\
  differs_from_greedy float_zero None 5 = true /\
  example_run_codegen "org/m" "humaneval" "evalplus_results" None 5 float_zero
    true true None "default" "vllm" false None 1 None true (start empty_fs None)
  = example_run_codegen "org/m" "humaneval" "evalplus_results" (Some 1) 1 float_zero
      true true None "default" "vllm" false None 1 None true
      (printed greedy_notice (start empty_fs None)).
Proof.
  split; [reflexivity|]. split; [reflexivity|]. split; [reflexivity|].
  exact (proj1 (greedy_run_overrides example_sanitize example_tasks example_tasks
                  example_make_model example_float_repr
                  "org/m" "humaneval" "evalplus_results" None 5 float_zero true
                  None "default" "vllm" false None 1 None true (start empty_fs None)
                  eq_refl eq_refl eq_refl) eq_refl).
Defined.

(** C9 as stated says the override is silent; a greedy call with
    [n_samples=5] prints the notice before anything else. *)
Lemma greedy_override_prints :
  hd_error (console (snd (example_run_codegen "org/m" "humaneval" "evalplus_results"
                            None 5 float_zero true true None "default" "vllm"
                            false None 1 None true (start empty_fs None))))
  = Some greedy_notice
  /\ console (start empty_fs None) = [].
Proof. split; vm_compute; reflexivity. Qed.

(** ** The directory layout on a fresh output location *)

(** C3 at its failing input: in the directory layout codegen creates
    [out] and [out/suite_0] (lines 41 and 72) but no directory under
    [out.raw]; the raw write of the first sample raises
    [FileNotFoundError]. *)
Theorem raw_directory_missing :
  fst (example_codegen "out") = Raise (FileNotFoundError "out.raw/suite_0/0.py")
  /\ dirs (fs (snd (example_codegen "out"))) = {[ ["out"]; ["out"; "suite_0"] ]}
  /\ Os.isdir (fs (snd (example_codegen "out"))) ["out.raw"; "suite_0"] = false.
Proof. repeat split; vm_compute; reflexivity. Qed.

(** C7 at its failing input: the sanitized file of sample 0 is written,
    the raw file with the same task and index is not. *)
Theorem sanitized_without_raw :
  files (fs (snd (example_codegen "out"))) !! ["out"; "suite_0"; "0.py"]
  = Some (example_sanitize ("def f():" +:+ NL +:+ "    return 0" +:+ NL) "f")
  /\ files (fs (snd (example_codegen "out"))) !! ["out.raw"; "suite_0"; "0.py"] = None
  /\ trace (snd (example_codegen "out"))
     = [EvMkdir ["out"]; EvMkdir ["out"; "suite_0"];
        EvWrite "out/suite_0/0.py"
          (example_sanitize ("def f():" +:+ NL +:+ "    return 0" +:+ NL) "f")].
Proof. repeat split; vm_compute; reflexivity. Qed.

(** C8 at its failing input: from the same empty directory, with the same
    tasks, backend and sample count, the log layout ends normally with a
    sanitized and a raw record for each of the two tasks, while the
    directory layout stops with one sanitized file and no raw one. *)
Theorem layouts_diverge :
  fst (example_codegen "out.jsonl") = Ok tt
  /\ length (trace (snd (example_codegen "out.jsonl"))) = 4%nat
  /\ fst (example_codegen "out") = Raise (FileNotFoundError "out.raw/suite_0/0.py")
  /\ size (files (fs (snd (example_codegen "out")))) = 1%nat.
Proof. repeat split; vm_compute; reflexivity. Qed.

(** ** [json.loads] reads back what [json.dumps] wrote *)

Lemma prepend_nil (o : option (list Json.token)) : Json.prepend [] o = o.
Proof. destruct o; reflexivity. Qed.

Lemma prepend_some (ts rest : list Json.token) :
  Json.prepend ts (Some rest) = Some (ts ++ rest).
Proof. reflexivity. Qed.

Lemma scan_cons (m : Json.mode) (c : ascii) (s : string) :
  Json.scan m (String c s)
  = match Json.step m c (String c s) with
    | None => None
    | Some (ts, m') => Json.prepend ts (Json.scan m' s)
    end.
Proof. reflexivity. Qed.

(** One character of input: the scanner's step is computed, an empty list
    of tokens in front goes away. *)
Ltac scan_step :=
  rewrite scan_cons;
  match goal with
  | |- context [Json.step ?m ?c ?s] =>
      let r := eval vm_compute in (Json.step m c s) in
      change (Json.step m c s) with r
  end;
  cbv beta iota; rewrite ?prepend_nil.

(** Inside a string, the escape of [c] reads back as [c]. *)
Lemma scan_escape_char (c : ascii) (acc rest : string) :
  Json.scan (Json.InStr acc false) (Json.escape_char c +:+ rest)
  = Json.scan (Json.InStr (String c acc) false) rest.
Proof.
  destruct c as [[] [] [] [] [] [] [] []];
    match goal with
    | |- context [Json.escape_char ?c] =>
        let e := eval vm_compute in (Json.escape_char c) in
        change (Json.escape_char c) with e
    end;
    rewrite ?app_cons, app_empty_l; repeat scan_step; reflexivity.
Qed.

Lemma scan_escape (s acc rest : string) :
  Json.scan (Json.InStr acc false) (Json.escape s +:+ rest)
  = Json.scan (Json.InStr (String.rev_app s acc) false) rest.
Proof.
  revert acc. induction s as [|c s IH]; intros acc; [reflexivity|].
  cbn [Json.escape String.rev_app].
  rewrite app_assoc_str, scan_escape_char. apply IH.
Qed.

(** Between tokens, an encoded string is read as one string token. *)
Lemma scan_dumps_str (s rest : string) :
  Json.scan Json.Top (Json.dumps_str s +:+ rest)
  = Json.prepend [Json.TStr (Some s)] (Json.scan Json.Top rest).
Proof.
  unfold Json.dumps_str, Json.quote.
  rewrite !app_assoc_str, app_cons, app_empty_l. scan_step.
  rewrite scan_escape, app_cons, app_empty_l. scan_step.
  transitivity (Json.prepend [Json.TStr (Some (String.rev (String.rev_app s "")))]
                  (Json.scan Json.Top rest)); [reflexivity|].
  rewrite rev_rev_app. reflexivity.
Qed.

Lemma scan_dumps_record (task_id solution : string) :
  Json.scan Json.Top (Json.dumps_record task_id solution +:+ NL)
  = Some [Json.TLBrace; Json.TStr (Some "task_id"); Json.TColon;
          Json.TStr (Some task_id); Json.TComma;
          Json.TStr (Some "solution"); Json.TColon;
          Json.TStr (Some solution); Json.TRBrace].
Proof.
  unfold Json.dumps_record, NL.
  rewrite !app_assoc_str, ?app_cons, ?app_empty_l. scan_step.
  rewrite scan_dumps_str. do 2 scan_step.
  rewrite scan_dumps_str. do 2 scan_step.
  rewrite scan_dumps_str. do 2 scan_step.
  rewrite scan_dumps_str. do 2 scan_step.
  reflexivity.
Qed.

(** [json.loads(json.dumps({"task_id": t, "solution": s}) + "\n")] *)
Lemma loads_dumps_record (task_id solution : string) :
  Json.loads (Json.dumps_record task_id solution +:+ NL)
  = Some (Json.JObj [(Some "task_id", Json.JStr (Some task_id));
                     (Some "solution", Json.JStr (Some solution))]).
Proof. unfold Json.loads. rewrite scan_dumps_record. reflexivity. Qed.

Lemma rstrip_nonempty (c : ascii) (s : string) :
  PyStr.isspace c = false -> PyStr.rstrip (String c s) <> "".
Proof. intros H. cbn. rewrite H. destruct (PyStr.rstrip s); discriminate. Qed.

Lemma strip_dumps_record (task_id solution : string) :
  PyStr.strip (Json.dumps_record task_id solution +:+ NL) <> "".
Proof.
  unfold Json.dumps_record. rewrite !app_assoc_str, app_cons, app_empty_l.
  unfold PyStr.strip. cbn [PyStr.lstrip]. change (PyStr.isspace "{") with false.
  cbv iota. apply rstrip_nonempty. reflexivity.
Qed.

Section ResumeScanner.

Variable sanitize : string -> string -> string.
Variable get_human_eval_plus get_mbpp_plus : string -> list (string * task).

(** A record written by codegen counts for its task. *)
Lemma count_line_record (m : gmap string Z) (task_id solution : string) :
  count_line m (Json.dumps_record task_id solution +:+ NL)
  = Ok (<[task_id := default 0 (m !! task_id) + 1]> m).
Proof.
  unfold count_line.
  destruct (decide _) as [E|_]; [destruct (strip_dumps_record _ _ E)|].
  rewrite loads_dumps_record. reflexivity.
Qed.

Lemma count_line_blank (m : gmap string Z) (line : string) :
  PyStr.strip line = "" -> count_line m line = Ok m.
Proof. intros H. unfold count_line. destruct (decide _); [reflexivity|contradiction]. Qed.

Lemma count_line_malformed (m : gmap string Z) (line : string) :
  PyStr.strip line <> "" -> Json.loads line = None ->
  count_line m line = Raise JSONDecodeError.
Proof.
  intros H E. unfold count_line. destruct (decide _); [contradiction|].
  rewrite E. reflexivity.
Qed.

Lemma count_lines_malformed (lines : list string) (line : string) :
  In line lines -> PyStr.strip line <> "" -> Json.loads line = None ->
  forall m, exists e, count_lines m lines = Raise e.
Proof.
  intros Hin Hs Hl. induction lines as [|l lines IH]; [destruct Hin|].
  intros m. cbn [count_lines]. destruct Hin as [->|Hin].
  - rewrite count_line_malformed by assumption. eauto.
  - destruct (count_line m l); [apply IH, Hin|eauto].
Qed.

(** C2, as amended: scanning an existing log skips blank lines and counts
    every record codegen wrote under its task identifier, but a line that
    is neither blank nor parseable is not skipped: the scan raises, and
    the run ends there with nothing printed, requested or written. *)
Theorem malformed_line_raises (target_path content line : string)
    (model : DecoderBase) (dataset : string) (greedy : bool) (n_samples : Z)
    (id_range : option (Z * Z)) (version : string) (w : world) :
  (forall m blank, PyStr.strip blank = "" -> count_line m blank = Ok m)
  /\ (forall m task_id solution,
        count_line m (Json.dumps_record task_id solution +:+ NL)
        = Ok (<[task_id := default 0 (m !! task_id) + 1]> m))
  /\ (PyStr.endswith target_path ".jsonl" = true ->
      files (fs w) !! Os.resolve target_path = Some content ->
      In line (Os.readlines content) ->
      PyStr.strip line <> "" -> Json.loads line = None ->
      exists e,
        codegen sanitize get_human_eval_plus get_mbpp_plus target_path model
          dataset greedy n_samples id_range version true w = (Raise e, w)).
Proof.
  split; [exact count_line_blank|]. split; [exact count_line_record|].
  intros Hj Hf Hin Hs Hl.
  destruct (count_lines_malformed _ _ Hin Hs Hl ∅) as [e He]. exists e.
  unfold codegen, bind at 1. unfold resume_scan. rewrite Hj. cbn [andb].
  unfold bind at 1, Os.path_isfile, bind at 1, get_fs, ret.
  unfold Os.isfile. rewrite Hf, bool_decide_eq_true_2 by eauto.
  unfold scan_log, bind, get_fs. rewrite Hf, He. reflexivity.
Qed.

End ResumeScanner.

Lemma malformed_line_raises_witness :
  PyStr.endswith "out.jsonl" ".jsonl" = true /\
  files (fs broken_log) !! Os.resolve "out.jsonl" = Some ("{broken" +:+ NL) /\
  In ("{broken" +:+ NL) (Os.readlines ("{broken" +:+ NL)) /\
  PyStr.strip ("{broken" +:+ NL) <> "" /\
  Json.loads ("{broken" +:+ NL) = None /\
  exists e, example_resume broken_log = (Raise e, broken_log).
Proof.
  set (w := broken_log).
  assert (H1 : PyStr.endswith "out.jsonl" ".jsonl" = true) by reflexivity.
  assert (H2 : files (fs w) !! Os.resolve "out.jsonl" = Some ("{broken" +:+ NL))
    by (vm_compute; reflexivity).
  assert (H3 : In ("{broken" +:+ NL) (Os.readlines ("{broken" +:+ NL)))
    by (left; reflexivity).
  assert (H4 : PyStr.strip ("{broken" +:+ NL) <> "") by (vm_compute; discriminate).
  assert (H5 : Json.loads ("{broken" +:+ NL) = None) by reflexivity.
  repeat (split; [assumption|]).
  exact (proj2 (proj2 (malformed_line_raises example_sanitize example_tasks
                         example_tasks "out.jsonl" _ _ example_model "humaneval"
                         false 2 None "default" w)) H1 H2 H3 H4 H5).
Defined.

(** C2 as stated says an unparseable line is skipped and the run goes on;
    with the one-line log ["not json"] the run ends in [JSONDecodeError]
    before anything is printed or written. *)
Lemma malformed_line_aborts :
  Json.loads ("not json" +:+ NL) = None
  /\ count_line ∅ ("not json" +:+ NL) = Raise JSONDecodeError
  /\ example_resume (start (log_fs ("not json" +:+ NL)) None)
     = (Raise JSONDecodeError, start (log_fs ("not json" +:+ NL)) None).
Proof. repeat split; vm_compute; reflexivity. Qed.

(** ** Directory creation leaves files, console and requests alone *)

Lemma only_mkdirs_refl (w : world) : only_mkdirs w w.
Proof.
  repeat split. exists []. rewrite app_nil_r. split; [reflexivity|constructor].
Qed.

Lemma only_mkdirs_trans (w1 w2 w3 : world) :
  only_mkdirs w1 w2 -> only_mkdirs w2 w3 -> only_mkdirs w1 w3.
Proof.
  intros (Hc & Hr & Hf & evs & Ht & He) (Hc' & Hr' & Hf' & evs' & Ht' & He').
  repeat split; try congruence.
  exists (evs ++ evs'). rewrite Ht', Ht, app_assoc. split; [reflexivity|].
  apply Forall_app; auto.
Qed.

Lemma tick_cases (w : world) :
  (tick w = (Raise KeyboardInterrupt, w) /\ budget w = Some O)
  \/ (exists w', tick w = (Ok tt, w') /\ fs w' = fs w /\ console w' = console w
        /\ requests w' = requests w /\ trace w' = trace w
        /\ (budget w = None -> budget w' = None)).
Proof.
  unfold tick. destruct w as [f c r t [[|n]|]]; cbn.
  - left. auto.
  - right. eexists. split; [reflexivity|]. cbn. repeat split. discriminate.
  - right. eexists. split; [reflexivity|]. cbn. repeat split.
Qed.

Lemma mkdir_only_mkdirs (q : path) (w : world) :
  only_mkdirs w (snd (Os.mkdir q w)).
Proof.
  unfold Os.mkdir, bind.
  destruct (tick_cases w) as [[-> _]|(w1 & -> & Hf & Hc & Hr & Ht & _)].
  - apply only_mkdirs_refl.
  - cbn. repeat split; try assumption; [rewrite Hf; reflexivity|].
    exists [EvMkdir q]. rewrite Ht. split; [reflexivity|]. repeat constructor.
Qed.

Lemma makedirs_go_only_mkdirs (p : string) (todo : list string) (here : path)
    (w : world) :
  only_mkdirs w (snd (Os.makedirs_go p here todo w)).
Proof.
  revert here w. induction todo as [|c todo IH]; intros here w.
  - apply only_mkdirs_refl.
  - cbn [Os.makedirs_go]. unfold bind at 1, get_fs.
    destruct (Os.isdir (fs w) (here ++ [c])); [apply IH|].
    destruct (Os.isfile (fs w) (here ++ [c])).
    + destruct todo; apply only_mkdirs_refl.
    + unfold bind. pose proof (mkdir_only_mkdirs (here ++ [c]) w) as Hm.
      destruct (Os.mkdir (here ++ [c]) w) as [[[]|e] w1]; cbn in Hm |- *.
      * eapply only_mkdirs_trans; [exact Hm|apply IH].
      * exact Hm.
Qed.

Lemma makedirs_only_mkdirs (p : string) (w : world) :
  only_mkdirs w (snd (Os.makedirs p w)).
Proof.
  unfold Os.makedirs. destruct (decide (p = "")); [apply only_mkdirs_refl|].
  apply makedirs_go_only_mkdirs.
Qed.

Lemma listdir_world (p : string) (w : world) : snd (Os.listdir p w) = w.
Proof.
  unfold Os.listdir, bind, get_fs.
  destruct (decide (p = "")); [reflexivity|].
  destruct (Os.isdir (fs w) (Os.resolve p)); [reflexivity|].
  destruct (Os.isfile (fs w) (Os.resolve p)); reflexivity.
Qed.

Lemma count_existing_only_mkdirs (target_path task_id : string)
    (m : gmap string Z) (w : world) :
  only_mkdirs w (snd (count_existing target_path task_id m w)).
Proof.
  unfold count_existing. destruct (PyStr.endswith target_path ".jsonl"); cbn [negb].
  - apply only_mkdirs_refl.
  - unfold bind at 1.
    pose proof (makedirs_only_mkdirs (Os.join target_path (p_name task_id)) w) as Hm.
    destruct (Os.makedirs _ w) as [[[]|e] w1]; cbn in Hm |- *; [|exact Hm].
    unfold bind.
    pose proof (listdir_world (Os.join target_path (p_name task_id)) w1) as Hl.
    destruct (Os.listdir _ w1) as [[names|e] w2]; cbn in Hl |- *; subst w2; exact Hm.
Qed.

(** ** Zero-deficit skip *)

Section ZeroDeficit.

Variable sanitize : string -> string -> string.

(** C5: when resuming and the count found for the task is at least
    [n_samples], the task ends normally after printing its [Codegen:] line
    with the count; the backend is not called and no file is written or
    appended to (in the directory layout the count itself goes through
    [os.makedirs], which may create the task's directory). *)
Theorem zero_deficit_skip (target_path raw_target_path : string)
    (model : DecoderBase) (greedy : bool) (n_samples : Z) (task_id : string)
    (t : task) (m m1 : gmap string Z) (w w1 : world) :
  count_existing target_path task_id m w = (Ok m1, w1) ->
  n_samples <= default 0 (m1 !! task_id) ->
  process_task sanitize target_path raw_target_path model greedy n_samples true
    task_id t m w
  = (Ok m1, printed (codegen_log model true task_id (default 0 (m1 !! task_id))) w1)
  /\ only_mkdirs w w1
  /\ (PyStr.endswith target_path ".jsonl" = true -> w1 = w /\ m1 = m).
Proof.
  intros Hc Hn. split; [|split].
  - unfold process_task, bind at 1. rewrite Hc. cbv beta iota.
    set (E := default 0 (m1 !! task_id)) in *. cbn [andb].
    unfold bind at 1. unfold codegen_log. cbn [andb]. cbn [print]. cbv beta iota.
    unfold printed, print. cbn [snd].
    assert (Hloop : forall fuel sidx w0, n_samples <= sidx ->
              generate_loop sanitize target_path raw_target_path model greedy
                n_samples task_id t fuel sidx w0 = (Ok tt, w0)).
    { intros fuel sidx w0 H. destruct fuel; cbn [generate_loop];
        (destruct (Z.ltb_spec sidx n_samples); [lia|reflexivity]). }
    unfold bind. rewrite Hloop; [reflexivity|].
    destruct (Z.ltb_spec 0 E); lia.
  - pose proof (count_existing_only_mkdirs target_path task_id m w) as H.
    rewrite Hc in H. exact H.
  - intros Hj. unfold count_existing in Hc. rewrite Hj in Hc. cbn in Hc.
    inversion Hc. auto.
Qed.

End ZeroDeficit.

Lemma zero_deficit_skip_witness :
  count_existing "out.jsonl" "suite/0" {[ "suite/0" := 2 ]} (start empty_fs None)
  = (Ok {[ "suite/0" := 2 ]}, start empty_fs None)
  /\ 2 <= default 0 (({[ "suite/0" := 2 ]} : gmap string Z) !! "suite/0")
  /\ process_task example_sanitize "out.jsonl" "out.raw.jsonl" example_model false 2
       true "suite/0" {| prompt := "def f():" +:+ NL; entry_point := "f" |}
       {[ "suite/0" := 2 ]} (start empty_fs None)
     = (Ok {[ "suite/0" := 2 ]},
        printed "Codegen: suite/0 @ example (resuming from 2)" (start empty_fs None)).
Proof.
  assert (H1 : count_existing "out.jsonl" "suite/0" {[ "suite/0" := 2 ]}
                 (start empty_fs None)
               = (Ok {[ "suite/0" := 2 ]}, start empty_fs None)) by reflexivity.
  assert (H2 : 2 <= default 0 (({[ "suite/0" := 2 ]} : gmap string Z) !! "suite/0"))
    by (vm_compute; discriminate).
  split; [exact H1|]. split; [exact H2|].
  exact (proj1 (zero_deficit_skip example_sanitize "out.jsonl" "out.raw.jsonl"
                  example_model false 2 "suite/0"
                  {| prompt := "def f():" +:+ NL; entry_point := "f" |}
                  _ _ _ _ H1 H2)).
Defined.

(** ** What the loop of one task requests and writes *)

Lemma check_writable_cases (p : string) (w : world) :
  Os.check_writable p w = (Ok tt, w)
  \/ exists e, Os.check_writable p w = (Raise e, w) /\ fs_exn e.
Proof.
  unfold Os.check_writable, bind, get_fs.
  destruct (decide (p = "")); [right; eexists; split; [reflexivity|exact I]|].
  destruct (Os.isdir (fs w) (Os.resolve p)); [right; eexists; split; [reflexivity|exact I]|].
  destruct (Os.isfile (fs w) (removelast (Os.resolve p)));
    [right; eexists; split; [reflexivity|exact I]|].
  destruct (Os.isdir (fs w) (removelast (Os.resolve p)));
    [left; reflexivity|right; eexists; split; [reflexivity|exact I]].
Qed.

(** A write either happens, leaving its event, or raises and leaves the
    files alone. *)
Lemma write_file_cases (p text : string) (w : world) :
  match Os.write_file p text w with
  | (Ok _, w') =>
      trace w' = trace w ++ [EvWrite p text] /\ requests w' = requests w
      /\ console w' = console w
  | (Raise e, w') =>
      trace w' = trace w /\ requests w' = requests w /\ console w' = console w
      /\ fs w' = fs w /\ fs_exn e
  end.
Proof.
  unfold Os.write_file, bind at 1.
  destruct (tick_cases w) as [[-> _]|(w1 & -> & Hf & Hc & Hr & Ht & _)];
    [repeat split|].
  unfold bind at 1.
  destruct (check_writable_cases p w1) as [->|(e & -> & He)].
  - cbn. rewrite Ht, Hr, Hc. auto.
  - auto.
Qed.

Lemma append_file_cases (p text : string) (w : world) :
  match Os.append_file p text w with
  | (Ok _, w') =>
      trace w' = trace w ++ [EvAppend p text] /\ requests w' = requests w
      /\ console w' = console w
  | (Raise e, w') =>
      trace w' = trace w /\ requests w' = requests w /\ console w' = console w
      /\ fs w' = fs w /\ fs_exn e
  end.
Proof.
  unfold Os.append_file, bind at 1.
  destruct (tick_cases w) as [[-> _]|(w1 & -> & Hf & Hc & Hr & Ht & _)];
    [repeat split|].
  unfold bind at 1.
  destruct (check_writable_cases p w1) as [->|(e & -> & He)].
  - cbn. rewrite Ht, Hr, Hc. auto.
  - auto.
Qed.

Section TaskLoop.

Variable sanitize : string -> string -> string.
Variable target_path raw_target_path : string.
Variable model : DecoderBase.
Variable greedy : bool.
Variable n_samples : Z.
Variable task_id : string.
Variable t : task.

Local Abbreviation write_sample' :=
  (write_sample sanitize target_path raw_target_path model task_id t).
Local Abbreviation write_outputs' :=
  (write_outputs sanitize target_path raw_target_path model task_id t).
Local Abbreviation generate_loop' :=
  (generate_loop sanitize target_path raw_target_path model greedy n_samples task_id t).
Local Abbreviation sample_events' :=
  (sample_events sanitize target_path raw_target_path model task_id t).
Local Abbreviation outputs_events' :=
  (outputs_events sanitize target_path raw_target_path model task_id t).
Local Abbreviation rounds_ok' := (rounds_ok model greedy n_samples t).

(** The second of two writes, after the first went through. *)
Ltac second_write H1 H2 :=
  destruct H1 as (Ht & Hr & Hc);
  match goal with
  | |- context [?f ?p ?x ?w1] =>
      match f with
      | Os.append_file => pose proof (append_file_cases p x w1) as H2
      | Os.write_file => pose proof (write_file_cases p x w1) as H2
      end;
      destruct (f p x w1) as [[[]|e2] w2]
  end;
  [ destruct H2 as (Ht2 & Hr2 & Hc2); repeat split; try congruence;
    eexists; rewrite Ht2, Ht, <- app_assoc; split; [reflexivity|];
    split; [reflexivity|]; split; [reflexivity|discriminate]
  | destruct H2 as (Ht2 & Hr2 & Hc2 & _ & He2); repeat split; try congruence;
    eexists; rewrite Ht2, Ht; split; [reflexivity|];
    split; [eexists [_]; reflexivity|]; split; [discriminate|];
    intros ? [= ->]; exact He2 ].

(** One sample: the events are those of [sample_events], cut short when
    a write raises. *)
Lemma write_sample_trace (sidx : Z) (impl : string) (w : world) :
  match write_sample' sidx impl w with
  | (r, w') =>
      requests w' = requests w /\ console w' = console w
      /\ exists evs, trace w' = trace w ++ evs
           /\ evs `prefix_of` sample_events' sidx impl
           /\ (r = Ok tt -> evs = sample_events' sidx impl)
           /\ (forall e, r = Raise e -> fs_exn e)
  end.
Proof.
  unfold write_sample, sample_events, sanitized_event, raw_event.
  destruct (PyStr.endswith target_path ".jsonl"); unfold bind.
  - match goal with |- context [Os.append_file ?p ?x w] =>
      pose proof (append_file_cases p x w) as H1;
      destruct (Os.append_file p x w) as [[[]|e] w1] end.
    + second_write H1 H2.
    + destruct H1 as (Ht & Hr & Hc & _ & He). repeat split; try congruence.
      exists []. rewrite app_nil_r. split; [assumption|].
      split; [apply prefix_nil|]. split; [discriminate|]. intros ? [= ->]. exact He.
  - match goal with |- context [Os.write_file ?p ?x w] =>
      pose proof (write_file_cases p x w) as H1;
      destruct (Os.write_file p x w) as [[[]|e] w1] end.
    + second_write H1 H2.
    + destruct H1 as (Ht & Hr & Hc & _ & He). repeat split; try congruence.
      exists []. rewrite app_nil_r. split; [assumption|].
      split; [apply prefix_nil|]. split; [discriminate|]. intros ? [= ->]. exact He.
Qed.

Lemma write_outputs_trace (outputs : list string) (sidx : Z) (w : world) :
  match write_outputs' outputs sidx w with
  | (r, w') =>
      requests w' = requests w /\ console w' = console w
      /\ exists evs, trace w' = trace w ++ evs
           /\ evs `prefix_of` outputs_events' outputs sidx
           /\ (forall sidx', r = Ok sidx' ->
                 sidx' = sidx + Z.of_nat (length outputs)
                 /\ evs = outputs_events' outputs sidx)
           /\ (forall e, r = Raise e -> fs_exn e)
  end.
Proof.
  revert sidx w. induction outputs as [|impl outputs IH]; intros sidx w.
  - cbn. repeat split. exists []. rewrite app_nil_r.
    split; [reflexivity|]. split; [apply prefix_nil|]. split; [|discriminate].
    intros ? [= <-]. split; [lia|reflexivity].
  - cbn [write_outputs outputs_events]. unfold bind.
    pose proof (write_sample_trace sidx impl w) as H1.
    destruct (write_sample' sidx impl w) as [[[]|e] w1].
    + destruct H1 as (Hr & Hc & evs & Ht & Hp & Hok & _). specialize (Hok eq_refl). subst evs.
      specialize (IH (sidx + 1) w1).
      destruct (write_outputs' outputs (sidx + 1) w1) as [r w2].
      destruct IH as (Hr2 & Hc2 & evs2 & Ht2 & Hp2 & Hok2 & He2).
      repeat split; try congruence.
      exists (sample_events' sidx impl ++ evs2). rewrite Ht2, Ht, app_assoc.
      split; [reflexivity|]. split; [apply prefix_app, Hp2|]. split; [|exact He2].
      intros s' Hs'. destruct (Hok2 s' Hs') as [-> ->]. split; [|reflexivity].
      cbn [length]. lia.
    + destruct H1 as (Hr & Hc & evs & Ht & Hp & _ & He).
      repeat split; try congruence.
      exists evs. split; [assumption|]. split; [apply prefix_app_r, Hp|].
      split; [discriminate|]. intros ? [= <-]. apply He. reflexivity.
Qed.

Lemma outputs_events_app (a b : list string) (sidx : Z) :
  outputs_events' (a ++ b) sidx
  = outputs_events' a sidx ++ outputs_events' b (sidx + Z.of_nat (length a)).
Proof.
  revert sidx. induction a as [|x a IH]; intros sidx.
  - cbn. f_equal. lia.
  - cbn [app outputs_events length]. rewrite IH, <- app_assoc.
    do 3 f_equal. lia.
Qed.

(** One round of the loop, spelled out. *)
Lemma generate_loop_round (fuel : nat) (sidx : Z) (w : world) :
  sidx < n_samples ->
  generate_loop' (S fuel) sidx w
  = let rq := round_request greedy n_samples t sidx in
    let w1 := {| fs := fs w; console := console w; requests := requests w ++ [rq];
                 trace := trace w; budget := budget w |} in
    match model_codegen model (requests w) rq with
    | [] => (Raise (AssertionError "No outputs from model!"), w1)
    | outputs => bind (write_outputs' outputs sidx) (generate_loop' fuel) w1
    end.
Proof.
  intros H. cbn [generate_loop]. destruct (Z.ltb_spec sidx n_samples); [|lia].
  unfold bind at 1, call_codegen. cbv zeta.
  change (the_prompt t) with (PyStr.strip (prompt t) +:+ NL).
  fold (round_request greedy n_samples t sidx).
  destruct (model_codegen model (requests w) (round_request greedy n_samples t sidx));
    reflexivity.
Qed.

Lemma generate_loop_done (fuel : nat) (sidx : Z) (w : world) :
  n_samples <= sidx -> generate_loop' fuel sidx w = (Ok tt, w).
Proof.
  intros H. destruct fuel; cbn [generate_loop];
    (destruct (Z.ltb_spec sidx n_samples); [lia|reflexivity]).
Qed.

Lemma no_rounds (sidx : Z) (w : world) :
  n_samples <= sidx ->
  console w = console w
  /\ exists rounds,
       rounds_ok' (requests w) sidx rounds
       /\ requests w = requests w ++ map fst rounds
       /\ exists evs,
            trace w = trace w ++ evs
            /\ evs `prefix_of` outputs_events' (completions rounds) sidx
            /\ (@Ok unit tt = Ok tt ->
                evs = outputs_events' (completions rounds) sidx
                /\ n_samples <= sidx + Z.of_nat (length (completions rounds))
                /\ Forall (fun rd => snd rd <> []) rounds)
            /\ (forall e, @Ok unit tt = Raise e ->
                  fs_exn e
                  \/ (e = AssertionError "No outputs from model!"
                      /\ exists rq, last rounds = Some (rq, [])))
            /\ ((exists rq, last rounds = Some (rq, [])) ->
                @Ok unit tt = Raise (AssertionError "No outputs from model!"))
.
Proof.
  intros Hge. split; [reflexivity|]. exists [].
  split; [exact I|]. split; [cbn; rewrite app_nil_r; reflexivity|].
  exists []. split; [rewrite app_nil_r; reflexivity|].
  split; [apply prefix_nil|].
  split.
  { intros _. split; [reflexivity|]. split; [cbn; lia|constructor]. }
  split; [intros e He; discriminate He|].
  intros [rq Hl]. cbn in Hl. discriminate Hl.
Qed.

(** The loop of one task, whatever the file system does: its requests
    are those of successive rounds, its events a prefix of the events of
    the completions received; it ends normally only at or above
    [n_samples], and in [AssertionError] exactly when a round got
    nothing. *)
Lemma generate_loop_rounds (fuel : nat) (sidx : Z) (w : world) :
  n_samples - sidx <= Z.of_nat fuel ->
  match generate_loop' fuel sidx w with
  | (r, w') =>
      console w' = console w
      /\ exists rounds,
           rounds_ok' (requests w) sidx rounds
           /\ requests w' = requests w ++ map fst rounds
           /\ exists evs,
                trace w' = trace w ++ evs
                /\ evs `prefix_of` outputs_events' (completions rounds) sidx
                /\ (r = Ok tt ->
                    evs = outputs_events' (completions rounds) sidx
                    /\ n_samples <= sidx + Z.of_nat (length (completions rounds))
                    /\ Forall (fun rd => snd rd <> []) rounds)
                /\ (forall e, r = Raise e ->
                      fs_exn e
                      \/ (e = AssertionError "No outputs from model!"
                          /\ exists rq, last rounds = Some (rq, [])))
                /\ ((exists rq, last rounds = Some (rq, [])) ->
                    r = Raise (AssertionError "No outputs from model!"))
  end.
Proof.
  revert sidx w. induction fuel as [|fuel IH]; intros sidx w Hfuel;
    destruct (Z.lt_ge_cases sidx n_samples) as [Hlt|Hge];
    try lia; try (rewrite generate_loop_done by exact Hge; apply no_rounds, Hge).
  (* one round *)
  rewrite generate_loop_round by exact Hlt. cbv zeta.
  set (rq := round_request greedy n_samples t sidx).
  set (w1 := {| fs := fs w; console := console w; requests := requests w ++ [rq];
                trace := trace w; budget := budget w |}).
  pose proof (eq_refl (model_codegen model (requests w) rq)) as Hout.
  revert Hout. generalize (model_codegen model (requests w) rq) at 1 3 as outputs.
  intros [|impl outputs] Hout.
  - split; [reflexivity|]. exists [(rq, [])]. cbn.
    split; [repeat split; auto|]. split; [reflexivity|].
    exists []. rewrite app_nil_r. split; [reflexivity|]. split; [apply prefix_nil|].
    split; [discriminate|]. split; [|reflexivity].
    intros e [= <-]. right. split; [reflexivity|]. eexists. reflexivity.
  - unfold bind.
    pose proof (write_outputs_trace (impl :: outputs) sidx w1) as H1.
    destruct (write_outputs' (impl :: outputs) sidx w1) as [[sidx'|e] w2].
    + destruct H1 as (Hr & Hc & evs & Ht & Hp & Hok & _).
      destruct (Hok _ eq_refl) as [-> ->]. clear Hok.
      specialize (IH (sidx + Z.of_nat (length (impl :: outputs))) w2).
      cbn [length] in IH |- *.
      destruct (generate_loop' fuel _ w2) as [r w3].
      destruct IH as (Hc3 & rounds & Hro & Hr3 & evs3 & Ht3 & Hp3 & Hok3 & He3 & Hl3); [lia|].
      split; [rewrite Hc3, Hc; reflexivity|]. exists ((rq, impl :: outputs) :: rounds).
      split.
      { cbn. repeat split; auto; [discriminate|]. rewrite Hr in Hro. exact Hro. }
      split; [rewrite Hr3, Hr; cbn; rewrite <- app_assoc; reflexivity|].
      exists (outputs_events' (impl :: outputs) sidx ++ evs3).
      unfold completions. cbn [map concat snd].
      change (concat (map snd rounds)) with (completions rounds).
      rewrite outputs_events_app. cbn [length].
      split; [rewrite Ht3, Ht, app_assoc; reflexivity|].
      split; [apply prefix_app, Hp3|].
      split.
      { intros Hr'. destruct (Hok3 Hr') as (-> & Hn & Hall).
        split; [reflexivity|]. split; [|constructor; [discriminate|exact Hall]].
        rewrite length_app. cbn [length]. lia. }
      split.
      { intros e Hr'. destruct (He3 e Hr') as [Hfs|[-> [rq' Hlast]]]; [left; exact Hfs|].
        right. split; [reflexivity|]. exists rq'.
        destruct rounds; [discriminate Hlast|exact Hlast]. }
      intros [rq' Hlast]. apply Hl3. exists rq'.
      destruct rounds; [discriminate Hlast|exact Hlast].
    + destruct H1 as (Hr & Hc & evs & Ht & Hp & _ & He).
      split; [rewrite Hc; reflexivity|]. exists [(rq, impl :: outputs)].
      split; [cbn; repeat split; auto; discriminate|].
      split; [rewrite Hr; reflexivity|].
      exists evs. unfold completions. cbn [map concat snd]. rewrite app_nil_r.
      split; [rewrite Ht; reflexivity|]. split; [exact Hp|].
      split; [discriminate|]. split; [|intros [? [=]]].
      intros e' [= <-]. left. apply He. reflexivity.
Qed.

(** *** The loop as the writes it performs *)

Lemma asked_nil (w : world) : asked [] w = w.
Proof. destruct w. unfold asked. cbn. rewrite app_nil_r. reflexivity. Qed.

Lemma asked_cons (rq : request) (rqs : list request) (w : world) :
  asked (rq :: rqs) w = asked rqs (asked [rq] w).
Proof. unfold asked. cbn. rewrite <- app_assoc. reflexivity. Qed.

(** File operations do not look at the requests on record. *)
Lemma perform_asked (ev : fs_event) (rqs : list request) (w : world) :
  perform ev (asked rqs w)
  = (fst (perform ev w), asked rqs (snd (perform ev w))).
Proof.
  destruct w as [f c r tr b].
  destruct ev as [q|p text|p text]; unfold perform;
    unfold Os.mkdir, Os.write_file, Os.append_file, Os.check_writable, bind, tick,
      get_fs, put_fs, ret, raise, asked; cbn;
    destruct b as [[|n]|]; cbn; try reflexivity;
    repeat (match goal with
            | |- context [decide ?P] => destruct (decide P)
            | |- context [Os.isdir ?f ?q] => destruct (Os.isdir f q)
            | |- context [Os.isfile ?f ?q] => destruct (Os.isfile f q)
            end; cbn; try reflexivity).
Qed.

Lemma perform_all_asked (evs : list fs_event) (rqs : list request) (w : world) :
  perform_all evs (asked rqs w)
  = (fst (perform_all evs w), asked rqs (snd (perform_all evs w))).
Proof.
  revert w. induction evs as [|ev evs IH]; intros w; [reflexivity|].
  cbn [perform_all]. unfold bind. rewrite perform_asked.
  destruct (perform ev w) as [[[]|e] w1]; cbn [fst snd]; [apply IH|reflexivity].
Qed.

Lemma perform_all_app (a b : list fs_event) (w : world) :
  perform_all (a ++ b) w = bind (perform_all a) (fun _ => perform_all b) w.
Proof.
  revert w. induction a as [|ev a IH]; intros w; [reflexivity|].
  cbn [app perform_all]. unfold bind in *.
  destruct (perform ev w) as [[[]|e] w1]; [apply IH|reflexivity].
Qed.

(** File operations print nothing and ask the backend nothing. *)
Lemma perform_all_quiet (evs : list fs_event) (w : world) :
  requests (snd (perform_all evs w)) = requests w
  /\ console (snd (perform_all evs w)) = console w.
Proof.
  revert w. induction evs as [|ev evs IH]; intros w; [split; reflexivity|].
  cbn [perform_all]. unfold bind.
  assert (H : requests (snd (perform ev w)) = requests w
              /\ console (snd (perform ev w)) = console w).
  { destruct w as [f c r tr b].
    destruct ev as [q|p text|p text]; unfold perform;
      unfold Os.mkdir, Os.write_file, Os.append_file, Os.check_writable, bind, tick,
        get_fs, put_fs, ret, raise; cbn;
      destruct b as [[|n]|]; cbn; try (split; reflexivity);
      repeat (match goal with
              | |- context [decide ?P] => destruct (decide P)
              | |- context [Os.isdir ?f ?q] => destruct (Os.isdir f q)
              | |- context [Os.isfile ?f ?q] => destruct (Os.isfile f q)
              end; cbn; try (split; reflexivity)). }
  destruct (perform ev w) as [[[]|e] w1]; cbn [snd] in *; [|exact H].
  destruct (IH w1) as [Hr Hc]. split; [rewrite Hr|rewrite Hc]; apply H.
Qed.

(** Writing one sample is performing its two events. *)
Lemma write_sample_perform (sidx : Z) (impl : string) (w : world) :
  write_sample' sidx impl w = perform_all (sample_events' sidx impl) w.
Proof.
  unfold write_sample, sample_events, sanitized_event, raw_event.
  destruct (PyStr.endswith target_path ".jsonl"); cbn [perform_all perform];
    unfold bind;
    match goal with
    | |- context [?op ?p ?x w] =>
        match op with
        | Os.append_file => destruct (Os.append_file p x w) as [[[]|e] w1]
        | Os.write_file => destruct (Os.write_file p x w) as [[[]|e] w1]
        end
    end; try reflexivity;
    match goal with
    | |- context [?op ?p ?x ?w0] =>
        match op with
        | Os.append_file => destruct (Os.append_file p x w0) as [[[]|e] w2]
        | Os.write_file => destruct (Os.write_file p x w0) as [[[]|e] w2]
        end
    end; reflexivity.
Qed.

(** Writing the completions of a round is performing their events. *)
Lemma write_outputs_perform (outputs : list string) (sidx : Z) (w : world) :
  perform_all (outputs_events' outputs sidx) w
  = (match fst (write_outputs' outputs sidx w) with
     | Ok _ => Ok tt
     | Raise e => Raise e
     end, snd (write_outputs' outputs sidx w)).
Proof.
  revert sidx w. induction outputs as [|impl outputs IH]; intros sidx w;
    [reflexivity|].
  cbn [write_outputs outputs_events]. rewrite perform_all_app. unfold bind.
  rewrite <- write_sample_perform.
  destruct (write_sample' sidx impl w) as [[[]|e] w1]; [apply IH|reflexivity].
Qed.

Lemma got_nothing_cons (rq : request) (outputs : list string)
    (rounds : list (request * list string)) :
  outputs <> [] -> got_nothing ((rq, outputs) :: rounds) = got_nothing rounds.
Proof.
  intros Hne. unfold got_nothing. destruct rounds as [|rd rounds].
  - cbn. destruct outputs; [congruence|reflexivity].
  - rewrite last_cons_cons. reflexivity.
Qed.

(** The loop of one task as what it asks and what it writes. *)
Lemma generate_loop_performs (fuel : nat) (sidx : Z) (w : world) :
  n_samples - sidx <= Z.of_nat fuel ->
  loop_outcome sanitize target_path raw_target_path model greedy n_samples
    task_id t sidx w (generate_loop' fuel sidx w).
Proof.
  unfold loop_outcome. cbv zeta.
  revert sidx w. induction fuel as [|fuel IH]; intros sidx w Hfuel;
    destruct (Z.lt_ge_cases sidx n_samples) as [Hlt|Hge]; try lia;
    try (rewrite generate_loop_done by exact Hge; exists []; cbn;
         rewrite asked_nil, app_nil_r; repeat split; auto; lia).
  rewrite generate_loop_round by exact Hlt. cbv zeta.
  set (rq := round_request greedy n_samples t sidx).
  change {| fs := fs w; console := console w; requests := requests w ++ [rq];
            trace := trace w; budget := budget w |} with (asked [rq] w).
  destruct (model_codegen model (requests w) rq) as [|impl outputs] eqn:Hout.
  - exists [(rq, [])]. cbn. repeat split; auto. discriminate.
  - set (outs := impl :: outputs) in *.
    assert (Hne : outs <> []) by discriminate.
    pose proof (write_outputs_trace outs sidx (asked [rq] w)) as Htr.
    pose proof (write_outputs_perform outs sidx (asked [rq] w)) as Hpf.
    unfold bind.
    destruct (write_outputs' outs sidx (asked [rq] w)) as [[sidx'|e] w2].
    + destruct Htr as (Hr & Hc & evs & _ & _ & Hok & _).
      destruct (Hok _ eq_refl) as [-> _]. clear Hok. cbn [fst snd] in Hpf.
      destruct (IH (sidx + Z.of_nat (length outs)) w2) as
        (rounds & Hro & Hw & Hres & Hbefore & Hn & Hrq & Hcon);
        [subst outs; cbn [length]; lia|].
      exists ((rq, outs) :: rounds).
      assert (Hwritten :
                perform_all
                  (outputs_events' (completions ((rq, outs) :: rounds)) sidx)
                  (asked (map fst ((rq, outs) :: rounds)) w)
                = perform_all
                    (outputs_events' (completions rounds)
                       (sidx + Z.of_nat (length outs)))
                    (asked (map fst rounds) w2)).
      { unfold completions. cbn [map concat fst snd].
        rewrite outputs_events_app, perform_all_app, asked_cons. unfold bind.
        rewrite perform_all_asked, Hpf. reflexivity. }
      rewrite Hwritten. split.
      { cbn [rounds_ok]. split; [exact Hlt|]. split; [reflexivity|].
        split; [symmetry; exact Hout|]. split; [intros E; contradiction|].
        cbn in Hr. rewrite Hr in Hro. exact Hro. }
      split; [exact Hw|]. split; [rewrite got_nothing_cons by exact Hne; exact Hres|].
      split.
      { destruct rounds as [|rd rounds]; [reflexivity|].
        change (removelast ((rq, outs) :: rd :: rounds))
          with ((rq, outs) :: removelast (rd :: rounds)).
        unfold completions. cbn [map concat fst snd].
        change (concat (map snd (removelast (rd :: rounds))))
          with (completions (removelast (rd :: rounds))).
        rewrite outputs_events_app, perform_all_app. unfold bind.
        rewrite perform_all_asked in Hpf.
        destruct (perform_all (outputs_events' outs sidx) w) as [[[]|e] w2'];
          cbn [fst snd] in Hpf; [|discriminate Hpf].
        injection Hpf as <-. rewrite perform_all_asked in Hbefore. exact Hbefore. }
      split.
      { intros Hok. specialize (Hn Hok). unfold completions. cbn [map concat snd].
        change (concat (map snd rounds)) with (completions rounds).
        rewrite length_app. lia. }
      split; [|rewrite Hcon, Hc; reflexivity].
      rewrite Hrq, Hr. cbn. rewrite <- app_assoc. reflexivity.
    + destruct Htr as (Hr & Hc & _). cbn [fst snd] in Hpf.
      exists [(rq, outs)]. unfold completions. cbn [map concat fst snd].
      rewrite app_nil_r, Hpf. cbn [fst snd removelast perform_all ret].
      repeat split; auto; discriminate.
Qed.

End TaskLoop.

(** ** One task *)

Section OneTask.

Variable sanitize : string -> string -> string.
Variable target_path raw_target_path : string.
Variable model : DecoderBase.
Variable greedy : bool.
Variable n_samples : Z.
Variable resume : bool.
Variable task_id : string.
Variable t : task.

Local Abbreviation process_task' :=
  (process_task sanitize target_path raw_target_path model greedy n_samples resume
     task_id t).
Local Abbreviation generate_loop' :=
  (generate_loop sanitize target_path raw_target_path model greedy n_samples task_id t).
Local Abbreviation outputs_events' :=
  (outputs_events sanitize target_path raw_target_path model task_id t).

(** The body of the loop over tasks: count, print, generate. *)
Lemma process_task_unfold (m : gmap string Z) (w : world) :
  process_task' m w
  = match count_existing target_path task_id m w with
    | (Raise e, w1) => (Raise e, w1)
    | (Ok m1, w1) =>
        let nexist := default 0 (m1 !! task_id) in
        let sidx := start_index resume n_samples nexist in
        match generate_loop' (Z.to_nat (n_samples - sidx)) sidx
                (printed (codegen_log model resume task_id nexist) w1) with
        | (Ok _, w') => (Ok m1, w')
        | (Raise e, w') => (Raise e, w')
        end
    end.
Proof.
  unfold process_task, bind at 1.
  destruct (count_existing target_path task_id m w) as [[m1|e] w1]; [|reflexivity].
  cbv zeta. unfold bind at 1. unfold print at 1. cbv beta iota.
  unfold bind. unfold start_index, codegen_log, printed, print. cbn [snd].
  destruct (generate_loop' _ _ _) as [[[]|e] w']; reflexivity.
Qed.

Lemma start_index_spec (nexist : Z) :
  start_index resume n_samples nexist
  = if resume && (0 <? nexist) then nexist else 0.
Proof. unfold start_index. destruct (resume && (0 <? nexist)); lia. Qed.

Lemma startswith_app (p s : string) : PyStr.startswith p (p +:+ s) = true.
Proof.
  induction p as [|c p IH]; [reflexivity|]. rewrite app_cons. cbn.
  destruct (ascii_dec c c); [exact IH|congruence].
Qed.

(** C10: every request a task's loop sends carries the stripped prompt
    plus one newline; the loop's mutations are (a prefix of) the events of
    writing the completions received, whose raw text is [solution_of];
    and for a backend that returns only the continuation that raw text is
    the normalized prompt followed by the completion. *)
Theorem prompt_normalized (m : gmap string Z) (w : world) :
  (exists reqs,
     requests (snd (process_task' m w)) = requests w ++ reqs
     /\ Forall (fun rq => req_prompt rq = PyStr.strip (prompt t) +:+ NL) reqs)
  /\ (exists dirs_made sidx impls evs,
        trace (snd (process_task' m w)) = trace w ++ dirs_made ++ evs
        /\ Forall is_mkdir dirs_made
        /\ evs `prefix_of` outputs_events' impls sidx)
  /\ (is_direct_completion model = true ->
      forall impl,
        solution_of model t impl = (PyStr.strip (prompt t) +:+ NL) +:+ impl
        /\ PyStr.startswith (PyStr.strip (prompt t) +:+ NL) (solution_of model t impl)
           = true).
Proof.
  assert (Hsol : is_direct_completion model = true ->
            forall impl,
              solution_of model t impl = (PyStr.strip (prompt t) +:+ NL) +:+ impl
              /\ PyStr.startswith (PyStr.strip (prompt t) +:+ NL)
                   (solution_of model t impl) = true).
  { intros Hd impl. unfold solution_of, the_prompt. rewrite Hd.
    split; [reflexivity|apply startswith_app]. }
  rewrite process_task_unfold.
  pose proof (count_existing_only_mkdirs target_path task_id m w) as Hm.
  destruct (count_existing target_path task_id m w) as [[m1|e] w1]; cbn [snd] in Hm;
    destruct Hm as (Hc & Hr & Hf & dirs_made & Ht & Hd).
  - cbv zeta.
    set (sidx := start_index resume n_samples (default 0 (m1 !! task_id))).
    set (w2 := printed _ w1).
    pose proof (generate_loop_rounds sanitize target_path raw_target_path model
                  greedy n_samples task_id t (Z.to_nat (n_samples - sidx)) sidx w2)
      as Hloop.
    destruct (generate_loop' _ sidx w2) as [r w'].
    destruct Hloop as (_ & rounds & Hro & Hreq & evs & Htr & Hp & _); [lia|].
    assert (Hw' : requests w' = requests w ++ map fst rounds
                  /\ trace w' = trace w ++ dirs_made ++ evs).
    { split; [rewrite Hreq; cbn; rewrite Hr; reflexivity|].
      rewrite Htr. cbn. rewrite Ht, app_assoc. reflexivity. }
    assert (Hprompts : Forall (fun rq => req_prompt rq = PyStr.strip (prompt t) +:+ NL)
                         (map fst rounds)).
    { clear - Hro. revert Hro. generalize (requests w2) as h. generalize sidx as s.
      induction rounds as [|[rq outs] rounds IH]; intros s h H; [constructor|].
      cbn in H |- *. destruct H as (_ & -> & _ & _ & H). constructor; [reflexivity|].
      eapply IH, H. }
    destruct Hw' as [Hw1 Hw2].
    destruct r as [[]|e]; cbn [snd]; (split; [eauto|]); (split; [|exact Hsol]);
      exists dirs_made, sidx, (completions rounds), evs; auto.
  - cbn [snd]. split; [exists []; rewrite app_nil_r; split; [exact Hr|constructor]|].
    split; [|exact Hsol].
    exists dirs_made, 0, [], []. rewrite app_nil_r.
    split; [exact Ht|]. split; [exact Hd|apply prefix_nil].
Qed.

End OneTask.

(** The prompt of the second example task is not sent verbatim. *)
Example prompt_not_verbatim :
  requests (snd (process_task example_sanitize "out.jsonl" "out.raw.jsonl"
                   example_model false 1 true "suite/1"
                   {| prompt := "  def g():" +:+ NL +:+ NL; entry_point := "g" |}
                   ∅ (start empty_fs None)))
  = [{| req_prompt := "def g():" +:+ NL; req_do_sample := true;
        req_num_samples := 1 |}].
Proof. vm_compute. reflexivity. Qed.

(** ** The loop of one task under an invariant of the output location *)

Section LoopInvariant.

Variable sanitize : string -> string -> string.
Variable target_path raw_target_path : string.
Variable model : DecoderBase.
Variable greedy : bool.
Variable n_samples : Z.
Variable task_id : string.
Variable t : task.

Local Abbreviation write_sample' :=
  (write_sample sanitize target_path raw_target_path model task_id t).
Local Abbreviation write_outputs' :=
  (write_outputs sanitize target_path raw_target_path model task_id t).
Local Abbreviation generate_loop' :=
  (generate_loop sanitize target_path raw_target_path model greedy n_samples task_id t).

(** [Inv k w]: in [w] the output location holds [k] samples of the task,
    so [k] is the next write index. *)
Variable Inv : Z -> world -> Prop.

Hypothesis Inv_requested : forall k w rq, Inv k w -> Inv k (requested rq w).

(** A sample written moves the count up by one; a write that raises
    leaves it or moves it up by one. *)
Hypothesis Inv_write_sample : forall k impl w,
  Inv k w ->
  match write_sample' k impl w with
  | (Ok _, w') => Inv (k + 1) w'
  | (Raise _, w') => Inv k w' \/ Inv (k + 1) w'
  end.

Lemma write_outputs_inv (outputs : list string) (k : Z) (w : world) :
  Inv k w ->
  match write_outputs' outputs k w with
  | (Ok k', w') => k' = k + Z.of_nat (length outputs) /\ Inv k' w'
  | (Raise _, w') => exists j, 0 <= j <= Z.of_nat (length outputs) /\ Inv (k + j) w'
  end.
Proof.
  revert k w. induction outputs as [|impl outputs IH]; intros k w HI.
  - cbn. split; [lia|exact HI].
  - cbn [write_outputs length]. unfold bind.
    pose proof (Inv_write_sample k impl w HI) as H1.
    destruct (write_sample' k impl w) as [[[]|e] w1].
    + specialize (IH (k + 1) w1 H1).
      destruct (write_outputs' outputs (k + 1) w1) as [[k'|e] w2].
      * destruct IH as [-> HI']. split; [lia|exact HI'].
      * destruct IH as (j & Hj & HI'). exists (j + 1).
        split; [lia|]. replace (k + (j + 1)) with (k + 1 + j) by lia. exact HI'.
    + destruct H1 as [H1|H1].
      * exists 0. split; [lia|]. replace (k + 0) with k by lia. exact H1.
      * exists 1. split; [lia|exact H1].
Qed.

(** With a backend that never returns more than requested, the loop
    leaves a count between where it started and [n_samples], and exactly
    [n_samples] when it ends normally. *)
Lemma generate_loop_inv (fuel : nat) (sidx : Z) (w : world) :
  returns_at_most_requested model ->
  n_samples - sidx <= Z.of_nat fuel ->
  Inv sidx w ->
  match generate_loop' fuel sidx w with
  | (r, w') =>
      exists k, Inv k w' /\ sidx <= k <= Z.max sidx n_samples
                /\ (r = Ok tt -> k = Z.max sidx n_samples)
  end.
Proof.
  intros Hmost. revert sidx w. induction fuel as [|fuel IH]; intros sidx w Hfuel HI;
    destruct (Z.lt_ge_cases sidx n_samples) as [Hlt|Hge]; try lia;
    try (rewrite generate_loop_done by exact Hge; exists sidx; split; [exact HI|lia]).
  rewrite generate_loop_round by exact Hlt. cbv zeta.
  set (rq := round_request greedy n_samples t sidx).
  fold (requested rq w).
  pose proof (Hmost (requests w) rq) as Hlen. cbn in Hlen.
  destruct (model_codegen model (requests w) rq) as [|impl outputs] eqn:Hout.
  - exists sidx. split; [apply Inv_requested, HI|]. split; [lia|discriminate].
  - unfold bind.
    pose proof (write_outputs_inv (impl :: outputs) sidx (requested rq w)
                  (Inv_requested _ _ _ HI)) as H1.
    destruct (write_outputs' (impl :: outputs) sidx (requested rq w)) as [[k'|e] w1].
    + destruct H1 as [-> H1]. cbn [length] in *.
      assert (Hfuel' : n_samples - (sidx + Z.of_nat (S (length outputs)))
                       <= Z.of_nat fuel) by lia.
      specialize (IH _ w1 Hfuel' H1).
      destruct (generate_loop' fuel _ w1) as [r w2].
      destruct IH as (k & HIk & Hk & Hok). exists k. split; [exact HIk|].
      split; [lia|]. intros Hr. rewrite (Hok Hr). lia.
    + destruct H1 as (j & Hj & H1). exists (sidx + j). split; [exact H1|].
      cbn [length] in *. split; [lia|discriminate].
Qed.

(** When nothing interrupts the run and every write goes through, a
    backend that returns something each round brings the loop to a normal
    end. *)
Hypothesis Inv_write_ok : forall k impl w,
  Inv k w -> budget w = None ->
  exists w', write_sample' k impl w = (Ok tt, w') /\ budget w' = None.

Lemma write_outputs_ok (outputs : list string) (k : Z) (w : world) :
  Inv k w -> budget w = None ->
  exists w', write_outputs' outputs k w = (Ok (k + Z.of_nat (length outputs)), w')
             /\ budget w' = None /\ Inv (k + Z.of_nat (length outputs)) w'.
Proof.
  revert k w. induction outputs as [|impl outputs IH]; intros k w HI Hb.
  - exists w. cbn [length write_outputs]. replace (k + Z.of_nat 0) with k by lia.
    split; [reflexivity|]. split; assumption.
  - cbn [write_outputs length]. unfold bind.
    destruct (Inv_write_ok k impl w HI Hb) as (w1 & E & Hb1).
    pose proof (Inv_write_sample k impl w HI) as H1. rewrite E in H1 |- *.
    destruct (IH (k + 1) w1 H1 Hb1) as (w2 & E2 & Hb2 & HI2).
    exists w2. rewrite E2.
    replace (k + Z.of_nat (S (length outputs))) with (k + 1 + Z.of_nat (length outputs))
      by lia.
    split; [reflexivity|]. split; assumption.
Qed.

Lemma generate_loop_ok (fuel : nat) (sidx : Z) (w : world) :
  returns_something model ->
  n_samples - sidx <= Z.of_nat fuel ->
  Inv sidx w -> budget w = None ->
  exists w', generate_loop' fuel sidx w = (Ok tt, w') /\ budget w' = None.
Proof.
  intros Hsome. revert sidx w. induction fuel as [|fuel IH]; intros sidx w Hfuel HI Hb;
    destruct (Z.lt_ge_cases sidx n_samples) as [Hlt|Hge]; try lia;
    try (rewrite generate_loop_done by exact Hge; exists w; auto).
  rewrite generate_loop_round by exact Hlt. cbv zeta.
  set (rq := round_request greedy n_samples t sidx).
  fold (requested rq w).
  pose proof (Hsome (requests w) rq) as Hne. cbn in Hne.
  destruct (model_codegen model (requests w) rq) as [|impl outputs] eqn:Hout;
    [exfalso; apply Hne; [lia|reflexivity]|].
  unfold bind.
  destruct (write_outputs_ok (impl :: outputs) sidx (requested rq w)
              (Inv_requested _ _ _ HI) Hb) as (w1 & E & Hb1 & HI1).
  rewrite E. apply IH; [cbn [length]; lia|exact HI1|exact Hb1].
Qed.

End LoopInvariant.

(** ** Writing files *)

Lemma check_writable_ok (p : string) (w : world) :
  writable (fs w) p -> Os.check_writable p w = (Ok tt, w).
Proof.
  intros (Hp & Hd & Hf & Hpd). unfold Os.check_writable, bind, get_fs.
  destruct (decide (p = "")); [contradiction|]. rewrite Hd, Hf, Hpd. reflexivity.
Qed.

(** The world after a file of path [q] received the text [text]. *)
Lemma append_file_spec (p text : string) (w : world) :
  writable (fs w) p ->
  (budget w = Some O /\ Os.append_file p text w = (Raise KeyboardInterrupt, w))
  \/ (exists w',
        Os.append_file p text w = (Ok tt, w')
        /\ dirs (fs w') = dirs (fs w)
        /\ files (fs w')
           = <[Os.resolve p := default "" (files (fs w) !! Os.resolve p) +:+ text]>
               (files (fs w))
        /\ (budget w = None -> budget w' = None)).
Proof.
  intros Hw. unfold Os.append_file.
  destruct (tick_cases w) as [[E Hb]|(w1 & E & Hf & Hc & Hr & Ht & Hb)];
    [left; unfold bind; rewrite E; auto|].
  right. unfold bind at 1. rewrite E. cbv beta iota. unfold bind at 1.
  rewrite check_writable_ok by (rewrite Hf; exact Hw).
  unfold bind, get_fs, put_fs. eexists. split; [reflexivity|]. cbn. rewrite Hf. auto.
Qed.

Lemma write_file_spec (p text : string) (w : world) :
  writable (fs w) p ->
  (budget w = Some O /\ Os.write_file p text w = (Raise KeyboardInterrupt, w))
  \/ (exists w',
        Os.write_file p text w = (Ok tt, w')
        /\ dirs (fs w') = dirs (fs w)
        /\ files (fs w') = <[Os.resolve p := text]> (files (fs w))
        /\ (budget w = None -> budget w' = None)).
Proof.
  intros Hw. unfold Os.write_file.
  destruct (tick_cases w) as [[E Hb]|(w1 & E & Hf & Hc & Hr & Ht & Hb)];
    [left; unfold bind; rewrite E; auto|].
  right. unfold bind at 1. rewrite E. cbv beta iota. unfold bind at 1.
  rewrite check_writable_ok by (rewrite Hf; exact Hw).
  unfold bind, get_fs, put_fs. eexists. split; [reflexivity|]. cbn. rewrite Hf. auto.
Qed.

Lemma isdir_dirs (f f' : filesystem) (q : path) :
  dirs f' = dirs f -> Os.isdir f' q = Os.isdir f q.
Proof. intros H. unfold Os.isdir. rewrite H. reflexivity. Qed.

(** Writing one writable file leaves another writable. *)
Lemma writable_after_write (f f' : filesystem) (p p' text : string) :
  writable f p -> writable f p' ->
  dirs f' = dirs f -> files f' = <[Os.resolve p' := text]> (files f) ->
  writable f' p.
Proof.
  intros (Hp & Hd & Hf & Hpd) (_ & Hd' & _ & _) Hdirs Hfiles.
  split; [exact Hp|]. rewrite !(isdir_dirs f f') by exact Hdirs.
  split; [exact Hd|]. split; [|exact Hpd].
  unfold Os.isfile in *. rewrite Hfiles.
  destruct (decide (Os.resolve p' = removelast (Os.resolve p))) as [E|Hne].
  - rewrite E in Hd'. congruence.
  - rewrite lookup_insert_ne by exact Hne. exact Hf.
Qed.

(** ** Reading a log back *)

Lemma all_chars_app (P : ascii -> bool) (a b : string) :
  all_chars P (a +:+ b) = all_chars P a && all_chars P b.
Proof.
  induction a as [|c a IH]; [reflexivity|].
  rewrite app_cons. cbn. rewrite IH. apply andb_assoc.
Qed.

Lemma escape_char_plain (c : ascii) : all_chars plain (Json.escape_char c) = true.
Proof. destruct c as [[] [] [] [] [] [] [] []]; vm_compute; reflexivity. Qed.

Lemma escape_plain (s : string) : all_chars plain (Json.escape s) = true.
Proof.
  induction s as [|c s IH]; [reflexivity|].
  cbn [Json.escape]. rewrite all_chars_app, escape_char_plain, IH. reflexivity.
Qed.

Lemma dumps_record_plain (task_id solution : string) :
  all_chars plain (Json.dumps_record task_id solution) = true.
Proof.
  unfold Json.dumps_record, Json.dumps_str.
  rewrite !all_chars_app, !escape_plain. reflexivity.
Qed.

Lemma readlines_go_plain (body rest cur : string) :
  all_chars plain body = true ->
  Os.readlines_go cur (body +:+ String Os.LF rest)
  = String.rev (String Os.LF (String.rev_app body cur)) :: Os.readlines_go "" rest.
Proof.
  revert cur. induction body as [|c body IH]; intros cur H.
  - rewrite app_empty_l. cbn [Os.readlines_go String.rev_app].
    destruct (ascii_dec Os.LF Os.LF); [reflexivity|congruence].
  - cbn in H. apply andb_prop in H as [Hc Hb]. rewrite app_cons.
    cbn [Os.readlines_go String.rev_app].
    unfold plain in Hc. apply andb_prop in Hc as [H1 H2].
    apply negb_true_iff, bool_decide_eq_false in H1, H2.
    destruct (ascii_dec c Os.LF); [contradiction|].
    destruct (ascii_dec c Os.CR); [contradiction|]. apply IH, Hb.
Qed.

Lemma rev_line (body : string) :
  String.rev (String Os.LF (String.rev_app body "")) = body +:+ NL.
Proof.
  unfold String.rev. cbn [String.rev_app]. rewrite rev_app_app. reflexivity.
Qed.

(** The lines of a log are its records. *)
Lemma readlines_log_text (recs : list (string * string)) :
  Os.readlines (log_text recs) = map record_line recs.
Proof.
  unfold Os.readlines. induction recs as [|r recs IH]; [reflexivity|].
  cbn [log_text map]. unfold record_line at 1, NL.
  rewrite app_assoc_str, app_cons, app_empty_l.
  rewrite readlines_go_plain by apply dumps_record_plain.
  rewrite rev_line, IH. reflexivity.
Qed.

Lemma log_text_app (a b : list (string * string)) :
  log_text (a ++ b) = log_text a +:+ log_text b.
Proof.
  induction a as [|r a IH]; [reflexivity|].
  cbn [app log_text]. rewrite IH, app_assoc_str. reflexivity.
Qed.

Lemma count_id_app (task_id : string) (a b : list (string * string)) :
  count_id task_id (a ++ b) = count_id task_id a + count_id task_id b.
Proof. unfold count_id. rewrite filter_app, length_app. lia. Qed.

Lemma count_id_one (task_id id solution : string) :
  count_id task_id [(id, solution)] = if decide (id = task_id) then 1 else 0.
Proof.
  unfold count_id. cbn. destruct (decide (id = task_id)); reflexivity.
Qed.

Lemma count_id_nonneg (task_id : string) (recs : list (string * string)) :
  0 <= count_id task_id recs.
Proof. unfold count_id. lia. Qed.

(** Counting the lines of a log adds, for every task, the number of its
    records. *)
Lemma count_lines_records (recs : list (string * string)) (m : gmap string Z) :
  exists m',
    count_lines m (map record_line recs) = Ok m'
    /\ forall task_id,
         default 0 (m' !! task_id) = default 0 (m !! task_id) + count_id task_id recs.
Proof.
  revert m. induction recs as [|[id sol] recs IH]; intros m.
  - exists m. split; [reflexivity|]. intros. unfold count_id. cbn. lia.
  - cbn [map count_lines]. unfold record_line at 1. cbn [fst snd].
    rewrite count_line_record.
    destruct (IH (<[id := default 0 (m !! id) + 1]> m)) as (m' & E & Hm').
    exists m'. split; [exact E|]. intros task_id. rewrite Hm'.
    change ((id, sol) :: recs) with ([(id, sol)] ++ recs).
    rewrite count_id_app, count_id_one.
    destruct (decide (id = task_id)) as [->|Hne].
    + rewrite lookup_insert_eq. cbn. lia.
    + rewrite lookup_insert_ne by exact Hne. lia.
Qed.

Lemma log_text_empty (recs : list (string * string)) :
  log_text recs = "" -> recs = [].
Proof.
  destruct recs as [|r recs]; [reflexivity|]. cbn [log_text].
  unfold record_line, Json.dumps_record. rewrite !app_assoc_str, app_cons. discriminate.
Qed.

(** The resume scan of a well-formed log reports each task's number of
    records, and changes nothing. *)
Lemma resume_scan_log (target_path raw_target_path : string)
    (recs : list (string * string)) (w : world) :
  PyStr.endswith target_path ".jsonl" = true ->
  log_state target_path raw_target_path recs w ->
  exists m,
    resume_scan target_path true w = (Ok m, w)
    /\ forall task_id, default 0 (m !! task_id) = count_id task_id recs.
Proof.
  intros Hj (Hlog & _). unfold resume_scan. rewrite Hj. cbn [andb].
  unfold bind, Os.path_isfile, bind, get_fs, ret, Os.isfile.
  destruct (files (fs w) !! Os.resolve target_path) as [content|] eqn:E.
  - rewrite bool_decide_eq_true_2 by eauto. unfold scan_log, bind, get_fs.
    rewrite E. cbn in Hlog. subst content. rewrite readlines_log_text.
    destruct (count_lines_records recs ∅) as (m & -> & Hm).
    exists m. split; [reflexivity|]. intros id. rewrite Hm, lookup_empty. cbn. lia.
  - rewrite bool_decide_eq_false_2 by (intros [? [=]]).
    exists ∅. split; [reflexivity|]. intros id. rewrite lookup_empty.
    cbn in Hlog. symmetry in Hlog. apply log_text_empty in Hlog. subst recs. reflexivity.
Qed.

(** ** The log layout: one sample *)

Section LogLayout.

Variable sanitize : string -> string -> string.
Variable target_path raw_target_path : string.
Variable model : DecoderBase.
Variable task_id : string.
Variable t : task.

Hypothesis is_log : PyStr.endswith target_path ".jsonl" = true.

Local Abbreviation write_sample' :=
  (write_sample sanitize target_path raw_target_path model task_id t).
Local Abbreviation log_state' := (log_state target_path raw_target_path).

Lemma log_state_fs (recs : list (string * string)) (w w' : world) :
  fs w' = fs w -> log_state' recs w -> log_state' recs w'.
Proof. intros E. unfold log_state. rewrite E. auto. Qed.

(** Appending a record to the log. *)
Lemma log_state_append (recs : list (string * string)) (r : string * string)
    (w w' : world) :
  log_state' recs w ->
  dirs (fs w') = dirs (fs w) ->
  files (fs w')
  = <[Os.resolve target_path :=
        default "" (files (fs w) !! Os.resolve target_path) +:+ record_line r]>
      (files (fs w)) ->
  log_state' (recs ++ [r]) w'.
Proof.
  intros (Hlog & Hwt & Hwr & Hne) Hd Hf. split; [|split; [|split; [|exact Hne]]].
  - rewrite Hf, lookup_insert_eq. cbn. rewrite Hlog, log_text_app. cbn [log_text].
    rewrite app_empty_r. reflexivity.
  - exact (writable_after_write _ _ _ _ _ Hwt Hwt Hd Hf).
  - exact (writable_after_write _ _ _ _ _ Hwr Hwt Hd Hf).
Qed.

(** Appending to the raw log. *)
Lemma log_state_append_raw (recs : list (string * string)) (text : string)
    (w w' : world) :
  log_state' recs w ->
  dirs (fs w') = dirs (fs w) ->
  files (fs w') = <[Os.resolve raw_target_path := text]> (files (fs w)) ->
  log_state' recs w'.
Proof.
  intros (Hlog & Hwt & Hwr & Hne) Hd Hf. split; [|split; [|split; [|exact Hne]]].
  - rewrite Hf, lookup_insert_ne by exact Hne. exact Hlog.
  - exact (writable_after_write _ _ _ _ _ Hwt Hwr Hd Hf).
  - exact (writable_after_write _ _ _ _ _ Hwr Hwr Hd Hf).
Qed.

(** One sample in the log layout: either the run is interrupted in front
    of the first append, or the record is in the log and the run is
    interrupted in front of the second, or both appends happen. *)
Lemma write_sample_log (recs : list (string * string)) (sidx : Z) (impl : string)
    (w : world) :
  log_state' recs w ->
  let r := (task_id, sanitize (solution_of model t impl) (entry_point t)) in
  match write_sample' sidx impl w with
  | (Ok _, w') => log_state' (recs ++ [r]) w' /\ (budget w = None -> budget w' = None)
  | (Raise e, w') =>
      budget w <> None
      /\ (log_state' recs w' \/ log_state' (recs ++ [r]) w')
  end.
Proof.
  intros Hst r. unfold write_sample. rewrite is_log. unfold bind.
  pose proof Hst as (_ & Hwt & Hwr & _).
  destruct (append_file_spec target_path
              (Json.dumps_record task_id (sanitize (solution_of model t impl)
                                            (entry_point t)) +:+ NL) w Hwt)
    as [[Hb ->]|(w1 & -> & Hd1 & Hf1 & Hb1)].
  - split; [congruence|]. left. exact Hst.
  - assert (Hst1 : log_state' (recs ++ [r]) w1)
      by (eapply log_state_append; eauto).
    pose proof Hst1 as (_ & _ & Hwr1 & _).
    destruct (append_file_spec raw_target_path
                (Json.dumps_record task_id (solution_of model t impl) +:+ NL) w1 Hwr1)
      as [[Hb ->]|(w2 & -> & Hd2 & Hf2 & Hb2)].
    + split; [|right; exact Hst1]. intros Hn. rewrite (Hb1 Hn) in Hb. discriminate.
    + split; [eapply log_state_append_raw; eauto|auto].
Qed.

Variable c : string -> Z.

Local Abbreviation log_inv' := (log_inv target_path raw_target_path task_id c).

Lemma log_inv_requested (k : Z) (w : world) (rq : request) :
  log_inv' k w -> log_inv' k (requested rq w).
Proof.
  intros (recs & Hst & Hk & Hc). exists recs. split; [|auto].
  eapply log_state_fs; [|exact Hst]. reflexivity.
Qed.

Lemma log_inv_more (recs : list (string * string)) (solution : string) (k : Z)
    (w : world) :
  count_id task_id recs = k ->
  (forall id, id <> task_id -> count_id id recs = c id) ->
  log_state' (recs ++ [(task_id, solution)]) w ->
  log_inv' (k + 1) w.
Proof.
  intros Hk Hc Hst. exists (recs ++ [(task_id, solution)]). split; [exact Hst|].
  split.
  - rewrite count_id_app, count_id_one, Hk. destruct (decide _); [reflexivity|congruence].
  - intros id Hne. rewrite count_id_app, count_id_one, (Hc id Hne).
    destruct (decide (task_id = id)); [congruence|lia].
Qed.

Lemma log_inv_write_sample (k : Z) (impl : string) (w : world) :
  log_inv' k w ->
  match write_sample' k impl w with
  | (Ok _, w') => log_inv' (k + 1) w'
  | (Raise _, w') => log_inv' k w' \/ log_inv' (k + 1) w'
  end.
Proof.
  intros (recs & Hst & Hk & Hc).
  pose proof (write_sample_log recs k impl w Hst) as H. cbv zeta in H.
  destruct (write_sample' k impl w) as [[[]|e] w'].
  - destruct H as [H _]. eapply log_inv_more; eauto.
  - destruct H as [_ [H|H]]; [left; exists recs; auto|right; eapply log_inv_more; eauto].
Qed.

Lemma log_inv_write_ok (k : Z) (impl : string) (w : world) :
  log_inv' k w -> budget w = None ->
  exists w', write_sample' k impl w = (Ok tt, w') /\ budget w' = None.
Proof.
  intros (recs & Hst & _) Hb.
  pose proof (write_sample_log recs k impl w Hst) as H. cbv zeta in H.
  destruct (write_sample' k impl w) as [[[]|e] w'].
  - exists w'. split; [reflexivity|]. apply H, Hb.
  - destruct H as [H _]. contradiction.
Qed.

End LogLayout.

(** ** The log layout: a whole run *)

Lemma skip_task_spec (id_range : option (Z * Z)) (task_id : string) (w : world) :
  id_range = None \/ is_Some (task_number task_id) ->
  exists w',
    skip_task id_range task_id w = (Ok (negb (in_range id_range task_id)), w')
    /\ fs w' = fs w /\ budget w' = budget w /\ requests w' = requests w
    /\ trace w' = trace w.
Proof.
  intros H. unfold skip_task, in_range, task_number in *.
  destruct id_range as [[low high]|]; [|exists w; auto].
  destruct H as [[=]|[n Hn]].
  destruct (PyStr.split task_id "/" !! 1%nat) as [piece|]; [|discriminate].
  rewrite Hn.
  destruct (Z.leb_spec low n), (Z.ltb_spec n high), (Z.ltb_spec n low),
    (Z.geb_spec n high); try lia; cbn [orb andb negb];
    try (exists w; repeat split; reflexivity);
    unfold bind, print, ret; eexists; (split; [reflexivity|]); cbn; auto.
Qed.

Lemma log_state_printed (target_path raw_target_path msg : string)
    (recs : list (string * string)) (w : world) :
  log_state target_path raw_target_path recs w ->
  log_state target_path raw_target_path recs (printed msg w).
Proof. apply log_state_fs. reflexivity. Qed.

Section LogRun.

Variable sanitize : string -> string -> string.
Variable target_path raw_target_path : string.
Variable model : DecoderBase.
Variable greedy : bool.
Variable n_samples : Z.

Hypothesis is_log : PyStr.endswith target_path ".jsonl" = true.
Hypothesis at_most : returns_at_most_requested model.

Local Abbreviation log_state' := (log_state target_path raw_target_path).
Local Abbreviation process_task' :=
  (process_task sanitize target_path raw_target_path model greedy n_samples true).
Local Abbreviation for_tasks' :=
  (for_tasks sanitize target_path raw_target_path model greedy n_samples).

Lemma count_existing_log (task_id : string) (m : gmap string Z) (w : world) :
  count_existing target_path task_id m w = (Ok m, w).
Proof. unfold count_existing. rewrite is_log. reflexivity. Qed.

(** One task when resuming on a log whose count for the task is what the
    scan found: the log gains records of this task only, never beyond
    [n_samples], and reaches [n_samples] when the task ends normally. *)
Lemma process_task_log (task_id : string) (t : task) (m : gmap string Z)
    (recs : list (string * string)) (w : world) :
  log_state' recs w ->
  default 0 (m !! task_id) = count_id task_id recs ->
  match process_task' task_id t m w with
  | (r, w') =>
      exists recs',
        log_state' recs' w'
        /\ (forall id, id <> task_id -> count_id id recs' = count_id id recs)
        /\ count_id task_id recs <= count_id task_id recs'
           <= Z.max (count_id task_id recs) n_samples
        /\ (forall m', r = Ok m' ->
              m' = m
              /\ count_id task_id recs' = Z.max (count_id task_id recs) n_samples)
  end.
Proof.
  intros Hst Hm. rewrite process_task_unfold, count_existing_log. cbv zeta.
  rewrite Hm, start_index_spec. cbn [andb].
  set (E := count_id task_id recs).
  assert (HE : 0 <= E) by apply count_id_nonneg.
  assert (Hsidx : (if 0 <? E then E else 0) = E) by (destruct (Z.ltb_spec 0 E); lia).
  rewrite Hsidx.
  set (w1 := printed _ w).
  pose proof (generate_loop_inv sanitize target_path raw_target_path model greedy
                n_samples task_id t
                (log_inv target_path raw_target_path task_id
                   (fun id => count_id id recs))
                (log_inv_requested target_path raw_target_path task_id _)
                (log_inv_write_sample sanitize target_path raw_target_path model
                   task_id t is_log _)
                (Z.to_nat (n_samples - E)) E w1 at_most) as Hloop.
  assert (Hfuel : n_samples - E <= Z.of_nat (Z.to_nat (n_samples - E))) by lia.
  assert (Hinv : log_inv target_path raw_target_path task_id
                   (fun id => count_id id recs) E w1).
  { exists recs. split; [apply log_state_printed, Hst|]. split; [reflexivity|auto]. }
  specialize (Hloop Hfuel Hinv).
  destruct (generate_loop _ _ _ _ _ _ _ _ _ E w1) as [r w'].
  destruct Hloop as (k & (recs' & Hst' & Hk & Hc) & Hrange & Hok).
  destruct r as [[]|e].
  - exists recs'. split; [exact Hst'|]. split; [exact Hc|]. rewrite Hk.
    split; [exact Hrange|]. intros m' [= <-]. split; [reflexivity|].
    apply Hok. reflexivity.
  - exists recs'. split; [exact Hst'|]. split; [exact Hc|]. rewrite Hk.
    split; [exact Hrange|]. intros m' [=].
Qed.

(** The same, when nothing interrupts the run and the backend returns
    something each round: the task ends normally. *)
Lemma process_task_log_ok (task_id : string) (t : task) (m : gmap string Z)
    (recs : list (string * string)) (w : world) :
  returns_something model ->
  log_state' recs w ->
  default 0 (m !! task_id) = count_id task_id recs ->
  budget w = None ->
  exists w', process_task' task_id t m w = (Ok m, w') /\ budget w' = None.
Proof.
  intros Hsome Hst Hm Hb. rewrite process_task_unfold, count_existing_log. cbv zeta.
  rewrite Hm, start_index_spec. cbn [andb].
  set (E := count_id task_id recs).
  assert (HE : 0 <= E) by apply count_id_nonneg.
  assert (Hsidx : (if 0 <? E then E else 0) = E) by (destruct (Z.ltb_spec 0 E); lia).
  rewrite Hsidx.
  set (w1 := printed _ w).
  destruct (generate_loop_ok sanitize target_path raw_target_path model greedy
              n_samples task_id t
              (log_inv target_path raw_target_path task_id
                 (fun id => count_id id recs))
              (log_inv_requested target_path raw_target_path task_id _)
              (log_inv_write_sample sanitize target_path raw_target_path model
                 task_id t is_log _)
              (log_inv_write_ok sanitize target_path raw_target_path model
                 task_id t is_log _)
              (Z.to_nat (n_samples - E)) E w1 Hsome) as (w' & -> & Hb');
    [lia| |exact Hb|eauto].
  exists recs. split; [apply log_state_printed, Hst|]. split; [reflexivity|auto].
Qed.

(** All tasks of a run on a log: every task's count stays between what it
    was and [n_samples] (or what it was, if that is more), and a run that
    ends normally leaves every task of the range at [n_samples]. *)
Lemma for_tasks_log (id_range : option (Z * Z)) (tasks : list (string * task))
    (m : gmap string Z) (recs : list (string * string)) (w : world) :
  NoDup (map fst tasks) ->
  filter_defined id_range tasks ->
  log_state' recs w ->
  (forall id, id ∈ map fst tasks -> default 0 (m !! id) = count_id id recs) ->
  match for_tasks' id_range true tasks m w with
  | (r, w') =>
      exists recs',
        log_state' recs' w'
        /\ (forall id, count_id id recs <= count_id id recs'
                       <= Z.max (count_id id recs) n_samples)
        /\ (r = Ok tt ->
            forall id, id ∈ map fst tasks -> in_range id_range id = true ->
              count_id id recs' = Z.max (count_id id recs) n_samples)
  end.
Proof.
  revert recs w. induction tasks as [|[task_id t] tasks IH]; intros recs w Hnd Hdef Hst Hm.
  - cbn. exists recs. split; [exact Hst|]. split; [intros; lia|].
    intros _ id Hin. apply elem_of_nil in Hin. destruct Hin.
  - cbn [map fst] in Hnd, Hm |- *. apply NoDup_cons in Hnd as [Hnotin Hnd].
    assert (Hdef' : filter_defined id_range tasks).
    { destruct Hdef as [->|H]; [left; reflexivity|right].
      apply Forall_cons in H as [_ H]. exact H. }
    assert (Hnum : id_range = None \/ is_Some (task_number task_id)).
    { destruct Hdef as [->|H]; [left; reflexivity|right].
      apply Forall_cons in H as [H _]. exact H. }
    cbn [for_tasks]. unfold bind at 1.
    destruct (skip_task_spec id_range task_id w Hnum) as (w1 & -> & Hfs & _).
    assert (Hst1 : log_state' recs w1) by (eapply log_state_fs; eauto).
    destruct (in_range id_range task_id) eqn:Hin; cbn [negb].
    + (* processed *)
      unfold bind at 1.
      pose proof (process_task_log task_id t m recs w1 Hst1
                    (Hm task_id ltac:(left))) as H1.
      destruct (process_task' task_id t m w1) as [[m'|e] w2];
        destruct H1 as (recs2 & Hst2 & Hothers & Hrange & Hok).
      * destruct (Hok m' eq_refl) as [-> Hfull]. clear Hok.
        assert (Hm2 : forall id, id ∈ map fst tasks ->
                        default 0 (m !! id) = count_id id recs2).
        { intros id Hid. rewrite Hothers; [apply Hm; right; exact Hid|].
          intros ->. contradiction. }
        specialize (IH recs2 w2 Hnd Hdef' Hst2 Hm2).
        destruct (for_tasks' id_range true tasks m w2) as [r w3].
        destruct IH as (recs' & Hst' & Hbounds & Hdone).
        exists recs'. split; [exact Hst'|]. split.
        { intros id. specialize (Hbounds id).
          destruct (decide (id = task_id)) as [->|Hne]; [lia|].
          rewrite (Hothers id Hne) in Hbounds. exact Hbounds. }
        intros Hr id Hid Hrng. specialize (Hbounds id).
        apply elem_of_cons in Hid as [->|Hid]; [lia|].
        rewrite (Hdone Hr id Hid Hrng). f_equal. apply Hothers.
        intros ->. contradiction.
      * exists recs2. split; [exact Hst2|]. split; [|discriminate].
        intros id. destruct (decide (id = task_id)) as [->|Hne]; [lia|].
        rewrite (Hothers id Hne). lia.
    + (* skipped *)
      rewrite bind_ret.
      assert (Hm' : forall id, id ∈ map fst tasks ->
                      default 0 (m !! id) = count_id id recs)
        by (intros id Hid; apply Hm; right; exact Hid).
      specialize (IH recs w1 Hnd Hdef' Hst1 Hm').
      destruct (for_tasks' id_range true tasks m w1) as [r w3].
      destruct IH as (recs' & Hst' & Hbounds & Hdone).
      exists recs'. split; [exact Hst'|]. split; [exact Hbounds|].
      intros Hr id Hid Hrng. apply elem_of_cons in Hid as [->|Hid]; [congruence|].
      apply Hdone; assumption.
Qed.

Lemma for_tasks_log_ok (id_range : option (Z * Z)) (tasks : list (string * task))
    (m : gmap string Z) (recs : list (string * string)) (w : world) :
  returns_something model ->
  NoDup (map fst tasks) ->
  filter_defined id_range tasks ->
  log_state' recs w ->
  (forall id, id ∈ map fst tasks -> default 0 (m !! id) = count_id id recs) ->
  budget w = None ->
  exists w', for_tasks' id_range true tasks m w = (Ok tt, w').
Proof.
  intros Hsome. revert recs w.
  induction tasks as [|[task_id t] tasks IH]; intros recs w Hnd Hdef Hst Hm Hb.
  - exists w. reflexivity.
  - cbn [map fst] in Hnd, Hm |- *. apply NoDup_cons in Hnd as [Hnotin Hnd].
    assert (Hdef' : filter_defined id_range tasks).
    { destruct Hdef as [->|H]; [left; reflexivity|right].
      apply Forall_cons in H as [_ H]. exact H. }
    assert (Hnum : id_range = None \/ is_Some (task_number task_id)).
    { destruct Hdef as [->|H]; [left; reflexivity|right].
      apply Forall_cons in H as [H _]. exact H. }
    cbn [for_tasks]. unfold bind at 1.
    destruct (skip_task_spec id_range task_id w Hnum) as (w1 & -> & Hfs & Hb1 & _).
    assert (Hst1 : log_state' recs w1) by (eapply log_state_fs; eauto).
    rewrite Hb in Hb1.
    destruct (in_range id_range task_id) eqn:Hin; cbn [negb].
    + unfold bind at 1.
      pose proof (process_task_log task_id t m recs w1 Hst1
                    (Hm task_id ltac:(left))) as H1.
      destruct (process_task_log_ok task_id t m recs w1 Hsome Hst1
                  (Hm task_id ltac:(left)) Hb1) as (w2 & E & Hb2).
      rewrite E in H1 |- *. destruct H1 as (recs2 & Hst2 & Hothers & _).
      apply (IH recs2 w2 Hnd Hdef' Hst2); [|exact Hb2].
      intros id Hid. rewrite Hothers; [apply Hm; right; exact Hid|].
      intros ->. contradiction.
    + rewrite bind_ret. apply (IH recs w1 Hnd Hdef' Hst1); [|exact Hb1].
      intros id Hid. apply Hm. right. exact Hid.
Qed.

End LogRun.

Section LogCodegen.

Variable sanitize : string -> string -> string.
Variable get_human_eval_plus get_mbpp_plus : string -> list (string * task).
Variable target_path : string.
Variable dataset : string.
Variable greedy : bool.
Variable n_samples : Z.
Variable id_range : option (Z * Z).
Variable version : string.
Variable tasks : list (string * task).

Hypothesis is_log : PyStr.endswith target_path ".jsonl" = true.
Hypothesis the_tasks :
  dataset_tasks get_human_eval_plus get_mbpp_plus dataset version = Some tasks.
Hypothesis distinct : NoDup (map fst tasks).
Hypothesis numbered : filter_defined id_range tasks.

Local Abbreviation log_state' := (log_state target_path (raw_log target_path)).
Local Abbreviation codegen' := (fun model =>
  codegen sanitize get_human_eval_plus get_mbpp_plus target_path model dataset
    greedy n_samples id_range version true).

Lemma load_dataset_tasks (w : world) :
  load_dataset get_human_eval_plus get_mbpp_plus dataset version w = (Ok tasks, w).
Proof.
  unfold load_dataset. unfold dataset_tasks in the_tasks.
  destruct (decide (dataset = "humaneval")); [inversion the_tasks; reflexivity|].
  destruct (decide (dataset = "mbpp")); [inversion the_tasks; reflexivity|discriminate].
Qed.

(** What [codegen] comes down to on a well-formed log. *)
Lemma codegen_log_unfold (model : DecoderBase) (recs : list (string * string))
    (w : world) :
  log_state' recs w ->
  exists m w1,
    (forall id, default 0 (m !! id) = count_id id recs)
    /\ fs w1 = fs w /\ budget w1 = budget w
    /\ codegen' model w
       = for_tasks sanitize target_path (raw_log target_path) model greedy
           n_samples id_range true tasks m w1.
Proof.
  intros Hst.
  destruct (resume_scan_log _ _ _ _ is_log Hst) as (m & Hscan & Hm).
  exists m. eexists. split; [exact Hm|].
  unfold codegen. unfold bind at 1. rewrite Hscan.
  unfold raw_path. rewrite is_log. rewrite bind_ret.
  unfold bind at 1, print at 1. cbv beta iota.
  unfold bind at 1, print at 1. cbv beta iota.
  unfold bind at 1. rewrite load_dataset_tasks.
  split; [|split]; [| |reflexivity]; reflexivity.
Qed.

Lemma codegen_log_run (model : DecoderBase) (recs : list (string * string))
    (w : world) :
  returns_at_most_requested model ->
  log_state' recs w ->
  match codegen' model w with
  | (r, w') =>
      exists recs',
        log_state' recs' w'
        /\ (forall id, count_id id recs <= count_id id recs'
                       <= Z.max (count_id id recs) n_samples)
        /\ (r = Ok tt ->
            forall id, id ∈ map fst tasks -> in_range id_range id = true ->
              count_id id recs' = Z.max (count_id id recs) n_samples)
  end.
Proof.
  intros Hmost Hst.
  destruct (codegen_log_unfold model recs w Hst) as (m & w1 & Hm & Hfs & _ & ->).
  apply for_tasks_log; auto.
  eapply log_state_fs; eauto.
Qed.

Lemma codegen_log_ok (model : DecoderBase) (recs : list (string * string))
    (w : world) :
  returns_at_most_requested model ->
  returns_something model ->
  log_state' recs w -> budget w = None ->
  exists w', codegen' model w = (Ok tt, w').
Proof.
  intros Hmost Hsome Hst Hb.
  destruct (codegen_log_unfold model recs w Hst) as (m & w1 & Hm & Hfs & Hb1 & ->).
  eapply for_tasks_log_ok; eauto; [eapply log_state_fs; eauto|congruence].
Qed.

(** However the runs before were interrupted, the log they leave is well
    formed and holds at most [n_samples] records of any task. *)
Lemma after_runs_log (runs : list (nat * DecoderBase)) (f : filesystem)
    (recs : list (string * string)) :
  Forall (fun run => returns_at_most_requested (snd run)) runs ->
  log_state' recs (start f None) ->
  (forall id, count_id id recs <= n_samples) ->
  exists recs',
    log_state' recs' (start (after_runs codegen' runs f) None)
    /\ forall id, count_id id recs' <= n_samples.
Proof.
  revert f recs. induction runs as [|[b model] runs IH]; intros f recs Hall Hst Hle.
  - exists recs. auto.
  - apply Forall_cons in Hall as [Hmost Hall]. cbn [after_runs snd] in *.
    pose proof (codegen_log_run model recs (start f (Some b)) Hmost
                  ltac:(eapply log_state_fs; [|exact Hst]; reflexivity)) as H.
    destruct (codegen' model (start f (Some b))) as [r w'].
    destruct H as (recs1 & Hst1 & Hbounds & _). cbn [snd].
    apply (IH (fs w') recs1 Hall).
    + eapply log_state_fs; [|exact Hst1]. reflexivity.
    + intros id. specialize (Hbounds id). specialize (Hle id). lia.
Qed.

End LogCodegen.

(** ** The scheduler *)

(** C4: started at write index [sidx] with the fuel [process_task] gives
    it, the loop of a task makes its requests round after round, each for
    [n_samples] minus the current write index, and writes every
    completion it gets, sanitized then raw, the index moving up by
    however many came back.  It goes on until the index has reached
    [n_samples] and then ends normally.  It ends before that in two
    cases only: a round got nothing, which is the [AssertionError] of
    line 97 raised right after that request, everything received before
    being written; or a write failed (refused by the file system, or the
    run interrupted in front of it), which ends the run in that write's
    exception with no further request.  The loop never runs out of
    fuel. *)
Theorem scheduler_rounds (sanitize : string -> string -> string)
    (target_path raw_target_path : string) (model : DecoderBase) (greedy : bool)
    (n_samples : Z) (task_id : string) (t : task) (fuel : nat) (sidx : Z)
    (w : world) :
  n_samples - sidx <= Z.of_nat fuel ->
  loop_outcome sanitize target_path raw_target_path model greedy n_samples
    task_id t sidx w
    (generate_loop sanitize target_path raw_target_path model greedy n_samples
       task_id t fuel sidx w).
Proof.
  intros Hfuel.
  exact (generate_loop_performs sanitize target_path raw_target_path model greedy
           n_samples task_id t fuel sidx w Hfuel).
Qed.

Lemma scheduler_rounds_witness :
  2 - 0 <= Z.of_nat 2 /\
  loop_outcome example_sanitize "out.jsonl" "out.raw.jsonl" example_model false 2
    "suite/0" example_task 0 (start empty_fs None)
    (generate_loop example_sanitize "out.jsonl" "out.raw.jsonl" example_model false 2
       "suite/0" example_task 2 0 (start empty_fs None)).
Proof.
  assert (H : 2 - 0 <= Z.of_nat 2) by (vm_compute; discriminate).
  split; [exact H|].
  exact (scheduler_rounds example_sanitize "out.jsonl" "out.raw.jsonl" example_model
           false 2 "suite/0" example_task 2 0 (start empty_fs None) H).
Defined.

(** The example backend returns one completion per call: two rounds, for
    2 and then 1 completions. *)
Example two_rounds :
  requests (snd (generate_loop example_sanitize "out.jsonl" "out.raw.jsonl"
                   example_model false 2 "suite/0" example_task 2 0
                   (start empty_fs None)))
  = [{| req_prompt := "def f():" +:+ NL; req_do_sample := true; req_num_samples := 2 |};
     {| req_prompt := "def f():" +:+ NL; req_do_sample := true; req_num_samples := 1 |}].
Proof. vm_compute. reflexivity. Qed.

(** A backend that returns nothing ends the run at its first request. *)
Example no_outputs_is_fatal :
  generate_loop example_sanitize "out.jsonl" "out.raw.jsonl"
    {| model_codegen := fun _ _ => []; is_direct_completion := true;
       model_repr := "silent" |}
    false 2 "suite/0" example_task 2 0 (start empty_fs None)
  = (Raise (AssertionError "No outputs from model!"),
     requested {| req_prompt := "def f():" +:+ NL; req_do_sample := true;
                  req_num_samples := 2 |} (start empty_fs None)).
Proof. vm_compute. reflexivity. Qed.

(** ** Paths *)

Lemma endswith_cons (c : ascii) (s suf : string) :
  PyStr.endswith (String c s) suf
  = String.eqb (String c s) suf || PyStr.endswith s suf.
Proof. cbn [PyStr.endswith]. destruct (String.eqb (String c s) suf); reflexivity. Qed.

Lemma endswith_refl (s : string) : PyStr.endswith s s = true.
Proof. destruct s; cbn [PyStr.endswith]; rewrite String.eqb_refl; reflexivity. Qed.

Lemma endswith_app (a suf : string) : PyStr.endswith (a +:+ suf) suf = true.
Proof.
  induction a as [|c a IH]; [apply endswith_refl|].
  rewrite app_cons, endswith_cons, IH. apply orb_true_r.
Qed.

Lemma keep_simple (b : string) : simple_name b -> Os.keep_component b = true.
Proof.
  intros (H1 & H2 & _). unfold Os.keep_component.
  rewrite !bool_decide_eq_false_2 by assumption. reflexivity.
Qed.

Lemma components_sep (a b cur : string) :
  PyStr.mem_char "/" b = false ->
  List.filter Os.keep_component (PyStr.split_go "/" cur (a +:+ String "/" b))
  = List.filter Os.keep_component (PyStr.split_go "/" cur a)
    ++ List.filter Os.keep_component [b].
Proof.
  intros Hb. revert cur. induction a as [|c a IH]; intros cur.
  - rewrite app_empty_l. cbn [PyStr.split_go].
    destruct (ascii_dec "/" "/"); [|congruence].
    rewrite (split_go_no_sep _ _ _ Hb). cbn [String.rev_app].
    change (String.rev (String.rev_app b "")) with (String.rev (String.rev_app b "")).
    rewrite rev_rev_app. cbn [List.filter].
    destruct (Os.keep_component (String.rev cur)); reflexivity.
  - rewrite app_cons. cbn [PyStr.split_go]. destruct (ascii_dec c "/").
    + cbn [List.filter]. rewrite IH.
      destruct (Os.keep_component (String.rev cur)); reflexivity.
    + apply IH.
Qed.

Lemma components_slash (a b cur : string) :
  PyStr.endswith a "/" = true ->
  PyStr.mem_char "/" b = false ->
  List.filter Os.keep_component (PyStr.split_go "/" cur (a +:+ b))
  = List.filter Os.keep_component (PyStr.split_go "/" cur a)
    ++ List.filter Os.keep_component [b].
Proof.
  intros Ha Hb. revert cur Ha. induction a as [|c a IH]; intros cur Ha.
  - discriminate Ha.
  - rewrite endswith_cons in Ha. rewrite app_cons. cbn [PyStr.split_go].
    destruct (String.eqb (String c a) "/") eqn:E.
    + apply String.eqb_eq in E. inversion E; subst c a. clear E.
      destruct (ascii_dec "/" "/"); [|congruence].
      rewrite app_empty_l, (split_go_no_sep _ _ _ Hb). cbn [PyStr.split_go String.rev_app].
      rewrite rev_rev_app. cbn [List.filter].
      change (Os.keep_component (String.rev "")) with false. cbv iota.
      destruct (Os.keep_component (String.rev cur)); reflexivity.
    + cbn [orb] in Ha. destruct (ascii_dec c "/").
      * cbn [List.filter]. rewrite (IH _ Ha).
        destruct (Os.keep_component (String.rev cur)); reflexivity.
      * apply IH, Ha.
Qed.

Lemma startswith_slash_simple (b : string) :
  simple_name b -> PyStr.startswith "/" b = false.
Proof.
  intros (_ & _ & H). destruct b as [|c b]; [reflexivity|].
  cbn [PyStr.mem_char PyStr.startswith] in H |- *.
  destruct (ascii_dec "/" c); [discriminate H|reflexivity].
Qed.

(** Joining a proper component to a path adds it to the components. *)
Lemma resolve_join (a b : string) :
  simple_name b -> Os.resolve (Os.join a b) = Os.resolve a ++ [b].
Proof.
  intros Hb. pose proof Hb as (_ & _ & Hns).
  pose proof (keep_simple b Hb) as Hk.
  unfold Os.join. rewrite (startswith_slash_simple b Hb).
  destruct (decide (a = "")) as [->|Ha].
  - unfold Os.resolve, PyStr.split. rewrite (startswith_slash_simple b Hb).
    rewrite (split_go_no_sep _ _ _ Hns), rev_rev_app. cbn. rewrite Hk. reflexivity.
  - assert (Hstart : forall x, PyStr.startswith "/" (a +:+ x) = PyStr.startswith "/" a).
    { intros x. destruct a as [|c a]; [congruence|]. reflexivity. }
    destruct (PyStr.endswith a "/") eqn:E; unfold Os.resolve, PyStr.split; rewrite Hstart.
    + rewrite (components_slash _ _ _ E Hns). cbn [List.filter]. rewrite Hk.
      destruct (PyStr.startswith "/" a); reflexivity.
    + change (a +:+ "/" +:+ b) with (a +:+ String "/" b).
      rewrite (components_sep _ _ _ Hns). cbn [List.filter]. rewrite Hk.
      destruct (PyStr.startswith "/" a); reflexivity.
Qed.

Lemma join_nonempty (a b : string) : b <> "" -> Os.join a b <> "".
Proof.
  intros Hb. unfold Os.join. destruct (PyStr.startswith "/" b); [exact Hb|].
  destruct (decide (a = "")) as [->|Ha]; [exact Hb|].
  destruct a as [|c a]; [congruence|].
  destruct (PyStr.endswith (String c a) "/"); rewrite app_cons; discriminate.
Qed.

Lemma app_inv_tail_str (a b suf : string) : a +:+ suf = b +:+ suf -> a = b.
Proof.
  intros H.
  assert (Hlen : forall x y : string, String.length (x +:+ y) = (String.length x + String.length y)%nat).
  { intros x y. induction x as [|c x IH]; [reflexivity|]. rewrite app_cons. cbn. rewrite IH. reflexivity. }
  revert b H. induction a as [|c a IH]; intros b H; destruct b as [|d b].
  - reflexivity.
  - apply (f_equal String.length) in H. rewrite app_empty_l, Hlen in H. cbn in H. lia.
  - apply (f_equal String.length) in H. rewrite app_empty_l, Hlen in H. cbn in H. lia.
  - rewrite !app_cons in H. injection H as -> H. f_equal. apply IH, H.
Qed.

Lemma str_inj (n m : Z) : PyStr.str n = PyStr.str m -> n = m.
Proof.
  intros H. apply (f_equal PyStr.int) in H. rewrite !int_str in H. congruence.
Qed.

Lemma py_name_inj (i j : Z) : py_name i = py_name j -> i = j.
Proof. intros H. apply str_inj. eapply app_inv_tail_str, H. Qed.

Lemma mem_char_app (c : ascii) (a b : string) :
  PyStr.mem_char c (a +:+ b) = PyStr.mem_char c a || PyStr.mem_char c b.
Proof.
  induction a as [|d a IH]; [reflexivity|]. rewrite app_cons. cbn.
  destruct (ascii_dec c d); [reflexivity|exact IH].
Qed.

Lemma py_name_simple (i : Z) : simple_name (py_name i).
Proof.
  unfold py_name. split; [|split].
  - intros H. apply (f_equal String.length) in H.
    assert (Hlen : forall x : string, String.length (x +:+ ".py") = (String.length x + 3)%nat).
    { intros x. induction x as [|c x IH]; [reflexivity|]. rewrite app_cons. cbn. rewrite IH. reflexivity. }
    rewrite Hlen in H. cbn in H. lia.
  - intros H. apply (f_equal String.length) in H.
    assert (Hlen : forall x : string, String.length (x +:+ ".py") = (String.length x + 3)%nat).
    { intros x. induction x as [|c x IH]; [reflexivity|]. rewrite app_cons. cbn. rewrite IH. reflexivity. }
    rewrite Hlen in H. cbn in H. lia.
  - rewrite mem_char_app, str_no_char; [reflexivity|reflexivity|discriminate].
Qed.

Lemma py_name_endswith (i : Z) : PyStr.endswith (py_name i) ".py" = true.
Proof. apply endswith_app. Qed.

(** ** Directories *)

Lemma isdir_spec (f : filesystem) (q : path) :
  Os.isdir f q = true <-> q = [] \/ q = ["/"] \/ q ∈ dirs f.
Proof. unfold Os.isdir. apply bool_decide_eq_true. Qed.

Lemma isdir_mono (f f' : filesystem) (q : path) :
  dirs f ⊆ dirs f' -> Os.isdir f q = true -> Os.isdir f' q = true.
Proof.
  rewrite !isdir_spec. intros Hsub [H|[H|H]]; auto.
Qed.

Lemma isfile_files (f f' : filesystem) (q : path) :
  files f' = files f -> Os.isfile f' q = Os.isfile f q.
Proof. intros H. unfold Os.isfile. rewrite H. reflexivity. Qed.

(** [os.makedirs] when no file is in the way: it ends normally with every
    directory of the path in place, or is interrupted; it creates nothing
    but directories of the path. *)
Lemma makedirs_go_spec (p : string) (todo : list string) (here : path) (w : world) :
  (forall i, (1 <= i <= length todo)%nat ->
             Os.isfile (fs w) (here ++ take i todo) = false) ->
  match Os.makedirs_go p here todo w with
  | (r, w') =>
      files (fs w') = files (fs w)
      /\ dirs (fs w) ⊆ dirs (fs w')
      /\ (forall q, q ∈ dirs (fs w') ->
            q ∈ dirs (fs w)
            \/ exists i, (1 <= i <= length todo)%nat /\ q = here ++ take i todo)
      /\ ((r = Ok tt
           /\ (forall i, (1 <= i <= length todo)%nat ->
                         Os.isdir (fs w') (here ++ take i todo) = true)
           /\ (budget w = None -> budget w' = None))
          \/ (r = Raise KeyboardInterrupt /\ budget w <> None))
  end.
Proof.
  revert here w. induction todo as [|c todo IH]; intros here w Hfile.
  - cbn. split; [reflexivity|]. split; [reflexivity|]. split; [auto|].
    left. split; [reflexivity|]. split; [|auto]. intros i Hi. cbn in Hi. lia.
  - cbn [Os.makedirs_go]. unfold bind at 1, get_fs.
    assert (Hq : Os.isfile (fs w) (here ++ [c]) = false).
    { specialize (Hfile 1%nat). cbn in Hfile. apply Hfile. lia. }
    assert (Hshift : forall i (f : filesystem),
              (here ++ [c]) ++ take i todo = here ++ take (S i) (c :: todo)).
    { intros i _. cbn. rewrite <- app_assoc. reflexivity. }
    assert (Hrest : forall w1, files (fs w1) = files (fs w) ->
              forall i, (1 <= i <= length todo)%nat ->
                Os.isfile (fs w1) ((here ++ [c]) ++ take i todo) = false).
    { intros w1 Hf i Hi. rewrite (isfile_files _ _ _ Hf), (Hshift i (fs w)).
      apply Hfile. cbn. lia. }
    destruct (Os.isdir (fs w) (here ++ [c])) eqn:Hd.
    + specialize (IH (here ++ [c]) w (Hrest w eq_refl)).
      destruct (Os.makedirs_go p (here ++ [c]) todo w) as [r w'].
      destruct IH as (Hf & Hsub & Hnew & Hres).
      split; [exact Hf|]. split; [exact Hsub|]. split.
      * intros q Hq'. destruct (Hnew q Hq') as [H|(i & Hi & ->)]; [left; exact H|].
        right. exists (S i). split; [cbn; lia|apply (Hshift i (fs w))].
      * destruct Hres as [(-> & Hall & Hb)|Hres]; [left|right; exact Hres].
        split; [reflexivity|]. split; [|exact Hb].
        intros [|i] Hi; [lia|]. destruct i as [|i].
        -- cbn. eapply isdir_mono; [exact Hsub|exact Hd].
        -- rewrite <- (Hshift (S i) (fs w)). apply Hall. cbn in Hi. lia.
    + rewrite Hq. unfold bind at 1, Os.mkdir, bind at 1.
      destruct (tick_cases w) as [[E Hb]|(w1 & E & Hf1 & _ & _ & _ & Hb1)]; rewrite E.
      * split; [reflexivity|]. split; [reflexivity|]. split; [auto|].
        right. split; [reflexivity|congruence].
      * cbv beta iota. unfold bind at 1, get_fs, put_fs. cbv beta iota.
        match goal with
        | |- context [Os.makedirs_go p (here ++ [c]) todo ?x] => set (w2 := x)
        end.
        assert (Hf2 : files (fs w2) = files (fs w)) by (cbn; rewrite Hf1; reflexivity).
        assert (Hd2 : dirs (fs w2) = {[here ++ [c]]} ∪ dirs (fs w))
          by (cbn; rewrite Hf1; reflexivity).
        specialize (IH (here ++ [c]) w2 (Hrest w2 Hf2)).
        destruct (Os.makedirs_go p (here ++ [c]) todo w2) as [r w'].
        destruct IH as (Hf & Hsub & Hnew & Hres).
        split; [congruence|]. split.
        { intros q Hq'. apply Hsub. rewrite Hd2. apply elem_of_union. right. exact Hq'. }
        split.
        -- intros q Hq'. destruct (Hnew q Hq') as [H|(i & Hi & ->)].
           ++ rewrite Hd2 in H. apply elem_of_union in H as [H|H]; [|left; exact H].
              apply elem_of_singleton in H. subst q. right. exists 1%nat.
              split; [cbn; lia|reflexivity].
           ++ right. exists (S i). split; [cbn; lia|apply (Hshift i (fs w))].
        -- destruct Hres as [(-> & Hall & Hb)|[-> Hb]].
           ++ left. split; [reflexivity|]. split; [|intros Hn; apply Hb, Hb1, Hn].
              intros [|i] Hi; [lia|]. destruct i as [|i].
              ** cbn. eapply isdir_mono; [exact Hsub|]. apply isdir_spec.
                 right. right. rewrite Hd2. apply elem_of_union. left.
                 apply elem_of_singleton. reflexivity.
              ** rewrite <- (Hshift (S i) (fs w)). apply Hall. cbn in Hi. lia.
           ++ right. split; [reflexivity|]. intros Hn. apply Hb. cbn. apply Hb1, Hn.
Qed.

Lemma child_of_spec (q c : path) (name : string) :
  Os.child_of q c = Some name <-> c = q ++ [name].
Proof.
  unfold Os.child_of. split.
  - destruct (reverse c) as [|x rparent] eqn:E; [discriminate|].
    destruct (decide (reverse rparent = q)) as [<-|]; [|discriminate].
    intros [= ->]. apply (f_equal reverse) in E.
    rewrite reverse_involutive, reverse_cons in E. exact E.
  - intros ->. rewrite reverse_app, reverse_singleton. cbn [app].
    rewrite reverse_involutive. apply decide_True. reflexivity.
Qed.

Lemma children_spec (f : filesystem) (q : path) (name : string) :
  name ∈ Os.children f q <-> is_Some (files f !! (q ++ [name])) \/ q ++ [name] ∈ dirs f.
Proof.
  unfold Os.children. rewrite elem_of_set_omap. split.
  - intros (c & Hc & Hn). apply child_of_spec in Hn. subst c.
    apply elem_of_union in Hc as [Hc|Hc]; [left; apply elem_of_dom, Hc|right; exact Hc].
  - intros [H|H]; exists (q ++ [name]); (split; [|apply child_of_spec; reflexivity]).
    + apply elem_of_union. left. apply elem_of_dom, H.
    + apply elem_of_union. right. exact H.
Qed.

Lemma not_isdir (f : filesystem) (q : path) : Os.isdir f q = false -> q ∉ dirs f.
Proof.
  intros H Hin. assert (Os.isdir f q = true) by (apply isdir_spec; auto). congruence.
Qed.

Lemma py_names_NoDup (n : nat) :
  NoDup (map (fun i : nat => py_name (Z.of_nat i)) (seq 0 n)).
Proof.
  apply NoDup_fmap_2; [|apply NoDup_seq].
  intros i j H. apply py_name_inj in H. lia.
Qed.

(** Line 73-79: the count found in a task's directory. *)
Lemma count_py (T R : path) (ps : list string) (p : string) (k : Z) (f : filesystem) :
  dir_frame T R ps f -> p ∈ ps -> dir_holds T p k f ->
  Z.of_nat (size (filter (fun name => PyStr.endswith name ".py" = true)
                    (Os.children f (T ++ [p])))) = k.
Proof.
  intros (_ & Hfr) Hp (Hk & Hh). destruct (Hfr p Hp) as (_ & _ & _ & Hnodir).
  assert (E : filter (fun name => PyStr.endswith name ".py" = true)
                (Os.children f (T ++ [p]))
              = list_to_set (map (fun i : nat => py_name (Z.of_nat i))
                               (seq 0 (Z.to_nat k)))).
  { apply set_eq. intros name. rewrite elem_of_filter, children_spec,
      elem_of_list_to_set, list_elem_of_fmap.
    rewrite <- app_assoc. cbn [app]. split.
    - intros [He [Hf|Hd]].
      + apply (Hh name He) in Hf as (i & Hi & ->). exists (Z.to_nat i).
        split; [f_equal; lia|]. apply elem_of_seq. lia.
      + destruct (Hnodir name) as [Hnd _]. apply not_isdir in Hnd. contradiction.
    - intros (i & -> & Hi). apply elem_of_seq in Hi.
      split; [apply py_name_endswith|]. left. apply Hh; [apply py_name_endswith|].
      exists (Z.of_nat i). split; [lia|reflexivity]. }
  rewrite E, size_list_to_set by apply py_names_NoDup.
  rewrite length_map, length_seq. lia.
Qed.

(** ** The directory layout: one sample *)

Lemma sample_path (task_id root : string) (k : Z) :
  simple_name (p_name task_id) ->
  Os.resolve (sample_file task_id root k) = Os.resolve root ++ [p_name task_id; py_name k]
  /\ sample_file task_id root k <> "".
Proof.
  intros Hp. unfold sample_file. fold (py_name k). split.
  - rewrite !resolve_join by (apply py_name_simple || exact Hp).
    rewrite <- app_assoc. reflexivity.
  - apply join_nonempty. apply py_name_simple.
Qed.

Lemma length_two (q : path) (a b : string) : length (q ++ [a; b]) = S (S (length q)).
Proof. rewrite length_app. cbn. lia. Qed.

Lemma length_one (q : path) (a : string) : length (q ++ [a]) = S (length q).
Proof. rewrite length_app. cbn. lia. Qed.

Lemma two_inj (q q' : path) (a b a' b' : string) :
  q ++ [a; b] = q' ++ [a'; b'] -> q = q' /\ a = a' /\ b = b'.
Proof.
  intros H. change [a; b] with ([a] ++ [b]) in H. change [a'; b'] with ([a'] ++ [b']) in H.
  rewrite !app_assoc in H. apply app_inj_tail in H as [H ->].
  apply app_inj_tail in H as [-> ->]. auto.
Qed.

Section DirLayout.

Variable sanitize : string -> string -> string.
Variable target_path raw_target_path : string.
Variable model : DecoderBase.
Variable T R : path.
Variable ps : list string.

Hypothesis is_dir : PyStr.endswith target_path ".jsonl" = false.
Hypothesis resolve_target : Os.resolve target_path = T.
Hypothesis resolve_raw : Os.resolve raw_target_path = R.
Hypothesis same_length : length R = length T.
Hypothesis apart : R <> T.

Local Abbreviation sample_place' := (sample_place T R).

Lemma sample_place_not_short (q : path) (i : nat) :
  sample_place' q -> q <> take i T.
Proof.
  intros (p & x & [->| ->]) H; apply (f_equal length) in H;
    rewrite length_two, length_take in H; lia.
Qed.

Lemma sample_place_not_dir (q q0 : path) (p : string) :
  sample_place' q -> (q0 = T \/ q0 = R) -> q <> q0 ++ [p].
Proof.
  intros (p' & x & [->| ->]) [->| ->] H; apply (f_equal length) in H;
    rewrite length_two, length_one in H; lia.
Qed.

(** Writing a sample file keeps the surroundings in order. *)
Lemma dir_frame_write (f f' : filesystem) (q : path) (text : string) :
  dir_frame T R ps f -> sample_place' q ->
  dirs f' = dirs f -> files f' = <[q := text]> (files f) ->
  dir_frame T R ps f'.
Proof.
  intros (Hpre & Hfr) Hq Hd Hf. split.
  - intros i. unfold Os.isfile. rewrite Hf, lookup_insert_ne; [apply Hpre|].
    apply sample_place_not_short, Hq.
  - intros p Hp. destruct (Hfr p Hp) as (H1 & H2 & H3 & H4).
    rewrite !(isdir_dirs f f') by exact Hd. split; [exact H1|].
    unfold Os.isfile in *. rewrite Hf.
    rewrite !lookup_insert_ne by (apply sample_place_not_dir; auto).
    split; [exact H2|]. split; [exact H3|].
    intros x. rewrite !(isdir_dirs f f') by exact Hd. apply H4.
Qed.

(** Making a directory on the way to a task's directory keeps the
    surroundings in order. *)
Lemma dir_frame_dirs (f f' : filesystem) :
  dir_frame T R ps f ->
  files f' = files f -> dirs f ⊆ dirs f' ->
  (forall q, q ∈ dirs f' -> q ∈ dirs f \/ (length q <= S (length T))%nat) ->
  dir_frame T R ps f'.
Proof.
  intros (Hpre & Hfr) Hf Hsub Hnew. split.
  - intros i. rewrite (isfile_files _ _ _ Hf). apply Hpre.
  - intros p Hp. destruct (Hfr p Hp) as (H1 & H2 & H3 & H4).
    rewrite !(isfile_files _ _ _ Hf). split; [eapply isdir_mono; eauto|].
    split; [exact H2|]. split; [exact H3|].
    assert (Hkeep : forall q, (S (length T) < length q)%nat ->
              Os.isdir f q = false -> Os.isdir f' q = false).
    { intros q Hlen Hq. destruct (Os.isdir f' q) eqn:E; [|reflexivity].
      apply isdir_spec in E as [->|[->|E]]; [cbn in Hlen; lia|cbn in Hlen; lia|].
      destruct (Hnew q E) as [Hin|Hle]; [|lia].
      assert (Os.isdir f q = true) by (apply isdir_spec; auto). congruence. }
    intros x. destruct (H4 x) as [Ha Hb].
    split; apply Hkeep; auto; rewrite length_two; lia.
Qed.

Lemma dir_holds_files (f f' : filesystem) (p : string) (k : Z) :
  (forall name, files f' !! (T ++ [p; name]) = files f !! (T ++ [p; name])) ->
  dir_holds T p k f -> dir_holds T p k f'.
Proof.
  intros Hsame (Hk & Hh). split; [exact Hk|]. intros name He.
  rewrite Hsame. apply Hh, He.
Qed.

(** The sanitized file of index [k] brings the count from [k] to [k+1]. *)
Lemma dir_holds_next (f f' : filesystem) (p text : string) (k : Z) :
  dir_holds T p k f ->
  files f' = <[T ++ [p; py_name k] := text]> (files f) ->
  dir_holds T p (k + 1) f'.
Proof.
  intros (Hk & Hh) Hf. split; [lia|]. intros name He. rewrite Hf.
  destruct (decide (name = py_name k)) as [->|Hne].
  - rewrite lookup_insert_eq. split; [|eauto]. intros _. exists k. split; [lia|reflexivity].
  - rewrite lookup_insert_ne by (intros H; apply two_inj in H as (_ & _ & H); congruence).
    rewrite (Hh name He). split; intros (i & Hi & ->).
    + exists i. split; [lia|reflexivity].
    + exists i. split; [|reflexivity].
      destruct (decide (i = k)) as [->|]; [congruence|lia].
Qed.

Variable c : string -> Z.
Variable task_id : string.
Variable t : task.

Hypothesis task_dir : simple_name (p_name task_id).
Hypothesis task_known : p_name task_id ∈ ps.

Local Abbreviation p := (p_name task_id).
Local Abbreviation dir_inv' := (dir_inv T R ps c p).
Local Abbreviation write_sample' :=
  (write_sample sanitize target_path raw_target_path model task_id t).

Lemma with_count_same (k : Z) : with_count c p k p = k.
Proof. unfold with_count. apply decide_True. reflexivity. Qed.

Lemma with_count_other (k : Z) (q : string) : q <> p -> with_count c p k q = c q.
Proof. intros H. unfold with_count. apply decide_False. exact H. Qed.

Lemma dir_inv_requested (k : Z) (w : world) (rq : request) :
  dir_inv' k w -> dir_inv' k (requested rq w).
Proof. intros H. exact H. Qed.

(** The sanitized file of index [k] can be written, and what it leaves. *)
Lemma dir_inv_sanitized_writable (k : Z) (w : world) :
  dir_inv' k w -> writable (fs w) (sample_file task_id target_path k).
Proof.
  intros ((Hfr & _) & _ & Hd). destruct (sample_path task_id target_path k task_dir) as [E Hne].
  rewrite resolve_target in E. destruct Hfr as (_ & Hfr).
  destruct (Hfr p task_known) as (_ & _ & H3 & H4).
  split; [exact Hne|]. rewrite E.
  replace (removelast (T ++ [p; py_name k])) with (T ++ [p]).
  - split; [apply H4|]. split; [exact H3|exact Hd].
  - change [p; py_name k] with ([p] ++ [py_name k]). rewrite app_assoc, removelast_last.
    reflexivity.
Qed.

Lemma dir_inv_raw_writable (k i : Z) (w : world) :
  dir_inv' k w -> writable (fs w) (sample_file task_id raw_target_path i).
Proof.
  intros ((Hfr & _) & _ & _). destruct (sample_path task_id raw_target_path i task_dir) as [E Hne].
  rewrite resolve_raw in E. destruct Hfr as (_ & Hfr).
  destruct (Hfr p task_known) as (H1 & H2 & _ & H4).
  split; [exact Hne|]. rewrite E.
  replace (removelast (R ++ [p; py_name i])) with (R ++ [p]).
  - split; [apply H4|]. split; [exact H2|exact H1].
  - change [p; py_name i] with ([p] ++ [py_name i]). rewrite app_assoc, removelast_last.
    reflexivity.
Qed.

Lemma dir_inv_after_sanitized (k : Z) (text : string) (w w' : world) :
  dir_inv' k w ->
  dirs (fs w') = dirs (fs w) ->
  files (fs w') = <[T ++ [p; py_name k] := text]> (files (fs w)) ->
  dir_inv' (k + 1) w'.
Proof.
  intros ((Hfr & Hh) & Hm & Hd) Hdirs Hfiles. split; [split|split].
  - eapply dir_frame_write; eauto. exists p, (py_name k). left. reflexivity.
  - intros q Hq. destruct (decide (q = p)) as [->|Hne].
    + rewrite with_count_same. eapply dir_holds_next; [|exact Hfiles].
      specialize (Hh p Hq). rewrite with_count_same in Hh. exact Hh.
    + rewrite with_count_other by exact Hne.
      specialize (Hh q Hq). rewrite with_count_other in Hh by exact Hne.
      eapply dir_holds_files; [|exact Hh]. intros name. rewrite Hfiles.
      apply lookup_insert_ne. intros H. apply two_inj in H as (_ & H & _). congruence.
  - intros i. rewrite (isdir_dirs _ _ _ Hdirs). apply Hm.
  - rewrite (isdir_dirs _ _ _ Hdirs). exact Hd.
Qed.

Lemma dir_inv_after_raw (k i : Z) (text : string) (w w' : world) :
  dir_inv' k w ->
  dirs (fs w') = dirs (fs w) ->
  files (fs w') = <[R ++ [p; py_name i] := text]> (files (fs w)) ->
  dir_inv' k w'.
Proof.
  intros ((Hfr & Hh) & Hm & Hd) Hdirs Hfiles. split; [split|split].
  - eapply dir_frame_write; eauto. exists p, (py_name i). right. reflexivity.
  - intros q Hq. eapply dir_holds_files; [|exact (Hh q Hq)]. intros name.
    rewrite Hfiles. apply lookup_insert_ne. intros H.
    apply two_inj in H as (H & _ & _). contradiction.
  - intros j. rewrite (isdir_dirs _ _ _ Hdirs). apply Hm.
  - rewrite (isdir_dirs _ _ _ Hdirs). exact Hd.
Qed.

(** One sample in the directory layout. *)
Lemma write_sample_dir (k : Z) (impl : string) (w : world) :
  dir_inv' k w ->
  match write_sample' k impl w with
  | (Ok _, w') => dir_inv' (k + 1) w' /\ (budget w = None -> budget w' = None)
  | (Raise e, w') => budget w <> None /\ (dir_inv' k w' \/ dir_inv' (k + 1) w')
  end.
Proof.
  intros HI. unfold write_sample. rewrite is_dir. unfold bind.
  destruct (sample_path task_id target_path k task_dir) as [Es _].
  destruct (sample_path task_id raw_target_path k task_dir) as [Er _].
  rewrite resolve_target in Es. rewrite resolve_raw in Er.
  destruct (write_file_spec (sample_file task_id target_path k)
              (sanitize (solution_of model t impl) (entry_point t)) w
              (dir_inv_sanitized_writable k w HI))
    as [[Hb ->]|(w1 & -> & Hd1 & Hf1 & Hb1)].
  - split; [congruence|left; exact HI].
  - rewrite Es in Hf1.
    assert (HI1 : dir_inv' (k + 1) w1) by (eapply dir_inv_after_sanitized; eauto).
    destruct (write_file_spec (sample_file task_id raw_target_path k)
                (solution_of model t impl) w1
                (dir_inv_raw_writable (k + 1) k w1 HI1))
      as [[Hb ->]|(w2 & -> & Hd2 & Hf2 & Hb2)].
    + split; [|right; exact HI1]. intros Hn. rewrite (Hb1 Hn) in Hb. discriminate.
    + rewrite Er in Hf2. split; [eapply dir_inv_after_raw; eauto|auto].
Qed.

Lemma dir_inv_write_sample (k : Z) (impl : string) (w : world) :
  dir_inv' k w ->
  match write_sample' k impl w with
  | (Ok _, w') => dir_inv' (k + 1) w'
  | (Raise _, w') => dir_inv' k w' \/ dir_inv' (k + 1) w'
  end.
Proof.
  intros HI. pose proof (write_sample_dir k impl w HI) as H.
  destruct (write_sample' k impl w) as [[[]|e] w']; apply H.
Qed.

Lemma dir_inv_write_ok (k : Z) (impl : string) (w : world) :
  dir_inv' k w -> budget w = None ->
  exists w', write_sample' k impl w = (Ok tt, w') /\ budget w' = None.
Proof.
  intros HI Hb. pose proof (write_sample_dir k impl w HI) as H.
  destruct (write_sample' k impl w) as [[[]|e] w'].
  - exists w'. split; [reflexivity|apply H, Hb].
  - destruct H as [H _]. contradiction.
Qed.

End DirLayout.

(** ** The directory layout: a whole run *)

Lemma dir_state_ext (T R : path) (ps : list string) (c c' : string -> Z)
    (f : filesystem) :
  (forall q, q ∈ ps -> c q = c' q) -> dir_state T R ps c f -> dir_state T R ps c' f.
Proof.
  intros He [Hfr Hh]. split; [exact Hfr|]. intros q Hq.
  rewrite <- (He q Hq). apply Hh, Hq.
Qed.

Lemma take_app_short {A} (l k : list A) (i : nat) :
  (i <= length l)%nat -> take i (l ++ k) = take i l.
Proof. intros H. apply take_app_le. exact H. Qed.

Section DirRun.

Variable sanitize : string -> string -> string.
Variable target_path raw_target_path : string.
Variable model : DecoderBase.
Variable greedy : bool.
Variable n_samples : Z.
Variable T R : path.
Variable ps : list string.

Hypothesis is_dir : PyStr.endswith target_path ".jsonl" = false.
Hypothesis resolve_target : Os.resolve target_path = T.
Hypothesis resolve_raw : Os.resolve raw_target_path = R.
Hypothesis same_length : length R = length T.
Hypothesis apart : R <> T.
Hypothesis at_most : returns_at_most_requested model.

Local Abbreviation dir_state' := (dir_state T R ps).
Local Abbreviation process_task' :=
  (process_task sanitize target_path raw_target_path model greedy n_samples true).
Local Abbreviation for_tasks' :=
  (for_tasks sanitize target_path raw_target_path model greedy n_samples).

(** A state in order stays so through [os.makedirs] of the root or of a
    task's directory. *)
Lemma dir_state_makedirs (c : string -> Z) (p0 : string) (path : list string)
    (w : world) :
  dir_state' c (fs w) ->
  (length path <= S (length T))%nat ->
  (forall i, (1 <= i <= length path)%nat -> Os.isfile (fs w) (take i path) = false) ->
  match Os.makedirs_go p0 [] path w with
  | (r, w') =>
      dir_state' c (fs w')
      /\ (made T (fs w) -> made T (fs w'))
      /\ ((r = Ok tt
           /\ (forall i, (1 <= i <= length path)%nat ->
                         Os.isdir (fs w') (take i path) = true)
           /\ (budget w = None -> budget w' = None))
          \/ (r = Raise KeyboardInterrupt /\ budget w <> None))
  end.
Proof.
  intros [Hfr Hh] Hlen Hfile.
  pose proof (makedirs_go_spec p0 path [] w Hfile) as H.
  destruct (Os.makedirs_go p0 [] path w) as [r w'].
  destruct H as (Hf & Hsub & Hnew & Hres). split; [split|split].
  - apply (dir_frame_dirs T R ps same_length (fs w) (fs w') Hfr Hf Hsub).
    intros q Hq. destruct (Hnew q Hq) as [H|(i & Hi & ->)]; [left; exact H|right].
    cbn. rewrite length_take. lia.
  - intros q Hq. eapply dir_holds_files; [|exact (Hh q Hq)].
    intros name. rewrite Hf. reflexivity.
  - intros Hm i. eapply isdir_mono; [exact Hsub|apply Hm].
  - exact Hres.
Qed.

Section OneTaskDir.

Variable task_id : string.
Variable t : task.

Hypothesis task_dir : simple_name (p_name task_id).
Hypothesis task_known : p_name task_id ∈ ps.

Local Abbreviation p := (p_name task_id).

(** Lines 70-79 in a state in order: the count found is the task's. *)
Lemma count_existing_dir (c : string -> Z) (m : gmap string Z) (w : world) :
  dir_state' c (fs w) -> made T (fs w) ->
  match count_existing target_path task_id m w with
  | (Ok m1, w1) =>
      m1 = <[task_id := c p]> m
      /\ dir_inv T R ps c p (c p) w1
      /\ (budget w = None -> budget w1 = None)
  | (Raise e, w1) =>
      budget w <> None /\ dir_state' c (fs w1) /\ made T (fs w1)
  end.
Proof.
  intros Hst Hm. unfold count_existing. rewrite is_dir. cbn [negb].
  pose proof task_dir as (Hne & _).
  assert (Hres : Os.resolve (Os.join target_path p) = T ++ [p])
    by (rewrite resolve_join, resolve_target by exact task_dir; reflexivity).
  unfold bind at 1, Os.makedirs.
  destruct (decide (Os.join target_path p = "")) as [E|_];
    [destruct (join_nonempty target_path p Hne E)|].
  rewrite Hres.
  pose proof (dir_state_makedirs c (Os.join target_path p) (T ++ [p]) w Hst) as H.
  destruct (Os.makedirs_go (Os.join target_path p) [] (T ++ [p]) w) as [r w1].
  destruct H as (Hst1 & Hm1 & Hr).
  { rewrite length_one. lia. }
  { intros i Hi. rewrite length_one in Hi. destruct Hst as [(Hpre & Hfr) _].
    destruct (decide (i <= length T)%nat) as [Hle|Hgt].
    - rewrite take_app_short by exact Hle. apply Hpre.
    - rewrite take_ge by (rewrite length_one; lia). apply (Hfr p task_known). }
  destruct Hr as [(-> & Hall & Hb)|[-> Hb]].
  - assert (Hd : Os.isdir (fs w1) (T ++ [p]) = true).
    { specialize (Hall (S (length T))). rewrite take_ge in Hall by (rewrite length_one; lia).
      apply Hall. rewrite length_one. lia. }
    unfold bind, Os.listdir, bind, get_fs.
    destruct (decide (Os.join target_path p = "")) as [E|_];
      [destruct (join_nonempty target_path p Hne E)|].
    rewrite Hres, Hd. cbn [ret].
    destruct Hst1 as [Hfr1 Hh1].
    rewrite (count_py T R ps p (c p) (fs w1) Hfr1 task_known (Hh1 p task_known)).
    split; [reflexivity|]. split; [|exact Hb].
    split; [|split; [apply Hm1, Hm|exact Hd]].
    apply (dir_state_ext T R ps c); [|split; assumption].
    intros q _. unfold with_count. destruct (decide (q = p)) as [->|]; reflexivity.
  - split; [exact Hb|]. split; [exact Hst1|apply Hm1, Hm].
Qed.

(** One task in the directory layout, resuming. *)
Lemma process_task_dir (c : string -> Z) (m : gmap string Z) (w : world) :
  dir_state' c (fs w) -> made T (fs w) ->
  match process_task' task_id t m w with
  | (r, w') =>
      exists k,
        dir_state' (with_count c p k) (fs w') /\ made T (fs w')
        /\ c p <= k <= Z.max (c p) n_samples
        /\ (forall m', r = Ok m' -> k = Z.max (c p) n_samples)
  end.
Proof.
  intros Hst Hm. rewrite process_task_unfold.
  pose proof (count_existing_dir c m w Hst Hm) as H0.
  destruct (count_existing target_path task_id m w) as [[m1|e] w1].
  - destruct H0 as (-> & HI & _). cbv zeta. rewrite lookup_insert_eq. cbn [default].
    unfold id. rewrite start_index_spec. cbn [andb].
    assert (HE : 0 <= c p).
    { destruct HI as ((_ & Hh) & _). destruct (Hh p task_known) as [Hk _].
      rewrite with_count_same in Hk. exact Hk. }
    assert (Hsidx : (if 0 <? c p then c p else 0) = c p)
      by (destruct (Z.ltb_spec 0 (c p)); lia).
    rewrite Hsidx.
    set (w2 := printed _ w1).
    pose proof (generate_loop_inv sanitize target_path raw_target_path model greedy
                  n_samples task_id t (dir_inv T R ps c p)
                  (dir_inv_requested T R ps c task_id)
                  (dir_inv_write_sample sanitize target_path raw_target_path model
                     T R ps is_dir resolve_target resolve_raw same_length apart c
                     task_id t task_dir task_known)
                  (Z.to_nat (n_samples - c p)) (c p) w2 at_most) as Hloop.
    assert (Hfuel : n_samples - c p <= Z.of_nat (Z.to_nat (n_samples - c p))) by lia.
    specialize (Hloop Hfuel HI).
    destruct (generate_loop _ _ _ _ _ _ _ _ _ (c p) w2) as [r w'].
    destruct Hloop as (k & (Hst' & Hm' & _) & Hrange & Hok).
    destruct r as [[]|e]; exists k; (split; [exact Hst'|]); (split; [exact Hm'|]);
      (split; [exact Hrange|]).
    + intros m' _. apply Hok. reflexivity.
    + intros m' [=].
  - destruct H0 as (_ & Hst1 & Hm1). exists (c p). split; [|split; [exact Hm1|]].
    + apply (dir_state_ext T R ps c); [|exact Hst1].
      intros q _. unfold with_count. destruct (decide (q = p)) as [->|]; reflexivity.
    + split; [lia|]. intros m' [=].
Qed.

Lemma process_task_dir_ok (c : string -> Z) (m : gmap string Z) (w : world) :
  returns_something model ->
  dir_state' c (fs w) -> made T (fs w) -> budget w = None ->
  exists m' w', process_task' task_id t m w = (Ok m', w') /\ budget w' = None.
Proof.
  intros Hsome Hst Hm Hb. rewrite process_task_unfold.
  pose proof (count_existing_dir c m w Hst Hm) as H0.
  destruct (count_existing target_path task_id m w) as [[m1|e] w1];
    [|destruct H0 as (H0 & _); contradiction].
  destruct H0 as (-> & HI & Hb1). cbv zeta. rewrite lookup_insert_eq. cbn [default].
  unfold id. rewrite start_index_spec. cbn [andb].
  assert (HE : 0 <= c p).
  { destruct HI as ((_ & Hh) & _). destruct (Hh p task_known) as [Hk _].
    rewrite with_count_same in Hk. exact Hk. }
  assert (Hsidx : (if 0 <? c p then c p else 0) = c p)
    by (destruct (Z.ltb_spec 0 (c p)); lia).
  rewrite Hsidx.
  set (w2 := printed _ w1).
  destruct (generate_loop_ok sanitize target_path raw_target_path model greedy
              n_samples task_id t (dir_inv T R ps c p)
              (dir_inv_requested T R ps c task_id)
              (dir_inv_write_sample sanitize target_path raw_target_path model
                 T R ps is_dir resolve_target resolve_raw same_length apart c
                 task_id t task_dir task_known)
              (dir_inv_write_ok sanitize target_path raw_target_path model
                 T R ps is_dir resolve_target resolve_raw same_length apart c
                 task_id t task_dir task_known)
              (Z.to_nat (n_samples - c p)) (c p) w2 Hsome) as (w' & -> & Hb');
    [lia|exact HI|apply Hb1, Hb|eauto].
Qed.

End OneTaskDir.

Local Abbreviation known_tasks := (known_tasks ps).

Lemma known_tasks_cons (task_id : string) (t : task) (tasks : list (string * task)) :
  known_tasks ((task_id, t) :: tasks) ->
  simple_name (p_name task_id) /\ p_name task_id ∈ ps
  /\ (forall x, x ∈ tasks -> p_name (fst x) <> p_name task_id)
  /\ known_tasks tasks.
Proof.
  intros [Hall Hnd]. apply Forall_cons in Hall as [[H1 H2] Hall].
  cbn [map fst] in Hnd. apply NoDup_cons in Hnd as [Hnotin Hnd].
  split; [exact H1|]. split; [exact H2|]. split; [|split; assumption].
  intros x Hx E. apply Hnotin. rewrite <- E.
  apply (list_elem_of_fmap_2 (fun x => p_name (fst x))), Hx.
Qed.

Lemma filter_defined_cons (id_range : option (Z * Z)) (task_id : string) (t : task)
    (tasks : list (string * task)) :
  filter_defined id_range ((task_id, t) :: tasks) ->
  (id_range = None \/ is_Some (task_number task_id)) /\ filter_defined id_range tasks.
Proof.
  intros [->|H]; [split; left; reflexivity|].
  apply Forall_cons in H as [H1 H2]. split; right; assumption.
Qed.

Lemma dir_state_fs (c : string -> Z) (f f' : filesystem) :
  f' = f -> dir_state' c f -> dir_state' c f'.
Proof. intros ->. auto. Qed.

(** All tasks of a run in the directory layout. *)
Lemma for_tasks_dir (id_range : option (Z * Z)) (tasks : list (string * task))
    (m : gmap string Z) (c : string -> Z) (w : world) :
  known_tasks tasks ->
  filter_defined id_range tasks ->
  dir_state' c (fs w) -> made T (fs w) ->
  match for_tasks' id_range true tasks m w with
  | (r, w') =>
      exists c',
        dir_state' c' (fs w') /\ made T (fs w')
        /\ (forall q, c q <= c' q <= Z.max (c q) n_samples)
        /\ (r = Ok tt ->
            forall x, x ∈ tasks -> in_range id_range (fst x) = true ->
              c' (p_name (fst x)) = Z.max (c (p_name (fst x))) n_samples)
  end.
Proof.
  revert m c w. induction tasks as [|[task_id t] tasks IH]; intros m c w Hknown Hdef Hst Hm.
  - cbn. exists c. split; [exact Hst|]. split; [exact Hm|]. split; [intros; lia|].
    intros _ x Hx. apply elem_of_nil in Hx. destruct Hx.
  - apply known_tasks_cons in Hknown as (Hsimple & Hin & Hdiff & Hknown).
    apply filter_defined_cons in Hdef as [Hnum Hdef].
    cbn [for_tasks]. unfold bind at 1.
    destruct (skip_task_spec id_range task_id w Hnum) as (w1 & -> & Hfs & _).
    rewrite <- Hfs in Hst, Hm.
    destruct (in_range id_range task_id) eqn:Hrng; cbn [negb].
    + unfold bind at 1.
      pose proof (process_task_dir task_id t Hsimple Hin c m w1 Hst Hm) as H1.
      destruct (process_task' task_id t m w1) as [[m'|e] w2];
        destruct H1 as (k & Hst2 & Hm2 & Hrange & Hok).
      * specialize (Hok m' eq_refl).
        specialize (IH m' (with_count c (p_name task_id) k) w2 Hknown Hdef Hst2 Hm2).
        destruct (for_tasks' id_range true tasks m' w2) as [r w3].
        destruct IH as (c' & Hst' & Hm' & Hbounds & Hdone).
        exists c'. split; [exact Hst'|]. split; [exact Hm'|]. split.
        { intros q. specialize (Hbounds q). unfold with_count in Hbounds.
          destruct (decide (q = p_name task_id)) as [->|]; lia. }
        intros Hr x Hx Hxr. apply elem_of_cons in Hx as [->|Hx].
        { cbn [fst]. specialize (Hbounds (p_name task_id)).
          unfold with_count in Hbounds.
          destruct (decide (p_name task_id = p_name task_id)); [lia|congruence]. }
        rewrite (Hdone Hr x Hx Hxr). unfold with_count.
        rewrite decide_False by (apply Hdiff, Hx). reflexivity.
      * exists (with_count c (p_name task_id) k).
        split; [exact Hst2|]. split; [exact Hm2|]. split; [|discriminate].
        intros q. unfold with_count.
        destruct (decide (q = p_name task_id)) as [->|]; lia.
    + rewrite bind_ret. specialize (IH m c w1 Hknown Hdef Hst Hm).
      destruct (for_tasks' id_range true tasks m w1) as [r w3].
      destruct IH as (c' & Hst' & Hm' & Hbounds & Hdone).
      exists c'. split; [exact Hst'|]. split; [exact Hm'|]. split; [exact Hbounds|].
      intros Hr x Hx Hxr. apply elem_of_cons in Hx as [->|Hx]; [cbn in Hxr; congruence|].
      apply Hdone; assumption.
Qed.

Lemma for_tasks_dir_ok (id_range : option (Z * Z)) (tasks : list (string * task))
    (m : gmap string Z) (c : string -> Z) (w : world) :
  returns_something model ->
  known_tasks tasks ->
  filter_defined id_range tasks ->
  dir_state' c (fs w) -> made T (fs w) -> budget w = None ->
  exists w', for_tasks' id_range true tasks m w = (Ok tt, w').
Proof.
  intros Hsome. revert m c w.
  induction tasks as [|[task_id t] tasks IH]; intros m c w Hknown Hdef Hst Hm Hb.
  - exists w. reflexivity.
  - apply known_tasks_cons in Hknown as (Hsimple & Hin & Hdiff & Hknown).
    apply filter_defined_cons in Hdef as [Hnum Hdef].
    cbn [for_tasks]. unfold bind at 1.
    destruct (skip_task_spec id_range task_id w Hnum) as (w1 & -> & Hfs & Hb1 & _).
    rewrite <- Hfs in Hst, Hm. rewrite Hb in Hb1.
    destruct (in_range id_range task_id) eqn:Hrng; cbn [negb].
    + unfold bind at 1.
      pose proof (process_task_dir task_id t Hsimple Hin c m w1 Hst Hm) as H1.
      destruct (process_task_dir_ok task_id t Hsimple Hin c m w1 Hsome Hst Hm Hb1)
        as (m' & w2 & E & Hb2).
      rewrite E in H1 |- *. destruct H1 as (k & Hst2 & Hm2 & _).
      exact (IH m' _ w2 Hknown Hdef Hst2 Hm2 Hb2).
    + rewrite bind_ret. exact (IH m c w1 Hknown Hdef Hst Hm Hb1).
Qed.

End DirRun.

Lemma made_spec (T : path) (f : filesystem) :
  (forall i, (1 <= i <= length T)%nat -> Os.isdir f (take i T) = true) -> made T f.
Proof.
  intros H i. destruct i as [|i].
  - cbn. unfold Os.isdir. apply bool_decide_eq_true. left. reflexivity.
  - destruct (decide (S i <= length T)%nat) as [Hle|Hgt]; [apply H; lia|].
    rewrite take_ge by lia. destruct T as [|a T'].
    + unfold Os.isdir. apply bool_decide_eq_true. left. reflexivity.
    + rewrite <- (take_ge (a :: T') (length (a :: T'))) by lia.
      apply H. cbn [length]. lia.
Qed.

Section DirCodegen.

Variable sanitize : string -> string -> string.
Variable get_human_eval_plus get_mbpp_plus : string -> list (string * task).
Variable target_path dataset version : string.
Variable greedy : bool.
Variable n_samples : Z.
Variable id_range : option (Z * Z).
Variable tasks : list (string * task).
Variable ps : list string.

Local Abbreviation T := (Os.resolve target_path).
Local Abbreviation R := (Os.resolve (target_path +:+ ".raw")).

Hypothesis is_dir : PyStr.endswith target_path ".jsonl" = false.
Hypothesis named : target_path <> "".
Hypothesis same_length : length R = length T.
Hypothesis apart : R <> T.
Hypothesis the_tasks :
  dataset_tasks get_human_eval_plus get_mbpp_plus dataset version = Some tasks.
Hypothesis known : known_tasks ps tasks.
Hypothesis numbered : filter_defined id_range tasks.

Local Abbreviation dir_state' := (dir_state T R ps).
Local Abbreviation codegen' := (fun model =>
  codegen sanitize get_human_eval_plus get_mbpp_plus target_path model dataset
    greedy n_samples id_range version true).

(** What [codegen] comes down to in the directory layout: nothing is
    scanned, the root is made, and the tasks are gone through. *)
Lemma codegen_dir_unfold (model : DecoderBase) (c : string -> Z) (w : world) :
  dir_state' c (fs w) ->
  (exists w1 w2,
      codegen' model w
      = for_tasks sanitize target_path (target_path +:+ ".raw") model greedy
          n_samples id_range true tasks ∅ w2
      /\ Os.makedirs target_path w = (Ok tt, w1)
      /\ fs w2 = fs w1 /\ budget w2 = budget w1
      /\ dir_state' c (fs w1) /\ made T (fs w1)
      /\ (budget w = None -> budget w1 = None))
  \/ (exists w1,
        codegen' model w = (Raise KeyboardInterrupt, w1)
        /\ dir_state' c (fs w1) /\ budget w <> None).
Proof.
  intros Hst.
  assert (Hfile : forall i, (1 <= i <= length T)%nat ->
                            Os.isfile (fs w) (take i T) = false).
  { intros i _. destruct Hst as [[H _] _]. apply H. }
  pose proof (dir_state_makedirs T R ps same_length c target_path T w Hst
                ltac:(lia) Hfile) as H.
  remember (codegen' model w) as X eqn:EX.
  unfold codegen, resume_scan in EX. rewrite is_dir, andb_false_r, bind_ret in EX.
  unfold raw_path in EX. rewrite is_dir in EX. rewrite bind_bind in EX.
  unfold Os.makedirs in EX |- *.
  rewrite decide_False in EX |- * by exact named.
  unfold bind at 1 in EX.
  destruct (Os.makedirs_go target_path [] T w) as [r w1].
  destruct H as (Hst1 & _ & [(-> & Hdirs & Hb)|[-> Hb]]).
  - left. exists w1. eexists. rewrite bind_ret in EX.
    unfold bind at 1, print at 1 in EX. cbv beta iota in EX.
    unfold bind at 1, print at 1 in EX. cbv beta iota in EX.
    unfold bind at 1 in EX. rewrite (load_dataset_tasks _ _ _ _ _ the_tasks) in EX.
    split; [exact EX|]. split; [reflexivity|].
    split; [reflexivity|]. split; [reflexivity|].
    split; [exact Hst1|]. split; [apply made_spec, Hdirs|exact Hb].
  - right. exists w1. split; [exact EX|]. split; assumption.
Qed.

Lemma codegen_dir_run (model : DecoderBase) (c : string -> Z) (w : world) :
  returns_at_most_requested model ->
  dir_state' c (fs w) ->
  match codegen' model w with
  | (r, w') =>
      exists c',
        dir_state' c' (fs w')
        /\ (forall q, c q <= c' q <= Z.max (c q) n_samples)
        /\ (r = Ok tt ->
            forall x, x ∈ tasks -> in_range id_range (fst x) = true ->
              c' (p_name (fst x)) = Z.max (c (p_name (fst x))) n_samples)
  end.
Proof.
  intros Hmost Hst.
  destruct (codegen_dir_unfold model c w Hst)
    as [(w1 & w2 & -> & _ & Hfs & _ & Hst1 & Hm1 & _)|(w1 & -> & Hst1 & _)].
  - rewrite <- Hfs in Hst1, Hm1.
    pose proof (for_tasks_dir sanitize target_path (target_path +:+ ".raw") model
                  greedy n_samples T R ps is_dir eq_refl eq_refl same_length apart
                  Hmost id_range tasks ∅ c w2 known numbered Hst1 Hm1) as H.
    destruct (for_tasks _ _ _ _ _ _ _ _ _ _ w2) as [r w'].
    destruct H as (c' & H1 & _ & H2 & H3). exists c'. auto.
  - exists c. split; [exact Hst1|]. split; [intros; lia|discriminate].
Qed.

Lemma codegen_dir_ok (model : DecoderBase) (c : string -> Z) (w : world) :
  returns_at_most_requested model ->
  returns_something model ->
  dir_state' c (fs w) -> budget w = None ->
  exists w', codegen' model w = (Ok tt, w').
Proof.
  intros Hmost Hsome Hst Hb.
  destruct (codegen_dir_unfold model c w Hst)
    as [(w1 & w2 & -> & _ & Hfs & Hb2 & Hst1 & Hm1 & Hb1)|(w1 & _ & _ & Hne)];
    [|congruence].
  rewrite <- Hfs in Hst1, Hm1.
  apply (for_tasks_dir_ok sanitize target_path (target_path +:+ ".raw") model
           greedy n_samples T R ps is_dir eq_refl eq_refl same_length apart
           Hmost id_range tasks ∅ c w2 Hsome known numbered Hst1 Hm1).
  rewrite Hb2. apply Hb1, Hb.
Qed.

(** However the runs before were interrupted, the directories they leave
    are in order and hold at most [n_samples] samples of any task. *)
Lemma after_runs_dir (runs : list (nat * DecoderBase)) (f : filesystem)
    (c : string -> Z) :
  Forall (fun run => returns_at_most_requested (snd run)) runs ->
  dir_state' c f ->
  (forall q, c q <= n_samples) ->
  exists c',
    dir_state' c' (after_runs codegen' runs f)
    /\ forall q, c' q <= n_samples.
Proof.
  revert f c. induction runs as [|[b model] runs IH]; intros f c Hall Hst Hle.
  - exists c. auto.
  - apply Forall_cons in Hall as [Hmost Hall]. cbn [after_runs snd] in *.
    pose proof (codegen_dir_run model c (start f (Some b)) Hmost Hst) as H.
    destruct (codegen' model (start f (Some b))) as [r w'].
    destruct H as (c1 & Hst1 & Hbounds & _). cbn [snd].
    apply (IH (fs w') c1 Hall Hst1).
    intros q. specialize (Hbounds q). specialize (Hle q). lia.
Qed.

End DirCodegen.

(** ** Resuming *)

Lemma example_model_at_most : returns_at_most_requested example_model.
Proof. intros h rq H. cbn. lia. Qed.

Lemma example_model_something : returns_something example_model.
Proof. intros h rq H. cbn. discriminate. Qed.

Lemma elem_of_map_fst (tasks : list (string * task)) (id : string) :
  id ∈ map fst tasks -> exists x, x ∈ tasks /\ fst x = id.
Proof.
  intros H. apply (list_elem_of_fmap_1 fst) in H as (x & -> & Hx).
  exists x. auto.
Qed.


Lemma empty_fs_fresh : fresh_location "out.jsonl" (example_tasks "default") empty_fs.
Proof.
  unfold fresh_location.
  change (PyStr.endswith "out.jsonl" ".jsonl") with true. cbv iota.
  split; [reflexivity|]. split; [|split].
  - split; [discriminate|]. split; [|split]; vm_compute; reflexivity.
  - split; [vm_compute; discriminate|]. split; [|split]; vm_compute; reflexivity.
  - vm_compute. discriminate.
Qed.

Lemma raw_dirs_isdir (q : path) :
  length q = 3%nat -> Os.isdir raw_dirs_fs q = false.
Proof.
  intros Hlen. apply bool_decide_eq_false_2. intros [->|[->|H]]; [discriminate..|].
  unfold raw_dirs_fs in H. cbn [dirs] in H.
  apply elem_of_union in H as [H|H]; [apply elem_of_union in H as [H|H]|];
    apply elem_of_singleton in H; subst q; discriminate Hlen.
Qed.

Lemma raw_dirs_isfile (q : path) : Os.isfile raw_dirs_fs q = false.
Proof.
  apply bool_decide_eq_false_2. cbn. rewrite lookup_empty. intros [x Hx].
  discriminate Hx.
Qed.

(** The directory layout with the raw directories made beforehand. *)
Lemma raw_dirs_fresh : fresh_location "out" (example_tasks "default") raw_dirs_fs.
Proof.
  unfold fresh_location.
  change (PyStr.endswith "out" ".jsonl") with false. cbv iota zeta.
  change (Os.resolve "out") with ["out"].
  change (Os.resolve ("out" +:+ ".raw")) with ["out.raw"].
  change (map (fun x : string * task => p_name (fst x)) (example_tasks "default"))
    with ["suite_0"; "suite_1"].
  assert (Hps : forall p : string, p ∈ ["suite_0"; "suite_1"] ->
                                   p = "suite_0" \/ p = "suite_1").
  { intros p Hp. apply elem_of_cons in Hp as [->|Hp]; [left; reflexivity|].
    apply list_elem_of_singleton in Hp. right. exact Hp. }
  split; [discriminate|]. split; [reflexivity|]. split; [discriminate|].
  split; [|split; [split|]].
  - split.
    + unfold example_tasks. constructor; [|constructor; [|constructor]];
        cbn [fst]; change (p_name "suite/0") with "suite_0";
        change (p_name "suite/1") with "suite_1";
        (split; [split; [discriminate|split; [discriminate|reflexivity]]|]).
      * apply list_elem_of_here.
      * apply list_elem_of_further, list_elem_of_here.
    + apply NoDup_cons. split; [rewrite list_elem_of_singleton; discriminate|].
      apply NoDup_singleton.
  - intros i. apply raw_dirs_isfile.
  - intros p Hp. split; [|split; [|split]]; try apply raw_dirs_isfile.
    + destruct (Hps p Hp) as [-> | ->]; vm_compute; reflexivity.
    + intros x. split; apply raw_dirs_isdir; reflexivity.
  - intros p Hp. split; [lia|]. intros name _. split.
    + cbn. rewrite lookup_empty. intros [x Hx]. discriminate Hx.
    + intros (i & Hi & _). lia.
Qed.


(** The counts of the records of a log are what reading it line by line
    gives, so a log holds one number of records of a task and no other. *)
Lemma log_counts_read (content : string) (recs : list (string * string))
    (task_id : string) :
  content = log_text recs ->
  exists m, count_lines ∅ (Os.readlines content) = Ok m
            /\ default 0 (m !! task_id) = count_id task_id recs.
Proof.
  intros ->. rewrite readlines_log_text.
  destruct (count_lines_records recs ∅) as (m & E & Hm).
  exists m. split; [exact E|]. rewrite Hm, lookup_empty. cbn. lia.
Qed.


(** A run in the directory layout interrupted after one sample of the
    first task, and the run that resumes it: the files are [0.py] and
    [1.py] for both tasks. *)
Example interrupted_then_resumed :
  let f := after_runs (example_run "out") [(4%nat, example_model)] raw_dirs_fs in
  let w' := snd (example_run "out" example_model (start f None)) in
  fst (example_run "out" example_model (start raw_dirs_fs (Some 4%nat)))
  = Raise KeyboardInterrupt
  /\ file_names f = [["out.raw"; "suite_0"; "0.py"]; ["out"; "suite_0"; "0.py"]]
  /\ fst (example_run "out" example_model (start f None)) = Ok tt
  /\ map (fun name => bool_decide (is_Some (file_at w' ["out"; "suite_0"; name])))
       ["0.py"; "1.py"; "2.py"] = [true; true; false]
  /\ map (fun name => bool_decide (is_Some (file_at w' ["out"; "suite_1"; name])))
       ["0.py"; "1.py"; "2.py"] = [true; true; false].
Proof. vm_compute. repeat split; reflexivity. Qed.

(** The same in the log layout, the first run interrupted after its first
    record: the resumed run asks for one more sample of the first task and
    for two of the second. *)
Example interrupted_log_resumed :
  let f := after_runs (example_run "out.jsonl") [(1%nat, example_model)] empty_fs in
  map req_num_samples
    (requests (snd (example_run "out.jsonl" example_model (start f None))))
  = [1; 2; 1].
Proof. vm_compute. reflexivity. Qed.

(** * More of [run_codegen] and [codegen] *)

(** ** Steps of the monad *)

Lemma bind_ok {A B} (m : M A) (k : A -> M B) (a : A) (w w' : world) :
  m w = (Ok a, w') -> bind m k w = k a w'.
Proof. intros E. unfold bind. rewrite E. reflexivity. Qed.

Lemma bind_fail {A B} (m : M A) (k : A -> M B) (e : exn) (w w' : world) :
  m w = (Raise e, w') -> bind m k w = (Raise e, w').
Proof. intros E. unfold bind. rewrite E. reflexivity. Qed.

Lemma same_fs_bind {A B} (m : M A) (k : A -> M B) (w : world) :
  fs (snd (m w)) = fs w ->
  (forall a w1, fs (snd (k a w1)) = fs w1) ->
  fs (snd (bind m k w)) = fs w.
Proof.
  intros Hm Hk. unfold bind. destruct (m w) as [[a|e] w1]; cbn [snd] in *.
  - rewrite Hk. exact Hm.
  - exact Hm.
Qed.

Lemma bind_inv_ok {A B} (m : M A) (k : A -> M B) (b : B) (w w' : world) :
  bind m k w = (Ok b, w') -> exists a w1, m w = (Ok a, w1) /\ k a w1 = (Ok b, w').
Proof.
  unfold bind. destruct (m w) as [[a|e] w1]; [|discriminate].
  intros H. exists a, w1. auto.
Qed.

(** ** [run_codegen]: the checks on the arguments *)

Section RunArguments.

Variable sanitize : string -> string -> string.
Variable get_human_eval_plus get_mbpp_plus : string -> list (string * task).
Variable make_model : make_model_args -> DecoderBase.
Variable float_repr : float -> string.

Local Abbreviation run_codegen' :=
  (run_codegen sanitize get_human_eval_plus get_mbpp_plus make_model float_repr).

(** X1. Lines 156-162: a dataset other than [humaneval] and [mbpp], a backend
    other than [vllm], [hf] and [openai], or an [evalperf_type] other
    than the three known ones ends the call in [AssertionError] (with the
    message [Invalid dataset ...] for the dataset, with none for the
    other two) before anything is printed, created or requested. *)
Theorem run_codegen_rejects_arguments (model dataset root : string) (bs : option Z)
    (n_samples : Z) (temperature : float) (resume greedy : bool)
    (id_range : option (list Z)) (version backend : string)
    (force_base_prompt : bool) (base_url : option string) (tp : Z)
    (evalperf_type : option string) (jsonl_fmt : bool) (w : world) :
  valid_arguments dataset backend evalperf_type = false ->
  run_codegen' model dataset root bs n_samples temperature resume greedy id_range
    version backend force_base_prompt base_url tp evalperf_type jsonl_fmt w
  = (Raise (AssertionError (argument_error dataset backend)), w).
Proof.
  unfold valid_arguments, valid_evalperf_type, argument_error, run_codegen.
  intros H. unfold assert_ at 1.
  destruct (mem_str dataset ["humaneval"; "mbpp"]); [|reflexivity].
  rewrite bind_ret. unfold assert_ at 1.
  destruct (mem_str backend ["vllm"; "hf"; "openai"]); [|reflexivity].
  rewrite bind_ret. unfold assert_ at 1. cbn [andb] in H. rewrite H. reflexivity.
Qed.

Lemma check_id_range_valid (id_range : option (list Z)) (w : world) :
  valid_id_range id_range = true ->
  check_id_range id_range w
  = (Ok (match id_range with
         | Some [low; high] => Some (low, high)
         | _ => None
         end), w).
Proof.
  destruct id_range as [[|low [|high [|x l]]]|]; cbn; try discriminate; try reflexivity.
  intros H. unfold check_id_range, assert_. cbn [length]. cbn. rewrite H. reflexivity.
Qed.

Lemma check_id_range_invalid (l : list Z) (w : world) :
  valid_id_range (Some l) = false ->
  check_id_range (Some l) w = (Raise (AssertionError (id_range_error l)), w).
Proof.
  unfold id_range_error.
  destruct l as [|low [|high [|x l]]]; cbn; try reflexivity.
  intros H. unfold check_id_range, assert_. cbn. rewrite H. reflexivity.
Qed.

(** X2. Lines 170-173: a range that is not a list of two increasing integers
    ends the call in [AssertionError] with the message of the assertion
    that fails; no directory has been made and no backend built or asked
    by then (only the notice of a greedy override may have been
    printed). *)
Theorem run_codegen_rejects_id_range (model dataset root : string) (bs : option Z)
    (n_samples : Z) (temperature : float) (resume greedy : bool)
    (l : list Z) (version backend : string)
    (force_base_prompt : bool) (base_url : option string) (tp : Z)
    (evalperf_type : option string) (jsonl_fmt : bool) (w : world) :
  valid_arguments dataset backend evalperf_type = true ->
  valid_id_range (Some l) = false ->
  exists w',
    run_codegen' model dataset root bs n_samples temperature resume greedy (Some l)
      version backend force_base_prompt base_url tp evalperf_type jsonl_fmt w
    = (Raise (AssertionError (id_range_error l)), w')
    /\ fs w' = fs w /\ requests w' = requests w /\ trace w' = trace w
    /\ (w' = w \/ greedy = true /\ w' = printed greedy_notice w).
Proof.
  unfold valid_arguments, valid_evalperf_type. intros Hv Hr.
  apply andb_true_iff in Hv as [Hv He]. apply andb_true_iff in Hv as [Hd Hb].
  unfold run_codegen. rewrite Hd, Hb, He. unfold assert_. rewrite !bind_ret.
  unfold bind at 1. destruct greedy.
  - rewrite greedy_override_spec.
    destruct (differs_from_greedy temperature bs n_samples); cbv beta iota;
      unfold bind at 1; rewrite (check_id_range_invalid l _ Hr); eexists;
      (split; [reflexivity|]); (split; [reflexivity|]); (split; [reflexivity|]);
      (split; [reflexivity|]); [right; split; reflexivity|left; reflexivity].
  - unfold greedy_override. cbn [andb]. cbv beta iota. unfold ret at 1. cbv beta iota.
    unfold bind at 1. rewrite (check_id_range_invalid l _ Hr). eexists.
    split; [reflexivity|]. auto.
Qed.

(** X3. Lines 158-162 and 188-195: for an [evalperf_type] that passes the
    assertion of line 158, the choice of the prefixes never reaches the
    [raise ValueError] of line 195. *)
Theorem evalperf_type_never_value_error (evalperf_type : option string) (w : world) :
  valid_evalperf_type evalperf_type = true ->
  exists both, prefixes evalperf_type w = (Ok both, w).
Proof.
  unfold valid_evalperf_type, mem_str. intros H.
  destruct evalperf_type as [e|].
  - apply bool_decide_eq_true in H.
    repeat (apply elem_of_cons in H as [-> |H]); [| | |apply elem_of_nil in H; destruct H];
      eexists; reflexivity.
  - eexists. reflexivity.
Qed.

(** X4. Lines 175-177: without greedy decoding, leaving [bs] out is the same
    as passing the smaller of [n_samples] and 32, apart from the line
    printed about it; the value is passed on as it is, also when it is
    zero or negative. *)
Theorem default_batch_size (model dataset root : string)
    (n_samples : Z) (temperature : float) (resume : bool)
    (id_range : option (list Z)) (version backend : string)
    (force_base_prompt : bool) (base_url : option string) (tp : Z)
    (evalperf_type : option string) (jsonl_fmt : bool) (w : world) :
  valid_arguments dataset backend evalperf_type = true ->
  valid_id_range id_range = true ->
  run_codegen' model dataset root None n_samples temperature resume false id_range
    version backend force_base_prompt base_url tp evalperf_type jsonl_fmt w
  = run_codegen' model dataset root (Some (Z.min n_samples 32)) n_samples temperature
      resume false id_range version backend force_base_prompt base_url tp
      evalperf_type jsonl_fmt (printed (batch_size_notice n_samples) w).
Proof.
  unfold valid_arguments, valid_evalperf_type. intros Hv Hr.
  apply andb_true_iff in Hv as [Hv He]. apply andb_true_iff in Hv as [Hd Hb].
  unfold run_codegen. rewrite Hd, Hb, He. unfold assert_. rewrite !bind_ret.
  unfold greedy_override. cbn [andb]. rewrite !bind_ret.
  etransitivity; [apply bind_ok, check_id_range_valid, Hr|].
  symmetry. etransitivity; [apply bind_ok, check_id_range_valid, Hr|].
  reflexivity.
Qed.

End RunArguments.

Lemma run_codegen_rejects_id_range_witness :
  valid_arguments "humaneval" "vllm" None = true
  /\ valid_id_range (Some [5; 3]) = false
  /\ exists w',
       example_run_codegen "org/m" "humaneval" "evalplus_results" None 1 float_zero
         true false (Some [5; 3]) "default" "vllm" false None 1 None true
         (start empty_fs None)
       = (Raise (AssertionError "id_range must be increasing"), w')
       /\ fs w' = empty_fs.
Proof.
  split; [reflexivity|]. split; [reflexivity|].
  destruct (run_codegen_rejects_id_range example_sanitize example_tasks example_tasks
              example_make_model example_float_repr
              "org/m" "humaneval" "evalplus_results" None 1 float_zero true false
              [5; 3] "default" "vllm" false None 1 None true (start empty_fs None)
              eq_refl eq_refl) as (w' & E & Hfs & _).
  exists w'. split; [exact E|exact Hfs].
Defined.

Lemma run_codegen_rejects_arguments_witness :
  valid_arguments "apps" "vllm" None = false
  /\ example_run_codegen "org/m" "apps" "evalplus_results" None 1 float_zero
       true false None "default" "vllm" false None 1 None true (start empty_fs None)
     = (Raise (AssertionError "Invalid dataset apps"), start empty_fs None).
Proof.
  split; [reflexivity|].
  exact (run_codegen_rejects_arguments example_sanitize example_tasks example_tasks
           example_make_model example_float_repr
           "org/m" "apps" "evalplus_results" None 1 float_zero true false None
           "default" "vllm" false None 1 None true (start empty_fs None) eq_refl).
Defined.

Lemma evalperf_type_never_value_error_witness :
  valid_evalperf_type (Some "perf-CoT") = true
  /\ exists both, prefixes (Some "perf-CoT") (start empty_fs None)
                  = (Ok both, start empty_fs None).
Proof.
  split; [reflexivity|].
  exact (evalperf_type_never_value_error (Some "perf-CoT") (start empty_fs None) eq_refl).
Defined.

Lemma default_batch_size_witness :
  valid_arguments "humaneval" "vllm" None = true
  /\ valid_id_range (Some [0; 2]) = true
  /\ example_run_codegen "org/m" "humaneval" "evalplus_results" None 40 float_zero
       true false (Some [0; 2]) "default" "vllm" false None 1 None true
       (start empty_fs None)
     = example_run_codegen "org/m" "humaneval" "evalplus_results" (Some 32) 40
         float_zero true false (Some [0; 2]) "default" "vllm" false None 1 None true
         (printed "Setting batch size to 32" (start empty_fs None)).
Proof.
  split; [reflexivity|]. split; [reflexivity|].
  exact (default_batch_size example_sanitize example_tasks example_tasks
           example_make_model example_float_repr
           "org/m" "humaneval" "evalplus_results" 40 float_zero true (Some [0; 2])
           "default" "vllm" false None 1 None true (start empty_fs None)
           eq_refl eq_refl).
Defined.

(** ** [run_codegen]: where the outputs go *)

Lemma replace_slash_free (s new : string) :
  PyStr.mem_char "/" new = false ->
  PyStr.mem_char "/" (PyStr.replace s "/" new) = false.
Proof.
  intros Hnew. unfold PyStr.replace. induction s as [|c s IH]; [reflexivity|].
  cbn [PyStr.replace_go PyStr.startswith String.length Nat.pred].
  destruct (ascii_dec "/" c) as [E|E].
  - rewrite mem_char_app, Hnew, IH. reflexivity.
  - cbn [PyStr.mem_char]. destruct (ascii_dec "/" c); [contradiction|exact IH].
Qed.

Lemma all_chars_mem_char (P : ascii -> bool) (c : ascii) (s : string) :
  all_chars P s = true -> P c = false -> PyStr.mem_char c s = false.
Proof.
  intros Hall Hc. induction s as [|d s IH]; [reflexivity|].
  cbn [all_chars] in Hall. apply andb_true_iff in Hall as [Hd Hall].
  cbn [PyStr.mem_char]. destruct (ascii_dec c d) as [-> |]; [congruence|auto].
Qed.

Lemma snoc_exists (s : string) :
  s <> "" -> exists init c, s = init +:+ String c "".
Proof.
  induction s as [|d s IH]; [congruence|intros _].
  destruct s as [|e s'].
  - exists "", d. reflexivity.
  - destruct IH as (init & c & E); [discriminate|].
    exists (String d init), c. rewrite app_cons, <- E. reflexivity.
Qed.

Lemma snoc_inj_last (a b : string) (c d : ascii) :
  a +:+ String c "" = b +:+ String d "" -> c = d.
Proof.
  revert b. induction a as [|x a IH]; intros [|y b]; rewrite ?app_empty_l, ?app_cons.
  - intros [= ->]. reflexivity.
  - intros [= _ E]. destruct b; rewrite ?app_empty_l, ?app_cons in E; discriminate E.
  - intros [= _ E]. destruct a; rewrite ?app_empty_l, ?app_cons in E; discriminate E.
  - intros [= _ E]. apply (IH b E).
Qed.

Lemma endswith_snoc (s suf : string) (c d : ascii) :
  PyStr.endswith (s +:+ String c "") (suf +:+ String d "") = true -> c = d.
Proof.
  induction s as [|x s IH]; rewrite ?app_empty_l, ?app_cons; cbn [PyStr.endswith].
  - destruct (String.eqb_spec (String c "") (suf +:+ String d "")) as [E|_].
    + intros _. apply (snoc_inj_last "" suf). rewrite app_empty_l. exact E.
    + destruct (String.eqb_spec "" (suf +:+ String d "")) as [E|_]; [|discriminate].
      destruct suf; rewrite ?app_empty_l, ?app_cons in E; discriminate E.
  - destruct (String.eqb_spec (String x (s +:+ String c "")) (suf +:+ String d ""))
      as [E|_]; [|exact IH].
    intros _. apply (snoc_inj_last (String x s) suf). rewrite app_cons. exact E.
Qed.

Lemma join_app_r (a b ext : string) :
  b <> "" -> Os.join a b +:+ ext = Os.join a (b +:+ ext).
Proof.
  destruct b as [|c b]; [congruence|intros _]. unfold Os.join.
  rewrite (app_cons c b ext). cbn [PyStr.startswith].
  destruct (ascii_dec "/" c); [apply app_cons|].
  destruct (decide (a = "")); [apply app_cons|].
  destruct (PyStr.endswith a "/"); rewrite !app_assoc_str, ?app_cons; reflexivity.
Qed.

Lemma join_suffix (a b : string) : exists pre, Os.join a b = pre +:+ b.
Proof.
  unfold Os.join. destruct (PyStr.startswith "/" b); [exists ""; reflexivity|].
  destruct (decide (a = "")); [exists ""; reflexivity|].
  destruct (PyStr.endswith a "/"); [exists a; reflexivity|].
  exists (a +:+ "/"). rewrite app_assoc_str. reflexivity.
Qed.

Lemma valid_arguments_inv (dataset backend : string) (evalperf_type : option string) :
  valid_arguments dataset backend evalperf_type = true ->
  (dataset = "humaneval" \/ dataset = "mbpp")
  /\ (backend = "vllm" \/ backend = "hf" \/ backend = "openai")
  /\ (evalperf_type = None \/ evalperf_type = Some "instruct"
      \/ evalperf_type = Some "perf-instruct" \/ evalperf_type = Some "perf-CoT").
Proof.
  unfold valid_arguments, valid_evalperf_type, mem_str. intros Hv.
  apply andb_true_iff in Hv as [Hv He]. apply andb_true_iff in Hv as [Hd Hb].
  apply bool_decide_eq_true in Hd, Hb.
  split; [|split].
  - repeat (apply elem_of_cons in Hd as [-> |Hd]); auto.
    apply elem_of_nil in Hd. destruct Hd.
  - repeat (apply elem_of_cons in Hb as [-> |Hb]); auto.
    apply elem_of_nil in Hb. destruct Hb.
  - destruct evalperf_type as [e|]; [|auto]. apply bool_decide_eq_true in He.
    repeat (apply elem_of_cons in He as [-> |He]); auto.
    apply elem_of_nil in He. destruct He.
Qed.

Section RunPath.

Variable sanitize : string -> string -> string.
Variable get_human_eval_plus get_mbpp_plus : string -> list (string * task).
Variable make_model : make_model_args -> DecoderBase.
Variable float_repr : float -> string.

Hypothesis plain_repr : plain_float_repr float_repr.

Local Abbreviation identifier' := (identifier float_repr).

Lemma float_repr_no_slash (x : float) : PyStr.mem_char "/" (float_repr x) = false.
Proof. apply (all_chars_mem_char _ _ _ (plain_repr x)). reflexivity. Qed.

(** The identifier is one proper path component, with or without the
    extension of the log. *)
Lemma identifier_simple (model dataset backend : string) (temperature : float)
    (evalperf_type : option string) (ext : string) :
  valid_arguments dataset backend evalperf_type = true ->
  ext = "" \/ ext = ".jsonl" ->
  simple_name (identifier' model backend temperature evalperf_type +:+ ext).
Proof.
  intros Hv Hext. apply valid_arguments_inv in Hv as (_ & Hb & He).
  assert (Hslash : PyStr.mem_char "/"
                     (identifier' model backend temperature evalperf_type +:+ ext)
                   = false).
  { unfold identifier. rewrite !mem_char_app.
    rewrite (replace_slash_free _ "--" eq_refl), float_repr_no_slash.
    destruct Hb as [-> |[-> | ->]];
      destruct He as [-> |[-> |[-> | ->]]];
      destruct Hext as [-> | ->]; reflexivity. }
  assert (Hunder : PyStr.mem_char "_"
                     (identifier' model backend temperature evalperf_type +:+ ext)
                   = true).
  { unfold identifier. rewrite !mem_char_app.
    change (PyStr.mem_char "_" "_") with true.
    rewrite orb_true_l, orb_true_r. reflexivity. }
  split; [|split; [|exact Hslash]]; intros E; rewrite E in Hunder; discriminate Hunder.
Qed.

(** Its last character is not the [l] a log's name ends with. *)
Lemma identifier_last (model dataset backend : string) (temperature : float)
    (evalperf_type : option string) :
  valid_arguments dataset backend evalperf_type = true ->
  exists init c,
    identifier' model backend temperature evalperf_type = init +:+ String c ""
    /\ c <> "l"%char.
Proof.
  intros Hv. apply valid_arguments_inv in Hv as (_ & _ & He).
  unfold identifier.
  set (A := PyStr.replace (PyStr.strip_chars model "./") "/" "--").
  destruct He as [-> |[-> |[-> | ->]]].
  - rewrite app_empty_r. destruct (float_repr temperature) as [|d r] eqn:Hfr.
    + exists (A +:+ "_" +:+ backend +:+ "_temp"), "_"%char.
      split; [rewrite !app_assoc_str; reflexivity|discriminate].
    + destruct (snoc_exists (String d r)) as (init & c & E); [discriminate|].
      exists (A +:+ "_" +:+ backend +:+ "_temp_" +:+ init), c.
      split; [rewrite E, !app_assoc_str; reflexivity|].
      pose proof (plain_repr temperature) as Hall. rewrite Hfr, E, all_chars_app in Hall.
      apply andb_true_iff in Hall as [_ Hall]. cbn [all_chars] in Hall.
      intros ->. discriminate Hall.
  - exists (A +:+ "_" +:+ backend +:+ "_temp_" +:+ float_repr temperature +:+ "-instruc"),
      "t"%char.
    split; [rewrite !app_assoc_str; reflexivity|discriminate].
  - exists (A +:+ "_" +:+ backend +:+ "_temp_" +:+ float_repr temperature
            +:+ "-perf-instruc"), "t"%char.
    split; [rewrite !app_assoc_str; reflexivity|discriminate].
  - exists (A +:+ "_" +:+ backend +:+ "_temp_" +:+ float_repr temperature +:+ "-perf-Co"),
      "T"%char.
    split; [rewrite !app_assoc_str; reflexivity|discriminate].
Qed.

Lemma dataset_simple (dataset backend : string) (evalperf_type : option string) :
  valid_arguments dataset backend evalperf_type = true -> simple_name dataset.
Proof.
  intros Hv. apply valid_arguments_inv in Hv as ([-> | ->] & _);
    (split; [discriminate|split; [discriminate|reflexivity]]).
Qed.

(** X5. Lines 212-220 and 232: the path a call returns names one entry
    directly inside [root/dataset], whatever slashes and dots the model
    name holds; and it ends in [.jsonl] exactly when [jsonl_fmt] is set,
    so that [jsonl_fmt] decides the layout [codegen] writes. *)
Theorem run_codegen_returns_path (model dataset root : string) (bs : option Z)
    (n_samples : Z) (temperature : float) (resume greedy : bool)
    (id_range : option (list Z)) (version backend : string)
    (force_base_prompt : bool) (base_url : option string) (tp : Z)
    (evalperf_type : option string) (jsonl_fmt : bool) (w w' : world)
    (target_path : string) :
  run_codegen sanitize get_human_eval_plus get_mbpp_plus make_model float_repr
    model dataset root bs n_samples temperature resume greedy id_range
    version backend force_base_prompt base_url tp evalperf_type jsonl_fmt w
  = (Ok target_path, w') ->
  (exists name,
     simple_name name
     /\ Os.resolve target_path = Os.resolve root ++ [dataset; name])
  /\ PyStr.endswith target_path ".jsonl" = jsonl_fmt.
Proof.
  intros Hrun.
  unfold run_codegen in Hrun.
  apply bind_inv_ok in Hrun as ([] & w0 & Hd & Hrun).
  apply bind_inv_ok in Hrun as ([] & w0' & Hb & Hrun).
  apply bind_inv_ok in Hrun as ([] & w0'' & He & Hrun).
  assert (Hv : valid_arguments dataset backend evalperf_type = true).
  { unfold valid_arguments, valid_evalperf_type, assert_ in *.
    destruct (mem_str dataset _); [|discriminate Hd].
    destruct (mem_str backend _); [|discriminate Hb].
    destruct (match evalperf_type with Some _ => _ | None => _ end);
      [reflexivity|discriminate He]. }
  apply bind_inv_ok in Hrun as ([[temperature' bs'] n_samples'] & w1 & _ & Hrun).
  apply bind_inv_ok in Hrun as (id_range' & w2 & _ & Hrun).
  apply bind_inv_ok in Hrun as (bs'' & w3 & _ & Hrun).
  apply bind_inv_ok in Hrun as ([] & w4 & _ & Hrun).
  apply bind_inv_ok in Hrun as ([] & w5 & _ & Hrun).
  apply bind_inv_ok in Hrun as ([instruction_prefix response_prefix] & w6 & _ & Hrun).
  apply bind_inv_ok in Hrun as (p & w7 & Hp & Hrun).
  apply bind_inv_ok in Hrun as ([] & w8 & _ & Hrun).
  injection Hrun as <- _.
  set (ident := identifier' model backend temperature' evalperf_type) in *.
  assert (Hpath : p = Os.join (Os.join root dataset)
                        (ident +:+ if jsonl_fmt then ".jsonl" else "")).
  { destruct jsonl_fmt.
    - injection Hp as <- _. apply join_app_r.
      intros E. destruct (identifier_simple model dataset backend temperature'
                            evalperf_type "" Hv (or_introl eq_refl)) as [H _].
      rewrite app_empty_r in H. contradiction.
    - apply bind_inv_ok in Hp as ([] & w9 & _ & Hp). injection Hp as <- _.
      rewrite app_empty_r. reflexivity. }
  assert (Hname : simple_name (ident +:+ if jsonl_fmt then ".jsonl" else "")).
  { apply (identifier_simple model dataset backend temperature' evalperf_type _ Hv).
    destruct jsonl_fmt; auto. }
  split.
  - exists (ident +:+ if jsonl_fmt then ".jsonl" else ""). split; [exact Hname|].
    rewrite Hpath, (resolve_join _ _ Hname),
      (resolve_join _ _ (dataset_simple _ _ _ Hv)), <- app_assoc. reflexivity.
  - rewrite Hpath. destruct (join_suffix (Os.join root dataset)
                               (ident +:+ if jsonl_fmt then ".jsonl" else ""))
      as (pre & ->).
    destruct jsonl_fmt.
    + rewrite <- app_assoc_str. apply endswith_app.
    + rewrite app_empty_r.
      destruct (identifier_last model dataset backend temperature' evalperf_type Hv)
        as (init & c & E & Hc).
      fold ident in E. rewrite E, <- app_assoc_str.
      destruct (PyStr.endswith ((pre +:+ init) +:+ String c "") ".jsonl") eqn:Hend;
        [|reflexivity].
      change ".jsonl" with (".json" +:+ String "l" "") in Hend.
      apply endswith_snoc in Hend. contradiction.
Qed.

End RunPath.

Lemma example_float_repr_plain : plain_float_repr example_float_repr.
Proof. intros x. reflexivity. Qed.

Lemma run_codegen_returns_path_witness :
  fst (example_run_codegen "./org/m" "humaneval" "evalplus_results" None 1 float_zero
         true false None "default" "vllm" false None 1 None true (start empty_fs None))
  = Ok example_target
  /\ (exists name,
        simple_name name
        /\ Os.resolve example_target = Os.resolve "evalplus_results" ++ ["humaneval"; name])
  /\ PyStr.endswith example_target ".jsonl" = true.
Proof.
  assert (H : example_run_codegen "./org/m" "humaneval" "evalplus_results" None 1
                float_zero true false None "default" "vllm" false None 1 None true
                (start empty_fs None)
              = (Ok example_target,
                 snd (example_run_codegen "./org/m" "humaneval" "evalplus_results" None
                        1 float_zero true false None "default" "vllm" false None 1 None
                        true (start empty_fs None))))
    by (vm_compute; reflexivity).
  split; [rewrite H; reflexivity|].
  exact (run_codegen_returns_path example_sanitize example_tasks example_tasks
           example_make_model example_float_repr example_float_repr_plain
           "./org/m" "humaneval" "evalplus_results" None 1 float_zero true false None
           "default" "vllm" false None 1 None true _ _ _ H).
Defined.

(** ** The log layout: nothing but appending *)

Section Appending.

Variable T R : path.

Local Abbreviation grows := (fun w w' : world => only_appended T R (fs w) (fs w')).

Lemma grows_same (w w' : world) : fs w' = fs w -> grows w w'.
Proof.
  intros E. cbv beta. rewrite E. split; [reflexivity|]. split; [reflexivity|].
  intros q old H. exists "". rewrite app_empty_r. exact H.
Qed.

Lemma grows_trans (w1 w2 w3 : world) : grows w1 w2 -> grows w2 w3 -> grows w1 w3.
Proof.
  intros (Hd1 & Ho1 & Hp1) (Hd2 & Ho2 & Hp2). split; [congruence|]. split.
  - intros q HT HR. rewrite (Ho2 q HT HR). apply Ho1; assumption.
  - intros q old H. destruct (Hp1 q old H) as (m1 & H1).
    destruct (Hp2 q _ H1) as (m2 & H2). exists (m1 +:+ m2).
    rewrite H2, app_assoc_str. reflexivity.
Qed.

Lemma grows_bind {A B} (m : M A) (k : A -> M B) (w : world) :
  grows w (snd (m w)) ->
  (forall a w1, grows w1 (snd (k a w1))) ->
  grows w (snd (bind m k w)).
Proof.
  intros Hm Hk. unfold bind. destruct (m w) as [[a|e] w1]; cbn [snd] in *.
  - eapply grows_trans; [exact Hm|apply Hk].
  - exact Hm.
Qed.

Lemma tick_fs (w : world) : fs (snd (tick w)) = fs w.
Proof. unfold tick. destruct (budget w) as [[|n]|]; reflexivity. Qed.

Lemma check_writable_fs (p : string) (w : world) :
  fs (snd (Os.check_writable p w)) = fs w.
Proof.
  unfold Os.check_writable, bind, get_fs.
  destruct (decide (p = "")); [reflexivity|].
  destruct (Os.isdir (fs w) (Os.resolve p)); [reflexivity|].
  destruct (Os.isfile (fs w) (removelast (Os.resolve p))); [reflexivity|].
  destruct (Os.isdir (fs w) (removelast (Os.resolve p))); reflexivity.
Qed.

Lemma append_file_grows (p text : string) (w : world) :
  Os.resolve p = T \/ Os.resolve p = R ->
  grows w (snd (Os.append_file p text w)).
Proof.
  intros Hp. unfold Os.append_file.
  apply grows_bind; [apply grows_same, tick_fs|intros _ w1].
  apply grows_bind; [apply grows_same, check_writable_fs|intros _ w2].
  unfold bind, get_fs, put_fs. cbn [snd fs dirs files].
  split; [reflexivity|]. split.
  - intros q HT HR. cbn [files]. apply lookup_insert_ne. destruct Hp; congruence.
  - intros q old H. destruct (decide (q = Os.resolve p)) as [->|Hne].
    + cbn [files]. rewrite lookup_insert_eq, H. exists text. reflexivity.
    + cbn [files]. rewrite lookup_insert_ne by congruence. exists "".
      rewrite app_empty_r. exact H.
Qed.

End Appending.

Section AppendingRun.

Variable sanitize : string -> string -> string.
Variable get_human_eval_plus get_mbpp_plus : string -> list (string * task).
Variable target_path : string.
Variable model : DecoderBase.
Variable greedy : bool.
Variable n_samples : Z.
Variable resume : bool.

Hypothesis is_log : PyStr.endswith target_path ".jsonl" = true.

Local Abbreviation raw_target_path := (raw_log target_path).
Local Abbreviation grows :=
  (fun w w' : world =>
     only_appended (Os.resolve target_path) (Os.resolve raw_target_path) (fs w) (fs w')).

Lemma write_sample_grows (task_id : string) (t : task) (sidx : Z) (impl : string)
    (w : world) :
  grows w (snd (write_sample sanitize target_path raw_target_path model task_id t
                  sidx impl w)).
Proof.
  unfold write_sample. rewrite is_log.
  apply grows_bind; [apply append_file_grows; left; reflexivity|intros _ w1].
  apply append_file_grows. right. reflexivity.
Qed.

Lemma write_outputs_grows (task_id : string) (t : task) (outputs : list string)
    (sidx : Z) (w : world) :
  grows w (snd (write_outputs sanitize target_path raw_target_path model task_id t
                  outputs sidx w)).
Proof.
  revert sidx w. induction outputs as [|impl outputs IH]; intros sidx w.
  - apply grows_same. reflexivity.
  - cbn [write_outputs]. apply grows_bind; [apply write_sample_grows|intros _ w1].
    apply IH.
Qed.

Lemma generate_loop_grows (task_id : string) (t : task) (fuel : nat) (sidx : Z)
    (w : world) :
  grows w (snd (generate_loop sanitize target_path raw_target_path model greedy
                  n_samples task_id t fuel sidx w)).
Proof.
  revert sidx w. induction fuel as [|fuel IH]; intros sidx w; cbn [generate_loop];
    destruct (sidx <? n_samples); try (apply grows_same; reflexivity).
  apply grows_bind; [apply grows_same; reflexivity|intros outputs w1].
  destruct outputs as [|impl outputs]; [apply grows_same; reflexivity|].
  apply grows_bind; [apply write_outputs_grows|intros sidx' w2]. apply IH.
Qed.

Lemma process_task_grows (task_id : string) (t : task) (m : gmap string Z) (w : world) :
  grows w (snd (process_task sanitize target_path raw_target_path model greedy
                  n_samples resume task_id t m w)).
Proof.
  unfold process_task.
  apply grows_bind.
  { unfold count_existing. rewrite is_log. apply grows_same. reflexivity. }
  intros m1 w1. cbv zeta.
  apply grows_bind; [apply grows_same; reflexivity|intros _ w2].
  apply grows_bind; [apply generate_loop_grows|intros _ w3].
  apply grows_same. reflexivity.
Qed.

Lemma skip_task_fs (id_range : option (Z * Z)) (task_id : string) (w : world) :
  fs (snd (skip_task id_range task_id w)) = fs w.
Proof.
  unfold skip_task. destruct id_range as [[low high]|]; [|reflexivity].
  destruct (PyStr.split task_id "/" !! 1%nat) as [piece|]; [|reflexivity].
  destruct (PyStr.int piece) as [n|]; [|reflexivity].
  destruct ((n <? low) || (n >=? high)); reflexivity.
Qed.

Lemma for_tasks_grows (id_range : option (Z * Z)) (tasks : list (string * task))
    (m : gmap string Z) (w : world) :
  grows w (snd (for_tasks sanitize target_path raw_target_path model greedy n_samples
                  id_range resume tasks m w)).
Proof.
  revert m w. induction tasks as [|[task_id t] tasks IH]; intros m w.
  - apply grows_same. reflexivity.
  - cbn [for_tasks].
    apply grows_bind; [apply grows_same, skip_task_fs|intros skip w1].
    apply grows_bind; [|intros m1 w2; apply IH].
    destruct skip; [apply grows_same; reflexivity|apply process_task_grows].
Qed.

Lemma resume_scan_fs (w : world) :
  fs (snd (resume_scan target_path resume w)) = fs w.
Proof.
  unfold resume_scan. destruct (resume && _); [|reflexivity].
  apply same_fs_bind; [reflexivity|intros b w1].
  destruct b; [|reflexivity].
  unfold scan_log. apply same_fs_bind; [reflexivity|intros f w2].
  destruct (files f !! Os.resolve target_path) as [content|]; [|reflexivity].
  destruct (count_lines ∅ (Os.readlines content)); reflexivity.
Qed.

Lemma codegen_grows (dataset : string) (id_range : option (Z * Z)) (version : string)
    (w : world) :
  grows w (snd (codegen sanitize get_human_eval_plus get_mbpp_plus target_path model
                  dataset greedy n_samples id_range version resume w)).
Proof.
  unfold codegen.
  apply grows_bind; [apply grows_same, resume_scan_fs|intros m w1].
  unfold raw_path. rewrite is_log. rewrite bind_ret.
  apply grows_bind; [apply grows_same; reflexivity|intros _ w2].
  apply grows_bind; [apply grows_same; reflexivity|intros _ w3].
  apply grows_bind.
  { unfold load_dataset. destruct (decide _); [apply grows_same; reflexivity|].
    destruct (decide _); apply grows_same; reflexivity. }
  intros tasks w4. apply for_tasks_grows.
Qed.

End AppendingRun.

(** X6. Lines 18-135 with a target that ends in [.jsonl]: whatever the
    arguments, the backend and the point the run stops at, codegen makes
    no directory, leaves every file but the two logs as it was, and only
    adds to the end of the logs: the text a file had is the start of the
    text it has afterwards. *)
Theorem log_layout_appends_only (sanitize : string -> string -> string)
    (get_human_eval_plus get_mbpp_plus : string -> list (string * task))
    (target_path : string) (model : DecoderBase) (dataset : string) (greedy : bool)
    (n_samples : Z) (id_range : option (Z * Z)) (version : string) (resume : bool)
    (w : world) :
  PyStr.endswith target_path ".jsonl" = true ->
  only_appended (Os.resolve target_path) (Os.resolve (raw_log target_path)) (fs w)
    (fs (snd (codegen sanitize get_human_eval_plus get_mbpp_plus target_path model
                dataset greedy n_samples id_range version resume w))).
Proof.
  intros Hlog.
  exact (codegen_grows sanitize get_human_eval_plus get_mbpp_plus target_path model
           greedy n_samples resume Hlog dataset id_range version w).
Qed.

Lemma log_layout_appends_only_witness :
  PyStr.endswith "out.jsonl" ".jsonl" = true
  /\ only_appended (Os.resolve "out.jsonl") (Os.resolve (raw_log "out.jsonl"))
       (fs broken_log)
       (fs (snd (codegen example_sanitize example_tasks example_tasks "out.jsonl"
                   example_model "humaneval" false 2 None "default" false broken_log))).
Proof.
  split; [reflexivity|].
  exact (log_layout_appends_only example_sanitize example_tasks example_tasks
           "out.jsonl" example_model "humaneval" false 2 None "default" false
           broken_log eq_refl).
Defined.

(** ** The log layout with resume disabled *)

Section NoResumeLog.

Variable sanitize : string -> string -> string.
Variable target_path raw_target_path : string.
Variable model : DecoderBase.
Variable greedy : bool.
Variable n_samples : Z.

Hypothesis is_log : PyStr.endswith target_path ".jsonl" = true.
Hypothesis at_most : returns_at_most_requested model.
Hypothesis something : returns_something model.
Hypothesis some_samples : 0 <= n_samples.

Local Abbreviation log_state' := (log_state target_path raw_target_path).
Local Abbreviation write_sample' :=
  (write_sample sanitize target_path raw_target_path model).

Lemma write_sample_log_index (task_id : string) (t : task) (k k' : Z) (impl : string) :
  write_sample' task_id t k impl = write_sample' task_id t k' impl.
Proof. unfold write_sample. rewrite is_log. reflexivity. Qed.

(** One task with resume disabled: whatever the log holds of the task,
    the loop starts at index 0 and adds [n_samples] records. *)
Lemma process_task_again (task_id : string) (t : task) (m : gmap string Z)
    (recs : list (string * string)) (w : world) :
  log_state' recs w -> budget w = None ->
  exists w' recs',
    process_task sanitize target_path raw_target_path model greedy n_samples false
      task_id t m w = (Ok m, w')
    /\ budget w' = None
    /\ log_state' recs' w'
    /\ count_id task_id recs' = count_id task_id recs + n_samples
    /\ forall id, id <> task_id -> count_id id recs' = count_id id recs.
Proof.
  intros Hst Hb. rewrite process_task_unfold, (count_existing_log _ is_log).
  cbv zeta. rewrite start_index_spec. cbn [andb].
  set (E := count_id task_id recs).
  set (w1 := printed _ w).
  set (Inv := fun (k : Z) (w0 : world) =>
                log_inv target_path raw_target_path task_id
                  (fun id => count_id id recs) (E + k) w0).
  assert (Hreq : forall k w0 rq, Inv k w0 -> Inv k (requested rq w0))
    by (intros k w0 rq; apply log_inv_requested).
  assert (Hws : forall k impl w0, Inv k w0 ->
            match write_sample' task_id t k impl w0 with
            | (Ok _, w') => Inv (k + 1) w'
            | (Raise _, w') => Inv k w' \/ Inv (k + 1) w'
            end).
  { intros k impl w0 HI. unfold Inv. rewrite Z.add_assoc.
    rewrite (write_sample_log_index task_id t k (E + k)).
    apply (log_inv_write_sample sanitize target_path raw_target_path model task_id t
             is_log _ (E + k) impl w0 HI). }
  assert (Hwo : forall k impl w0, Inv k w0 -> budget w0 = None ->
            exists w', write_sample' task_id t k impl w0 = (Ok tt, w')
                       /\ budget w' = None).
  { intros k impl w0 HI Hb0.
    rewrite (write_sample_log_index task_id t k (E + k)).
    apply (log_inv_write_ok sanitize target_path raw_target_path model task_id t
             is_log _ (E + k) impl w0 HI Hb0). }
  assert (Hinv : Inv 0 w1).
  { exists recs. split; [apply log_state_printed, Hst|].
    split; [unfold E; lia|auto]. }
  assert (Hfuel : n_samples - 0 <= Z.of_nat (Z.to_nat (n_samples - 0))) by lia.
  destruct (generate_loop_ok sanitize target_path raw_target_path model greedy
              n_samples task_id t Inv Hreq Hws Hwo (Z.to_nat (n_samples - 0)) 0 w1
              something Hfuel Hinv Hb) as (w' & Eloop & Hb').
  pose proof (generate_loop_inv sanitize target_path raw_target_path model greedy
                n_samples task_id t Inv Hreq Hws (Z.to_nat (n_samples - 0)) 0 w1
                at_most Hfuel Hinv) as Hloop.
  rewrite Eloop in Hloop |- *.
  destruct Hloop as (k & (recs' & Hst' & Hk & Hc) & _ & Hok).
  exists w', recs'. split; [reflexivity|]. split; [exact Hb'|].
  split; [exact Hst'|]. split; [|exact Hc].
  rewrite Hk, (Hok eq_refl). unfold E. lia.
Qed.

Lemma for_tasks_again (id_range : option (Z * Z)) (tasks : list (string * task))
    (m : gmap string Z) (recs : list (string * string)) (w : world) :
  NoDup (map fst tasks) ->
  filter_defined id_range tasks ->
  log_state' recs w -> budget w = None ->
  exists w' recs',
    for_tasks sanitize target_path raw_target_path model greedy n_samples id_range
      false tasks m w = (Ok tt, w')
    /\ log_state' recs' w'
    /\ (forall id, id ∈ map fst tasks -> in_range id_range id = true ->
          count_id id recs' = count_id id recs + n_samples)
    /\ (forall id, id ∉ map fst tasks \/ in_range id_range id = false ->
          count_id id recs' = count_id id recs).
Proof.
  revert recs w. induction tasks as [|[task_id t] tasks IH]; intros recs w Hnd Hdef Hst Hb.
  - exists w, recs. split; [reflexivity|]. split; [exact Hst|].
    split; [|reflexivity]. intros id Hin. apply elem_of_nil in Hin. destruct Hin.
  - cbn [map fst] in Hnd |- *. apply NoDup_cons in Hnd as [Hnotin Hnd].
    apply filter_defined_cons in Hdef as [Hnum Hdef].
    cbn [for_tasks]. unfold bind at 1.
    destruct (skip_task_spec id_range task_id w Hnum) as (w1 & -> & Hfs & Hb1 & _).
    assert (Hst1 : log_state' recs w1) by (eapply log_state_fs; eauto).
    rewrite Hb in Hb1.
    destruct (in_range id_range task_id) eqn:Hin; cbn [negb].
    + unfold bind at 1.
      destruct (process_task_again task_id t m recs w1 Hst1 Hb1)
        as (w2 & recs2 & -> & Hb2 & Hst2 & Hcount & Hothers).
      destruct (IH recs2 w2 Hnd Hdef Hst2 Hb2) as (w' & recs' & -> & Hst' & Hin' & Hout').
      exists w', recs'. split; [reflexivity|]. split; [exact Hst'|]. split.
      * intros id Hid Hrng. apply elem_of_cons in Hid as [->|Hid].
        { rewrite Hout' by (left; exact Hnotin). exact Hcount. }
        rewrite (Hin' id Hid Hrng). f_equal. apply Hothers. intros ->. contradiction.
      * intros id Hid. rewrite Hout'.
        { apply Hothers. intros ->. destruct Hid as [Hid|Hid]; [|congruence].
          apply Hid. left. }
        destruct Hid as [Hid|Hid]; [left|right; exact Hid].
        intros H. apply Hid. right. exact H.
    + rewrite bind_ret.
      destruct (IH recs w1 Hnd Hdef Hst1 Hb1) as (w' & recs' & -> & Hst' & Hin' & Hout').
      exists w', recs'. split; [reflexivity|]. split; [exact Hst'|]. split.
      * intros id Hid Hrng. apply elem_of_cons in Hid as [->|Hid]; [congruence|].
        apply Hin'; assumption.
      * intros id Hid. destruct (decide (id = task_id)) as [->|Hne].
        { apply Hout'. left. exact Hnotin. }
        apply Hout'. destruct Hid as [Hid|Hid]; [left|right; exact Hid].
        intros H. apply Hid. right. exact H.
Qed.

End NoResumeLog.


Lemma example_records_state :
  log_state "out.jsonl" (raw_log "out.jsonl") example_records recorded_log.
Proof.
  split; [reflexivity|]. split; [|split].
  - split; [discriminate|]. split; [|split]; vm_compute; reflexivity.
  - split; [vm_compute; discriminate|]. split; [|split]; vm_compute; reflexivity.
  - vm_compute. discriminate.
Qed.

Lemma example_tasks_distinct : NoDup (map fst (example_tasks "default")).
Proof.
  cbn. apply NoDup_cons. split; [|apply NoDup_singleton].
  rewrite list_elem_of_singleton. discriminate.
Qed.


(** ** The resume scan reads back what the writer wrote *)

(** X8. Lines 30-35 against lines 105-111: when the log is made of the
    records codegen writes, one per line, for any task identifiers and
    any solution texts (quotes, backslashes, line ends and control
    characters included), the resume scan ends normally, changes nothing,
    and finds for every task exactly the number of its records. *)
Theorem scan_counts_written_records (target_path : string)
    (recs : list (string * string)) (w : world) :
  PyStr.endswith target_path ".jsonl" = true ->
  files (fs w) !! Os.resolve target_path = Some (log_text recs) ->
  exists m,
    resume_scan target_path true w = (Ok m, w)
    /\ forall task_id, default 0 (m !! task_id) = count_id task_id recs.
Proof.
  intros Hlog Hfile. unfold resume_scan. rewrite Hlog. cbn [andb].
  unfold bind, Os.path_isfile, bind, get_fs, ret, Os.isfile.
  rewrite Hfile. rewrite bool_decide_eq_true_2 by eauto.
  unfold scan_log, bind, get_fs. rewrite Hfile, readlines_log_text.
  destruct (count_lines_records recs ∅) as (m & -> & Hm).
  exists m. split; [reflexivity|]. intros id. rewrite Hm, lookup_empty. cbn. lia.
Qed.

Lemma scan_counts_written_records_witness :
  PyStr.endswith "out.jsonl" ".jsonl" = true
  /\ files (fs recorded_log) !! Os.resolve "out.jsonl" = Some (log_text example_records)
  /\ exists m,
       resume_scan "out.jsonl" true recorded_log = (Ok m, recorded_log)
       /\ forall task_id, default 0 (m !! task_id) = count_id task_id example_records.
Proof.
  assert (H1 : PyStr.endswith "out.jsonl" ".jsonl" = true) by reflexivity.
  assert (H2 : files (fs recorded_log) !! Os.resolve "out.jsonl"
               = Some (log_text example_records)) by reflexivity.
  split; [exact H1|]. split; [exact H2|].
  exact (scan_counts_written_records "out.jsonl" example_records recorded_log H1 H2).
Defined.

(** ** What the backend is asked *)

Section Asking.

Variable sanitize : string -> string -> string.
Variable get_human_eval_plus get_mbpp_plus : string -> list (string * task).
Variable target_path : string.
Variable model : DecoderBase.
Variable greedy : bool.
Variable n_samples : Z.
Variable resume : bool.

Local Abbreviation asks := (asked_well greedy n_samples).

Lemma asks_same (w w' : world) : requests w' = requests w -> asks w w'.
Proof. intros E. exists []. rewrite app_nil_r. split; [exact E|constructor]. Qed.

Lemma asks_trans (w1 w2 w3 : world) : asks w1 w2 -> asks w2 w3 -> asks w1 w3.
Proof.
  intros (r1 & E1 & H1) (r2 & E2 & H2). exists (r1 ++ r2).
  rewrite E2, E1, app_assoc. split; [reflexivity|]. apply Forall_app; auto.
Qed.

Lemma asks_bind {A B} (m : M A) (k : A -> M B) (w : world) :
  asks w (snd (m w)) ->
  (forall a w1, asks w1 (snd (k a w1))) ->
  asks w (snd (bind m k w)).
Proof.
  intros Hm Hk. unfold bind. destruct (m w) as [[a|e] w1]; cbn [snd] in *.
  - eapply asks_trans; [exact Hm|apply Hk].
  - exact Hm.
Qed.

Lemma only_mkdirs_asks (w w' : world) : only_mkdirs w w' -> asks w w'.
Proof. intros (_ & H & _). apply asks_same, H. Qed.

Lemma generate_loop_asks (raw_target_path task_id : string) (t : task) (fuel : nat)
    (sidx : Z) (w : world) :
  0 <= sidx ->
  asks w (snd (generate_loop sanitize target_path raw_target_path model greedy
                 n_samples task_id t fuel sidx w)).
Proof.
  revert sidx w. induction fuel as [|fuel IH]; intros sidx w Hs; cbn [generate_loop];
    destruct (Z.ltb_spec sidx n_samples) as [Hlt|Hge];
    try (apply asks_same; reflexivity).
  unfold bind at 1, call_codegen at 1. cbv beta iota zeta.
  set (rq := {| req_prompt := _; req_do_sample := _; req_num_samples := _ |}).
  set (w1 := {| fs := fs w; requests := requests w ++ [rq] |}).
  assert (H1 : asks w w1).
  { exists [rq]. split; [reflexivity|]. constructor; [|constructor].
    split; [reflexivity|]. cbn. lia. }
  destruct (model_codegen model (requests w) rq) as [|impl outputs];
    [exact H1|].
  apply (asks_trans _ _ _ H1). unfold bind.
  pose proof (write_outputs_trace sanitize target_path raw_target_path model task_id t
                (impl :: outputs) sidx w1) as H2.
  destruct (write_outputs _ _ _ _ _ _ (impl :: outputs) sidx w1) as [[sidx'|e] w2].
  - destruct H2 as (Hr & _ & evs & _ & _ & Hok & _).
    destruct (Hok sidx' eq_refl) as [-> _].
    eapply asks_trans; [apply asks_same, Hr|]. apply IH. lia.
  - destruct H2 as (Hr & _). apply asks_same, Hr.
Qed.

Lemma process_task_asks (raw_target_path task_id : string) (t : task)
    (m : gmap string Z) (w : world) :
  asks w (snd (process_task sanitize target_path raw_target_path model greedy
                 n_samples resume task_id t m w)).
Proof.
  rewrite process_task_unfold.
  pose proof (count_existing_only_mkdirs target_path task_id m w) as H1.
  destruct (count_existing target_path task_id m w) as [[m1|e] w1]; cbn [snd] in H1;
    [|apply only_mkdirs_asks, H1].
  cbv zeta. set (nexist := default 0 (m1 !! task_id)).
  set (sidx := start_index resume n_samples nexist).
  assert (Hs : 0 <= sidx).
  { unfold sidx. rewrite start_index_spec.
    destruct resume; cbn [andb]; [|lia]. destruct (Z.ltb_spec 0 nexist); lia. }
  pose proof (generate_loop_asks raw_target_path task_id t
                (Z.to_nat (n_samples - sidx)) sidx
                (printed (codegen_log model resume task_id nexist) w1) Hs) as H2.
  apply only_mkdirs_asks in H1.
  destruct (generate_loop _ _ _ _ _ _ _ _ _ sidx _) as [[[]|e] w2]; cbn [snd] in *;
    (eapply asks_trans; [exact H1|]); (eapply asks_trans; [|exact H2]);
    apply asks_same; reflexivity.
Qed.

Lemma skip_task_requests (id_range : option (Z * Z)) (task_id : string) (w : world) :
  requests (snd (skip_task id_range task_id w)) = requests w.
Proof.
  unfold skip_task. destruct id_range as [[low high]|]; [|reflexivity].
  destruct (PyStr.split task_id "/" !! 1%nat) as [piece|]; [|reflexivity].
  destruct (PyStr.int piece) as [n|]; [|reflexivity].
  destruct ((n <? low) || (n >=? high)); reflexivity.
Qed.

Lemma for_tasks_asks (raw_target_path : string) (id_range : option (Z * Z))
    (tasks : list (string * task)) (m : gmap string Z) (w : world) :
  asks w (snd (for_tasks sanitize target_path raw_target_path model greedy n_samples
                 id_range resume tasks m w)).
Proof.
  revert m w. induction tasks as [|[task_id t] tasks IH]; intros m w.
  - apply asks_same. reflexivity.
  - cbn [for_tasks].
    apply asks_bind; [apply asks_same, skip_task_requests|intros skip w1].
    apply asks_bind; [|intros m1 w2; apply IH].
    destruct skip; [apply asks_same; reflexivity|apply process_task_asks].
Qed.

Lemma resume_scan_world (w : world) :
  snd (resume_scan target_path resume w) = w.
Proof.
  unfold resume_scan. destruct (resume && _); [|reflexivity].
  unfold bind, Os.path_isfile, bind, get_fs, ret.
  destruct (Os.isfile (fs w) (Os.resolve target_path)); [|reflexivity].
  unfold scan_log, bind, get_fs.
  destruct (files (fs w) !! Os.resolve target_path) as [content|]; [|reflexivity].
  destruct (count_lines ∅ (Os.readlines content)); reflexivity.
Qed.

Lemma raw_path_only_mkdirs (w : world) :
  only_mkdirs w (snd (raw_path target_path w)).
Proof.
  unfold raw_path. destruct (PyStr.endswith target_path ".jsonl");
    [apply only_mkdirs_refl|].
  unfold bind. pose proof (makedirs_only_mkdirs target_path w) as H.
  destruct (Os.makedirs target_path w) as [[[]|e] w1]; exact H.
Qed.

Lemma codegen_asks (dataset : string) (id_range : option (Z * Z)) (version : string)
    (w : world) :
  asks w (snd (codegen sanitize get_human_eval_plus get_mbpp_plus target_path model
                 dataset greedy n_samples id_range version resume w)).
Proof.
  unfold codegen.
  apply asks_bind; [rewrite resume_scan_world; apply asks_same; reflexivity|].
  intros m w1.
  apply asks_bind; [apply only_mkdirs_asks, raw_path_only_mkdirs|intros raw w2].
  apply asks_bind; [apply asks_same; reflexivity|intros _ w3].
  apply asks_bind; [apply asks_same; reflexivity|intros _ w4].
  apply asks_bind.
  { unfold load_dataset. destruct (decide _); [apply asks_same; reflexivity|].
    destruct (decide _); apply asks_same; reflexivity. }
  intros tasks w5. apply for_tasks_asks.
Qed.

End Asking.

(** X9. Lines 89-96: whatever the arguments, the output location and the
    backend, every request codegen makes asks for at least one completion
    and at most [n_samples], with sampling switched off exactly when
    [greedy] is set; a backend is never asked for zero or a negative
    number of completions. *)
Theorem requests_within_bounds (sanitize : string -> string -> string)
    (get_human_eval_plus get_mbpp_plus : string -> list (string * task))
    (target_path : string) (model : DecoderBase) (dataset : string) (greedy : bool)
    (n_samples : Z) (id_range : option (Z * Z)) (version : string) (resume : bool)
    (w : world) :
  exists rqs,
    requests (snd (codegen sanitize get_human_eval_plus get_mbpp_plus target_path
                     model dataset greedy n_samples id_range version resume w))
    = requests w ++ rqs
    /\ Forall (fun rq => req_do_sample rq = negb greedy
                         /\ 1 <= req_num_samples rq <= n_samples) rqs.
Proof.
  exact (codegen_asks sanitize get_human_eval_plus get_mbpp_plus target_path model
           greedy n_samples resume dataset id_range version w).
Qed.

(** ** A dataset name codegen does not know *)

(** X10. Lines 53-62: called with a dataset name other than [humaneval] and
    [mbpp], codegen never returns normally, asks the backend nothing and
    changes no file: once the resume scan and the creation of the target
    directory are through, it prints its two lines and then raises
    [AttributeError] where it takes the items of the name. *)
Theorem unknown_dataset_fails (sanitize : string -> string -> string)
    (get_human_eval_plus get_mbpp_plus : string -> list (string * task))
    (target_path : string) (model : DecoderBase) (dataset : string) (greedy : bool)
    (n_samples : Z) (id_range : option (Z * Z)) (version : string) (resume : bool)
    (w : world) :
  dataset_tasks get_human_eval_plus get_mbpp_plus dataset version = None ->
  match codegen sanitize get_human_eval_plus get_mbpp_plus target_path model
          dataset greedy n_samples id_range version resume w with
  | (r, w') =>
      requests w' = requests w
      /\ files (fs w') = files (fs w)
      /\ ((r = Raise AttributeError
           /\ exists raw_target_path,
                console w'
                = console w
                  ++ ["Sanitized code outputs will be saved to " +:+ target_path;
                      "Raw outputs will be saved to " +:+ raw_target_path])
          \/ (exists e, r = Raise e /\ console w' = console w))
  end.
Proof.
  intros Hnone. unfold codegen. unfold bind at 1.
  pose proof (resume_scan_world target_path resume w) as Hscan.
  destruct (resume_scan target_path resume w) as [[m|e] w1]; cbn [snd] in Hscan;
    subst w1; [|split; [reflexivity|split; [reflexivity|right; eauto]]].
  unfold bind at 1.
  pose proof (raw_path_only_mkdirs target_path w) as Hraw.
  destruct (raw_path target_path w) as [[raw|e] w1]; cbn [snd] in Hraw;
    destruct Hraw as (Hc & Hr & Hf & _);
    [|split; [exact Hr|split; [exact Hf|right; eauto]]].
  unfold bind at 1, print at 1. cbv beta iota.
  unfold bind at 1, print at 1. cbv beta iota.
  unfold bind at 1, load_dataset. unfold dataset_tasks in Hnone.
  destruct (decide (dataset = "humaneval")); [discriminate|].
  destruct (decide (dataset = "mbpp")); [discriminate|].
  cbn. split; [exact Hr|]. split; [exact Hf|]. left. split; [reflexivity|].
  exists raw. rewrite Hc, <- app_assoc. reflexivity.
Qed.

Lemma unknown_dataset_fails_witness :
  dataset_tasks example_tasks example_tasks "apps" "default" = None
  /\ match codegen example_sanitize example_tasks example_tasks "out.jsonl"
             example_model "apps" false 2 None "default" true (start empty_fs None) with
     | (r, w') =>
         requests w' = requests (start empty_fs None)
         /\ files (fs w') = files (fs (start empty_fs None))
         /\ ((r = Raise AttributeError
              /\ exists raw_target_path,
                   console w'
                   = console (start empty_fs None)
                     ++ ["Sanitized code outputs will be saved to " +:+ "out.jsonl";
                         "Raw outputs will be saved to " +:+ raw_target_path])
             \/ (exists e, r = Raise e /\ console w' = console (start empty_fs None)))
     end.
Proof.
  assert (H : dataset_tasks example_tasks example_tasks "apps" "default" = None)
    by reflexivity.
  split; [exact H|].
  exact (unknown_dataset_fails example_sanitize example_tasks example_tasks
           "out.jsonl" example_model "apps" false 2 None "default" true
           (start empty_fs None) H).
Defined.

(** ** A range and a task identifier without a number *)

Lemma split_go_nonempty (sep : ascii) (cur s : string) :
  exists x l, PyStr.split_go sep cur s = x :: l.
Proof.
  revert cur. induction s as [|c s IH]; intros cur; cbn [PyStr.split_go]; [eauto|].
  destruct (ascii_dec c sep); [eauto|apply IH].
Qed.

(** X11. Lines 63-64: with a range configured, a task identifier without a
    slash ends the whole run in [IndexError], and one whose piece after
    the first slash is no integer ends it in [ValueError]; the task is
    neither skipped nor processed, and nothing is printed for it. *)
Theorem range_needs_numbered_ids (sanitize : string -> string -> string)
    (target_path raw_target_path : string) (model : DecoderBase) (greedy : bool)
    (n_samples low high : Z) (resume : bool) (task_id : string) (t : task)
    (tasks : list (string * task)) (m : gmap string Z) (w : world) :
  task_number task_id = None ->
  for_tasks sanitize target_path raw_target_path model greedy n_samples
    (Some (low, high)) resume ((task_id, t) :: tasks) m w
  = (Raise (if PyStr.mem_char "/" task_id then ValueError else IndexError), w).
Proof.
  unfold task_number. intros Hnum. cbn [for_tasks]. unfold bind at 1, skip_task.
  destruct (PyStr.mem_char "/" task_id) eqn:Hslash.
  - destruct (PyStr.split task_id "/" !! 1%nat) as [piece|] eqn:Hpiece.
    + rewrite Hnum. reflexivity.
    + exfalso. revert Hpiece Hslash. unfold PyStr.split. generalize EmptyString.
      induction task_id as [|c s IH]; intros cur; [discriminate|].
      cbn [PyStr.split_go PyStr.mem_char].
      destruct (ascii_dec c "/") as [->|Hne].
      * intros H _. destruct (split_go_nonempty "/" "" s) as (x & l & E).
        rewrite E in H. discriminate H.
      * destruct (ascii_dec "/" c) as [E|_]; [congruence|]. apply IH.
  - unfold PyStr.split. rewrite (split_go_no_sep _ _ _ Hslash). reflexivity.
Qed.

Lemma range_needs_numbered_ids_witness :
  task_number "suite" = None
  /\ for_tasks example_sanitize "out.jsonl" "out.raw.jsonl" example_model false 1
       (Some (0, 5)) true [("suite", example_task)] ∅ (start empty_fs None)
     = (Raise IndexError, start empty_fs None).
Proof.
  assert (H : task_number "suite" = None) by reflexivity.
  split; [exact H|].
  exact (range_needs_numbered_ids example_sanitize "out.jsonl" "out.raw.jsonl"
           example_model false 1 0 5 true "suite" example_task [] ∅
           (start empty_fs None) H).
Defined.

(** ** A target directory written with a trailing slash *)

Lemma endswith_nonempty (s suf : string) :
  suf <> "" -> PyStr.endswith s suf = true -> s <> "".
Proof.
  intros Hsuf H ->. cbn in H. destruct suf; [congruence|discriminate H].
Qed.

Lemma slash_not_log (s : string) :
  PyStr.endswith s "/" = true -> PyStr.endswith s ".jsonl" = false.
Proof.
  intros H. destruct (snoc_exists s) as (init & c & ->).
  { eapply endswith_nonempty; [|exact H]. discriminate. }
  change "/" with ("" +:+ String "/" "") in H. apply endswith_snoc in H. subst c.
  destruct (PyStr.endswith (init +:+ String "/" "") ".jsonl") eqn:E; [|reflexivity].
  change ".jsonl" with (".json" +:+ String "l" "") in E. apply endswith_snoc in E.
  discriminate E.
Qed.

(** X12. Lines 37-41 and 130: for a target directory given with a trailing
    slash, the raw root [target_path + ".raw"] is the entry [.raw] inside
    the target directory itself, not a directory beside it. *)
Theorem raw_root_inside_target (target_path raw_target_path : string) (w w' : world) :
  PyStr.endswith target_path "/" = true ->
  raw_path target_path w = (Ok raw_target_path, w') ->
  Os.resolve raw_target_path = Os.resolve target_path ++ [".raw"].
Proof.
  intros Hslash Hraw. unfold raw_path in Hraw. rewrite (slash_not_log _ Hslash) in Hraw.
  apply bind_inv_ok in Hraw as ([] & w1 & _ & Hraw). injection Hraw as <- _.
  unfold Os.resolve, PyStr.split.
  rewrite (components_slash target_path ".raw" "" Hslash eq_refl).
  assert (Hne : target_path <> "")
    by (eapply endswith_nonempty; [|exact Hslash]; discriminate).
  destruct target_path as [|c s]; [congruence|]. rewrite app_cons.
  cbn [PyStr.startswith]. destruct (ascii_dec "/" c); reflexivity.
Qed.

Lemma raw_root_inside_target_witness :
  PyStr.endswith "out/" "/" = true
  /\ raw_path "out/" (start empty_fs None)
     = (Ok "out/.raw", snd (raw_path "out/" (start empty_fs None)))
  /\ Os.resolve "out/.raw" = Os.resolve "out/" ++ [".raw"].
Proof.
  assert (H1 : PyStr.endswith "out/" "/" = true) by reflexivity.
  assert (H2 : raw_path "out/" (start empty_fs None)
               = (Ok "out/.raw", snd (raw_path "out/" (start empty_fs None))))
    by (vm_compute; reflexivity).
  split; [exact H1|]. split; [exact H2|].
  exact (raw_root_inside_target "out/" "out/.raw" _ _ H1 H2).
Defined.

(** ** The raw log is another file *)

Lemma length_app_str (a b : string) :
  String.length (a +:+ b) = (String.length a + String.length b)%nat.
Proof. induction a as [|c a IH]; [reflexivity|]. rewrite app_cons. cbn. rewrite IH. lia. Qed.

Lemma startswith_refl (p : string) : PyStr.startswith p p = true.
Proof.
  induction p as [|c p IH]; [reflexivity|]. cbn.
  destruct (ascii_dec c c); [exact IH|congruence].
Qed.

Lemma startswith_inv (p s : string) :
  PyStr.startswith p s = true -> exists rest, s = p +:+ rest.
Proof.
  revert s. induction p as [|c p IH]; intros s H; [exists s; reflexivity|].
  destruct s as [|d s]; [discriminate H|]. cbn in H.
  destruct (ascii_dec c d) as [->|]; [|discriminate H].
  destruct (IH s H) as (rest & ->). exists rest. reflexivity.
Qed.

Lemma replace_go_skip (old new pre rest : string) :
  PyStr.replace_go old new (String.length pre) (pre +:+ rest)
  = PyStr.replace_go old new O rest.
Proof.
  induction pre as [|c pre IH]; [reflexivity|]. rewrite app_cons.
  cbn [String.length PyStr.replace_go]. exact IH.
Qed.

(** A match is replaced and the scan goes on behind it. *)
Lemma replace_match (old new rest : string) :
  old <> "" ->
  PyStr.replace_go old new O (old +:+ rest)
  = new +:+ PyStr.replace_go old new O rest.
Proof.
  intros Hne. destruct old as [|c old']; [congruence|]. rewrite app_cons.
  cbn [PyStr.replace_go]. rewrite <- app_cons, startswith_app.
  cbn [String.length Nat.pred]. rewrite replace_go_skip. reflexivity.
Qed.

Lemma length_nonempty (s : string) : s <> "" -> (0 < String.length s)%nat.
Proof. destruct s; [congruence|cbn; lia]. Qed.

Lemma startswith_empty (p : string) : p <> "" -> PyStr.startswith p "" = false.
Proof. destruct p; [congruence|reflexivity]. Qed.

Lemma endswith_empty (suf : string) : suf <> "" -> PyStr.endswith "" suf = false.
Proof. destruct suf; [congruence|reflexivity]. Qed.

Lemma startswith_slash (p y : string) :
  p <> "" -> PyStr.mem_char "/" p = false -> PyStr.startswith p (String "/" y) = false.
Proof.
  destruct p as [|d p]; [congruence|]. intros _ H.
  cbn [PyStr.mem_char PyStr.startswith] in H |- *. revert H. destruct (ascii_dec "/" d) as [|Hd]; [discriminate|intros H].
  destruct (ascii_dec d "/"); [congruence|reflexivity].
Qed.

Section Replace.

Variable old new : string.

Hypothesis old_nonempty : old <> "".

Local Abbreviation replace' := (PyStr.replace_go old new O).

Lemma replace_nomatch (c : ascii) (s : string) :
  PyStr.startswith old (String c s) = false ->
  replace' (String c s) = String c (replace' s).
Proof. intros H. cbn [PyStr.replace_go]. rewrite H. reflexivity. Qed.

Lemma replace_cases (c : ascii) (s : string) :
  (exists rest, String c s = old +:+ rest
                /\ (String.length rest < String.length (String c s))%nat
                /\ replace' (String c s) = new +:+ replace' rest)
  \/ (PyStr.startswith old (String c s) = false
      /\ replace' (String c s) = String c (replace' s)).
Proof.
  destruct (PyStr.startswith old (String c s)) eqn:H.
  - left. destruct (startswith_inv _ _ H) as (rest & E). exists rest.
    split; [exact E|]. split; [|rewrite E; apply replace_match, old_nonempty].
    rewrite E, length_app_str. pose proof (length_nonempty old old_nonempty). lia.
  - right. split; [reflexivity|apply replace_nomatch, H].
Qed.

(** Replacing by something longer makes a string that ends in [old]
    longer. *)
Lemma replace_longer (s : string) :
  (String.length old < String.length new)%nat ->
  (String.length s <= String.length (replace' s))%nat
  /\ (PyStr.endswith s old = true ->
      (String.length s < String.length (replace' s))%nat).
Proof.
  intros Hlen. generalize (Nat.le_refl (String.length s)).
  generalize (String.length s) at 2. intros n Hle.
  revert s Hle. induction n as [|n IH]; intros s Hle.
  - destruct s; [|cbn in Hle; lia]. split; [cbn; lia|].
    rewrite (endswith_empty old old_nonempty). discriminate.
  - destruct s as [|c s].
    { split; [cbn; lia|]. rewrite (endswith_empty old old_nonempty). discriminate. }
    destruct (replace_cases c s) as [(rest & E & Hshort & ->)|[Hno ->]].
    + cbn [String.length] in Hle, Hshort.
      destruct (IH rest ltac:(lia)) as [H1 _].
      rewrite E, !length_app_str. split; intros; lia.
    + cbn [String.length] in Hle. destruct (IH s ltac:(lia)) as [H1 H2].
      cbn [String.length]. split; [lia|]. cbn [PyStr.endswith].
      destruct (String.eqb_spec (String c s) old) as [E|_].
      * rewrite E, startswith_refl in Hno. discriminate Hno.
      * intros H. specialize (H2 H). lia.
Qed.

Hypothesis old_no_slash : PyStr.mem_char "/" old = false.

Lemma startswith_before_slash (p x y : string) :
  PyStr.mem_char "/" p = false ->
  PyStr.startswith p (x +:+ String "/" y) = PyStr.startswith p x.
Proof.
  revert x. induction p as [|d p IH]; intros x Hp; [reflexivity|].
  cbn [PyStr.mem_char] in Hp. revert Hp.
  destruct (ascii_dec "/" d) as [|Hd]; [discriminate|intros Hp].
  destruct x as [|e x]; rewrite ?app_empty_l, ?app_cons; cbn [PyStr.startswith].
  - destruct (ascii_dec d "/"); [congruence|reflexivity].
  - destruct (ascii_dec d e); [apply IH, Hp|reflexivity].
Qed.

(** No match reaches across a slash. *)
Lemma replace_slash (a b : string) :
  replace' (a +:+ String "/" b) = replace' a +:+ String "/" (replace' b).
Proof.
  remember (String.length a) as n eqn:Hn.
  assert (Hle : (String.length a <= n)%nat) by lia. clear Hn.
  revert a Hle. induction n as [|n IH]; intros a Hle.
  - destruct a; [|cbn in Hle; lia]. rewrite app_empty_l. apply replace_nomatch.
    apply startswith_slash; assumption.
  - destruct a as [|c a].
    { rewrite app_empty_l. apply replace_nomatch. apply startswith_slash; assumption. }
    destruct (replace_cases c a) as [(rest & E & Hshort & ->)|[Hno ->]].
    + cbn [String.length] in Hle, Hshort.
      rewrite E, app_assoc_str, !(replace_match _ _ _ old_nonempty), (IH rest ltac:(lia)),
        app_assoc_str.
      reflexivity.
    + cbn [String.length] in Hle. rewrite app_cons, replace_nomatch.
      * rewrite (IH a ltac:(lia)). reflexivity.
      * rewrite <- app_cons, startswith_before_slash by exact old_no_slash. exact Hno.
Qed.

Lemma replace_go_no_slash (k : nat) (s : string) :
  PyStr.mem_char "/" new = false -> PyStr.mem_char "/" s = false ->
  PyStr.mem_char "/" (PyStr.replace_go old new k s) = false.
Proof.
  intros Hnew. revert k. induction s as [|c s IH]; intros k Hs; [reflexivity|].
  cbn [PyStr.mem_char] in Hs. revert Hs.
  destruct (ascii_dec "/" c) as [|Hc]; [discriminate|intros Hs].
  cbn [PyStr.replace_go]. destruct k as [|k]; [|apply IH, Hs].
  destruct (PyStr.startswith old (String c s)).
  - rewrite mem_char_app, Hnew, IH by exact Hs. reflexivity.
  - cbn [PyStr.mem_char]. destruct (ascii_dec "/" c); [contradiction|apply IH, Hs].
Qed.

Lemma endswith_after_slash (a b : string) :
  PyStr.endswith (a +:+ String "/" b) old = PyStr.endswith b old.
Proof.
  assert (Hne : forall x, PyStr.mem_char "/" x = true -> String.eqb x old = false).
  { intros x Hx. destruct (String.eqb_spec x old) as [->|]; [congruence|reflexivity]. }
  induction a as [|c a IH]; rewrite ?app_empty_l, ?app_cons; cbn [PyStr.endswith].
  - rewrite Hne; [reflexivity|]. cbn. destruct (ascii_dec "/" "/"); [reflexivity|congruence].
  - rewrite Hne; [exact IH|]. rewrite <- app_cons, mem_char_app. cbn [PyStr.mem_char].
    destruct (ascii_dec "/" "/"); [apply orb_true_r|congruence].
Qed.

End Replace.

Lemma last_piece (s : string) :
  PyStr.mem_char "/" s = false
  \/ exists a b, s = a +:+ String "/" b /\ PyStr.mem_char "/" b = false.
Proof.
  induction s as [|c s IH]; [left; reflexivity|].
  destruct IH as [H|(a & b & -> & Hb)].
  - cbn [PyStr.mem_char]. destruct (ascii_dec "/" c) as [<-|]; [|left; exact H].
    right. exists "", s. split; [reflexivity|exact H].
  - right. exists (String c a), b. split; [reflexivity|exact Hb].
Qed.

Lemma resolve_single (b : string) : simple_name b -> Os.resolve b = [b].
Proof.
  intros Hb. unfold Os.resolve, PyStr.split.
  rewrite (startswith_slash_simple b Hb).
  rewrite (split_go_no_sep _ _ _ (proj2 (proj2 Hb))). cbn [String.rev_app].
  rewrite rev_rev_app. cbn [List.filter]. rewrite (keep_simple b Hb). reflexivity.
Qed.

Lemma resolve_last (a b : string) :
  simple_name b -> exists P, Os.resolve (a +:+ String "/" b) = P ++ [b].
Proof.
  intros Hb. unfold Os.resolve, PyStr.split.
  rewrite (components_sep a b "" (proj2 (proj2 Hb))). cbn [List.filter].
  rewrite (keep_simple b Hb).
  destruct (PyStr.startswith "/" (a +:+ String "/" b)); eexists;
    [rewrite app_comm_cons|]; reflexivity.
Qed.

Lemma log_name_simple (b : string) :
  PyStr.mem_char "/" b = false -> (6 <= String.length b)%nat -> simple_name b.
Proof.
  intros Hs Hl. split; [|split; [|exact Hs]]; intros ->; cbn in Hl; lia.
Qed.

Lemma endswith_length (s suf : string) :
  PyStr.endswith s suf = true -> (String.length suf <= String.length s)%nat.
Proof.
  induction s as [|c s IH]; cbn [PyStr.endswith].
  - destruct (String.eqb_spec "" suf) as [<-|]; [reflexivity|discriminate].
  - destruct (String.eqb_spec (String c s) suf) as [<-|]; [reflexivity|].
    intros H. specialize (IH H). cbn [String.length]. lia.
Qed.

(** X13. Lines 37-38: for a target that ends in [.jsonl], the raw log
    [target_path.replace(".jsonl", ".raw.jsonl")] never names the file of
    the sanitized log: the last component of the two paths differs. *)
Theorem raw_log_is_another_file (target_path : string) :
  PyStr.endswith target_path ".jsonl" = true ->
  Os.resolve (raw_log target_path) <> Os.resolve target_path.
Proof.
  intros Hlog. unfold raw_log, PyStr.replace.
  assert (Hold : ".jsonl" <> "") by discriminate.
  assert (Hpiece : forall b,
            PyStr.mem_char "/" b = false -> PyStr.endswith b ".jsonl" = true ->
            simple_name b
            /\ simple_name (PyStr.replace_go ".jsonl" ".raw.jsonl" 0 b)
            /\ PyStr.replace_go ".jsonl" ".raw.jsonl" 0 b <> b).
  { intros b Hs He.
    pose proof (endswith_length _ _ He) as Hl. cbn [String.length] in Hl.
    destruct (replace_longer ".jsonl" ".raw.jsonl" Hold b ltac:(cbn; lia)) as [_ Hlong].
    specialize (Hlong He).
    split; [apply log_name_simple; assumption|]. split.
    - apply log_name_simple; [|lia]. apply replace_go_no_slash; [reflexivity|exact Hs].
    - intros E. rewrite E in Hlong. lia. }
  destruct (last_piece target_path) as [Hs|(a & b & -> & Hb)].
  - destruct (Hpiece target_path Hs Hlog) as (H1 & H2 & H3).
    rewrite (resolve_single _ H1), (resolve_single _ H2). congruence.
  - rewrite (endswith_after_slash ".jsonl" eq_refl) in Hlog.
    destruct (Hpiece b Hb Hlog) as (H1 & H2 & H3).
    rewrite (replace_slash ".jsonl" ".raw.jsonl" Hold eq_refl).
    destruct (resolve_last a b H1) as (P & ->).
    destruct (resolve_last (PyStr.replace_go ".jsonl" ".raw.jsonl" 0 a) _ H2)
      as (P' & ->).
    intros E. apply app_inj_tail in E as [_ E]. contradiction.
Qed.

Lemma raw_log_is_another_file_witness :
  PyStr.endswith "a.jsonl/out.jsonl" ".jsonl" = true
  /\ Os.resolve (raw_log "a.jsonl/out.jsonl") <> Os.resolve "a.jsonl/out.jsonl".
Proof.
  split; [reflexivity|].
  exact (raw_log_is_another_file "a.jsonl/out.jsonl" eq_refl).
Defined.

(** ** The resume scan stops at the first line it cannot count *)

Lemma count_line_raise_any (m m' : gmap string Z) (line : string) (e : exn) :
  count_line m line = Raise e -> count_line m' line = Raise e.
Proof.
  unfold count_line. destruct (decide _); [discriminate|].
  destruct (Json.loads line) as [[| | |s|l|l]|]; try (intros [= <-]; reflexivity).
  destruct (Json.getitem l "task_id") as [[| | |[s|]|l'|l']|];
    try discriminate; intros [= <-]; reflexivity.
Qed.

Lemma count_line_ok_any (m m' : gmap string Z) (line : string) (m1 : gmap string Z) :
  count_line m line = Ok m1 -> exists m1', count_line m' line = Ok m1'.
Proof.
  destruct (count_line m' line) as [m1'|e] eqn:E; [eauto|].
  rewrite (count_line_raise_any m' m line e E). discriminate.
Qed.

Lemma count_lines_first_bad (good rest : list string) (bad : string) (e : exn)
    (m : gmap string Z) :
  Forall (fun l => exists m', count_line ∅ l = Ok m') good ->
  count_line ∅ bad = Raise e ->
  count_lines m (good ++ bad :: rest) = Raise e.
Proof.
  intros Hgood Hbad. revert m. induction Hgood as [|l good [m' Hl] _ IH]; intros m.
  - cbn [app count_lines]. rewrite (count_line_raise_any ∅ m bad e Hbad). reflexivity.
  - cbn [app count_lines]. destruct (count_line_ok_any ∅ m l m' Hl) as (m1 & ->).
    apply IH.
Qed.

(** X14. Lines 30-35: the scan of an existing log stops at the first line
    that is neither blank nor a record with a task identifier, and the
    run ends there with the exception of that line ([KeyError] for an
    object without [task_id], [TypeError] for JSON that is no object)
    before anything is printed, requested or written; the lines after it
    are not looked at. *)
Theorem scan_stops_at_first_bad_line (sanitize : string -> string -> string)
    (get_human_eval_plus get_mbpp_plus : string -> list (string * task))
    (target_path content : string) (good rest : list string) (bad : string) (e : exn)
    (model : DecoderBase) (dataset : string) (greedy : bool) (n_samples : Z)
    (id_range : option (Z * Z)) (version : string) (w : world) :
  PyStr.endswith target_path ".jsonl" = true ->
  files (fs w) !! Os.resolve target_path = Some content ->
  Os.readlines content = good ++ bad :: rest ->
  Forall (fun l => exists m', count_line ∅ l = Ok m') good ->
  count_line ∅ bad = Raise e ->
  codegen sanitize get_human_eval_plus get_mbpp_plus target_path model dataset
    greedy n_samples id_range version true w = (Raise e, w).
Proof.
  intros Hlog Hfile Hlines Hgood Hbad.
  unfold codegen, bind at 1. unfold resume_scan. rewrite Hlog. cbn [andb].
  unfold bind at 1, Os.path_isfile, bind at 1, get_fs, ret.
  unfold Os.isfile. rewrite Hfile, bool_decide_eq_true_2 by eauto.
  unfold scan_log, bind, get_fs.
  rewrite Hfile, Hlines, (count_lines_first_bad good rest bad e ∅ Hgood Hbad).
  reflexivity.
Qed.

Lemma scan_stops_at_first_bad_line_witness :
  Os.readlines (log_text example_records +:+ "{}" +:+ NL)
  = [record_line ("suite/0", "pass")] ++ ("{}" +:+ NL) :: []
  /\ count_line ∅ ("{}" +:+ NL) = Raise (KeyError "task_id")
  /\ example_resume foreign_log = (Raise (KeyError "task_id"), foreign_log).
Proof.
  assert (H1 : PyStr.endswith "out.jsonl" ".jsonl" = true) by reflexivity.
  assert (H2 : files (fs foreign_log) !! Os.resolve "out.jsonl"
               = Some (log_text example_records +:+ "{}" +:+ NL)) by reflexivity.
  assert (H3 : Os.readlines (log_text example_records +:+ "{}" +:+ NL)
               = [record_line ("suite/0", "pass")] ++ ("{}" +:+ NL) :: [])
    by (vm_compute; reflexivity).
  assert (H4 : Forall (fun l => exists m', count_line ∅ l = Ok m')
                 [record_line ("suite/0", "pass")]).
  { constructor; [|constructor]. eexists. apply count_line_record. }
  assert (H5 : count_line ∅ ("{}" +:+ NL) = Raise (KeyError "task_id"))
    by (vm_compute; reflexivity).
  split; [exact H3|]. split; [exact H5|].
  exact (scan_stops_at_first_bad_line example_sanitize example_tasks example_tasks
           "out.jsonl" _ _ _ _ _ example_model "humaneval" false 2 None "default"
           foreign_log H1 H2 H3 H4 H5).
Defined.

(** ** An empty root *)

Section EmptyRoot.

Variable sanitize : string -> string -> string.
Variable get_human_eval_plus get_mbpp_plus : string -> list (string * task).
Variable make_model : make_model_args -> DecoderBase.
Variable float_repr : float -> string.

(** X15. Lines 179-182: an empty [root] is not taken for the working
    directory: [os.makedirs] refuses it, and the call ends in
    [FileNotFoundError] with no directory made, no backend built and
    nothing generated. *)
Theorem empty_root_rejected (model dataset : string) (bs : option Z)
    (n_samples : Z) (temperature : float) (resume greedy : bool)
    (id_range : option (list Z)) (version backend : string)
    (force_base_prompt : bool) (base_url : option string) (tp : Z)
    (evalperf_type : option string) (jsonl_fmt : bool) (w : world) :
  valid_arguments dataset backend evalperf_type = true ->
  valid_id_range id_range = true ->
  exists w',
    run_codegen sanitize get_human_eval_plus get_mbpp_plus make_model float_repr
      model dataset "" bs n_samples temperature resume greedy id_range
      version backend force_base_prompt base_url tp evalperf_type jsonl_fmt w
    = (Raise (FileNotFoundError ""), w')
    /\ fs w' = fs w /\ requests w' = requests w /\ trace w' = trace w.
Proof.
  unfold valid_arguments, valid_evalperf_type. intros Hv Hr.
  apply andb_true_iff in Hv as [Hv He]. apply andb_true_iff in Hv as [Hd Hb].
  unfold run_codegen. rewrite Hd, Hb, He. unfold assert_. rewrite !bind_ret.
  assert (Hgo : exists x w1, greedy_override greedy temperature bs n_samples w
                             = (Ok x, w1)
                             /\ fs w1 = fs w /\ requests w1 = requests w
                             /\ trace w1 = trace w).
  { unfold greedy_override. destruct (greedy && _); eexists; eexists;
      (split; [reflexivity|]); auto. }
  destruct Hgo as ([[temperature' bs'] n_samples'] & w1 & Ego & Hf1 & Hr1 & Ht1).
  rewrite (bind_ok _ _ _ _ _ Ego). cbv beta iota.
  rewrite (bind_ok _ _ _ _ _ (check_id_range_valid id_range w1 Hr)).
  assert (Hbs : exists b w2, default_bs bs' n_samples' w1 = (Ok b, w2)
                             /\ fs w2 = fs w1 /\ requests w2 = requests w1
                             /\ trace w2 = trace w1).
  { unfold default_bs. destruct bs'; eexists; eexists; (split; [reflexivity|]); auto. }
  destruct Hbs as (b & w2 & Ebs & Hf2 & Hr2 & Ht2).
  rewrite (bind_ok _ _ _ _ _ Ebs).
  exists w2. split; [reflexivity|]. repeat split; congruence.
Qed.

End EmptyRoot.

Lemma empty_root_rejected_witness :
  valid_arguments "humaneval" "vllm" None = true
  /\ valid_id_range None = true
  /\ exists w',
       example_run_codegen "org/m" "humaneval" "" None 1 float_zero
         true false None "default" "vllm" false None 1 None true (start empty_fs None)
       = (Raise (FileNotFoundError ""), w')
       /\ fs w' = empty_fs.
Proof.
  split; [reflexivity|]. split; [reflexivity|].
  destruct (empty_root_rejected example_sanitize example_tasks example_tasks
              example_make_model example_float_repr
              "org/m" "humaneval" None 1 float_zero true false None "default" "vllm"
              false None 1 None true (start empty_fs None) eq_refl eq_refl)
    as (w' & E & Hfs & _).
  exists w'. split; [exact E|exact Hfs].
Defined.

(** ** The directories codegen makes *)

Section Composing.

Variable rel : world -> world -> Prop.

Hypothesis rel_trans : forall w1 w2 w3, rel w1 w2 -> rel w2 w3 -> rel w1 w3.

Lemma rel_bind {A B} (m : M A) (k : A -> M B) (w : world) :
  rel w (snd (m w)) ->
  (forall a w1, rel w1 (snd (k a w1))) ->
  rel w (snd (bind m k w)).
Proof.
  intros Hm Hk. unfold bind. destruct (m w) as [[a|e] w1]; cbn [snd] in *.
  - eapply rel_trans; [exact Hm|apply Hk].
  - exact Hm.
Qed.

End Composing.

Lemma same_dirs_refl (w : world) : same_dirs w w.
Proof. reflexivity. Qed.

Lemma same_dirs_trans (w1 w2 w3 : world) :
  same_dirs w1 w2 -> same_dirs w2 w3 -> same_dirs w1 w3.
Proof. unfold same_dirs. congruence. Qed.

Lemma same_dirs_fs (w w' : world) : fs w' = fs w -> same_dirs w w'.
Proof. unfold same_dirs. intros ->. reflexivity. Qed.

Lemma write_file_same_dirs (p text : string) (w : world) :
  same_dirs w (snd (Os.write_file p text w)).
Proof.
  unfold Os.write_file.
  apply (rel_bind _ same_dirs_trans); [apply same_dirs_fs, tick_fs|].
  intros _ w1.
  apply (rel_bind _ same_dirs_trans);
    [apply same_dirs_fs, check_writable_fs|].
  intros _ w2. reflexivity.
Qed.

Lemma append_file_same_dirs (p text : string) (w : world) :
  same_dirs w (snd (Os.append_file p text w)).
Proof.
  unfold Os.append_file.
  apply (rel_bind _ same_dirs_trans); [apply same_dirs_fs, tick_fs|].
  intros _ w1.
  apply (rel_bind _ same_dirs_trans);
    [apply same_dirs_fs, check_writable_fs|].
  intros _ w2. reflexivity.
Qed.

Lemma makedirs_go_dirs (p : string) (todo : list string) (here : path) (w : world)
    (q : path) :
  q ∈ dirs (fs (snd (Os.makedirs_go p here todo w))) ->
  q ∈ dirs (fs w) \/ exists i, q = here ++ take i todo.
Proof.
  revert here w. induction todo as [|c todo IH]; intros here w; [left; assumption|].
  cbn [Os.makedirs_go]. unfold bind at 1, get_fs.
  assert (Hnext : forall w1, dirs (fs w1) ⊆ {[here ++ [c]]} ∪ dirs (fs w) ->
            q ∈ dirs (fs (snd (Os.makedirs_go p (here ++ [c]) todo w1))) ->
            q ∈ dirs (fs w) \/ exists i, q = here ++ take i (c :: todo)).
  { intros w1 Hsub Hq. destruct (IH _ _ Hq) as [H|(i & ->)].
    - apply Hsub in H. apply elem_of_union in H as [H|H]; [|left; exact H].
      apply elem_of_singleton in H. subst q. right. exists 1%nat. reflexivity.
    - right. exists (S i). rewrite <- app_assoc. reflexivity. }
  destruct (Os.isdir (fs w) (here ++ [c])).
  { apply Hnext. apply union_subseteq_r. }
  destruct (Os.isfile (fs w) (here ++ [c])).
  { destruct todo; left; assumption. }
  unfold bind at 1, Os.mkdir, bind at 1.
  destruct (tick_cases w) as [[-> _]|(w1 & -> & Hf & _)]; [left; assumption|].
  unfold bind, get_fs, put_fs. apply Hnext. cbn [fs dirs]. rewrite Hf. reflexivity.
Qed.

Section Directories.

Variable sanitize : string -> string -> string.
Variable get_human_eval_plus get_mbpp_plus : string -> list (string * task).
Variable target_path : string.
Variable model : DecoderBase.
Variable greedy : bool.
Variable n_samples : Z.
Variable resume : bool.

Local Abbreviation makes := (made_for target_path).

Lemma makes_refl (w : world) : makes w w.
Proof. intros q Hq. left. exact Hq. Qed.

Lemma makes_trans (w1 w2 w3 : world) : makes w1 w2 -> makes w2 w3 -> makes w1 w3.
Proof.
  intros H1 H2 q Hq. destruct (H2 q Hq) as [H|H]; [apply H1, H|right; exact H].
Qed.

Lemma same_dirs_makes (w w' : world) : same_dirs w w' -> makes w w'.
Proof. intros E q Hq. left. rewrite <- E. exact Hq. Qed.

Lemma write_sample_same_dirs (raw_target_path task_id : string) (t : task) (sidx : Z)
    (impl : string) (w : world) :
  same_dirs w (snd (write_sample sanitize target_path raw_target_path model task_id t
                      sidx impl w)).
Proof.
  unfold write_sample. destruct (PyStr.endswith target_path ".jsonl");
    (apply (rel_bind _ same_dirs_trans); [|intros _ w1]);
    first [apply append_file_same_dirs|apply write_file_same_dirs].
Qed.

Lemma write_outputs_same_dirs (raw_target_path task_id : string) (t : task)
    (outputs : list string) (sidx : Z) (w : world) :
  same_dirs w (snd (write_outputs sanitize target_path raw_target_path model task_id t
                      outputs sidx w)).
Proof.
  revert sidx w. induction outputs as [|impl outputs IH]; intros sidx w; [reflexivity|].
  cbn [write_outputs].
  apply (rel_bind _ same_dirs_trans); [apply write_sample_same_dirs|].
  intros _ w1. apply IH.
Qed.

Lemma generate_loop_same_dirs (raw_target_path task_id : string) (t : task)
    (fuel : nat) (sidx : Z) (w : world) :
  same_dirs w (snd (generate_loop sanitize target_path raw_target_path model greedy
                      n_samples task_id t fuel sidx w)).
Proof.
  revert sidx w. induction fuel as [|fuel IH]; intros sidx w; cbn [generate_loop];
    destruct (sidx <? n_samples); try reflexivity.
  apply (rel_bind _ same_dirs_trans); [reflexivity|].
  intros outputs w1. destruct outputs as [|impl outputs]; [reflexivity|].
  apply (rel_bind _ same_dirs_trans); [apply write_outputs_same_dirs|].
  intros sidx' w2. apply IH.
Qed.

Lemma makedirs_target_makes (w : world) : makes w (snd (Os.makedirs target_path w)).
Proof.
  unfold Os.makedirs. destruct (decide (target_path = "")); [apply makes_refl|].
  intros q Hq. apply makedirs_go_dirs in Hq as [H|(i & ->)]; [left; exact H|].
  right. left. exists i. reflexivity.
Qed.

Lemma count_existing_makes (task_id : string) (m : gmap string Z) (w : world) :
  makes w (snd (count_existing target_path task_id m w)).
Proof.
  unfold count_existing. destruct (negb _); [|apply makes_refl].
  apply (rel_bind _ makes_trans).
  - unfold Os.makedirs. destruct (decide _); [apply makes_refl|].
    intros q Hq. apply makedirs_go_dirs in Hq as [H|(i & ->)]; [left; exact H|].
    right. right. exists task_id, i. reflexivity.
  - intros _ w1. apply (rel_bind _ makes_trans).
    + rewrite listdir_world. apply makes_refl.
    + intros names w2. apply makes_refl.
Qed.

Lemma process_task_makes (raw_target_path task_id : string) (t : task)
    (m : gmap string Z) (w : world) :
  makes w (snd (process_task sanitize target_path raw_target_path model greedy
                  n_samples resume task_id t m w)).
Proof.
  unfold process_task.
  apply (rel_bind _ makes_trans); [apply count_existing_makes|].
  intros m1 w1. cbv zeta.
  apply (rel_bind _ makes_trans); [apply same_dirs_makes; reflexivity|intros _ w2].
  apply (rel_bind _ makes_trans);
    [apply same_dirs_makes, generate_loop_same_dirs|intros _ w3].
  apply makes_refl.
Qed.

Lemma for_tasks_makes (raw_target_path : string) (id_range : option (Z * Z))
    (tasks : list (string * task)) (m : gmap string Z) (w : world) :
  makes w (snd (for_tasks sanitize target_path raw_target_path model greedy n_samples
                  id_range resume tasks m w)).
Proof.
  revert m w. induction tasks as [|[task_id t] tasks IH]; intros m w; [apply makes_refl|].
  cbn [for_tasks].
  apply (rel_bind _ makes_trans).
  { apply same_dirs_makes, same_dirs_fs, skip_task_fs. }
  intros skip w1.
  apply (rel_bind _ makes_trans); [|intros m1 w2; apply IH].
  destruct skip; [apply makes_refl|apply process_task_makes].
Qed.

Lemma codegen_makes (dataset : string) (id_range : option (Z * Z)) (version : string)
    (w : world) :
  makes w (snd (codegen sanitize get_human_eval_plus get_mbpp_plus target_path model
                  dataset greedy n_samples id_range version resume w)).
Proof.
  unfold codegen.
  apply (rel_bind _ makes_trans).
  { rewrite resume_scan_world. apply makes_refl. }
  intros m w1.
  apply (rel_bind _ makes_trans).
  { unfold raw_path. destruct (PyStr.endswith target_path ".jsonl"); [apply makes_refl|].
    apply (rel_bind _ makes_trans); [apply makedirs_target_makes|].
    intros _ w2. apply makes_refl. }
  intros raw w2.
  apply (rel_bind _ makes_trans); [apply same_dirs_makes; reflexivity|intros _ w3].
  apply (rel_bind _ makes_trans); [apply same_dirs_makes; reflexivity|intros _ w4].
  apply (rel_bind _ makes_trans).
  { unfold load_dataset. destruct (decide _); [apply makes_refl|].
    destruct (decide _); apply makes_refl. }
  intros tasks w5. apply for_tasks_makes.
Qed.

End Directories.

(** X16. Lines 41 and 72 are the only places codegen makes directories:
    whatever the arguments and however the run ends, every directory
    that exists afterwards was there before, or lies on the way to the
    target directory, or on the way to the directory of a task under it.
    No directory is made for the raw outputs. *)
Theorem directories_made (sanitize : string -> string -> string)
    (get_human_eval_plus get_mbpp_plus : string -> list (string * task))
    (target_path : string) (model : DecoderBase) (dataset : string) (greedy : bool)
    (n_samples : Z) (id_range : option (Z * Z)) (version : string) (resume : bool)
    (w : world) (q : path) :
  q ∈ dirs (fs (snd (codegen sanitize get_human_eval_plus get_mbpp_plus target_path
                       model dataset greedy n_samples id_range version resume w))) ->
  q ∈ dirs (fs w)
  \/ (exists i, q = take i (Os.resolve target_path))
  \/ exists task_id i,
       q = take i (Os.resolve (Os.join target_path (p_name task_id))).
Proof.
  apply (codegen_makes sanitize get_human_eval_plus get_mbpp_plus target_path model
           greedy n_samples resume dataset id_range version w q).
Qed.

Lemma directories_made_witness :
  ["out"; "suite_0"] ∈ dirs (fs (snd (example_codegen "out")))
  /\ (["out"; "suite_0"] ∈ dirs (fs (start empty_fs None))
      \/ (exists i, ["out"; "suite_0"] = take i (Os.resolve "out"))
      \/ exists task_id i,
           ["out"; "suite_0"] = take i (Os.resolve (Os.join "out" (p_name task_id)))).
Proof.
  assert (H : ["out"; "suite_0"] ∈ dirs (fs (snd (example_codegen "out")))).
  { assert (E : dirs (fs (snd (example_codegen "out")))
                = {[ ["out"]; ["out"; "suite_0"] ]}) by (vm_compute; reflexivity).
    rewrite E. apply elem_of_union. right. apply elem_of_singleton. reflexivity. }
  split; [exact H|].
  exact (directories_made example_sanitize example_tasks example_tasks "out"
           example_model "humaneval" false 1 None "default" true
           (start empty_fs None) _ H).
Defined.

(** ** [run_codegen] from an empty working directory, log layout *)

Lemma join_plain (a b : string) :
  a <> "" -> PyStr.endswith a "/" = false -> PyStr.startswith "/" b = false ->
  Os.join a b = a +:+ String "/" b.
Proof.
  intros Ha He Hb. unfold Os.join. rewrite Hb, He.
  destruct (decide (a = "")); [contradiction|reflexivity].
Qed.

Lemma endswith_slash_last (s : string) (c : ascii) :
  PyStr.endswith (s +:+ String c "") "/" = true -> c = "/"%char.
Proof.
  change "/" with ("" +:+ String "/" ""). apply endswith_snoc.
Qed.

Lemma replace_empty (old new : string) : PyStr.replace_go old new O "" = "".
Proof. reflexivity. Qed.

(** The name of a log inside its directory, and what line 38 makes of
    it. *)
Lemma log_piece (b : string) :
  PyStr.mem_char "/" b = false -> PyStr.endswith b ".jsonl" = true ->
  simple_name b
  /\ simple_name (PyStr.replace_go ".jsonl" ".raw.jsonl" 0 b)
  /\ PyStr.replace_go ".jsonl" ".raw.jsonl" 0 b <> b.
Proof.
  intros Hs He.
  assert (Hold : ".jsonl" <> "") by discriminate.
  pose proof (endswith_length _ _ He) as Hl. cbn [String.length] in Hl.
  destruct (replace_longer ".jsonl" ".raw.jsonl" Hold b ltac:(cbn; lia)) as [_ Hlong].
  specialize (Hlong He).
  split; [apply log_name_simple; assumption|]. split.
  - apply log_name_simple; [|lia]. apply replace_go_no_slash; [reflexivity|exact Hs].
  - intros E. rewrite E in Hlong. lia.
Qed.

(** The directory [root/dataset] as a string: not empty, without a
    trailing slash, and left alone by line 38 when [root] is. *)
Lemma dataset_dir (root dataset backend : string) (evalperf_type : option string) :
  valid_arguments dataset backend evalperf_type = true ->
  root <> "" ->
  PyStr.replace root ".jsonl" ".raw.jsonl" = root ->
  Os.join root dataset <> ""
  /\ PyStr.endswith (Os.join root dataset) "/" = false
  /\ PyStr.replace (Os.join root dataset) ".jsonl" ".raw.jsonl" = Os.join root dataset.
Proof.
  intros Hv Hroot Hrep. pose proof (dataset_simple _ _ _ Hv) as Hsimple.
  apply valid_arguments_inv in Hv as (Hd & _).
  assert (Hold : ".jsonl" <> "") by discriminate.
  split; [apply join_nonempty, Hsimple|]. split.
  - destruct (join_suffix root dataset) as (pre & ->).
    destruct (PyStr.endswith (pre +:+ dataset) "/") eqn:E; [|reflexivity].
    destruct Hd as [-> | ->].
    + change "humaneval" with ("humaneva" +:+ String "l" "") in E.
      rewrite <- app_assoc_str in E. apply endswith_slash_last in E. discriminate E.
    + change "mbpp" with ("mbp" +:+ String "p" "") in E.
      rewrite <- app_assoc_str in E. apply endswith_slash_last in E. discriminate E.
  - assert (Hdr : PyStr.replace_go ".jsonl" ".raw.jsonl" 0 dataset = dataset)
      by (destruct Hd as [-> | ->]; reflexivity).
    unfold PyStr.replace in *. unfold Os.join.
    rewrite (startswith_slash_simple _ Hsimple).
    destruct (decide (root = "")); [contradiction|].
    destruct (PyStr.endswith root "/") eqn:E.
    + destruct (snoc_exists root Hroot) as (r & c & Er). subst root.
      apply endswith_slash_last in E. subst c.
      rewrite (replace_slash ".jsonl" ".raw.jsonl" Hold eq_refl), replace_empty in Hrep.
      apply app_inv_tail_str in Hrep.
      rewrite app_assoc_str, app_cons, app_empty_l.
      rewrite (replace_slash ".jsonl" ".raw.jsonl" Hold eq_refl), Hrep, Hdr. reflexivity.
    + rewrite app_cons, app_empty_l.
      rewrite (replace_slash ".jsonl" ".raw.jsonl" Hold eq_refl), Hrep, Hdr. reflexivity.
Qed.

(** The sanitized and the raw log of a name in a directory. *)
Lemma log_paths (dir name : string) :
  dir <> "" -> PyStr.endswith dir "/" = false ->
  PyStr.replace dir ".jsonl" ".raw.jsonl" = dir ->
  PyStr.mem_char "/" name = false -> PyStr.endswith name ".jsonl" = true ->
  exists name',
    simple_name name /\ simple_name name' /\ name' <> name
    /\ Os.join dir name <> "" /\ raw_log (Os.join dir name) <> ""
    /\ Os.resolve (Os.join dir name) = Os.resolve dir ++ [name]
    /\ Os.resolve (raw_log (Os.join dir name)) = Os.resolve dir ++ [name'].
Proof.
  intros Hdir Hend Hrep Hslash Hlog.
  destruct (log_piece name Hslash Hlog) as (H1 & H2 & H3).
  exists (PyStr.replace_go ".jsonl" ".raw.jsonl" 0 name).
  split; [exact H1|]. split; [exact H2|]. split; [exact H3|].
  assert (Hraw : raw_log (Os.join dir name)
                 = Os.join dir (PyStr.replace_go ".jsonl" ".raw.jsonl" 0 name)).
  { rewrite !join_plain by
      (try assumption; apply startswith_slash_simple; assumption).
    unfold raw_log, PyStr.replace in *.
    rewrite (replace_slash ".jsonl" ".raw.jsonl" ltac:(discriminate) eq_refl), Hrep.
    reflexivity. }
  split; [apply join_nonempty, H1|]. rewrite Hraw.
  split; [apply join_nonempty, H2|].
  split; apply resolve_join; assumption.
Qed.

Lemma isfile_none (f : filesystem) (q : path) : files f = ∅ -> Os.isfile f q = false.
Proof.
  intros E. unfold Os.isfile. rewrite E, lookup_empty.
  apply bool_decide_eq_false. intros [x [=]].
Qed.

(** [os.makedirs] where no regular file exists and nothing interrupts. *)
Lemma makedirs_fresh (p : string) (w : world) :
  p <> "" -> files (fs w) = ∅ -> budget w = None ->
  exists w',
    Os.makedirs p w = (Ok tt, w')
    /\ files (fs w') = ∅ /\ budget w' = None
    /\ (forall q, q ∈ dirs (fs w') ->
          q ∈ dirs (fs w) \/ exists i, q = take i (Os.resolve p))
    /\ Os.isdir (fs w') (Os.resolve p) = true.
Proof.
  intros Hp Hf Hb. unfold Os.makedirs. rewrite decide_False by exact Hp.
  pose proof (makedirs_go_spec p (Os.resolve p) [] w
                (fun i _ => isfile_none (fs w) _ Hf)) as H.
  destruct (Os.makedirs_go p [] (Os.resolve p) w) as [r w'].
  destruct H as (Hf' & Hsub & Hnew & [(-> & Hdirs & Hb')|[_ Hb']]); [|congruence].
  exists w'. split; [reflexivity|]. split; [congruence|]. split; [auto|]. split.
  - intros q Hq. destruct (Hnew q Hq) as [H|(i & _ & ->)]; [left; exact H|].
    right. exists i. reflexivity.
  - destruct (Os.resolve p) as [|c l] eqn:E.
    + apply isdir_spec. left. reflexivity.
    + specialize (Hdirs (length (c :: l)) ltac:(cbn [length]; lia)).
      rewrite firstn_all in Hdirs. exact Hdirs.
Qed.

(** Two logs in a directory that exists, in a file system without
    regular files and without deeper directories. *)
Lemma fresh_log_state (target_path raw_target_path name name' : string) (D : path)
    (w : world) :
  target_path <> "" -> raw_target_path <> "" ->
  Os.resolve target_path = D ++ [name] ->
  Os.resolve raw_target_path = D ++ [name'] ->
  name' <> name -> D <> [] ->
  files (fs w) = ∅ ->
  Os.isdir (fs w) D = true ->
  (forall q, q ∈ dirs (fs w) -> (length q <= length D)%nat) ->
  log_state target_path raw_target_path [] w.
Proof.
  intros Ht Hr HT HR Hne HD Hf Hd Hshort.
  assert (Hw : forall p n, p <> "" -> Os.resolve p = D ++ [n] -> writable (fs w) p).
  { intros p n Hp E. split; [exact Hp|]. rewrite E, removelast_last.
    split; [|split; [apply isfile_none, Hf|exact Hd]].
    destruct (Os.isdir (fs w) (D ++ [n])) eqn:Hdir; [|reflexivity].
    apply isdir_spec in Hdir as [H|[H|H]].
    - destruct D; discriminate H.
    - destruct D as [|a [|b D']]; [congruence|discriminate H|discriminate H].
    - apply Hshort in H. rewrite length_app in H. cbn in H. lia. }
  split; [rewrite Hf, lookup_empty; reflexivity|].
  split; [apply (Hw _ name); assumption|].
  split; [apply (Hw _ name'); assumption|].
  rewrite HT, HR. intros E. apply app_inj_tail in E as [_ E]. contradiction.
Qed.

(** [codegen] on a log that holds nothing yet, resuming or not. *)
Lemma codegen_fresh_log (sanitize : string -> string -> string)
    (get_human_eval_plus get_mbpp_plus : string -> list (string * task))
    (target_path : string) (model : DecoderBase) (dataset : string) (greedy : bool)
    (n_samples : Z) (id_range : option (Z * Z)) (version : string) (resume : bool)
    (tasks : list (string * task)) (w : world) :
  PyStr.endswith target_path ".jsonl" = true ->
  0 <= n_samples ->
  dataset_tasks get_human_eval_plus get_mbpp_plus dataset version = Some tasks ->
  NoDup (map fst tasks) ->
  filter_defined id_range tasks ->
  returns_at_most_requested model ->
  returns_something model ->
  log_state target_path (raw_log target_path) [] w ->
  budget w = None ->
  exists w' recs,
    codegen sanitize get_human_eval_plus get_mbpp_plus target_path model dataset
      greedy n_samples id_range version resume w = (Ok tt, w')
    /\ log_state target_path (raw_log target_path) recs w'
    /\ forall id, id ∈ map fst tasks -> in_range id_range id = true ->
         count_id id recs = n_samples.
Proof.
  intros Hlog Hn Htasks Hnd Hdef Hmost Hsome Hst Hb. destruct resume.
  - destruct (codegen_log_ok sanitize get_human_eval_plus get_mbpp_plus target_path
                dataset greedy n_samples id_range version tasks Hlog Htasks Hnd Hdef
                model [] w Hmost Hsome Hst Hb) as (w' & E).
    pose proof (codegen_log_run sanitize get_human_eval_plus get_mbpp_plus target_path
                  dataset greedy n_samples id_range version tasks Hlog Htasks Hnd Hdef
                  model [] w Hmost Hst) as H.
    cbv beta in E, H. rewrite E in H. destruct H as (recs & Hst' & _ & Hdone).
    exists w', recs. split; [exact E|]. split; [exact Hst'|].
    intros id Hid Hrng. rewrite (Hdone eq_refl id Hid Hrng).
    unfold count_id. rewrite filter_nil. cbn. lia.
  - unfold codegen, resume_scan. cbn [andb]. rewrite bind_ret.
    unfold raw_path. rewrite Hlog, bind_ret.
    unfold bind at 1, print at 1. cbv beta iota.
    unfold bind at 1, print at 1. cbv beta iota.
    unfold bind at 1. rewrite (load_dataset_tasks _ _ _ _ _ Htasks).
    match goal with
    | |- context [for_tasks _ _ _ _ _ _ _ _ _ _ ?w0] => set (w1 := w0)
    end.
    assert (Hst1 : log_state target_path (raw_log target_path) [] w1)
      by (eapply log_state_fs; [|exact Hst]; reflexivity).
    destruct (for_tasks_again sanitize target_path (raw_log target_path) model greedy
                n_samples Hlog Hmost Hsome Hn id_range tasks ∅ [] w1 Hnd Hdef Hst1 Hb)
      as (w' & recs & E & Hst' & Hin & _).
    exists w', recs. split; [exact E|]. split; [exact Hst'|].
    intros id Hid Hrng. rewrite (Hin id Hid Hrng).
    unfold count_id. rewrite filter_nil. cbn. lia.
Qed.

Section FromScratch.

Variable sanitize : string -> string -> string.
Variable get_human_eval_plus get_mbpp_plus : string -> list (string * task).
Variable make_model : make_model_args -> DecoderBase.
Variable float_repr : float -> string.

Hypothesis plain_repr : plain_float_repr float_repr.
Hypothesis bounded : forall args, returns_at_most_requested (make_model args).
Hypothesis productive : forall args, returns_something (make_model args).

(** X17. Lines 138-232 with [jsonl_fmt] set, called in an empty working
    directory with valid arguments, a [root] that holds no [.jsonl], and a
    backend that returns something but never more than asked: the call
    makes [root/dataset], runs to its end and returns the path of a log
    that holds, for every task of the range, exactly as many records as
    the call aims at ([n_samples], or 1 when greedy). *)
Theorem run_codegen_log_completes (model dataset root : string) (bs : option Z)
    (n_samples : Z) (temperature : float) (resume greedy : bool)
    (id_range : option (list Z)) (version backend : string)
    (force_base_prompt : bool) (base_url : option string) (tp : Z)
    (evalperf_type : option string) (tasks : list (string * task)) (w : world) :
  valid_arguments dataset backend evalperf_type = true ->
  valid_id_range id_range = true ->
  0 <= n_samples ->
  root <> "" ->
  PyStr.replace root ".jsonl" ".raw.jsonl" = root ->
  dataset_tasks get_human_eval_plus get_mbpp_plus dataset version = Some tasks ->
  NoDup (map fst tasks) ->
  filter_defined (range_pair id_range) tasks ->
  fs w = empty_fs ->
  budget w = None ->
  exists target_path w',
    run_codegen sanitize get_human_eval_plus get_mbpp_plus make_model float_repr
      model dataset root bs n_samples temperature resume greedy id_range
      version backend force_base_prompt base_url tp evalperf_type true w
    = (Ok target_path, w')
    /\ Os.isdir (fs w') (Os.resolve (Os.join root dataset)) = true
    /\ forall id, id ∈ map fst tasks -> in_range (range_pair id_range) id = true ->
         holds_samples target_path id (run_samples greedy n_samples) (fs w').
Proof.
  intros Hv Hr Hn Hroot Hrep Htasks Hnd Hdef Hfs Hb.
  pose proof Hv as Hv'. unfold valid_arguments, valid_evalperf_type in Hv'.
  apply andb_true_iff in Hv' as [Hv' He]. apply andb_true_iff in Hv' as [Hd Hbk].
  unfold run_codegen. rewrite Hd, Hbk, He. unfold assert_. rewrite !bind_ret.
  (* lines 164-168 *)
  assert (Hgo : exists temperature' bs' w1,
            greedy_override greedy temperature bs n_samples w
            = (Ok (temperature', bs', run_samples greedy n_samples), w1)
            /\ fs w1 = fs w /\ budget w1 = budget w).
  { destruct greedy; cbn [run_samples].
    - rewrite greedy_override_spec.
      destruct (differs_from_greedy temperature bs n_samples) eqn:Hdiff.
      + do 3 eexists. split; [reflexivity|]. split; reflexivity.
      + destruct (differs_from_greedy_false _ _ _ Hdiff) as (_ & _ & ->).
        do 3 eexists. split; [reflexivity|]. split; reflexivity.
    - do 3 eexists. split; [reflexivity|]. split; reflexivity. }
  destruct Hgo as (temperature' & bs' & w1 & Ego & Hf1 & Hb1).
  rewrite (bind_ok _ _ _ _ _ Ego). cbv beta iota.
  set (n := run_samples greedy n_samples).
  assert (Hn' : 0 <= n) by (unfold n, run_samples; destruct greedy; lia).
  (* lines 170-177 *)
  rewrite (bind_ok _ _ _ _ _ (check_id_range_valid id_range w1 Hr)).
  fold (range_pair id_range).
  assert (Hbs : exists b w2, default_bs bs' n w1 = (Ok b, w2)
                             /\ fs w2 = fs w1 /\ budget w2 = budget w1).
  { unfold default_bs. destruct bs'; do 2 eexists; (split; [reflexivity|]);
      split; reflexivity. }
  destruct Hbs as (b & w2 & Ebs & Hf2 & Hb2). rewrite (bind_ok _ _ _ _ _ Ebs).
  (* lines 179-182 *)
  destruct (dataset_dir root dataset backend evalperf_type Hv Hroot Hrep)
    as (Hdir & Hend & Hdrep).
  pose proof (dataset_simple _ _ _ Hv) as Hds.
  destruct (makedirs_fresh root w2 Hroot) as (w3 & E3 & Hf3 & Hb3 & Hnew3 & _);
    [rewrite Hf2, Hf1, Hfs; reflexivity|congruence|].
  rewrite (bind_ok _ _ _ _ _ E3).
  destruct (makedirs_fresh (Os.join root dataset) w3 Hdir Hf3 Hb3)
    as (w4 & E4 & Hf4 & Hb4 & Hnew4 & Hisdir).
  rewrite (bind_ok _ _ _ _ _ E4).
  set (D := Os.resolve (Os.join root dataset)) in *.
  assert (HD : D = Os.resolve root ++ [dataset]) by apply resolve_join, Hds.
  assert (Hshort : forall q, q ∈ dirs (fs w4) -> (length q <= length D)%nat).
  { intros q Hq. destruct (Hnew4 q Hq) as [H|(i & ->)].
    - destruct (Hnew3 q H) as [H0|(i & ->)].
      + rewrite Hf2, Hf1, Hfs in H0. apply elem_of_empty in H0. destruct H0.
      + rewrite length_take, HD, length_app. lia.
    - rewrite length_take. lia. }
  (* lines 184-195 *)
  assert (Hpre : exists both, prefixes evalperf_type w4 = (Ok both, w4)).
  { destruct (valid_arguments_inv _ _ _ Hv) as (_ & _ & [-> |[-> |[-> | ->]]]);
      eexists; reflexivity. }
  destruct Hpre as ([instruction_prefix response_prefix] & Epre).
  rewrite (bind_ok _ _ _ _ _ Epre). cbv beta iota. rewrite bind_ret.
  (* lines 212-218 *)
  set (ident := identifier float_repr model backend temperature' evalperf_type).
  destruct (identifier_simple float_repr plain_repr model dataset backend temperature'
              evalperf_type "" Hv (or_introl eq_refl)) as (Hid & _).
  rewrite app_empty_r in Hid. fold ident in Hid.
  destruct (identifier_simple float_repr plain_repr model dataset backend temperature'
              evalperf_type ".jsonl" Hv (or_intror eq_refl)) as (_ & _ & Hslash).
  fold ident in Hslash.
  rewrite (join_app_r _ ident ".jsonl" Hid).
  destruct (log_paths (Os.join root dataset) (ident +:+ ".jsonl") Hdir Hend Hdrep
              Hslash (endswith_app ident ".jsonl"))
    as (name' & Hname & Hname' & Hne & Htne & Hrne & HT & HR).
  set (target_path := Os.join (Os.join root dataset) (ident +:+ ".jsonl")) in *.
  assert (Hlog : PyStr.endswith target_path ".jsonl" = true).
  { unfold target_path.
    destruct (join_suffix (Os.join root dataset) (ident +:+ ".jsonl")) as (pre & ->).
    rewrite <- app_assoc_str. apply endswith_app. }
  (* lines 221-232 *)
  assert (Hst : log_state target_path (raw_log target_path) [] w4).
  { apply (fresh_log_state target_path (raw_log target_path) (ident +:+ ".jsonl")
             name' D w4 Htne Hrne HT HR Hne); [|exact Hf4|exact Hisdir|exact Hshort].
    rewrite HD. intros E. destruct (Os.resolve root); discriminate E. }
  match goal with
  | |- context [codegen _ _ _ _ (make_model ?a)] => set (args := a)
  end.
  destruct (codegen_fresh_log sanitize get_human_eval_plus get_mbpp_plus target_path
              (make_model args) dataset greedy n (range_pair id_range) version
              resume tasks w4 Hlog Hn' Htasks Hnd Hdef (bounded args) (productive args)
              Hst Hb4) as (w' & recs & Erun & Hst' & Hcount).
  rewrite (bind_ok _ _ _ _ _ Erun).
  exists target_path, w'. split; [reflexivity|]. split.
  - destruct (codegen_grows sanitize get_human_eval_plus get_mbpp_plus target_path
                (make_model args) greedy n resume Hlog dataset (range_pair id_range)
                version w4) as (Hdirs & _).
    rewrite Erun in Hdirs. cbn [snd] in Hdirs.
    rewrite (isdir_dirs _ _ _ Hdirs). exact Hisdir.
  - intros id Hin Hrng. unfold holds_samples. rewrite Hlog.
    exists recs. split; [exact (proj1 Hst')|apply Hcount; assumption].
Qed.

End FromScratch.

Lemma run_codegen_log_completes_witness :
  PyStr.replace "evalplus_results" ".jsonl" ".raw.jsonl" = "evalplus_results"
  /\ exists target_path w',
       example_run_codegen "org/m" "humaneval" "evalplus_results" None 2 float_zero
         true false None "default" "vllm" false None 1 None true (start empty_fs None)
       = (Ok target_path, w')
       /\ Os.isdir (fs w') (Os.resolve (Os.join "evalplus_results" "humaneval")) = true
       /\ forall id, id ∈ map fst (example_tasks "default") ->
            in_range (range_pair None) id = true ->
            holds_samples target_path id (run_samples false 2) (fs w').
Proof.
  assert (H1 : valid_arguments "humaneval" "vllm" None = true) by reflexivity.
  assert (H2 : valid_id_range None = true) by reflexivity.
  assert (H3 : 0 <= 2) by lia.
  assert (H4 : "evalplus_results" <> "") by discriminate.
  assert (H5 : PyStr.replace "evalplus_results" ".jsonl" ".raw.jsonl"
               = "evalplus_results") by reflexivity.
  assert (H6 : dataset_tasks example_tasks example_tasks "humaneval" "default"
               = Some (example_tasks "default")) by reflexivity.
  assert (H7 : filter_defined (range_pair None) (example_tasks "default"))
    by (left; reflexivity).
  assert (H8 : fs (start empty_fs None) = empty_fs) by reflexivity.
  assert (H9 : budget (start empty_fs None) = None) by reflexivity.
  split; [exact H5|].
  exact (run_codegen_log_completes example_sanitize example_tasks example_tasks
           example_make_model example_float_repr example_float_repr_plain
           (fun _ => example_model_at_most) (fun _ => example_model_something)
           "org/m" "humaneval" "evalplus_results" None 2 float_zero true false None
           "default" "vllm" false None 1 None (example_tasks "default")
           (start empty_fs None) H1 H2 H3 H4 H5 H6 example_tasks_distinct H7 H8 H9).
Defined.

(** ** The directory layout: a sample needs both task directories *)

Lemma check_writable_inv (p : string) (w w' : world) :
  Os.check_writable p w = (Ok tt, w') ->
  w' = w /\ Os.isdir (fs w) (removelast (Os.resolve p)) = true.
Proof.
  unfold Os.check_writable, bind, get_fs.
  destruct (decide (p = "")); [discriminate|].
  destruct (Os.isdir (fs w) (Os.resolve p)); [discriminate|].
  destruct (Os.isfile (fs w) (removelast (Os.resolve p))); [discriminate|].
  destruct (Os.isdir (fs w) (removelast (Os.resolve p))); [|discriminate].
  intros [= <-]. auto.
Qed.

Lemma write_file_inv (p text : string) (w w' : world) :
  Os.write_file p text w = (Ok tt, w') ->
  dirs (fs w') = dirs (fs w)
  /\ Os.isdir (fs w) (removelast (Os.resolve p)) = true.
Proof.
  unfold Os.write_file. intros H.
  apply bind_inv_ok in H as ([] & w1 & Ht & H).
  apply bind_inv_ok in H as ([] & w2 & Hc & H).
  apply check_writable_inv in Hc as [-> Hd].
  pose proof (tick_fs w) as Hf. rewrite Ht in Hf. cbn [snd] in Hf.
  unfold bind, get_fs, put_fs in H. injection H as <-. cbn [fs dirs].
  rewrite Hf in *. auto.
Qed.

Lemma sample_directory (task_id root : string) (k : Z) :
  removelast (Os.resolve (sample_file task_id root k))
  = Os.resolve (Os.join root (p_name task_id)).
Proof.
  unfold sample_file. fold (py_name k).
  rewrite (resolve_join _ _ (py_name_simple k)). apply removelast_last.
Qed.

(** X18. Lines 119-134: in the directory layout a completion is written in
    full only where the directory of the task exists both under the
    target and under the raw root at the moment of the write; codegen
    makes the first (line 72) and never the second. *)
Theorem sample_needs_both_directories (sanitize : string -> string -> string)
    (target_path raw_target_path : string) (model : DecoderBase) (task_id : string)
    (t : task) (sidx : Z) (impl : string) (w w' : world) :
  PyStr.endswith target_path ".jsonl" = false ->
  write_sample sanitize target_path raw_target_path model task_id t sidx impl w
  = (Ok tt, w') ->
  Os.isdir (fs w) (Os.resolve (Os.join target_path (p_name task_id))) = true
  /\ Os.isdir (fs w) (Os.resolve (Os.join raw_target_path (p_name task_id))) = true.
Proof.
  intros Hdir H. unfold write_sample in H. rewrite Hdir in H.
  apply bind_inv_ok in H as ([] & w1 & H1 & H2).
  apply write_file_inv in H1 as [Hd1 Hs]. apply write_file_inv in H2 as [_ Hr].
  rewrite sample_directory in Hs, Hr. split; [exact Hs|].
  rewrite <- (isdir_dirs _ _ _ Hd1). exact Hr.
Qed.

Lemma sample_needs_both_directories_witness :
  PyStr.endswith "out" ".jsonl" = false
  /\ Os.isdir
       (fs (snd (Os.makedirs "out/suite_0" (start raw_dirs_fs None))))
       (Os.resolve (Os.join "out.raw" (p_name "suite/0"))) = true.
Proof.
  assert (H1 : PyStr.endswith "out" ".jsonl" = false) by reflexivity.
  assert (H2 : write_sample example_sanitize "out" "out.raw" example_model "suite/0"
                 example_task 0 "pass"
                 (snd (Os.makedirs "out/suite_0" (start raw_dirs_fs None)))
               = (Ok tt,
                  snd (write_sample example_sanitize "out" "out.raw" example_model
                         "suite/0" example_task 0 "pass"
                         (snd (Os.makedirs "out/suite_0" (start raw_dirs_fs None))))))
    by (vm_compute; reflexivity).
  split; [exact H1|].
  exact (proj2 (sample_needs_both_directories example_sanitize "out" "out.raw"
                  example_model "suite/0" example_task 0 "pass" _ _ H1 H2)).
Defined.

(** ** Resuming a run that is complete *)

Section Complete.

Variable sanitize : string -> string -> string.
Variable target_path raw_target_path : string.
Variable model : DecoderBase.
Variable greedy : bool.
Variable n_samples : Z.

Hypothesis is_log : PyStr.endswith target_path ".jsonl" = true.

Lemma only_printed_trans (w1 w2 w3 : world) :
  only_printed w1 w2 -> only_printed w2 w3 -> only_printed w1 w3.
Proof.
  intros (H1 & H2 & H3 & H4) (H1' & H2' & H3' & H4'). repeat split; congruence.
Qed.

Lemma process_task_satisfied (task_id : string) (t : task) (m : gmap string Z)
    (w : world) :
  n_samples <= default 0 (m !! task_id) ->
  exists w',
    process_task sanitize target_path raw_target_path model greedy n_samples true
      task_id t m w = (Ok m, w')
    /\ only_printed w w'.
Proof.
  intros Hn. rewrite process_task_unfold, (count_existing_log _ is_log). cbv zeta.
  rewrite start_index_spec. cbn [andb].
  rewrite generate_loop_done
    by (destruct (Z.ltb_spec 0 (default 0 (m !! task_id))); lia).
  eexists. split; [reflexivity|]. repeat split.
Qed.

Lemma for_tasks_satisfied (id_range : option (Z * Z)) (tasks : list (string * task))
    (m : gmap string Z) (w : world) :
  filter_defined id_range tasks ->
  (forall id, id ∈ map fst tasks -> in_range id_range id = true ->
     n_samples <= default 0 (m !! id)) ->
  exists w',
    for_tasks sanitize target_path raw_target_path model greedy n_samples id_range
      true tasks m w = (Ok tt, w')
    /\ only_printed w w'.
Proof.
  revert w. induction tasks as [|[task_id t] tasks IH]; intros w Hdef Hfull.
  - exists w. split; [reflexivity|]. repeat split.
  - apply filter_defined_cons in Hdef as [Hnum Hdef].
    cbn [for_tasks]. unfold bind at 1.
    destruct (skip_task_spec id_range task_id w Hnum)
      as (w1 & -> & Hfs & Hb1 & Hr1 & Ht1).
    assert (H01 : only_printed w w1) by (repeat split; assumption).
    assert (Hfull' : forall id, id ∈ map fst tasks -> in_range id_range id = true ->
                       n_samples <= default 0 (m !! id)).
    { intros id Hid. apply Hfull. cbn [map fst]. right. exact Hid. }
    destruct (in_range id_range task_id) eqn:Hin; cbn [negb].
    + destruct (process_task_satisfied task_id t m w1) as (w2 & E & H12).
      { apply Hfull; [left|exact Hin]. }
      rewrite (bind_ok _ _ _ _ _ E).
      destruct (IH w2 Hdef Hfull') as (w' & -> & H2).
      exists w'. split; [reflexivity|].
      eapply only_printed_trans; [exact H01|].
      eapply only_printed_trans; [exact H12|exact H2].
    + rewrite bind_ret. destruct (IH w1 Hdef Hfull') as (w' & -> & H2).
      exists w'. split; [reflexivity|]. eapply only_printed_trans; eassumption.
Qed.

End Complete.

(** X19. Lines 28-35 and 81-90 on a log that is complete: when the log holds
    at least [n_samples] records of every task of the range, a run with
    resume enabled ends normally having done nothing but print: no
    request to the backend, no change to any file, and no point at which
    it could be interrupted in a write. *)
Theorem complete_log_is_left_alone (sanitize : string -> string -> string)
    (get_human_eval_plus get_mbpp_plus : string -> list (string * task))
    (target_path : string) (model : DecoderBase) (dataset : string) (greedy : bool)
    (n_samples : Z) (id_range : option (Z * Z)) (version : string)
    (tasks : list (string * task)) (recs : list (string * string)) (w : world) :
  PyStr.endswith target_path ".jsonl" = true ->
  dataset_tasks get_human_eval_plus get_mbpp_plus dataset version = Some tasks ->
  filter_defined id_range tasks ->
  files (fs w) !! Os.resolve target_path = Some (log_text recs) ->
  (forall id, id ∈ map fst tasks -> in_range id_range id = true ->
     n_samples <= count_id id recs) ->
  exists w',
    codegen sanitize get_human_eval_plus get_mbpp_plus target_path model dataset
      greedy n_samples id_range version true w = (Ok tt, w')
    /\ only_printed w w'.
Proof.
  intros Hlog Htasks Hdef Hfile Hfull.
  assert (Hscan : exists m, resume_scan target_path true w = (Ok m, w)
                            /\ forall id, default 0 (m !! id) = count_id id recs).
  { unfold resume_scan. rewrite Hlog. cbn [andb].
    unfold bind, Os.path_isfile, bind, get_fs, ret, Os.isfile.
    rewrite Hfile. rewrite bool_decide_eq_true_2 by eauto.
    unfold scan_log, bind, get_fs. rewrite Hfile, readlines_log_text.
    destruct (count_lines_records recs ∅) as (m & -> & Hm).
    exists m. split; [reflexivity|]. intros id. rewrite Hm, lookup_empty. cbn. lia. }
  destruct Hscan as (m & Escan & Hm).
  unfold codegen. rewrite (bind_ok _ _ _ _ _ Escan).
  unfold raw_path. rewrite Hlog, bind_ret.
  unfold bind at 1, print at 1. cbv beta iota.
  unfold bind at 1, print at 1. cbv beta iota.
  unfold bind at 1. rewrite (load_dataset_tasks _ _ _ _ _ Htasks).
  match goal with
  | |- context [for_tasks _ _ _ _ _ _ _ _ _ _ ?w0] => set (w1 := w0)
  end.
  destruct (for_tasks_satisfied sanitize target_path (raw_log target_path) model
              greedy n_samples Hlog id_range tasks m w1 Hdef) as (w' & E & H).
  { intros id Hid Hrng. rewrite Hm. apply Hfull; assumption. }
  exists w'. split; [exact E|].
  eapply only_printed_trans; [|exact H]. repeat split.
Qed.

Lemma complete_log_is_left_alone_witness :
  files (fs full_log) !! Os.resolve "out.jsonl" = Some (log_text full_records)
  /\ exists w', example_resume full_log = (Ok tt, w') /\ only_printed full_log w'.
Proof.
  assert (H1 : PyStr.endswith "out.jsonl" ".jsonl" = true) by reflexivity.
  assert (H2 : dataset_tasks example_tasks example_tasks "humaneval" "default"
               = Some (example_tasks "default")) by reflexivity.
  assert (H3 : filter_defined None (example_tasks "default")) by (left; reflexivity).
  assert (H4 : files (fs full_log) !! Os.resolve "out.jsonl"
               = Some (log_text full_records)) by reflexivity.
  assert (H5 : forall id, id ∈ map fst (example_tasks "default") ->
                 in_range None id = true -> 2 <= count_id id full_records).
  { intros id Hid _. cbn in Hid.
    apply elem_of_cons in Hid as [-> |Hid]; [vm_compute; discriminate|].
    apply list_elem_of_singleton in Hid as ->. vm_compute. discriminate. }
  split; [exact H4|].
  exact (complete_log_is_left_alone example_sanitize example_tasks example_tasks
           "out.jsonl" example_model "humaneval" false 2 None "default"
           (example_tasks "default") full_records full_log H1 H2 H3 H4 H5).
Defined.

(** ** Sanitized and raw writes go together *)

Section Pairing.

Variable sanitize : string -> string -> string.
Variable get_human_eval_plus get_mbpp_plus : string -> list (string * task).
Variable target_path raw_target_path : string.
Variable model : DecoderBase.
Variable greedy : bool.
Variable n_samples : Z.
Variable resume : bool.

Local Abbreviation paired' := (paired sanitize target_path raw_target_path model).
Local Abbreviation pairs := (@pairs_up _ sanitize target_path raw_target_path model).

Lemma paired_app (a b : list fs_event) : paired' a -> paired' b -> paired' (a ++ b).
Proof.
  intros Ha Hb. induction Ha as [|q evs _ IH|task_id t sidx impl evs _ IH];
    [exact Hb|apply paired_mkdir, IH|apply paired_sample, IH].
Qed.

Lemma mkdirs_paired (evs : list fs_event) : Forall is_mkdir evs -> paired' evs.
Proof.
  induction 1 as [|ev evs Hev _ IH]; [constructor|].
  destruct ev; try destruct Hev. apply paired_mkdir, IH.
Qed.

Lemma outputs_events_paired (task_id : string) (t : task) (outputs : list string)
    (sidx : Z) :
  paired' (outputs_events sanitize target_path raw_target_path model task_id t
             outputs sidx).
Proof.
  revert sidx. induction outputs as [|impl outputs IH]; intros sidx; [constructor|].
  cbn [outputs_events sample_events app]. apply paired_sample, IH.
Qed.

(** A run of writes cut short lacks at most the raw half of a pair. *)
Lemma outputs_events_prefix (task_id : string) (t : task) (outputs : list string)
    (sidx : Z) (evs : list fs_event) :
  evs `prefix_of` outputs_events sanitize target_path raw_target_path model task_id t
                    outputs sidx ->
  paired' evs
  \/ exists sidx' impl,
       paired' (evs ++ [raw_event target_path raw_target_path model task_id t
                          sidx' impl]).
Proof.
  revert sidx evs. induction outputs as [|impl outputs IH]; intros sidx evs [k Hk].
  - cbn in Hk. symmetry in Hk. apply app_eq_nil in Hk as [-> _]. left. constructor.
  - cbn [outputs_events sample_events app] in Hk.
    destruct evs as [|e1 [|e2 evs]].
    + left. constructor.
    + right. exists sidx, impl. cbn in Hk. injection Hk as <- _.
      cbn [app]. apply paired_sample. constructor.
    + cbn [app] in Hk. injection Hk as <- <- Hk.
      destruct (IH (sidx + 1) evs (ex_intro _ k Hk)) as [H|(sidx' & impl' & H)].
      * left. apply paired_sample, H.
      * right. exists sidx', impl'. cbn [app]. apply paired_sample, H.
Qed.

Lemma pairs_quiet {A} (w : world) (res : result A * world) :
  trace (snd res) = trace w -> pairs w res.
Proof. intros E. exists []. rewrite app_nil_r. split; [exact E|left; constructor]. Qed.

Lemma pairs_mkdirs {A} (w : world) (res : result A * world) :
  only_mkdirs w (snd res) -> pairs w res.
Proof.
  intros (_ & _ & _ & evs & E & Hall). exists evs. split; [exact E|].
  left. apply mkdirs_paired, Hall.
Qed.

Lemma pairs_bind {A B} (m : M A) (k : A -> M B) (w : world) :
  pairs w (m w) ->
  (forall a w1, pairs w1 (k a w1)) ->
  pairs w (bind m k w).
Proof.
  intros (evs1 & E1 & H1) Hk. unfold bind.
  destruct (m w) as [[a|e] w1]; cbn [fst snd] in *.
  - destruct H1 as [H1|[[e [=]] _]].
    destruct (Hk a w1) as (evs2 & E2 & H2). exists (evs1 ++ evs2).
    split; [rewrite E2, E1, app_assoc; reflexivity|].
    destruct H2 as [H2|(He & task_id & t & sidx & impl & H2)].
    + left. apply paired_app; assumption.
    + right. split; [exact He|]. exists task_id, t, sidx, impl.
      rewrite <- app_assoc. apply paired_app; assumption.
  - exists evs1. split; [exact E1|].
    destruct H1 as [H1|[_ H1]]; [left; exact H1|right; split; [eauto|exact H1]].
Qed.

Lemma generate_loop_pairs (task_id : string) (t : task) (fuel : nat) (sidx : Z)
    (w : world) :
  n_samples - sidx <= Z.of_nat fuel ->
  pairs w (generate_loop sanitize target_path raw_target_path model greedy n_samples
             task_id t fuel sidx w).
Proof.
  intros Hfuel.
  pose proof (generate_loop_rounds sanitize target_path raw_target_path model greedy
                n_samples task_id t fuel sidx w Hfuel) as H.
  destruct (generate_loop _ _ _ _ _ _ _ _ fuel sidx w) as [r w'].
  destruct H as (_ & rounds & _ & _ & evs & Et & Hpre & Hok & _).
  exists evs. split; [exact Et|]. destruct r as [[]|e].
  - left. destruct (Hok eq_refl) as [-> _]. apply outputs_events_paired.
  - destruct (outputs_events_prefix _ _ _ _ _ Hpre) as [H|(sidx' & impl & H)];
      [left; exact H|right].
    split; [eauto|]. exists task_id, t, sidx', impl. exact H.
Qed.

Lemma process_task_pairs (task_id : string) (t : task) (m : gmap string Z) (w : world) :
  pairs w (process_task sanitize target_path raw_target_path model greedy n_samples
             resume task_id t m w).
Proof.
  unfold process_task.
  apply pairs_bind; [apply pairs_mkdirs, count_existing_only_mkdirs|].
  intros m1 w1. cbv zeta.
  apply pairs_bind; [apply pairs_quiet; reflexivity|intros _ w2].
  apply pairs_bind; [apply generate_loop_pairs; lia|intros _ w3].
  apply pairs_quiet. reflexivity.
Qed.

Lemma skip_task_trace (id_range : option (Z * Z)) (task_id : string) (w : world) :
  trace (snd (skip_task id_range task_id w)) = trace w.
Proof.
  unfold skip_task. destruct id_range as [[low high]|]; [|reflexivity].
  destruct (PyStr.split task_id "/" !! 1%nat) as [piece|]; [|reflexivity].
  destruct (PyStr.int piece) as [n|]; [|reflexivity].
  destruct ((n <? low) || (n >=? high)); reflexivity.
Qed.

Lemma for_tasks_pairs (id_range : option (Z * Z)) (tasks : list (string * task))
    (m : gmap string Z) (w : world) :
  pairs w (for_tasks sanitize target_path raw_target_path model greedy n_samples
             id_range resume tasks m w).
Proof.
  revert m w. induction tasks as [|[task_id t] tasks IH]; intros m w.
  - apply pairs_quiet. reflexivity.
  - cbn [for_tasks].
    apply pairs_bind; [apply pairs_quiet, skip_task_trace|intros skip w1].
    apply pairs_bind; [|intros m1 w2; apply IH].
    destruct skip; [apply pairs_quiet; reflexivity|apply process_task_pairs].
Qed.

End Pairing.

Lemma raw_path_value (target_path raw_target_path : string) (w w' : world) :
  raw_path target_path w = (Ok raw_target_path, w') ->
  raw_target_path = raw_target target_path.
Proof.
  unfold raw_path, raw_target, raw_log.
  destruct (PyStr.endswith target_path ".jsonl"); [intros [= <- _]; reflexivity|].
  intros H. apply bind_inv_ok in H as ([] & w1 & _ & H). injection H as <- _.
  reflexivity.
Qed.


(** ** The directory layout from scratch *)

Lemma listing_empty (f : filesystem) (q : path) :
  files f = ∅ ->
  (forall q', q' ∈ dirs f -> (length q' <= length q)%nat) ->
  Os.children f q = ∅.
Proof.
  intros Hf Hshort. apply set_eq. intros name. rewrite children_spec, Hf, lookup_empty.
  split; [|intros H; apply elem_of_empty in H; destruct H].
  intros [[x [=]]|H]. apply Hshort in H. rewrite length_app in H. cbn in H. lia.
Qed.

Lemma tick_free (w : world) : budget w = None -> tick w = (Ok tt, w).
Proof. intros H. unfold tick. rewrite H. reflexivity. Qed.

(** Lines 119-134 where the raw directory of the task is missing: the
    sanitized file is written, the raw one is not. *)
Lemma write_sample_raw_fails (sanitize : string -> string -> string)
    (target_path raw_target_path : string) (model : DecoderBase) (task_id : string)
    (t : task) (sidx : Z) (impl : string) (w : world) :
  PyStr.endswith target_path ".jsonl" = false ->
  budget w = None ->
  writable (fs w) (sample_file task_id target_path sidx) ->
  sample_file task_id raw_target_path sidx <> "" ->
  Os.isdir (fs w) (Os.resolve (sample_file task_id raw_target_path sidx)) = false ->
  Os.isfile (fs w) (removelast (Os.resolve (sample_file task_id raw_target_path sidx)))
  = false ->
  Os.isdir (fs w) (removelast (Os.resolve (sample_file task_id raw_target_path sidx)))
  = false ->
  Os.resolve (sample_file task_id target_path sidx)
  <> removelast (Os.resolve (sample_file task_id raw_target_path sidx)) ->
  exists w',
    write_sample sanitize target_path raw_target_path model task_id t sidx impl w
    = (Raise (FileNotFoundError (sample_file task_id raw_target_path sidx)), w')
    /\ dirs (fs w') = dirs (fs w)
    /\ files (fs w')
       = <[Os.resolve (sample_file task_id target_path sidx)
           := sanitize (solution_of model t impl) (entry_point t)]> (files (fs w)).
Proof.
  intros Hdir Hb Hw Hne Hd Hf Hpd Hdiff. unfold write_sample. rewrite Hdir.
  destruct (write_file_spec (sample_file task_id target_path sidx)
              (sanitize (solution_of model t impl) (entry_point t)) w Hw)
    as [[Hb0 _]|(w1 & E1 & Hd1 & Hf1 & Hb1)]; [congruence|].
  rewrite (bind_ok _ _ _ _ _ E1). exists w1.
  split; [|split; assumption].
  unfold Os.write_file. rewrite (bind_ok _ _ _ _ _ (tick_free w1 (Hb1 Hb))).
  apply bind_fail. unfold Os.check_writable, bind, get_fs.
  rewrite decide_False by exact Hne.
  rewrite (isdir_dirs _ _ _ Hd1), Hd.
  assert (Hf' : Os.isfile (fs w1)
                  (removelast (Os.resolve (sample_file task_id raw_target_path sidx)))
                = false).
  { unfold Os.isfile in *. rewrite Hf1, lookup_insert_ne by exact Hdiff. exact Hf. }
  rewrite Hf', (isdir_dirs _ _ _ Hd1), Hpd. reflexivity.
Qed.

Lemma take_prefix_longer {A} (l k : list A) (i : nat) :
  exists i', take i l = take i' (l ++ k).
Proof.
  destruct (decide (i <= length l)%nat).
  - exists i. rewrite take_app_le by assumption. reflexivity.
  - exists (length l). rewrite take_ge by lia.
    rewrite take_app_le, firstn_all by lia. reflexivity.
Qed.

Section FirstSample.

Variable sanitize : string -> string -> string.
Variable get_human_eval_plus get_mbpp_plus : string -> list (string * task).
Variable target_path : string.
Variable model : DecoderBase.
Variable greedy : bool.
Variable n_samples : Z.
Variable resume : bool.
Variable task_id : string.
Variable t : task.

Local Abbreviation T := (Os.resolve target_path).
Local Abbreviation R := (Os.resolve (target_path +:+ ".raw")).
Local Abbreviation p := (p_name task_id).

Hypothesis is_dir : PyStr.endswith target_path ".jsonl" = false.
Hypothesis named : target_path <> "".
Hypothesis same_length : length R = length T.
Hypothesis apart : R <> T.
Hypothesis task_dir : simple_name p.
Hypothesis some_samples : 0 < n_samples.
Hypothesis productive : returns_something model.

(** The state the run is in until the first sample is written: no
    regular file, and no directory but those on the way to the task's. *)
Local Abbreviation bare := (fun w : world =>
  files (fs w) = ∅ /\ budget w = None
  /\ forall q, q ∈ dirs (fs w) -> exists i, q = take i (T ++ [p])).

Lemma bare_short (w : world) (q : path) :
  bare w -> q ∈ dirs (fs w) -> (length q <= S (length T))%nat.
Proof.
  intros (_ & _ & H) Hq. destruct (H q Hq) as (i & ->).
  rewrite length_take, length_app. cbn. lia.
Qed.

Lemma bare_raw_missing (w : world) : bare w -> Os.isdir (fs w) (R ++ [p]) = false.
Proof.
  intros Hbare. destruct (Os.isdir (fs w) (R ++ [p])) eqn:E; [|reflexivity].
  apply isdir_spec in E as [E|[E|E]].
  - destruct R; discriminate E.
  - destruct R as [|a [|b l]]; try discriminate E. injection E as E.
    destruct task_dir as (_ & _ & Hs). rewrite E in Hs. discriminate Hs.
  - destruct Hbare as (_ & _ & H). destruct (H _ E) as (i & Ei).
    assert (Hlen : length (R ++ [p]) = length (take i (T ++ [p]))) by (rewrite Ei; reflexivity).
    rewrite length_take, !length_app in Hlen. cbn [length] in Hlen.
    rewrite take_ge in Ei by (rewrite length_app; cbn [length]; lia).
    apply app_inj_tail in Ei as [Ei _]. contradiction.
Qed.

Lemma process_task_first_fails (m : gmap string Z) (w : world) :
  bare w ->
  exists w',
    process_task sanitize target_path (target_path +:+ ".raw") model greedy n_samples
      resume task_id t m w
    = (Raise (FileNotFoundError (sample_file task_id (target_path +:+ ".raw") 0)), w')
    /\ dom (files (fs w')) = {[ Os.resolve (sample_file task_id target_path 0) ]}
    /\ Os.isdir (fs w') (R ++ [p]) = false.
Proof.
  intros Hbare. pose proof Hbare as (Hf & Hb & Hdirs).
  rewrite process_task_unfold.
  (* lines 70-79 *)
  assert (Hjoin : Os.resolve (Os.join target_path p) = T ++ [p])
    by apply resolve_join, task_dir.
  destruct (makedirs_fresh (Os.join target_path p) w
              (join_nonempty _ _ (proj1 task_dir)) Hf Hb)
    as (w1 & E1 & Hf1 & Hb1 & Hnew1 & Hisdir).
  rewrite Hjoin in Hisdir, Hnew1.
  assert (Hbare1 : bare w1).
  { split; [exact Hf1|]. split; [exact Hb1|]. intros q Hq.
    destruct (Hnew1 q Hq) as [H|H]; [apply Hdirs, H|exact H]. }
  assert (Hcount : count_existing target_path task_id m w
                   = (Ok (<[task_id := 0]> m), w1)).
  { unfold count_existing. rewrite is_dir. cbn [negb].
    rewrite (bind_ok _ _ _ _ _ E1).
    unfold Os.listdir, bind, get_fs.
    rewrite decide_False by (apply join_nonempty, (proj1 task_dir)).
    rewrite Hjoin, Hisdir.
    rewrite (listing_empty (fs w1) (T ++ [p]) Hf1).
    - reflexivity.
    - intros q Hq. rewrite length_app. cbn [length].
      pose proof (bare_short w1 q Hbare1 Hq). lia. }
  rewrite Hcount. cbv zeta. rewrite lookup_insert_eq. cbn [default].
  rewrite start_index_spec, andb_false_r.
  (* lines 89-97 *)
  set (w2 := printed _ w1).
  assert (Hbare2 : bare w2) by exact Hbare1.
  destruct (Z.to_nat (n_samples - 0)) as [|fuel] eqn:Efuel; [lia|].
  rewrite generate_loop_round by exact some_samples. cbv zeta.
  set (rq := round_request greedy n_samples t 0).
  pose proof (productive (requests w2) rq ltac:(cbn; lia)) as Hout.
  destruct (model_codegen model (requests w2) rq) as [|impl outputs]; [congruence|].
  set (w3 := {| fs := fs w2; requests := requests w2 ++ [rq] |}).
  assert (Hbare3 : bare w3) by exact Hbare1.
  (* lines 98-134 *)
  destruct (sample_path task_id target_path 0 task_dir) as [Hsf Hsfne].
  destruct (sample_path task_id (target_path +:+ ".raw") 0 task_dir) as [Hrf Hrfne].
  assert (Hshort3 : forall q, q ∈ dirs (fs w3) -> (length q <= S (length T))%nat)
    by (intros q; apply (bare_short w3 q Hbare3)).
  assert (Hnodir : forall q, (S (length T) < length q)%nat ->
                             Os.isdir (fs w3) q = false).
  { intros q Hq. destruct (Os.isdir (fs w3) q) eqn:E; [|reflexivity].
    apply isdir_spec in E as [->|[->|E]]; [cbn in Hq; lia|cbn in Hq; lia|].
    apply Hshort3 in E. lia. }
  destruct (write_sample_raw_fails sanitize target_path (target_path +:+ ".raw") model
              task_id t 0 impl w3 is_dir Hb1) as (w4 & E4 & Hd4 & Hf4).
  - split; [exact Hsfne|]. rewrite Hsf.
    replace (T ++ [p; py_name 0]) with ((T ++ [p]) ++ [py_name 0])
      by (rewrite <- app_assoc; reflexivity).
    rewrite removelast_last.
    split; [apply Hnodir; rewrite !length_app; cbn; lia|].
    split; [apply isfile_none, Hf1|exact Hisdir].
  - exact Hrfne.
  - rewrite Hrf. apply Hnodir. rewrite length_app, same_length. cbn. lia.
  - apply isfile_none, Hf1.
  - rewrite Hrf.
    replace (R ++ [p; py_name 0]) with ((R ++ [p]) ++ [py_name 0])
      by (rewrite <- app_assoc; reflexivity).
    rewrite removelast_last. apply (bare_raw_missing w3 Hbare3).
  - rewrite Hsf, Hrf.
    replace (R ++ [p; py_name 0]) with ((R ++ [p]) ++ [py_name 0])
      by (rewrite <- app_assoc; reflexivity).
    rewrite removelast_last. intros E.
    assert (Hlen : length (T ++ [p; py_name 0]) = length (R ++ [p])) by (rewrite E; reflexivity).
    rewrite !length_app, same_length in Hlen. cbn in Hlen. lia.
  - exists w4. cbn [write_outputs].
    rewrite (bind_fail _ _ _ _ _ (bind_fail _ _ _ _ _ E4)).
    split; [reflexivity|]. split.
    + rewrite Hf4. change (files (fs w3)) with (files (fs w1)).
      rewrite Hf1, insert_empty, dom_singleton_L. reflexivity.
    + rewrite (isdir_dirs _ _ _ Hd4). apply (bare_raw_missing w3 Hbare3).
Qed.


Lemma in_range_number (id_range : option (Z * Z)) (id : string) :
  in_range id_range id = true -> id_range = None \/ is_Some (task_number id).
Proof.
  unfold in_range. destruct id_range as [[low high]|]; [|auto].
  destruct (task_number id); [eauto|discriminate].
Qed.

(** [codegen] in the directory layout where no regular file exists and
    no directory but those on the way to the target: the first task of
    the dataset, when in range, gets its first sanitized file and nothing
    else. *)
Lemma codegen_first_fails (dataset version : string) (id_range : option (Z * Z))
    (rest : list (string * task)) (w : world) :
  dataset_tasks get_human_eval_plus get_mbpp_plus dataset version
  = Some ((task_id, t) :: rest) ->
  in_range id_range task_id = true ->
  files (fs w) = ∅ -> budget w = None ->
  (forall q, q ∈ dirs (fs w) -> exists i, q = take i T) ->
  exists w',
    codegen sanitize get_human_eval_plus get_mbpp_plus target_path model dataset
      greedy n_samples id_range version resume w
    = (Raise (FileNotFoundError (sample_file task_id (target_path +:+ ".raw") 0)), w')
    /\ dom (files (fs w')) = {[ Os.resolve (sample_file task_id target_path 0) ]}
    /\ Os.isdir (fs w') (R ++ [p]) = false.
Proof.
  intros Htasks Hin Hf Hb Hdirs.
  unfold codegen, resume_scan. rewrite is_dir, andb_false_r, bind_ret.
  unfold raw_path. rewrite is_dir, bind_bind.
  destruct (makedirs_fresh target_path w named Hf Hb)
    as (w1 & E1 & Hf1 & Hb1 & Hnew1 & _).
  rewrite (bind_ok _ _ _ _ _ E1), bind_ret.
  unfold bind at 1, print at 1. cbv beta iota.
  unfold bind at 1, print at 1. cbv beta iota.
  unfold bind at 1. rewrite (load_dataset_tasks _ _ _ _ _ Htasks).
  cbn [for_tasks].
  match goal with
  | |- context [bind (skip_task _ _) _ ?w0] => set (w2 := w0)
  end.
  destruct (skip_task_spec id_range task_id w2 (in_range_number _ _ Hin))
    as (w3 & E3 & Hfs3 & Hb3 & _).
  rewrite (bind_ok _ _ _ _ _ E3), Hin. cbn [negb]. cbv iota.
  destruct (process_task_first_fails ∅ w3) as (w' & E & Hdom & Hraw).
  { rewrite Hfs3, Hb3. split; [exact Hf1|]. split; [exact Hb1|].
    intros q Hq. change (fs w2) with (fs w1) in Hq.
    destruct (Hnew1 q Hq) as [H|(i & ->)]; [|apply take_prefix_longer].
    destruct (Hdirs q H) as (i & ->). apply take_prefix_longer. }
  exists w'. rewrite (bind_fail _ _ _ _ _ E). auto.
Qed.

End FirstSample.

Section DirectoriesFromScratch.

Variable sanitize : string -> string -> string.
Variable get_human_eval_plus get_mbpp_plus : string -> list (string * task).
Variable make_model : make_model_args -> DecoderBase.
Variable float_repr : float -> string.

Hypothesis plain_repr : plain_float_repr float_repr.
Hypothesis productive : forall args, returns_something (make_model args).

Lemma identifier_ext_simple (model dataset backend : string) (temperature : float)
    (evalperf_type : option string) (ext : string) :
  valid_arguments dataset backend evalperf_type = true ->
  PyStr.mem_char "/" ext = false ->
  simple_name (identifier float_repr model backend temperature evalperf_type +:+ ext).
Proof.
  intros Hv Hext.
  destruct (identifier_simple float_repr plain_repr model dataset backend temperature
              evalperf_type "" Hv (or_introl eq_refl)) as (_ & _ & Hs).
  rewrite app_empty_r in Hs.
  assert (Hunder : PyStr.mem_char "_"
                     (identifier float_repr model backend temperature evalperf_type
                      +:+ ext) = true).
  { unfold identifier. rewrite !mem_char_app.
    change (PyStr.mem_char "_" "_") with true.
    rewrite orb_true_l, orb_true_r. reflexivity. }
  split; [|split]; [| |rewrite mem_char_app, Hs, Hext; reflexivity];
    intros E; rewrite E in Hunder; discriminate Hunder.
Qed.

Lemma identifier_not_log (pre model dataset backend : string) (temperature : float)
    (evalperf_type : option string) :
  valid_arguments dataset backend evalperf_type = true ->
  PyStr.endswith
    (pre +:+ identifier float_repr model backend temperature evalperf_type) ".jsonl"
  = false.
Proof.
  intros Hv.
  destruct (identifier_last float_repr plain_repr model dataset backend temperature
              evalperf_type Hv) as (init & c & -> & Hc).
  rewrite <- app_assoc_str.
  destruct (PyStr.endswith ((pre +:+ init) +:+ String c "") ".jsonl") eqn:Hend;
    [|reflexivity].
  change ".jsonl" with (".json" +:+ String "l" "") in Hend.
  apply endswith_snoc in Hend. contradiction.
Qed.

(** X21. Lines 138-232 with [jsonl_fmt] off, called in an empty working
    directory with valid arguments and a backend that returns something:
    when the first task of the dataset is in range, the call makes the
    directories down to that task's, writes the task's first sanitized
    file, and ends in [FileNotFoundError] on the raw file of the same
    sample, because no directory was made under the raw root.  The
    directory layout never gets past its first sample on its own. *)
Theorem run_codegen_directories_fail (model dataset root : string) (bs : option Z)
    (n_samples : Z) (temperature : float) (resume greedy : bool)
    (id_range : option (list Z)) (version backend : string)
    (force_base_prompt : bool) (base_url : option string) (tp : Z)
    (evalperf_type : option string) (task_id : string) (t : task)
    (rest : list (string * task)) (w : world) :
  valid_arguments dataset backend evalperf_type = true ->
  valid_id_range id_range = true ->
  0 < run_samples greedy n_samples ->
  root <> "" ->
  dataset_tasks get_human_eval_plus get_mbpp_plus dataset version
  = Some ((task_id, t) :: rest) ->
  in_range (range_pair id_range) task_id = true ->
  simple_name (p_name task_id) ->
  fs w = empty_fs ->
  budget w = None ->
  exists target_path w',
    run_codegen sanitize get_human_eval_plus get_mbpp_plus make_model float_repr
      model dataset root bs n_samples temperature resume greedy id_range
      version backend force_base_prompt base_url tp evalperf_type false w
    = (Raise (FileNotFoundError (sample_file task_id (target_path +:+ ".raw") 0)), w')
    /\ dom (files (fs w')) = {[ Os.resolve (sample_file task_id target_path 0) ]}
    /\ Os.isdir (fs w')
         (Os.resolve (Os.join (target_path +:+ ".raw") (p_name task_id))) = false.
Proof.
  intros Hv Hr Hn Hroot Htasks Hin Hp Hfs Hb.
  pose proof Hv as Hv'. unfold valid_arguments, valid_evalperf_type in Hv'.
  apply andb_true_iff in Hv' as [Hv' He]. apply andb_true_iff in Hv' as [Hd Hbk].
  unfold run_codegen. rewrite Hd, Hbk, He. unfold assert_. rewrite !bind_ret.
  (* lines 164-168 *)
  assert (Hgo : exists temperature' bs' w1,
            greedy_override greedy temperature bs n_samples w
            = (Ok (temperature', bs', run_samples greedy n_samples), w1)
            /\ fs w1 = fs w /\ budget w1 = budget w).
  { destruct greedy; cbn [run_samples].
    - rewrite greedy_override_spec.
      destruct (differs_from_greedy temperature bs n_samples) eqn:Hdiff.
      + do 3 eexists. split; [reflexivity|]. split; reflexivity.
      + destruct (differs_from_greedy_false _ _ _ Hdiff) as (_ & _ & ->).
        do 3 eexists. split; [reflexivity|]. split; reflexivity.
    - do 3 eexists. split; [reflexivity|]. split; reflexivity. }
  destruct Hgo as (temperature' & bs' & w1 & Ego & Hf1 & Hb1).
  rewrite (bind_ok _ _ _ _ _ Ego). cbv beta iota.
  set (n := run_samples greedy n_samples) in *.
  (* lines 170-177 *)
  rewrite (bind_ok _ _ _ _ _ (check_id_range_valid id_range w1 Hr)).
  fold (range_pair id_range).
  assert (Hbs : exists b w2, default_bs bs' n w1 = (Ok b, w2)
                             /\ fs w2 = fs w1 /\ budget w2 = budget w1).
  { unfold default_bs. destruct bs'; do 2 eexists; (split; [reflexivity|]);
      split; reflexivity. }
  destruct Hbs as (b & w2 & Ebs & Hf2 & Hb2). rewrite (bind_ok _ _ _ _ _ Ebs).
  (* lines 179-182 *)
  pose proof (dataset_simple _ _ _ Hv) as Hds.
  destruct (makedirs_fresh root w2 Hroot) as (w3 & E3 & Hf3 & Hb3 & Hnew3 & _);
    [rewrite Hf2, Hf1, Hfs; reflexivity|congruence|].
  rewrite (bind_ok _ _ _ _ _ E3).
  destruct (makedirs_fresh (Os.join root dataset) w3 (join_nonempty _ _ (proj1 Hds))
              Hf3 Hb3) as (w4 & E4 & Hf4 & Hb4 & Hnew4 & _).
  rewrite (bind_ok _ _ _ _ _ E4).
  (* lines 184-195 *)
  assert (Hpre : exists both, prefixes evalperf_type w4 = (Ok both, w4)).
  { destruct (valid_arguments_inv _ _ _ Hv) as (_ & _ & [-> |[-> |[-> | ->]]]);
      eexists; reflexivity. }
  destruct Hpre as ([instruction_prefix response_prefix] & Epre).
  rewrite (bind_ok _ _ _ _ _ Epre). cbv beta iota.
  (* lines 212-220 *)
  set (ident := identifier float_repr model backend temperature' evalperf_type).
  set (target_path := Os.join (Os.join root dataset) ident).
  pose proof (identifier_ext_simple model dataset backend temperature' evalperf_type
                "" Hv eq_refl) as Hid.
  rewrite app_empty_r in Hid. fold ident in Hid.
  pose proof (identifier_ext_simple model dataset backend temperature' evalperf_type
                ".raw" Hv eq_refl) as Hidraw.
  fold ident in Hidraw.
  assert (Hnamed : target_path <> "") by apply join_nonempty, (proj1 Hid).
  assert (HT : Os.resolve target_path = Os.resolve (Os.join root dataset) ++ [ident])
    by apply resolve_join, Hid.
  assert (HR : Os.resolve (target_path +:+ ".raw")
               = Os.resolve (Os.join root dataset) ++ [ident +:+ ".raw"]).
  { unfold target_path. rewrite (join_app_r _ ident ".raw" (proj1 Hid)).
    apply resolve_join, Hidraw. }
  destruct (makedirs_fresh target_path w4 Hnamed Hf4 Hb4)
    as (w5 & E5 & Hf5 & Hb5 & Hnew5 & _).
  rewrite bind_bind, (bind_ok _ _ _ _ _ E5), bind_ret.
  (* lines 221-230 *)
  match goal with
  | |- context [codegen _ _ _ _ (make_model ?a)] => set (args := a)
  end.
  destruct (codegen_first_fails sanitize get_human_eval_plus get_mbpp_plus target_path
              (make_model args) greedy n resume task_id t) with
    (dataset := dataset) (version := version) (id_range := range_pair id_range)
    (rest := rest) (w := w5) as (w' & E & Hdom & Hraw).
  - unfold target_path.
    destruct (join_suffix (Os.join root dataset) ident) as (pre & ->).
    apply (identifier_not_log pre model dataset backend temperature' evalperf_type Hv).
  - exact Hnamed.
  - rewrite HT, HR, !length_app. reflexivity.
  - rewrite HT, HR. intros E. apply app_inj_tail in E as [_ E].
    assert (Hlen : String.length (ident +:+ ".raw") = String.length ident)
      by (rewrite E; reflexivity).
    rewrite length_app_str in Hlen. cbn in Hlen. lia.
  - exact Hp.
  - exact Hn.
  - apply productive.
  - exact Htasks.
  - exact Hin.
  - exact Hf5.
  - exact Hb5.
  - intros q Hq. destruct (Hnew5 q Hq) as [H|H]; [|exact H].
    rewrite HT. destruct (Hnew4 q H) as [H4|(i & ->)]; [|apply take_prefix_longer].
    destruct (Hnew3 q H4) as [H3|(i & ->)].
    + rewrite Hf2, Hf1, Hfs in H3. apply elem_of_empty in H3. destruct H3.
    + rewrite (resolve_join root dataset Hds), <- app_assoc. apply take_prefix_longer.
  - exists target_path, w'. rewrite (bind_fail _ _ _ _ _ E).
    split; [reflexivity|]. split; [exact Hdom|].
    rewrite (resolve_join _ _ Hp). exact Hraw.
Qed.

End DirectoriesFromScratch.

Lemma run_codegen_directories_fail_witness :
  simple_name (p_name "suite/0")
  /\ exists target_path w',
       example_run_codegen "org/m" "humaneval" "evalplus_results" None 2 float_zero
         true false None "default" "vllm" false None 1 None false (start empty_fs None)
       = (Raise (FileNotFoundError (sample_file "suite/0" (target_path +:+ ".raw") 0)),
          w')
       /\ dom (files (fs w')) = {[ Os.resolve (sample_file "suite/0" target_path 0) ]}
       /\ Os.isdir (fs w')
            (Os.resolve (Os.join (target_path +:+ ".raw") (p_name "suite/0"))) = false.
Proof.
  assert (H1 : valid_arguments "humaneval" "vllm" None = true) by reflexivity.
  assert (H2 : valid_id_range None = true) by reflexivity.
  assert (H3 : 0 < run_samples false 2) by (cbn; lia).
  assert (H4 : "evalplus_results" <> "") by discriminate.
  assert (H5 : dataset_tasks example_tasks example_tasks "humaneval" "default"
               = Some (("suite/0", example_task)
                       :: [("suite/1",
                            {| prompt := "  def g():" +:+ NL +:+ NL;
                               entry_point := "g" |})])) by reflexivity.
  assert (H6 : in_range (range_pair None) "suite/0" = true) by reflexivity.
  assert (H7 : simple_name (p_name "suite/0"))
    by (split; [discriminate|split; [discriminate|reflexivity]]).
  assert (H8 : fs (start empty_fs None) = empty_fs) by reflexivity.
  assert (H9 : budget (start empty_fs None) = None) by reflexivity.
  split; [exact H7|].
  exact (run_codegen_directories_fail example_sanitize example_tasks example_tasks
           example_make_model example_float_repr example_float_repr_plain
           (fun _ => example_model_something)
           "org/m" "humaneval" "evalplus_results" None 2 float_zero true false None
           "default" "vllm" false None 1 None "suite/0" example_task _
           (start empty_fs None) H1 H2 H3 H4 H5 H6 H7 H8 H9).
Defined.
